(* ===== verification/_CoqProject ===== *)
-Q . S2P
Prelude.v
Decimal.v
JsValue.v
Json.v
Types.v
Transport.v
Session.v
Metadata.v
Sdk.v
SdkInv.v
SdkProps.v
Demo.v
SessionProps.v
Streaming.v
Rewind.v
Lifecycle.v
Contract.v
Refine.v
Schema.v
Widget.v
Timeline.v
TimelineSpec.v
TimelineProps.v
Format.v
Incident.v
IncidentProps.v
Auth.v
AuthProps.v
Http.v
HttpProps.v
Queries.v
Pages.v
PagesProps.v
Replay.v
ReplayProps.v
Views.v
Html.v
Ui.v
SessionsView.v
SessionView.v
OverviewView.v
WidgetView.v
ShellView.v
Markup.v
Routes.v
Links.v
