(* ===== verification/Prelude.v ===== *)
(** * BatRewind: a verification development of the TypeScript sources

    BatRewind records what happens on a web page and replays it. Its TypeScript has two
    parts. The browser SDK (packages/browser/src) runs in the recorded page: it receives
    events from the rrweb recorder, keeps them in a rolling buffer or streams them, and
    uploads batches to the writer service under a session kept in sessionStorage. The
    dashboard (packages/dashboard/src) reads sessions and events back from the reader
    service, shows a timeline and a report of each, and manages the user's sign-in. The
    services themselves are written in Go and are not modelled.

    ** The files

    Foundations. [Prelude] (this file): JavaScript strings as lists of UTF-16 units ([js]
    makes one of a literal), results that may throw ([res]), stateful computations that
    may throw ([SM]), the tactics and the hint databases. [Decimal]: the numbers of JSON
    data, as decimals. [JsValue]: JavaScript values with the operators the sources apply
    to untyped data, exceptions included. [Json]: [JSON.stringify], a parser, and the
    interface [JsonEngine] (what is printed parses back) that the components use; the
    parser is proved to be an instance.

    The SDK. [Types]: types.ts, one record per interface. [Transport]: transport.ts, the
    request of a batch. [Session]: session.ts, over an environment made of the storage
    (which may refuse to be read or written), the identifiers of [crypto.randomUUID] (the
    interface [UuidSource]) and the clock. [Metadata]: metadata.ts. [Sdk]: index.ts. The
    module's variables are the record [Sdk]; the rest of the page (configuration objects,
    recorders, timers, listeners, widgets, requests sent) is in [St]. Each function of the
    file is a state transformer of its name; [step] runs the one an input reaches, an
    input being a call of the public interface, an event emitted by a recorder, a timer,
    a page event, a click or the passing of time. The host's configuration object is
    shared by reference ([heap]), because [identify] writes to it. [SdkInv]: the frame
    lemmas and the invariant [Inv] of the reachable states. [SdkProps]: what one input and
    a run of inputs can send. [Streaming], [Rewind] and [Lifecycle]: the properties of
    always mode, of buffered mode and of whole runs. [Contract]: what a recorder promises,
    with three phases (silent, streaming, rewinding) instead of variables, timers and
    handles; [Refine]: every run of [Sdk] is a run of it. [Schema]: the interfaces of
    types.ts as types that are checked, and that what is sent has them. [Widget]:
    widget.ts, the report button and its toasts, with the time that passes; [WidgetView]:
    its style sheet and markup. [Demo]: a concrete page for the witnesses.
    [SessionProps]: the properties of sessions and of the wire format.

    The dashboard. [Timeline] and [TimelineProps]: lib/timeline.ts, from untyped events to
    breadcrumbs; [TimelineSpec]: what a breadcrumb is, by rules that do not call those
    functions. [Format]: division in double precision, [toFixed(1)] and [toISOString].
    [Incident] and [IncidentProps]: lib/incident.ts. [Auth] and [AuthProps]: lib/auth.ts
    with [atob]. [Http] and [HttpProps]: lib/api.ts and src/http. [Queries]:
    queries/sessions.ts, the keys and the invalidations. [Pages] and [PagesProps]: the
    handlers of the pages under src/routes, lib/theme.ts and the header. [Replay] and
    [ReplayProps]: the effect by which the session page and the shared page
    (sessions_.$id.tsx, share.$token.tsx) give the events to the player, as a run of renders
    with what the queries answer in each, and the copy, share and delete buttons over the
    browser, the requests and the clipboard. [Views]: the texts and conditions of the
    pages, each as a function of the data.

    The markup. [Html]: trees of elements with their props and handlers, and how a user and
    a browser read them ([controls], [offers], [texts]), and HTML's content models
    ([conforms]). [Ui]: components/ui, over the interface [Styling] of the class-name
    libraries, with what they document as [StylingLaws]. [SessionsView], [SessionView],
    [OverviewView]: the pages, element by element, each handler an action of the page's
    machine. [ShellView]: the sidebar, the header, the banner and the frame, the login page
    with a request under way, and what main.tsx does to the document. [Markup]: all pages
    in the frame. [Routes]: routeTree.gen.ts, addresses and visits with their guards and
    redirects, over the interface [Router]. [Links]: where links and handlers lead, and the
    way from a report of the SDK to its page in the dashboard.

    ** What the theorems show

    The recorder refines its contract ([sdk_refines_contract]): whatever the page does, the
    module's variables, timers and listeners behave as a stream that sends everything once
    or as a window that is sent when asked for. In detail: always mode uploads every
    delivered event exactly once from [init] to [stop] ([stream_complete],
    [stream_conserves], [flush_points]), and the buffer stays below its limit
    ([buffers_bounded]). In buffered mode a report uploads the whole window and, right after
    a checkout, little more ([rewind_covers], [checkout_tight]); nothing is sent unasked
    ([buffered_private]). A stopped SDK is idle and silent ([stopped_silent]), one recorder
    is active at most ([single_handles]), batches name their session and the returned link
    opens it ([session_batches], [report_link]), the device metadata goes out once per
    [init] ([metadata_once]). Sessions: stable while in use, replaced when expired, total
    over every failure of the storage ([session_stable], [session_expired],
    [session_total]). The wire: a receiver reads every field of a batch and every filter of
    a query under its name ([sendBatch_body_reads], [listSessions_query]), and what is sent
    has the declared types as long as the storage holds what the SDK stored ([wire_typed]).

    The timeline is what the rules of [TimelineSpec] say ([timeline_classifies]), never
    throws on what rrweb records ([timeline_total]) and never shows what was typed
    ([typed_text_hidden]); the report is read line by line, each line as described without
    the functions that wrote it ([report_reads_back]), with durations right to the rounding
    of doubles ([duration_text]). Signing in stores exactly what the server answered
    ([login_atomic]), and the token is good until it expires ([token_expiry]); a 401 signs out, and nothing else a server says
    does ([endpoint_outcomes]); public pages are anonymous ([public_anonymous]). Paging
    shows every row once ([paging_partition]) and stays in range ([page_bounds]). A replay
    is played by one player when its page is on screen as the events come ([replay_once]);
    players never overlap if the library lets them be destroyed ([players_disciplined]); a
    session is deleted only when the user confirms and left only when the server agreed
    ([delete_outcomes]); a copied link is that of what the server answered as the token
    ([share_copies_link]).

    What can be done on a page is what its machine lets through ([sessions_page_refines],
    [session_page_controls], [frame_controls], [login_one_call]), and the pages keep to
    HTML's content models exactly as long as they show no row ([pages_conform]). Every visit ends, and the pages under /app
    are for signed-in users only ([visits_end]); nothing leads nowhere ([targets_exist]);
    and the link of a report is its replay ([link_opens_replay]).

    Some theorems state what the code does where it is not what one would want:
    [init_stuck], [session_unwritable], [report_repeats], [error_upload],
    [identify_sticks], [urlsafe_token_rejected], [malformed_add_throws], [replay_blank],
    [theme_reload], [toast_markup], [share_copies_link], [pages_conform], and the examples
    [negative_page], [toast_cut_short], [foreign_storage], [first_offset],
    [login_without_token] and [page_left_alive].

    ** Bounds and simplifications

    The recursions are structural but for the decimal digits and the JSON parser, whose
    fuel is the size of the number and the length of the text; both are proved to be
    enough (the value of the digits, the round trip of the parser); a visit's fuel bounds
    its redirects, and three steps are enough for every address. Numbers of JSON data
    are decimals that a double prints back (15 significant digits); timestamps, durations
    and counts are integers, below 2^53 where a division is involved. [toLowerCase] is
    that of ASCII, which tag names are. The page number in the address of the sessions list
    is an integer, as in every address the page makes, where the schema lets fractions through.
    Whether a click reaches an element is read from its tag, [disabled] and the
    [pointer-events] of its own class, not from a style sheet.

    ** What is not modelled

    rrweb itself: the events it emits and when are inputs, and any are allowed. The
    network's answer to a batch, which the SDK ignores; the dashboard's server is a
    parameter ([Network]). How a date string is read is left to the implementation by
    ECMAScript, and a parameter ([DateParse]). The player itself: the calls made to it are
    recorded, and whether it has the methods the pages call with [?.] is a parameter
    ([PlayerLibrary]). React: a render, then the effect if its dependencies changed, as documented
    and as in a production build; keys, refs and the [asChild] no page uses are left out of
    the markup. What a query gives in a render is an input, so TanStack Query is used for
    the matching of keys only. Of TanStack Router, the matching of addresses and the order
    of guards are those it documents; how segments are compared and parameters written is a
    parameter. So are the libraries that make class names ([Styling]) and what
    [toLocaleString] makes of a date ([Locale]). What a browser reads in the widget's
    templates is stated through the standard's serialisation, not a parser. Tests, the
    documentation site and configuration files are not modelled. The dashboard's
    localStorage is assumed to be available; the SDK's sessionStorage is not. The cache
    between hooks and pages, the session page under a change of its parameter and React's
    development double mount are left out. *)

From Stdlib Require Import Ascii.
From stdpp Require Export base strings numbers gmap sets list.

#[global] Set Default Proof Using "Type".

(** ** Hint databases of the development *)

(** [jsdb] holds the rewriting equations of the JavaScript primitives,
    [batdb] the resolution hints the components share. *)
Create Rewrite HintDb jsdb.
Create HintDb batdb.

Declare Scope js_scope.
Delimit Scope js_scope with js.

(** ** JavaScript strings

    A JavaScript string is a sequence of 16-bit code units; [length], [slice]
    and indexing all count code units, never characters or bytes. *)

Notation jsstr := (list N).

(** [utf16_of_utf8 bs] decodes the UTF-8 bytes of a literal of these files into
    the code units the same literal has in the TypeScript source, so that
    [js "…"] is one unit long as it is there. *)
Fixpoint utf16_of_utf8 (bs : list N) : jsstr :=
  match bs with
  | [] => []
  | b :: r =>
    if (b <? 128)%N then b :: utf16_of_utf8 r
    else if (b <? 224)%N then
      match r with
      | c :: r1 => (N.land b 31 * 64 + N.land c 63)%N :: utf16_of_utf8 r1
      | [] => []
      end
    else if (b <? 240)%N then
      match r with
      | c :: d :: r2 =>
        (N.land b 15 * 4096 + N.land c 63 * 64 + N.land d 63)%N :: utf16_of_utf8 r2
      | _ => []
      end
    else
      match r with
      | c :: d :: e :: r3 =>
        let cp := (N.land b 7 * 262144 + N.land c 63 * 4096
                   + N.land d 63 * 64 + N.land e 63 - 65536)%N in
        (55296 + cp / 1024)%N :: (56320 + cp mod 1024)%N :: utf16_of_utf8 r3
      | _ => []
      end
  end.

Fixpoint bytes_of_string (s : string) : list N :=
  match s with
  | EmptyString => []
  | String a r => N_of_ascii a :: bytes_of_string r
  end.

(** A string literal of the source. *)
Definition js (s : string) : jsstr := utf16_of_utf8 (bytes_of_string s).
Arguments js : simpl never.

(** [s.slice(i, j)] for [0 <= i <= j]. *)
Definition slice (i j : nat) (s : jsstr) : jsstr := take (j - i) (drop i s).

(** [s.includes(p)], [s.startsWith(p)]. *)
Fixpoint starts_with (p s : jsstr) : bool :=
  match p, s with
  | [], _ => true
  | a :: p', b :: s' => (a =? b)%N && starts_with p' s'
  | _ :: _, [] => false
  end.

Fixpoint includes (p s : jsstr) : bool :=
  starts_with p s || match s with [] => false | _ :: s' => includes p s' end.

(** [l.join(sep)]. *)
Fixpoint join (sep : jsstr) (l : list jsstr) : jsstr :=
  match l with
  | [] => []
  | [x] => x
  | x :: r => x ++ sep ++ join sep r
  end.

(** [s.split(c)[0]] for a one-unit separator. *)
Fixpoint split_head (c : N) (s : jsstr) : jsstr :=
  match s with
  | [] => []
  | d :: r => if (d =? c)%N then [] else d :: split_head c r
  end.

(** A string is falsy exactly when it is empty. *)
Definition str_truthy (s : jsstr) : bool := match s with [] => false | _ => true end.

(** [s || d] on strings, [o ?? d] on optional values. *)
Definition str_or (s d : jsstr) : jsstr := if str_truthy s then s else d.
Notation "o '??' d" := (default d o) (at level 60, right associativity) : js_scope.
#[global] Open Scope js_scope.

(** ** White space

    [\s] of a regular expression and [String.prototype.trim] agree on the same
    set: WhiteSpace and LineTerminator of the ECMAScript grammar. *)
Definition is_ws (c : N) : bool :=
  ((9 <=? c) && (c <=? 13) || (c =? 32) || (c =? 160) || (c =? 5760)
   || (8192 <=? c) && (c <=? 8202) || (c =? 8232) || (c =? 8233) || (c =? 8239)
   || (c =? 8287) || (c =? 12288) || (c =? 65279))%N.

(** [s.replace(/\s+/g, ' ')]: [in_run] says whether the previous unit already
    belongs to a run of white space. *)
Fixpoint collapse_ws_from (in_run : bool) (s : jsstr) : jsstr :=
  match s with
  | [] => []
  | c :: r =>
    if is_ws c then
      if in_run then collapse_ws_from true r else 32%N :: collapse_ws_from true r
    else c :: collapse_ws_from false r
  end.
Definition collapse_ws (s : jsstr) : jsstr := collapse_ws_from false s.

Fixpoint trim_start (s : jsstr) : jsstr :=
  match s with
  | [] => []
  | c :: r => if is_ws c then trim_start r else s
  end.
Definition trim_end (s : jsstr) : jsstr := reverse (trim_start (reverse s)).
Definition trim (s : jsstr) : jsstr := trim_end (trim_start s).
Arguments trim_end : simpl never.
Arguments trim : simpl never.

(** [s.toLowerCase()] on the ASCII letters; tag names are ASCII. *)
Definition lower_unit (c : N) : N := if ((65 <=? c) && (c <=? 90))%N then (c + 32)%N else c.
Definition to_lower (s : jsstr) : jsstr := map lower_unit s.

(** ** Decimal digits: [String(n)] for an integer [n] *)

Fixpoint digits_fuel (fuel : nat) (n : N) (acc : jsstr) : jsstr :=
  match fuel with
  | O => acc
  | S f =>
    let acc' := (48 + n mod 10)%N :: acc in
    if (n <? 10)%N then acc' else digits_fuel f (n / 10)%N acc'
  end.

(** A number has at most as many decimal digits as binary ones. *)
Definition digits_of_N (n : N) : jsstr := digits_fuel (S (N.size_nat n)) n [].

Definition num_to_string (z : Z) : jsstr :=
  match z with
  | Zneg p => 45%N :: digits_of_N (Npos p)
  | _ => digits_of_N (Z.to_N z)
  end.

(** The number a list of digits denotes. *)
Definition digits_value (s : jsstr) : N :=
  fold_left (fun a d => 10 * a + (d - 48))%N s 0%N.

Definition is_digit (c : N) : bool := ((48 <=? c) && (c <=? 57))%N.

(** ** Results: a value or a thrown exception *)

Inductive jserror :=
  | TypeError
  | RangeError
  | SyntaxError
  | DOMException
  | Error (message : jsstr).

Inductive res (A : Type) :=
  | Ok (a : A)
  | Throw (e : jserror).
Arguments Ok {A} a.
Arguments Throw {A} e.

#[global] Instance res_ret : MRet res := fun A a => Ok a.
#[global] Instance res_bind : MBind res := fun A B k m =>
  match m with Ok a => k a | Throw e => Throw e end.
#[global] Instance res_fmap : FMap res := fun A B f m =>
  match m with Ok a => Ok (f a) | Throw e => Throw e end.

(** [try { m } catch { h }]. *)
Definition catch {A} (m : res A) (h : A) : A := match m with Ok a => a | Throw _ => h end.

Definition is_ok {A} (m : res A) : Prop := exists a, m = Ok a.

(** ** Stateful computations that may throw

    A throw keeps the state changes made before it, as in JavaScript. *)

Definition SM (S A : Type) : Type := S -> S * res A.

Section sm.
Context {S : Type}.
Definition sm_ret {A} (a : A) : SM S A := fun s => (s, Ok a).
Definition sm_throw {A} (e : jserror) : SM S A := fun s => (s, Throw e).
Definition sm_lift {A} (r : res A) : SM S A := fun s => (s, r).
Definition sm_bind {A B} (m : SM S A) (k : A -> SM S B) : SM S B := fun s =>
  match m s with
  | (s', Ok a) => k a s'
  | (s', Throw e) => (s', Throw e)
  end.
(** [try { m } catch { h }]. *)
Definition sm_try {A} (m h : SM S A) : SM S A := fun s =>
  match m s with
  | (s', Throw _) => h s'
  | r => r
  end.
Definition sm_reads {A} (f : S -> A) : SM S A := fun s => (s, Ok (f s)).
End sm.

Notation "'let!' x ':=' m 'in' k" := (sm_bind m (fun x => k))
  (at level 10, x name, m at level 100, k at level 200) : js_scope.

Lemma sm_bind_ok {S A B} (m : SM S A) (k : A -> SM S B) s s' b :
  sm_bind m k s = (s', Ok b) -> exists s1 a, m s = (s1, Ok a) /\ k a s1 = (s', Ok b).
Proof. unfold sm_bind. destruct (m s) as [s1 [a|e]]; [eauto|done]. Qed.

(** Step through the binds of a hypothesis that says a computation returned. *)
Ltac sm_inv H :=
  repeat (let s := fresh "s" in let a := fresh "a" in let E := fresh "E" in
          apply sm_bind_ok in H as (s & a & E & H)).

(** ** UTF-8 length: [new TextEncoder().encode(s).length]

    A surrogate pair takes four bytes; a lone surrogate is encoded as U+FFFD,
    three bytes. *)
Definition is_high (c : N) : bool := ((55296 <=? c) && (c <=? 56319))%N.
Definition is_low (c : N) : bool := ((56320 <=? c) && (c <=? 57343))%N.

Fixpoint utf8_length (s : jsstr) : Z :=
  match s with
  | [] => 0
  | c :: r =>
    if (c <? 128)%N then 1 + utf8_length r
    else if (c <? 2048)%N then 2 + utf8_length r
    else if is_high c then
      match r with
      | d :: r' => if is_low d then 4 + utf8_length r' else 3 + utf8_length r
      | [] => 3
      end
    else 3 + utf8_length r
  end%Z.

(** [s.replace(/\s+/g, ' ').trim()], the idiom three functions share. *)
Definition one_line (s : jsstr) : jsstr := trim (collapse_ws s).

(** ** Automation *)

(** Checks a closed equation by evaluation. *)
Ltac by_eval := vm_compute; reflexivity.

(** Reflect the boolean comparisons of a hypothesis or of the goal. *)
Ltac reflect_bool :=
  repeat match goal with
  | H : _ && _ = true |- _ => apply andb_true_iff in H as [? ?]
  | H : _ || _ = false |- _ => apply orb_false_iff in H as [? ?]
  | H : negb _ = true |- _ => apply negb_true_iff in H
  | H : negb _ = false |- _ => apply negb_false_iff in H
  | H : (_ <? _)%N = true |- _ => apply N.ltb_lt in H
  | H : (_ <? _)%N = false |- _ => apply N.ltb_ge in H
  | H : (_ <=? _)%N = true |- _ => apply N.leb_le in H
  | H : (_ <=? _)%N = false |- _ => apply N.leb_gt in H
  | H : (_ =? _)%N = true |- _ => apply N.eqb_eq in H
  | H : (_ =? _)%N = false |- _ => apply N.eqb_neq in H
  | H : (_ <? _)%Z = true |- _ => apply Z.ltb_lt in H
  | H : (_ <? _)%Z = false |- _ => apply Z.ltb_ge in H
  | H : (_ <=? _)%Z = true |- _ => apply Z.leb_le in H
  | H : (_ <=? _)%Z = false |- _ => apply Z.leb_gt in H
  | H : (_ =? _)%Z = true |- _ => apply Z.eqb_eq in H
  | H : (_ =? _)%Z = false |- _ => apply Z.eqb_neq in H
  end.

(** Arithmetic with quotients and remainders by constants. *)
Ltac div_lia := zify; Z.to_euclidean_division_equations; lia.

(** Decide by boolean case analysis, then arithmetic. *)
Ltac bool_lia := reflect_bool; lia.

(** Peel the monadic binds of a hypothesis that says a computation returned. *)
Ltac res_inv :=
  repeat match goal with
  | H : Ok _ = Ok _ |- _ => injection H as H; subst
  | H : Throw _ = Ok _ |- _ => discriminate H
  | H : Ok _ = Throw _ |- _ => discriminate H
  | H : mbind _ ?m = Ok _ |- _ =>
    let E := fresh "E" in destruct m eqn:E; cbn [mbind res_bind] in H; [|discriminate H]
  end.

(** ** Results *)

Lemma res_bind_ok {A B} (m : res A) (k : A -> res B) b :
  (m ≫= k) = Ok b <-> exists a, m = Ok a /\ k a = Ok b.
Proof. destruct m; cbn; split; [eauto|by intros (? & [= ->] & ?)|done|by intros (? & ? & ?)]. Qed.

Lemma is_ok_ret {A} (a : A) : is_ok (Ok a).
Proof. by exists a. Qed.

Lemma is_ok_bind {A B} (m : res A) (k : A -> res B) :
  is_ok m -> (forall a, m = Ok a -> is_ok (k a)) -> is_ok (m ≫= k).
Proof. intros [a ->] H. by apply H. Qed.

#[export] Hint Resolve is_ok_ret : batdb.

(** ** Lists *)

Lemma drop_length_app {A} (l k : list A) : drop (length l) (l ++ k) = k.
Proof. by rewrite drop_app_length. Qed.

Lemma concat_drop_split {A} (n : nat) (l : list (list A)) :
  concat l = concat (take n l) ++ concat (drop n l).
Proof. by rewrite <- concat_app, take_drop. Qed.

Lemma omap_cons_Some {A B} (f : A -> option B) x l y :
  f x = Some y -> omap f (x :: l) = y :: omap f l.
Proof. cbn. by intros ->. Qed.

Lemma omap_cons_None {A B} (f : A -> option B) x l :
  f x = None -> omap f (x :: l) = omap f l.
Proof. cbn. by intros ->. Qed.

(** ** Decimal digits *)

Lemma digits_fuel_value fuel n acc :
  (n < 2 ^ N.of_nat fuel)%N ->
  fold_left (fun a d => 10 * a + (d - 48))%N (digits_fuel fuel n acc) 0%N =
  fold_left (fun a d => 10 * a + (d - 48))%N acc n.
Proof.
  revert n acc. induction fuel as [|f IH]; intros n acc Hn; cbn [digits_fuel].
  - cbn in Hn. by replace n with 0%N by lia.
  - assert (n = 10 * (n / 10) + n mod 10)%N as Hdm by apply N.div_mod'.
    rewrite Nat2N.inj_succ, N.pow_succ_r' in Hn.
    destruct (n <? 10)%N eqn:E; reflect_bool.
    + cbn [fold_left]. f_equal. rewrite N.mod_small; lia.
    + rewrite IH by (apply N.Div0.div_lt_upper_bound; lia).
      cbn [fold_left]. f_equal. div_lia.
Qed.

Lemma size_nat_bound n : (n < 2 ^ N.of_nat (S (N.size_nat n)))%N.
Proof.
  rewrite Nat2N.inj_succ, N.pow_succ_r'.
  assert (N.of_nat (N.size_nat n) = N.size n) as -> by
    
    (destruct n as [|p]; [done|]; cbn [N.size_nat N.size];
     induction p as [p IH|p IH|]; cbn [Pos.size_nat Pos.size];
     [rewrite Nat2N.inj_succ, IH; lia|rewrite Nat2N.inj_succ, IH; lia|done]).
  pose proof (N.size_gt n). lia.
Qed.

Lemma digits_of_N_value n : digits_value (digits_of_N n) = n.
Proof.
  unfold digits_value, digits_of_N.
  by rewrite digits_fuel_value by apply size_nat_bound.
Qed.

Lemma digits_fuel_digits fuel n acc :
  Forall (fun d => is_digit d = true) acc ->
  Forall (fun d => is_digit d = true) (digits_fuel fuel n acc).
Proof.
  revert n acc. induction fuel as [|f IH]; intros n acc Hacc; cbn [digits_fuel]; [done|].
  assert (Forall (fun d => is_digit d = true) ((48 + n mod 10)%N :: acc)).
  { constructor; [|done]. unfold is_digit.
    apply andb_true_iff; split; apply N.leb_le; div_lia. }
  destruct (n <? 10)%N; auto.
Qed.

Lemma digits_of_N_digits n : Forall (fun d => is_digit d = true) (digits_of_N n).
Proof. by apply digits_fuel_digits. Qed.

(** The first digit is zero only for zero itself. *)
Lemma digits_fuel_head fuel n acc :
  (0 < n)%N -> (n < 2 ^ N.of_nat fuel)%N ->
  exists d r, digits_fuel fuel n acc = d :: r /\ d <> 48%N.
Proof.
  revert n acc. induction fuel as [|f IH]; intros n acc Hpos Hn; cbn [digits_fuel].
  - cbn in Hn. lia.
  - rewrite Nat2N.inj_succ, N.pow_succ_r' in Hn.
    destruct (n <? 10)%N eqn:E; reflect_bool.
    + eexists _, _. split; [done|]. rewrite N.mod_small; lia.
    + apply IH; [div_lia|apply N.Div0.div_lt_upper_bound; lia].
Qed.

Lemma digits_of_N_head n :
  n = 0%N /\ digits_of_N n = [48%N] \/
  exists d r, digits_of_N n = d :: r /\ d <> 48%N.
Proof.
  destruct (decide (n = 0%N)) as [->|]; [by left|right].
  apply digits_fuel_head; [lia|apply size_nat_bound].
Qed.

Lemma digits_of_N_first n : exists c r, digits_of_N n = c :: r /\ is_digit c = true.
Proof.
  pose proof (digits_of_N_digits n) as HF.
  destruct (digits_of_N_head n) as [[-> ->]|(d & r & E & _)]; [by eexists _, _|].
  rewrite E in *. inversion HF; subst. eauto.
Qed.

Lemma digits_of_N_inj n m : digits_of_N n = digits_of_N m -> n = m.
Proof. intros H. by rewrite <- (digits_of_N_value n), H, digits_of_N_value. Qed.

Lemma num_to_string_inj a b : num_to_string a = num_to_string b -> a = b.
Proof.
  assert (forall n r, digits_of_N n <> 45%N :: r) as Hm.
  { intros n r H. pose proof (digits_of_N_digits n) as HF. rewrite H in HF.
    by inversion HF. }
  destruct a, b; cbn [num_to_string]; intros H;
    try (apply digits_of_N_inj in H; lia);
    try (by apply Hm in H); try (symmetry in H; by apply Hm in H).
  injection H as H. apply digits_of_N_inj in H. lia.
Qed.

(** ** White-space normalisation

    [words s] is the reference reading of a string as a sequence of words;
    [one_line] is proved to join them with single spaces. *)

Fixpoint words_split (s : jsstr) : jsstr * list jsstr :=
  match s with
  | [] => ([], [])
  | c :: r =>
    let (h, t) := words_split r in
    if is_ws c then ([], if str_truthy h then h :: t else t) else (c :: h, t)
  end.

Definition words (s : jsstr) : list jsstr :=
  let (h, t) := words_split s in if str_truthy h then h :: t else t.

Lemma trim_start_snoc s c :
  trim_start (s ++ [c]) =
  if str_truthy (trim_start s) then trim_start s ++ [c] else if is_ws c then [] else [c].
Proof.
  induction s as [|d s IH]; cbn; [by destruct (is_ws c)|].
  by destruct (is_ws d).
Qed.

Lemma trim_end_cons c s :
  trim_end (c :: s) =
  if str_truthy (trim_end s) then c :: trim_end s else if is_ws c then [] else [c].
Proof.
  unfold trim_end. rewrite reverse_cons, trim_start_snoc.
  destruct (trim_start (reverse s)) as [|d r] eqn:E; cbn [str_truthy].
  - by destruct (is_ws c).
  - rewrite reverse_snoc.
    assert (reverse (d :: r) <> []) as Hne by (intros H%(f_equal length); by rewrite length_reverse in H).
    by destruct (reverse (d :: r)).
Qed.

Lemma trim_start_collapse s : trim_start (collapse_ws s) = collapse_ws_from true s.
Proof.
  assert (forall s, trim_start (collapse_ws_from true s) = collapse_ws_from true s) as Ht.
  { induction s0 as [|c s0 IH]; cbn; [done|]. destruct (is_ws c) eqn:E; [done|].
    cbn. by rewrite E. }
  destruct s as [|c s]; [done|]. unfold collapse_ws. cbn.
  destruct (is_ws c) eqn:E; cbn; [apply Ht|by rewrite E].
Qed.

Lemma join_cons_truthy sep w l :
  str_truthy w = true -> str_truthy (join sep (w :: l)) = true.
Proof. destruct w, l; done. Qed.

Lemma words_split_nonempty s : Forall (fun w => str_truthy w = true) (words_split s).2.
Proof.
  induction s as [|c s IH]; cbn; [constructor|].
  destruct (words_split s) as [h t]; cbn in *.
  destruct (is_ws c); cbn; [|done]. destruct (str_truthy h) eqn:E; auto.
Qed.

Lemma trim_end_collapse s :
  let (h, t) := words_split s in
  trim_end (collapse_ws_from true s) = join [32%N] (if str_truthy h then h :: t else t) /\
  trim_end (collapse_ws_from false s) =
    h ++ (match t with [] => [] | _ => 32%N :: join [32%N] t end).
Proof.
  induction s as [|c s IH]; cbn; [done|].
  pose proof (words_split_nonempty s) as Hne.
  destruct (words_split s) as [h t]; cbn [snd] in Hne. destruct IH as [IHt IHf].
  destruct (is_ws c) eqn:E; cbn [str_truthy].
  - split; [done|]. rewrite trim_end_cons, IHt. cbn [app].
    destruct (str_truthy h) eqn:Eh.
    + by rewrite join_cons_truthy.
    + destruct t as [|w t]; [done|]. inversion Hne; subst. by rewrite join_cons_truthy.
  - rewrite trim_end_cons, IHf, E.
    assert (forall X : jsstr, (if str_truthy X then c :: X else [c]) = c :: X) as HX
      by (by intros []).
    rewrite HX. split; [|done]. destruct t; cbn; [by rewrite app_nil_r|done].
Qed.

(** [s.replace(/\s+/g, ' ').trim()] is the words of [s] joined by one space. *)
Lemma one_line_words s : one_line s = join [32%N] (words s).
Proof.
  unfold one_line, trim, words. rewrite trim_start_collapse.
  pose proof (trim_end_collapse s) as H. destruct (words_split s). apply H.
Qed.

Definition word (w : jsstr) : Prop := w <> [] /\ Forall (fun c => is_ws c = false) w.

Lemma words_split_word s :
  Forall (fun c => is_ws c = false) (words_split s).1 /\ Forall word (words_split s).2.
Proof.
  induction s as [|c s [IH1 IH2]]; cbn; [done|].
  destruct (words_split s) as [h t]; cbn in *.
  destruct (is_ws c) eqn:E; cbn; [|auto].
  split; [done|]. destruct h; cbn; [done|]. constructor; [|done]. by split.
Qed.

Lemma words_word s : Forall word (words s).
Proof.
  unfold words. pose proof (words_split_word s) as [H1 H2].
  destruct (words_split s) as [h t]; cbn in *. destruct h; cbn; [done|].
  constructor; [by split|done].
Qed.

Lemma words_split_app w s :
  Forall (fun c => is_ws c = false) w ->
  words_split (w ++ s) = (w ++ (words_split s).1, (words_split s).2).
Proof.
  induction 1 as [|c w Hc _ IH]; cbn; [by destruct (words_split s)|].
  by rewrite IH, Hc.
Qed.

(** Words joined by spaces read back as the same words. *)
Lemma words_join l : Forall word l -> words (join [32%N] l) = l.
Proof.
  intros H. destruct H as [|w l [Hne Hw] Hl]; [done|].
  revert w Hne Hw. induction Hl as [|v l [Hv1 Hv2] _ IH]; intros w Hne Hw.
  - cbn. rewrite <- (app_nil_r w) at 1. unfold words.
    rewrite words_split_app by done. cbn. rewrite app_nil_r. by destruct w.
  - change (join [32%N] (w :: v :: l)) with (w ++ 32%N :: join [32%N] (v :: l)).
    unfold words. rewrite words_split_app by done. cbn [words_split].
    specialize (IH v Hv1 Hv2). unfold words in IH.
    destruct (words_split (join [32%N] (v :: l))) as [h t]; cbn.
    rewrite app_nil_r, IH. by destruct w.
Qed.

Lemma one_line_idemp s : one_line (one_line s) = one_line s.
Proof. rewrite !one_line_words, words_join by apply words_word. done. Qed.

(** The words of two strings with a space between them. *)
Lemma words_split_space a b :
  words_split (a ++ 32%N :: b) = ((words_split a).1, (words_split a).2 ++ words b).
Proof.
  induction a as [|c a IH].
  - cbn. unfold words. destruct (words_split b) as [h t]. done.
  - cbn [app words_split]. rewrite IH. destruct (words_split a) as [h t]. cbn.
    destruct (is_ws c); [by destruct h|done].
Qed.

Lemma words_space a b : words (a ++ 32%N :: b) = words a ++ words b.
Proof.
  unfold words at 1 2. rewrite words_split_space. destruct (words_split a) as [h t]. cbn.
  by destruct (str_truthy h).
Qed.
