(* ===== verification/Decimal.v ===== *)
(** * Decimal numbers

    The numbers of the data the sources handle: [mant / 10^scale], in lowest
    terms ([canonical]). Within 15 significant digits, and between 1e-6 and 1e21,
    a double prints as the decimal it was read from, which is what
    [dec_to_string] prints; identifiers, sizes and timestamps are the integers
    [dec_of_Z n]. *)

From S2P Require Import Prelude.

Record dec := Dec { mant : Z; scale : nat }.

#[export] Instance dec_eq_dec : EqDecision dec.
Proof. solve_decision. Defined.

#[export] Instance dec_countable : Countable dec.
Proof.
  apply (inj_countable' (fun d => (mant d, scale d)) (fun p => Dec p.1 p.2)).
  by intros [].
Defined.

Definition dec_of_Z (z : Z) : dec := Dec z 0.

Definition canonical (d : dec) : Prop := scale d = 0 \/ (mant d mod 10 <> 0)%Z.

Definition dec_ltb (a b : dec) : bool :=
  (mant a * 10 ^ Z.of_nat (scale b) <? mant b * 10 ^ Z.of_nat (scale a))%Z.

(** Multiplication by an integer; [dec_norm] brings the result to lowest terms. *)
Fixpoint dec_norm (k : nat) (m : Z) : dec :=
  match k with
  | O => Dec m 0
  | S k' => if (m mod 10 =? 0)%Z then dec_norm k' (m / 10) else Dec m k
  end.
Definition dec_mulZ (d : dec) (z : Z) : dec := dec_norm (scale d) (mant d * z).

(** The [k] last digits of [n]. *)
Fixpoint fixed_digits (k : nat) (n : N) : jsstr :=
  match k with
  | O => []
  | S k' => fixed_digits k' (n / 10) ++ [48 + n mod 10]%N
  end.

(** [String(d)]: a sign, then the integer digits and the [scale d] others. *)
Definition dec_body (d : dec) : jsstr :=
  let a := Z.abs_N (mant d) in
  match scale d with
  | O => digits_of_N a
  | k => digits_of_N (a / 10 ^ N.of_nat k) ++ 46%N :: fixed_digits k a
  end.

Definition dec_to_string (d : dec) : jsstr :=
  if (mant d <? 0)%Z then 45%N :: dec_body d else dec_body d.

Lemma dec_body_first d : exists c r, dec_body d = c :: r /\ is_digit c = true.
Proof.
  unfold dec_body. destruct (scale d); [apply digits_of_N_first|].
  destruct (digits_of_N_first (Z.abs_N (mant d) / 10 ^ N.of_nat (S n))) as (c & r & -> & ?).
  by eexists _, _.
Qed.

(** ** Number literals *)

Fixpoint span_digits (s : jsstr) : jsstr * jsstr :=
  match s with
  | c :: r => if is_digit c then let (d, t) := span_digits r in (c :: d, t) else ([], s)
  | [] => ([], [])
  end.

(** The exponent of a number literal, when there is one. *)
Definition parse_exponent (s : jsstr) : option (Z * jsstr) :=
  match s with
  | c :: r =>
    if ((c =? 101) || (c =? 69))%N then
      let (neg, r) := match r with
                      | 45%N :: r' => (true, r')
                      | 43%N :: r' => (false, r')
                      | _ => (false, r)
                      end in
      let (d, t) := span_digits r in
      match d with
      | [] => None
      | _ => let e := Z.of_N (digits_value d) in Some (if neg then - e else e, t)%Z
      end
    else Some (0%Z, s)
  | [] => Some (0%Z, s)
  end.

(** [m / 10^k * 10^e] in lowest terms. *)
Definition dec_make (m : Z) (k : nat) (e : Z) : dec :=
  let k' := (Z.of_nat k - e)%Z in
  if (0 <=? k')%Z then dec_norm (Z.to_nat k') m else Dec (m * 10 ^ (- k')) 0.

(** [Number(s)] on a string, [None] for [NaN]: surrounding white space, a sign, digits
    with an optional point and exponent. The prefixes [0x], [0o], [0b] and
    [Infinity] are not modelled. *)
Definition string_to_number (s : jsstr) : option dec :=
  let t := trim s in
  let '(neg, r) := match t with
                   | 45%N :: r => (true, r)
                   | 43%N :: r => (false, r)
                   | _ => (false, t)
                   end in
  let (i, u) := span_digits r in
  let (f, w) := match u with 46%N :: u' => span_digits u' | _ => ([], u) end in
  if str_truthy t then
    if str_truthy (i ++ f) then
      match parse_exponent w with
      | Some (e, []) =>
        let a := Z.of_N (digits_value (i ++ f)) in
        Some (dec_make (if neg then - a else a)%Z (length f) e)
      | _ => None
      end
    else None
  else Some (dec_of_Z 0).

Lemma dec_to_string_Z z : dec_to_string (dec_of_Z z) = num_to_string z.
Proof. by destruct z. Qed.

Lemma fixed_digits_digits k n : Forall (fun c => is_digit c = true) (fixed_digits k n).
Proof.
  revert n. induction k as [|k IH]; intros n; cbn; [done|].
  apply Forall_app. split; [done|]. constructor; [|done].
  unfold is_digit. rewrite andb_true_iff, !N.leb_le. div_lia.
Qed.

Lemma length_fixed_digits k n : length (fixed_digits k n) = k.
Proof. revert n. induction k as [|k IH]; intros n; cbn; [done|]. rewrite length_app, IH. cbn. lia. Qed.

Lemma digits_value_app a b :
  digits_value (a ++ b) = (digits_value a * 10 ^ N.of_nat (length b) + digits_value b)%N.
Proof.
  unfold digits_value. revert a. induction b as [|c b IH] using rev_ind; intros a.
  - rewrite app_nil_r. cbn. lia.
  - rewrite app_assoc, fold_left_app, IH, (fold_left_app _ b), length_app, Nat2N.inj_add. cbn [fold_left length].
    change (N.of_nat 1) with 1%N. rewrite N.add_1_r, N.pow_succ_r'. lia.
Qed.

Lemma digits_value_fixed k n : digits_value (fixed_digits k n) = (n mod 10 ^ N.of_nat k)%N.
Proof.
  revert n. induction k as [|k IH]; intros n.
  - cbn. by rewrite N.mod_1_r.
  - cbn [fixed_digits]. rewrite digits_value_app, IH. cbn [length].
    change (N.of_nat 1) with 1%N. rewrite N.pow_1_r.
    assert (digits_value [(48 + n mod 10)%N] = n mod 10)%N as ->
      by (unfold digits_value; cbn [fold_left]; div_lia).
    rewrite Nat2N.inj_succ, N.pow_succ_r', N.Div0.mod_mul_r. lia.
Qed.

(** The integer and fractional digits together are the digits of the mantissa. *)
Lemma digits_value_split k a :
  digits_value (digits_of_N (a / 10 ^ N.of_nat k) ++ fixed_digits k a) = a.
Proof.
  rewrite digits_value_app, digits_of_N_value, digits_value_fixed, length_fixed_digits.
  pose proof (N.div_mod' a (10 ^ N.of_nat k)). lia.
Qed.

Lemma dec_norm_canonical_id d : canonical d -> dec_norm (scale d) (mant d) = d.
Proof.
  destruct d as [m [|k]]; intros [H|H]; cbn in *; try done.
  by rewrite (proj2 (Z.eqb_neq _ _)).
Qed.

Lemma dec_norm_canonical k m : canonical (dec_norm k m).
Proof.
  revert m. induction k as [|k IH]; intros m; cbn; [by left|].
  destruct (m mod 10 =? 0)%Z eqn:E; [apply IH|]. right. by apply Z.eqb_neq in E.
Qed.

(** Lowest terms do not change the value. *)
Lemma dec_norm_value k m :
  (mant (dec_norm k m) * 10 ^ Z.of_nat k = m * 10 ^ Z.of_nat (scale (dec_norm k m)))%Z.
Proof.
  revert m. induction k as [|k IH]; intros m; cbn [dec_norm]; [done|].
  destruct (m mod 10 =? 0)%Z eqn:E; [|done]. apply Z.eqb_eq in E.
  rewrite Nat2Z.inj_succ, Z.pow_succ_r by lia.
  rewrite Z.mul_assoc, (Z.mul_comm _ 10), <- Z.mul_assoc, IH.
  rewrite Z.mul_assoc. f_equal. div_lia.
Qed.

Definition no_digit (s : jsstr) : Prop :=
  match s with c :: _ => is_digit c = false | [] => True end.

Lemma span_digits_app d rest :
  Forall (fun c => is_digit c = true) d -> no_digit rest -> span_digits (d ++ rest) = (d, rest).
Proof.
  intros Hd Hr. induction Hd as [|c d Hc _ IH]; cbn.
  - destruct rest as [|c r]; cbn in *; [done|]. by rewrite Hr.
  - by rewrite Hc, IH.
Qed.

Lemma dec_make_id d : canonical d -> dec_make (mant d) (scale d) 0 = d.
Proof.
  intros Hd. unfold dec_make. rewrite Z.sub_0_r, (proj2 (Z.leb_le _ _)), Nat2Z.id by lia.
  by apply dec_norm_canonical_id.
Qed.

Lemma dec_ltb_Z a b : dec_ltb (dec_of_Z a) (dec_of_Z b) = (a <? b)%Z.
Proof. unfold dec_ltb. cbn [mant scale dec_of_Z]. by rewrite !Z.mul_1_r. Qed.

Lemma canonical_Z z : canonical (dec_of_Z z).
Proof. by left. Qed.

#[export] Hint Resolve dec_norm_canonical canonical_Z : batdb.
