(* ===== verification/JsValue.v ===== *)
(** * JavaScript values as the sources handle them

    The dashboard reads rrweb events as [any]: the JSON the reader service
    returned. [jsval] is such a value; this file gives the operators the
    sources apply to one (truthiness, property access, [??], [String(v)],
    [forEach]) with the exceptions they throw. Numbers are the decimals of
    [Decimal]. *)

From S2P Require Import Prelude Decimal.

#[local] Unset Elimination Schemes.
Inductive jsval :=
  | JUndef
  | JNull
  | JBool (b : bool)
  | JNum (n : dec)
  | JStr (s : jsstr)
  | JArr (l : list jsval)
  | JObj (kvs : list (jsstr * jsval)).
#[local] Set Elimination Schemes.

(** Induction with the hypothesis for every element and every property. *)
Section jsval_ind.
Context (P : jsval -> Prop)
  (HUndef : P JUndef) (HNull : P JNull) (HBool : forall b, P (JBool b))
  (HNum : forall n, P (JNum n)) (HStr : forall s, P (JStr s))
  (HArr : forall l, Forall P l -> P (JArr l))
  (HObj : forall kvs, Forall (fun kv => P kv.2) kvs -> P (JObj kvs)).

Fixpoint jsval_ind (v : jsval) : P v :=
  match v with
  | JUndef => HUndef
  | JNull => HNull
  | JBool b => HBool b
  | JNum n => HNum n
  | JStr s => HStr s
  | JArr l =>
    HArr l ((fix go l : Forall P l :=
      match l with
      | [] => Forall_nil_2 _
      | x :: r => Forall_cons_2 _ _ _ (jsval_ind x) (go r)
      end) l)
  | JObj kvs =>
    HObj kvs ((fix go kvs : Forall (fun kv => P kv.2) kvs :=
      match kvs with
      | [] => Forall_nil_2 _
      | kv :: r => Forall_cons_2 (fun kv => P kv.2) _ _ (jsval_ind kv.2) (go r)
      end) kvs)
  end.
End jsval_ind.

#[export] Instance is_undef_dec v : Decision (v = JUndef).
Proof. destruct v; (by left) || (by right). Defined.

(** ** Operators *)

(** The condition of [if (v)] and of [!v]. *)
Definition truthy (v : jsval) : bool :=
  match v with
  | JUndef | JNull => false
  | JBool b => b
  | JNum n => negb (mant n =? 0)%Z
  | JStr s => str_truthy s
  | JArr _ | JObj _ => true
  end.

Definition nullish (v : jsval) : bool :=
  match v with JUndef | JNull => true | _ => false end.

(** [a ?? b]. *)
Definition coalesce (a b : jsval) : jsval := if nullish a then b else a.

(** The first entry of key [k]; a property that is absent is [undefined]. *)
Fixpoint assoc (k : jsstr) (kvs : list (jsstr * jsval)) : jsval :=
  match kvs with
  | [] => JUndef
  | (k', v) :: r => if decide (k' = k) then v else assoc k r
  end.

(** [v?.k]. No name the sources read is one that strings, numbers or arrays
    inherit, so a value that is not an object yields [undefined]. *)
Definition opt_prop (k : jsstr) (v : jsval) : jsval :=
  match v with JObj kvs => assoc k kvs | _ => JUndef end.

(** [v.k], which throws on [null] and [undefined]. *)
Definition prop (k : jsstr) (v : jsval) : res jsval :=
  if nullish v then Throw TypeError else Ok (opt_prop k v).

(** [typeof v === 'string'] and its string; likewise for numbers. *)
Definition as_string (v : jsval) : option jsstr :=
  match v with JStr s => Some s | _ => None end.
Definition as_number (v : jsval) : option dec :=
  match v with JNum n => Some n | _ => None end.

(** [v === n]. *)
Definition num_eq (v : jsval) (n : Z) : bool :=
  match v with JNum m => bool_decide (m = dec_of_Z n) | _ => false end.
Definition str_eq (v : jsval) (s : jsstr) : bool :=
  match v with JStr t => bool_decide (t = s) | _ => false end.

(** [String(v)], also what a template literal does. An array is its elements
    joined by commas, with [null] and [undefined] printed as nothing. Printing
    an object calls its [toString]; an own property of that name, which in JSON
    data is never a function, makes the conversion throw. *)
Fixpoint to_string (v : jsval) : res jsstr :=
  match v with
  | JUndef => Ok (js "undefined")
  | JNull => Ok (js "null")
  | JBool b => Ok (if b then js "true" else js "false")
  | JNum n => Ok (dec_to_string n)
  | JStr s => Ok s
  | JArr l =>
    (fix go l : res jsstr :=
       match l with
       | [] => Ok []
       | [x] => if nullish x then Ok [] else to_string x
       | x :: r =>
         match (if nullish x then Ok [] else to_string x) with
         | Throw e => Throw e
         | Ok a => match go r with Throw e => Throw e | Ok b => Ok (a ++ js "," ++ b) end
         end
       end) l
  | JObj kvs =>
    match assoc (js "toString") kvs with
    | JUndef => Ok (js "[object Object]")
    | _ => Throw TypeError
    end
  end.

(** [Number(v)] and the operand of an arithmetic comparison; [None] is [NaN]. *)
Definition to_number (v : jsval) : res (option dec) :=
  match v with
  | JUndef => Ok None
  | JNull => Ok (Some (dec_of_Z 0))
  | JBool b => Ok (Some (dec_of_Z (if b then 1 else 0)))
  | JNum n => Ok (Some n)
  | JStr s => Ok (string_to_number s)
  | JArr _ | JObj _ =>
    match to_string v with Ok s => Ok (string_to_number s) | Throw e => Throw e end
  end.

(** [a < b] on two numbers, false when either is [NaN]. *)
Definition num_lt (a b : option dec) : bool :=
  match a, b with Some x, Some y => dec_ltb x y | _, _ => false end.

(** ** Iteration *)

Section for_each.
Context {S : Type} (f : jsval -> S -> res S).

(** [l.forEach(f)] where [f] updates a captured state. *)
Definition for_each : list jsval -> S -> res S :=
  fix go l s :=
    match l with
    | [] => Ok s
    | x :: r => match f x s with Ok s' => go r s' | Throw e => Throw e end
    end.

(** [(v ?? []).forEach(f)]: anything but an array has no [forEach]. *)
Definition for_each_nullish (v : jsval) (s : S) : res S :=
  match v with
  | JArr l => for_each l s
  | JUndef | JNull => Ok s
  | _ => Throw TypeError
  end.

(** [(n?.childNodes ?? []).forEach(f)], written as a search for the property so
    that a recursive [f] is called on subterms of [n]. *)
Definition for_children (n : jsval) (s : S) : res S :=
  match n with
  | JObj kvs =>
    (fix find kvs :=
       match kvs with
       | [] => Ok s
       | (k, v) :: r => if decide (k = js "childNodes") then for_each_nullish v s else find r
       end) kvs
  | _ => Ok s
  end.

Lemma for_children_prop n s :
  for_children n s = for_each_nullish (opt_prop (js "childNodes") n) s.
Proof.
  destruct n as [| | | | | |kvs]; try done. cbn [for_children opt_prop].
  induction kvs as [|[k v] r IH]; [done|]. cbn [assoc].
  by destruct (decide (k = js "childNodes")).
Qed.

(** An invariant of the state that every call keeps, and under which every
    call returns, holds after the loop, which returns. *)
Lemma for_each_ok (Q : jsval -> Prop) (I : S -> Prop) l s :
  Forall Q l -> I s ->
  (forall x s, Q x -> I s -> exists s', f x s = Ok s' /\ I s') ->
  exists s', for_each l s = Ok s' /\ I s'.
Proof.
  intros HQ HI Hf. revert s HI. induction HQ as [|x l Hx _ IH]; intros s HI; cbn; [by eauto|].
  destruct (Hf x s Hx HI) as (s' & -> & HI'). by apply IH.
Qed.

Lemma for_each_inv (I : S -> Prop) l s s' :
  for_each l s = Ok s' -> I s ->
  Forall (fun x => forall s s', f x s = Ok s' -> I s -> I s') l -> I s'.
Proof.
  intros H HI Hf. revert s H HI. induction Hf as [|x l Hx _ IH]; intros s H HI; cbn in H.
  - by injection H as <-.
  - destruct (f x s) eqn:E; [|done]. by eapply IH; [|eapply Hx].
Qed.
End for_each.

Lemma assoc_in k kvs v : assoc k kvs = v -> v <> JUndef -> (k, v) ∈ kvs.
Proof.
  induction kvs as [|[k' w] r IH]; cbn; [by intros <-|].
  destruct (decide (k' = k)) as [->|]; intros H Hv; [subst; left|right; auto].
Qed.

(** What a property chain reads from an object. *)
Lemma Forall_assoc (P : jsval -> Prop) k kvs :
  P JUndef -> Forall (fun kv => P kv.2) kvs -> P (assoc k kvs).
Proof.
  intros Hu. induction 1 as [|[k' w] r Hw _ IH]; cbn; [done|].
  by destruct (decide (k' = k)).
Qed.

#[export] Hint Rewrite @for_children_prop : jsdb.

(** A loop one of whose calls always throws does not return. *)
Lemma for_each_throws {S} (f : jsval -> S -> res S) l s x :
  x ∈ l -> (forall s, exists e, f x s = Throw e) -> exists e, for_each f l s = Throw e.
Proof.
  intros Hx Hf. revert s. induction l as [|y l IH]; intros s; [by apply elem_of_nil in Hx|]. cbn.
  apply elem_of_cons in Hx as [<-|Hx].
  - destruct (Hf s) as [e ->]. eauto.
  - destruct (f y s); eauto.
Qed.

(** Induction over the tree the [childNodes] of a node span. *)
Lemma node_ind (P : jsval -> Prop) :
  (forall n, (forall l, opt_prop (js "childNodes") n = JArr l -> Forall P l) -> P n) ->
  forall n, P n.
Proof.
  intros HP n.
  enough (P n /\ forall l, n = JArr l -> Forall P l) as [? _] by done.
  induction n as [| | | | |l IH|kvs IH]; (split; [apply HP; intros l'|intros l']); try done.
  - intros [= <-]. by eapply Forall_impl; [exact IH|intros x [? _]].
  - cbn [opt_prop]. intros Ha.
    assert (forall l, assoc (js "childNodes") kvs = JArr l -> Forall P l) as HF; [|by apply HF].
    apply (Forall_assoc (fun v => forall l, v = JArr l -> Forall P l)); [done|].
    eapply Forall_impl; [exact IH|]. intros kv [_ Hkv]. exact Hkv.
Qed.

Lemma opt_prop_truthy k v : opt_prop k v <> JUndef -> truthy v = true.
Proof. by destruct v. Qed.

Lemma num_eq_inj v a b : num_eq v a = true -> num_eq v b = true -> a = b.
Proof.
  destruct v; try done. cbn. intros Ha Hb. apply bool_decide_eq_true in Ha, Hb. subst.
  by injection Hb.
Qed.

Lemma num_eq_prop_truthy k v a : num_eq (opt_prop k v) a = true -> truthy v = true.
Proof. intros Ha. apply (opt_prop_truthy k). by destruct (opt_prop k v). Qed.
