(* ===== verification/Json.v ===== *)
(** * JSON text: [JSON.stringify] and [JSON.parse]

    The SDK measures and sends [JSON.stringify] of its batches and keeps its
    session as JSON text; the dashboard keeps its user that way and reads the
    payload of a token. [stringify] is the printer. What the components need of
    the parser is the interface [JsonEngine]: it reads back what the printer
    wrote. [parse] is an implementation of the interface. *)

From S2P Require Import Prelude Decimal JsValue.

(** ** Printing *)

Definition hex_digit (n : N) : N := (if n <? 10 then 48 + n else 87 + n)%N.

(** [\uXXXX] *)
Definition unicode_escape (c : N) : jsstr :=
  [92; 117; hex_digit (c / 4096); hex_digit (c / 256 mod 16);
   hex_digit (c / 16 mod 16); hex_digit (c mod 16)]%N.

Definition quote_unit (c : N) : jsstr :=
  if (c =? 8)%N then [92; 98]%N
  else if (c =? 9)%N then [92; 116]%N
  else if (c =? 10)%N then [92; 110]%N
  else if (c =? 12)%N then [92; 102]%N
  else if (c =? 13)%N then [92; 114]%N
  else if (c =? 34)%N then [92; 34]%N
  else if (c =? 92)%N then [92; 92]%N
  else if (c <? 32)%N then unicode_escape c
  else [c].

(** QuoteJSONString: surrogate pairs are copied, lone surrogates escaped. *)
Fixpoint quote_body (s : jsstr) : jsstr :=
  match s with
  | [] => []
  | c :: r =>
    if is_high c then
      match r with
      | d :: r' =>
        if is_low d then c :: d :: quote_body r' else unicode_escape c ++ quote_body r
      | [] => unicode_escape c
      end
    else if is_low c then unicode_escape c ++ quote_body r
    else quote_unit c ++ quote_body r
  end.

Definition quote (s : jsstr) : jsstr := 34%N :: quote_body s ++ [34%N].

(** [JSON.stringify(v)]; [None] is the [undefined] it returns for [undefined].
    An [undefined] property is left out, an [undefined] element is [null]. *)
Fixpoint stringify (v : jsval) : option jsstr :=
  match v with
  | JUndef => None
  | JNull => Some (js "null")
  | JBool b => Some (if b then js "true" else js "false")
  | JNum n => Some (dec_to_string n)
  | JStr s => Some (quote s)
  | JArr l =>
    let fix go l :=
      match l with
      | [] => []
      | x :: r => default (js "null") (stringify x) :: go r
      end in
    Some (js "[" ++ join (js ",") (go l) ++ js "]")
  | JObj kvs =>
    let fix go kvs :=
      match kvs with
      | [] => []
      | (k, x) :: r =>
        match stringify x with
        | Some t => (quote k ++ js ":" ++ t) :: go r
        | None => go r
        end
      end in
    Some (js "{" ++ join (js ",") (go kvs) ++ js "}")
  end.

(** The text of a value that is not [undefined]. *)
Definition json_text (v : jsval) : jsstr := default [] (stringify v).

(** ** The interface the components use *)

Definition unit16 (c : N) : Prop := (c < 65536)%N.
#[export] Instance unit16_dec c : Decision (unit16 c).
Proof. unfold unit16. apply _. Defined.

(** A value JSON text can represent: no [undefined], numbers in lowest terms,
    distinct keys, and strings of 16-bit units. *)
Inductive json_value : jsval -> Prop :=
  | json_null : json_value JNull
  | json_bool b : json_value (JBool b)
  | json_num n : canonical n -> json_value (JNum n)
  | json_str s : Forall unit16 s -> json_value (JStr s)
  | json_arr l : Forall json_value l -> json_value (JArr l)
  | json_obj kvs :
    NoDup kvs.*1 -> Forall (fun kv => Forall unit16 kv.1) kvs ->
    Forall (fun kv => json_value kv.2) kvs -> json_value (JObj kvs).

(** An object literal whose keys are literals: what is left is its values. *)
Ltac json_object :=
  apply json_obj;
  [apply (bool_decide_unpack _); vm_compute; exact I
  |apply (bool_decide_unpack _); vm_compute; exact I
  |repeat (apply Forall_cons_2); [..|apply Forall_nil_2]; cbn [snd]].

Class JsonEngine := {
  json_parse : jsstr -> option jsval;  (* [None]: a SyntaxError is thrown *)
  json_parse_stringify v t : json_value v -> stringify v = Some t -> json_parse t = Some v
}.

(** ** Parsing *)

Definition json_ws (c : N) : bool := ((c =? 32) || (c =? 9) || (c =? 10) || (c =? 13))%N.

Fixpoint skip_ws (s : jsstr) : jsstr :=
  match s with
  | c :: r => if json_ws c then skip_ws r else s
  | [] => []
  end.

Definition hex_value (c : N) : option N :=
  if ((48 <=? c) && (c <=? 57))%N then Some (c - 48)%N
  else if ((97 <=? c) && (c <=? 102))%N then Some (c - 87)%N
  else if ((65 <=? c) && (c <=? 70))%N then Some (c - 55)%N
  else None.

Definition unescape (c : N) : option N :=
  if (c =? 98)%N then Some 8%N
  else if (c =? 116)%N then Some 9%N
  else if (c =? 110)%N then Some 10%N
  else if (c =? 102)%N then Some 12%N
  else if (c =? 114)%N then Some 13%N
  else if ((c =? 34) || (c =? 92) || (c =? 47))%N then Some c
  else None.

(** The rest of a string literal, after its opening quote. *)
Fixpoint parse_string (s : jsstr) : option (jsstr * jsstr) :=
  match s with
  | [] => None
  | c :: r =>
    if (c =? 34)%N then Some ([], r)
    else if (c =? 92)%N then
      match r with
      | e :: r1 =>
        if (e =? 117)%N then
          match r1 with
          | h1 :: h2 :: h3 :: h4 :: r5 =>
            match hex_value h1, hex_value h2, hex_value h3, hex_value h4 with
            | Some a, Some b, Some c', Some d =>
              match parse_string r5 with
              | Some (u, t) => Some ((a * 4096 + b * 256 + c' * 16 + d)%N :: u, t)
              | None => None
              end
            | _, _, _, _ => None
            end
          | _ => None
          end
        else
          match unescape e with
          | Some c' =>
            match parse_string r1 with
            | Some (u, t) => Some (c' :: u, t)
            | None => None
            end
          | None => None
          end
      | [] => None
      end
    else if (c <? 32)%N then None
    else
      match parse_string r with
      | Some (u, t) => Some (c :: u, t)
      | None => None
      end
  end.

(** A natural number: digits without a leading zero. *)
Definition parse_nat (s : jsstr) : option (N * jsstr) :=
  let (d, t) := span_digits s in
  match d with
  | [] => None
  | c :: r => if (c =? 48)%N && str_truthy r then None else Some (digits_value d, t)
  end.

(** The digits after a decimal point, when there is one. *)
Definition parse_fraction (s : jsstr) : option (jsstr * jsstr) :=
  match s with
  | c :: r =>
    if (c =? 46)%N then
      let (f, t) := span_digits r in if str_truthy f then Some (f, t) else None
    else Some ([], s)
  | [] => Some ([], s)
  end.

(** An unsigned number literal, [neg] its sign. *)
Definition parse_number (neg : bool) (s : jsstr) : option (dec * jsstr) :=
  match parse_nat s with
  | None => None
  | Some (n, t) =>
    match parse_fraction t with
    | None => None
    | Some (f, u) =>
      match parse_exponent u with
      | None => None
      | Some (e, w) =>
        let a := (n * 10 ^ N.of_nat (length f) + digits_value f)%N in
        let m := if neg then (- Z.of_N a)%Z else Z.of_N a in
        Some (dec_make m (length f) e, w)
      end
    end
  end.

(** [obj[k] = v] on the properties read so far: a repeated key keeps its place and
    takes the last value. *)
Fixpoint assoc_set (k : jsstr) (v : jsval) (kvs : list (jsstr * jsval)) :=
  match kvs with
  | [] => [(k, v)]
  | (k', w) :: r => if decide (k' = k) then (k, v) :: r else (k', w) :: assoc_set k v r
  end.

Definition expect (p : jsstr) (s : jsstr) : option jsstr :=
  if starts_with p s then Some (drop (length p) s) else None.

(** [fuel] bounds the depth and the number of members; the text's length is
    enough ([parse] uses one more). *)
Fixpoint parse_value (fuel : nat) (s : jsstr) : option (jsval * jsstr) :=
  match fuel with
  | O => None
  | S f =>
    match skip_ws s with
    | [] => None
    | c :: r =>
      if (c =? 34)%N then
        match parse_string r with Some (u, t) => Some (JStr u, t) | None => None end
      else if (c =? 91)%N then
        match skip_ws r with
        | 93%N :: t => Some (JArr [], t)
        | _ => match parse_elems f r with Some (l, t) => Some (JArr l, t) | None => None end
        end
      else if (c =? 123)%N then
        match skip_ws r with
        | 125%N :: t => Some (JObj [], t)
        | _ => match parse_members f [] r with Some (m, t) => Some (JObj m, t) | None => None end
        end
      else if (c =? 45)%N then
        match parse_number true r with Some (n, t) => Some (JNum n, t) | None => None end
      else if is_digit c then
        match parse_number false (c :: r) with Some (n, t) => Some (JNum n, t) | None => None end
      else
        match expect (js "null") (c :: r), expect (js "true") (c :: r),
              expect (js "false") (c :: r) with
        | Some t, _, _ => Some (JNull, t)
        | _, Some t, _ => Some (JBool true, t)
        | _, _, Some t => Some (JBool false, t)
        | _, _, _ => None
        end
    end
  end
with parse_elems (fuel : nat) (s : jsstr) : option (list jsval * jsstr) :=
  match fuel with
  | O => None
  | S f =>
    match parse_value f s with
    | Some (v, t) =>
      match skip_ws t with
      | 44%N :: t' =>
        match parse_elems f t' with Some (l, u) => Some (v :: l, u) | None => None end
      | 93%N :: t' => Some ([v], t')
      | _ => None
      end
    | None => None
    end
  end
with parse_members (fuel : nat) (acc : list (jsstr * jsval)) (s : jsstr)
    : option (list (jsstr * jsval) * jsstr) :=
  match fuel with
  | O => None
  | S f =>
    match skip_ws s with
    | 34%N :: r =>
      match parse_string r with
      | Some (k, t) =>
        match skip_ws t with
        | 58%N :: t' =>
          match parse_value f t' with
          | Some (v, u) =>
            let acc' := assoc_set k v acc in
            match skip_ws u with
            | 44%N :: u' => parse_members f acc' u'
            | 125%N :: u' => Some (acc', u')
            | _ => None
            end
          | None => None
          end
        | _ => None
        end
      | None => None
      end
    | _ => None
    end
  end.

(** [JSON.parse(s)]. *)
Definition parse (s : jsstr) : option jsval :=
  match parse_value (S (length s)) s with
  | Some (v, t) => match skip_ws t with [] => Some v | _ => None end
  | None => None
  end.

(** ** Printing: equations *)

Definition elem_text (v : jsval) : jsstr := default (js "null") (stringify v).
Definition member_text (kv : jsstr * jsval) : option jsstr :=
  t ← stringify kv.2; Some (quote kv.1 ++ js ":" ++ t).

Lemma stringify_arr l :
  stringify (JArr l) = Some (js "[" ++ join (js ",") (map elem_text l) ++ js "]").
Proof. reflexivity. Qed.

Lemma stringify_obj kvs :
  stringify (JObj kvs) = Some (js "{" ++ join (js ",") (omap member_text kvs) ++ js "}").
Proof.
  cbn [stringify]. do 4 f_equal. induction kvs as [|[k x] r IH]; [done|].
  change (omap member_text ((k, x) :: r)) with
    (match member_text (k, x) with
     | Some y => y :: omap member_text r
     | None => omap member_text r
     end).
  rewrite <- IH. unfold member_text. cbn. by destruct (stringify x).
Qed.

Lemma json_value_stringify v : json_value v -> exists t, stringify v = Some t.
Proof.
  destruct 1; rewrite ?stringify_arr, ?stringify_obj; eauto.
Qed.

(** The first unit of a text is never white space nor a closing bracket. *)
Lemma stringify_head v t :
  stringify v = Some t ->
  exists c r, t = c :: r /\ json_ws c = false /\ c <> 93%N /\ c <> 125%N.
Proof.
  destruct v; rewrite ?stringify_arr, ?stringify_obj; cbn; intros [= <-].
  - by eexists _, _.
  - destruct b; by eexists _, _.
  - destruct (dec_body_first n) as (c & r & E & Hc). unfold dec_to_string. rewrite E.
    destruct (mant n <? 0)%Z; [by eexists _, _|]. exists c, r.
    unfold is_digit, json_ws in *. reflect_bool.
    rewrite !orb_false_iff, !N.eqb_neq. split_and!; (done || lia).
  - by eexists _, _.
  - by eexists _, _.
  - by eexists _, _.
Qed.

(** ** The parser reads back the printer's text *)

Lemma hex_value_digit n : (n < 16)%N -> hex_value (hex_digit n) = Some n.
Proof.
  intros H. unfold hex_digit, hex_value.
  destruct (n <? 10)%N eqn:E; reflect_bool.
  - rewrite (proj2 (N.leb_le _ _)), (proj2 (N.leb_le _ _)) by lia. cbn. f_equal. lia.
  - rewrite (proj2 (N.leb_gt (87 + n) 57)), andb_false_r by lia.
    rewrite (proj2 (N.leb_le _ _)), (proj2 (N.leb_le _ _)) by lia. cbn. f_equal. lia.
Qed.

Lemma parse_unicode_escape c s :
  unit16 c ->
  parse_string (unicode_escape c ++ s) =
  match parse_string s with Some (u, t) => Some (c :: u, t) | None => None end.
Proof.
  unfold unit16. intros H. cbn [unicode_escape app parse_string].
  rewrite !hex_value_digit by div_lia. cbn.
  replace (c / 4096 * 4096 + c / 256 mod 16 * 256 + c / 16 mod 16 * 16 + c mod 16)%N
    with c by div_lia.
  done.
Qed.

Lemma parse_plain c s :
  (32 <= c)%N -> c <> 34%N -> c <> 92%N ->
  parse_string (c :: s) =
  match parse_string s with Some (u, t) => Some (c :: u, t) | None => None end.
Proof.
  intros H1 H2 H3. cbn [parse_string].
  rewrite (proj2 (N.eqb_neq c 34)), (proj2 (N.eqb_neq c 92)), (proj2 (N.ltb_ge c 32)) by lia.
  done.
Qed.

Lemma parse_quote_unit c s :
  parse_string (quote_unit c ++ s) =
  match parse_string s with Some (u, t) => Some (c :: u, t) | None => None end.
Proof.
  unfold quote_unit.
  repeat match goal with
  | |- context [if (?a =? ?b)%N then _ else _] =>
    destruct (a =? b)%N eqn:?; reflect_bool; [subst; done|]
  end.
  destruct (c <? 32)%N eqn:E; [apply parse_unicode_escape; unfold unit16; bool_lia|].
  apply parse_plain; bool_lia.
Qed.

Lemma parse_string_quote s rest :
  Forall unit16 s -> parse_string (quote_body s ++ 34%N :: rest) = Some (s, rest).
Proof.
  remember (length s) as n eqn:Hn. assert (length s <= n) as Hle by lia. clear Hn.
  revert s Hle. induction n as [|n IH]; intros [|c r] Hle Hs; cbn in Hle; try done; [lia|].
  apply Forall_cons_1 in Hs as [Hc Hr]. cbn [quote_body].
  destruct (is_high c) eqn:Eh; [destruct r as [|d r'];
    [|apply Forall_cons_1 in Hr as [Hd Hr']; destruct (is_low d) eqn:Ed]|
    destruct (is_low c) eqn:El].
  - by rewrite parse_unicode_escape.
  - unfold is_high, is_low in *. reflect_bool. cbn [app].
    rewrite !parse_plain by lia. cbn in Hle. by rewrite IH by (done || lia).
  - rewrite <- app_assoc, parse_unicode_escape by done.
    by rewrite (IH (d :: r')) by (done || (cbn in *; lia) || by constructor).
  - rewrite <- app_assoc, parse_unicode_escape by done. by rewrite IH by (done || lia).
  - rewrite <- app_assoc, parse_quote_unit. by rewrite IH by (done || lia).
Qed.

(** What follows a number must not continue it. *)
Definition stops (s : jsstr) : Prop :=
  match s with
  | c :: _ => is_digit c = false /\ c <> 46%N /\ c <> 101%N /\ c <> 69%N
  | [] => True
  end.

Lemma stops_no_digit s : stops s -> no_digit s.
Proof. destruct s; [done|]. by intros (? & _). Qed.

Lemma parse_nat_digits n rest :
  no_digit rest -> parse_nat (digits_of_N n ++ rest) = Some (n, rest).
Proof.
  intros Hr. unfold parse_nat.
  rewrite span_digits_app by (done || apply digits_of_N_digits).
  rewrite digits_of_N_value.
  destruct (digits_of_N_head n) as [[-> ->]|(d & r & -> & Hd)]; [done|].
  by rewrite (proj2 (N.eqb_neq d 48)) by done.
Qed.

Lemma parse_exponent_none rest : stops rest -> parse_exponent rest = Some (0%Z, rest).
Proof.
  destruct rest as [|c r]; [done|]. intros (_ & _ & H1 & H2). cbn.
  by rewrite (proj2 (N.eqb_neq c 101)), (proj2 (N.eqb_neq c 69)).
Qed.

Lemma parse_number_dec d rest :
  canonical d -> stops rest ->
  parse_number (mant d <? 0)%Z (dec_body d ++ rest) = Some (d, rest).
Proof.
  intros Hd Hs. unfold parse_number, dec_body.
  assert ((if (mant d <? 0)%Z then - Z.of_N (Z.abs_N (mant d)) else Z.of_N (Z.abs_N (mant d)))%Z
          = mant d) as Hm by (destruct (mant d <? 0)%Z eqn:E; bool_lia).
  destruct (scale d) as [|k] eqn:Ek.
  - rewrite parse_nat_digits by by apply stops_no_digit.
    assert (parse_fraction rest = Some ([], rest)) as ->.
    { destruct rest as [|c r]; [done|]. destruct Hs as (_ & H & _). cbn.
      by rewrite (proj2 (N.eqb_neq c 46)). }
    rewrite parse_exponent_none by done. cbn [length N.of_nat].
    rewrite N.pow_0_r, N.mul_1_r. change (digits_value []) with 0%N. rewrite N.add_0_r, Hm.
    rewrite <- Ek at 1. by rewrite dec_make_id.
  - rewrite <- app_assoc. cbn [app]. rewrite parse_nat_digits by done.
    cbn [parse_fraction]. change (46 =? 46)%N with true. cbv iota.
    rewrite span_digits_app by (apply fixed_digits_digits || by apply stops_no_digit).
    pose proof (length_fixed_digits (S k) (Z.abs_N (mant d))) as Hl.
    destruct (fixed_digits (S k) (Z.abs_N (mant d))) as [|c f] eqn:Ef; [done|].
    cbn [str_truthy]. rewrite parse_exponent_none by done.
    pose proof (digits_value_split (S k) (Z.abs_N (mant d))) as Hv.
    rewrite Ef, digits_value_app, digits_of_N_value in Hv. rewrite Hv, Hm, Hl, <- Ek.
    by rewrite dec_make_id.
Qed.

(** [V v]: the parser reads the text of [v] back, whatever follows it. *)
Definition reads_back (v : jsval) : Prop := forall fuel rest t,
  json_value v -> stringify v = Some t -> length t <= fuel -> stops rest ->
  parse_value fuel (t ++ rest) = Some (v, rest).

Lemma parse_elems_texts l fuel rest :
  l <> [] -> Forall reads_back l -> Forall json_value l ->
  length (join [44%N] (map elem_text l)) < fuel ->
  parse_elems fuel (join [44%N] (map elem_text l) ++ 93%N :: rest) = Some (l, rest).
Proof.
  intros Hne Hl. revert fuel Hne. induction Hl as [|v l Hv Hl IH]; intros fuel Hne Hj Hf; [done|].
  apply Forall_cons_1 in Hj as [Hjv Hjl].
  destruct (json_value_stringify v Hjv) as [t Ht].
  assert (elem_text v = t) as Et by (unfold elem_text; by rewrite Ht).
  destruct fuel as [|f]; [lia|]. cbn [parse_elems].
  destruct l as [|w l]; cbn [map join] in *; rewrite Et in *.
  - by rewrite (Hv f (93%N :: rest) t) by (done || lia).
  - rewrite !length_app in Hf. cbn [length] in Hf.
    rewrite <- !app_assoc. cbn [app].
    rewrite (Hv f _ t) by (done || lia). cbn [skip_ws json_ws N.eqb Pos.eqb orb].
    by rewrite IH by (done || (cbn [map join] in *; lia)).
Qed.

Lemma assoc_set_fresh k v acc : k ∉ acc.*1 -> assoc_set k v acc = acc ++ [(k, v)].
Proof.
  induction acc as [|[k' w] acc IH]; cbn; [done|]. intros [H1 H2]%not_elem_of_cons.
  rewrite decide_False by done. by rewrite IH.
Qed.

(** One member of an object: the parser reads its key and then its value. *)
Lemma parse_member_step k t tl acc f :
  Forall unit16 k ->
  parse_members (S f) acc ((quote k ++ 58%N :: t) ++ tl) =
    match parse_value f (t ++ tl) with
    | Some (v, u) =>
      match skip_ws u with
      | 44%N :: u' => parse_members f (assoc_set k v acc) u'
      | 125%N :: u' => Some (assoc_set k v acc, u')
      | _ => None
      end
    | None => None
    end.
Proof.
  intros Hk. unfold quote. rewrite <- !app_assoc. cbn [app]. rewrite <- app_assoc. cbn [app].
  cbn [parse_members skip_ws json_ws N.eqb Pos.eqb orb].
  by rewrite parse_string_quote.
Qed.

Lemma parse_members_texts kvs acc fuel rest :
  kvs <> [] -> NoDup (acc.*1 ++ kvs.*1) ->
  Forall (fun kv => reads_back kv.2) kvs -> Forall (fun kv => Forall unit16 kv.1) kvs ->
  Forall (fun kv => json_value kv.2) kvs ->
  length (join [44%N] (omap member_text kvs)) < fuel ->
  parse_members fuel acc (join [44%N] (omap member_text kvs) ++ 125%N :: rest)
    = Some (acc ++ kvs, rest).
Proof.
  intros Hne Hnd Hl. revert acc fuel Hne Hnd.
  induction Hl as [|[k v] kvs Hv Hl IH]; intros acc fuel Hne Hnd Hk Hj Hf; [done|].
  apply Forall_cons_1 in Hj as [Hjv Hjl]. apply Forall_cons_1 in Hk as [Hkv Hkl].
  cbn [fst snd] in *. destruct (json_value_stringify v Hjv) as [t Ht].
  assert (omap member_text ((k, v) :: kvs) =
          (quote k ++ 58%N :: t) :: omap member_text kvs) as Em.
  { cbn. unfold member_text at 1. cbn. by rewrite Ht. }
  rewrite Em in Hf |- *. rewrite fmap_cons in Hnd. cbn [fst] in Hnd.
  destruct fuel as [|f]; [lia|].
  assert (k ∉ acc.*1) as Hfresh.
  { apply NoDup_app in Hnd as (_ & Hnd & _). intros Hin. apply (Hnd k Hin). by left. }
  destruct kvs as [|[k2 v2] kvs].
  - cbn [omap list_omap join] in *. rewrite parse_member_step by done. rewrite length_app in Hf. cbn in Hf.
    rewrite (Hv f _ t) by (done || lia). rewrite assoc_set_fresh by done. done.
  - assert (omap member_text ((k2, v2) :: kvs) <> []) as Hne2.
    { apply Forall_cons_1 in Hjl as [Hj2 _]. destruct (json_value_stringify v2 Hj2) as [t2 Ht2].
      cbn. unfold member_text at 1. cbn in *. by rewrite Ht2. }
    assert (join [44%N] ((quote k ++ 58%N :: t) :: omap member_text ((k2, v2) :: kvs)) =
      (quote k ++ 58%N :: t) ++ 44%N :: join [44%N] (omap member_text ((k2, v2) :: kvs))) as Ej
      by (by destruct (omap member_text ((k2, v2) :: kvs))).
    rewrite Ej in Hf |- *. rewrite !length_app in Hf. cbn [length] in Hf.
    rewrite <- app_assoc, parse_member_step by done. cbn [app].
    rewrite (Hv f _ t) by (done || lia). cbn [skip_ws json_ws N.eqb Pos.eqb orb].
    rewrite assoc_set_fresh by done. rewrite IH; try done.
    + by rewrite <- app_assoc.
    + rewrite fmap_app, <- app_assoc. done.
    + lia.
Qed.

Lemma skip_ws_text v t s : stringify v = Some t -> skip_ws (t ++ s) = t ++ s.
Proof.
  intros Ht. destruct (stringify_head v t Ht) as (c & r & -> & Hc & _). cbn. by rewrite Hc.
Qed.

Lemma text_nonempty v t : stringify v = Some t -> 0 < length t.
Proof. intros (c & r & -> & _)%stringify_head. cbn. lia. Qed.

(** An opening bracket followed by a non-empty list of texts. *)
Lemma parse_value_arr f l rest :
  l <> [] -> Forall json_value l ->
  parse_value (S f) (91%N :: join [44%N] (map elem_text l) ++ 93%N :: rest) =
  match parse_elems f (join [44%N] (map elem_text l) ++ 93%N :: rest) with
  | Some (l', t) => Some (JArr l', t)
  | None => None
  end.
Proof.
  intros Hne Hl. cbn [parse_value skip_ws json_ws N.eqb Pos.eqb orb].
  destruct l as [|v l]; [done|]. apply Forall_cons_1 in Hl as [Hv _].
  destruct (json_value_stringify v Hv) as [t Ht].
  destruct (stringify_head v t Ht) as (c & r & Et & Hc & Hc1 & Hc2).
  assert (exists x, join [44%N] (map elem_text (v :: l)) = c :: x) as [x ->].
  { assert (elem_text v = c :: r) as Ev by (unfold elem_text; by rewrite Ht, Et).
    destruct l; cbn [map join]; rewrite Ev; by eexists. }
  cbn [app skip_ws]. rewrite Hc.
  clear Et Ht Hc Hc2. repeat case_match; simplify_eq; done.
Qed.

Lemma parse_value_obj f kvs rest :
  kvs <> [] -> Forall (fun kv => json_value kv.2) kvs ->
  parse_value (S f) (123%N :: join [44%N] (omap member_text kvs) ++ 125%N :: rest) =
  match parse_members f [] (join [44%N] (omap member_text kvs) ++ 125%N :: rest) with
  | Some (m, t) => Some (JObj m, t)
  | None => None
  end.
Proof.
  intros Hne Hl. cbn [parse_value skip_ws json_ws N.eqb Pos.eqb orb].
  destruct kvs as [|[k v] kvs]; [done|]. apply Forall_cons_1 in Hl as [Hv _].
  destruct (json_value_stringify v Hv) as [t Ht].
  assert (exists x, join [44%N] (omap member_text ((k, v) :: kvs)) = 34%N :: x) as [x ->].
  { assert (exists r, member_text (k, v) = Some (34%N :: r)) as [r Em].
    { unfold member_text. cbn in *. rewrite Ht. by eexists. }
    rewrite (omap_cons_Some _ _ _ _ Em).
    destruct (omap member_text kvs); by eexists. }
  done.
Qed.

Lemma parse_value_digit f c s :
  is_digit c = true ->
  parse_value (S f) (c :: s) =
  match parse_number false (c :: s) with Some (n, t) => Some (JNum n, t) | None => None end.
Proof.
  intros Hd. pose proof Hd as Hd'. unfold is_digit in Hd. reflect_bool.
  cbn [parse_value skip_ws].
  assert (json_ws c = false) as ->.
  { unfold json_ws. rewrite !orb_false_iff, !N.eqb_neq. lia. }
  rewrite (proj2 (N.eqb_neq c 34)), (proj2 (N.eqb_neq c 91)), (proj2 (N.eqb_neq c 123)),
    (proj2 (N.eqb_neq c 45)) by lia.
  by rewrite Hd'.
Qed.

Lemma reads_back_num n : reads_back (JNum n).
Proof.
  intros [|f] rest t Hj Ht Hf Hs; [apply text_nonempty in Ht; lia|].
  inversion Hj; subst. apply (inj Some) in Ht as <-.
  pose proof (parse_number_dec n rest ltac:(done) Hs) as Hp. unfold dec_to_string.
  destruct (mant n <? 0)%Z.
  - cbn [app parse_value skip_ws json_ws N.eqb Pos.eqb orb]. by rewrite Hp.
  - destruct (dec_body_first n) as (c & r & E & Hc). rewrite E in *. cbn [app] in *.
    by rewrite parse_value_digit, Hp.
Qed.

Lemma reads_back_all v : reads_back v.
Proof.
  induction v as [| |b|n|s|l IH|kvs IH] using jsval_ind.
  - intros fuel rest t Hj. inversion Hj.
  - intros [|f] rest t _ Ht Hf Hs; [apply text_nonempty in Ht; lia|].
    by injection Ht as <-.
  - intros [|f] rest t _ Ht Hf Hs; [apply text_nonempty in Ht; lia|].
    injection Ht as <-. by destruct b.
  - apply reads_back_num.
  - intros [|f] rest t Hj Ht Hf Hs; [apply text_nonempty in Ht; lia|].
    injection Ht as <-. inversion Hj; subst.
    unfold quote. cbn [app]. rewrite <- app_assoc.
    cbn [parse_value skip_ws json_ws N.eqb Pos.eqb orb app].
    by rewrite parse_string_quote.
  - intros [|f] rest t Hj; intros Ht Hf Hs; [apply text_nonempty in Ht; lia|].
    rewrite stringify_arr in Ht. apply (inj Some) in Ht as <-.
    change (js "[") with [91%N] in *. change (js "]") with [93%N] in *.
    change (js ",") with [44%N] in *.
    cbn [length app] in Hf. rewrite length_app in Hf. cbn [length] in Hf.
    inversion Hj; subst. destruct (decide (l = [])) as [->|Hne]; [done|].
    cbn [app]. rewrite <- !app_assoc. cbn [app]. rewrite parse_value_arr by done.
    by rewrite parse_elems_texts by (done || lia).
  - intros [|f] rest t Hj; intros Ht Hf Hs; [apply text_nonempty in Ht; lia|].
    rewrite stringify_obj in Ht. apply (inj Some) in Ht as <-.
    change (js "{") with [123%N] in *. change (js "}") with [125%N] in *.
    change (js ",") with [44%N] in *.
    cbn [length app] in Hf. rewrite length_app in Hf. cbn [length] in Hf.
    inversion Hj; subst. destruct (decide (kvs = [])) as [->|Hne]; [done|].
    cbn [app]. rewrite <- !app_assoc. cbn [app]. rewrite parse_value_obj by done.
    by rewrite parse_members_texts by (done || lia).
Qed.

(** [JSON.parse(JSON.stringify(v))] is [v]. *)
Lemma parse_stringify v t : json_value v -> stringify v = Some t -> parse t = Some v.
Proof.
  intros Hj Ht. unfold parse. rewrite <- (app_nil_r t) at 2.
  rewrite (reads_back_all v) by (done || lia). done.
Qed.

#[export] Instance json_engine : JsonEngine :=
  { json_parse := parse; json_parse_stringify := parse_stringify }.

#[export] Hint Constructors json_value : batdb.
