(* ===== verification/Types.v ===== *)
(** * The data of the browser SDK: packages/browser/src/types.ts

    One module per interface, its record [t] with the source's field names; an
    optional field is an [option]. [to_json] gives the object [JSON.stringify]
    is called on, its properties in the order the source writes them. *)

From S2P Require Import Prelude Decimal JsValue Json.

(** Console levels rrweb's console plugin can capture. *)
Inductive ConsoleLevel := LLog | LInfo | LWarn | LError | LDebug.

Inductive Position := BottomRight | BottomLeft | TopRight | TopLeft.

(** Capture mode: the rolling buffer or continuous streaming. *)
Inductive Mode := Buffered | Always.

(** Why a batch was uploaded. *)
Inductive Trigger := Manual | OnErrorTrigger | Stream.

(** [captureConsole?: boolean | { level: ConsoleLevel[] }] *)
Inductive CaptureConsole := CaptureFlag (b : bool) | CaptureLevels (level : list ConsoleLevel).

#[export] Instance Mode_eq_dec : EqDecision Mode.
Proof. solve_decision. Defined.
#[export] Instance Trigger_eq_dec : EqDecision Trigger.
Proof. solve_decision. Defined.

Definition trigger_text (t : Trigger) : jsstr :=
  match t with Manual => js "manual" | OnErrorTrigger => js "error" | Stream => js "stream" end.

Module BatRewindConfig.
Record t := mk {
  endpoint : jsstr;
  apiKey : jsstr;
  serviceName : option jsstr;
  service : option jsstr;
  environment : option jsstr;
  identifier : option jsstr;
  batSessionId : option jsstr;
  shareBaseUrl : option jsstr;
  showWidget : option bool;
  widgetPosition : option Position;
  widgetColor : option jsstr;
  widgetLabel : option jsstr;
  maskInputs : option bool;
  captureClientMetadata : option bool;
  captureConsole : option CaptureConsole;
  maskTextClass : option jsstr;
  maskTextSelector : option jsstr;
  blockClass : option jsstr;
  blockSelector : option jsstr;
  ignoreClass : option jsstr;
  mode : option Mode;
  bufferMs : option Z;
  checkoutEveryNms : option Z;
  captureOnError : option bool;
  flushIntervalMs : option Z;
  flushMaxBytes : option Z
}.

(** A configuration with only the two required fields. *)
Definition minimal (e k : jsstr) : t :=
  mk e k None None None None None None None None None None None None None None None
     None None None None None None None None None.

Definition set_identifier (i : jsstr) (c : t) : t :=
  mk (endpoint c) (apiKey c) (serviceName c) (service c) (environment c) (Some i)
     (batSessionId c) (shareBaseUrl c) (showWidget c) (widgetPosition c) (widgetColor c)
     (widgetLabel c) (maskInputs c) (captureClientMetadata c) (captureConsole c)
     (maskTextClass c) (maskTextSelector c) (blockClass c) (blockSelector c)
     (ignoreClass c) (mode c) (bufferMs c) (checkoutEveryNms c) (captureOnError c)
     (flushIntervalMs c) (flushMaxBytes c).

Definition set_mode (m : Mode) (c : t) : t :=
  mk (endpoint c) (apiKey c) (serviceName c) (service c) (environment c) (identifier c)
     (batSessionId c) (shareBaseUrl c) (showWidget c) (widgetPosition c) (widgetColor c)
     (widgetLabel c) (maskInputs c) (captureClientMetadata c) (captureConsole c)
     (maskTextClass c) (maskTextSelector c) (blockClass c) (blockSelector c)
     (ignoreClass c) (Some m) (bufferMs c) (checkoutEveryNms c) (captureOnError c)
     (flushIntervalMs c) (flushMaxBytes c).
End BatRewindConfig.

Module RawEvent.
Record t := mk { type : Z; data : jsval; timestamp : Z }.

Definition to_json (e : t) : jsval :=
  JObj [ (js "type", JNum (dec_of_Z (type e)));
         (js "data", data e);
         (js "timestamp", JNum (dec_of_Z (timestamp e))) ].
End RawEvent.

Module ClientMeta.
Record t := mk {
  screen_width : dec;
  screen_height : dec;
  viewport_width : dec;
  viewport_height : dec;
  device_pixel_ratio : dec;
  language : jsstr;
  timezone : jsstr;
  user_agent : jsstr
}.

Definition to_json (m : t) : jsval :=
  JObj [ (js "screen_width", JNum (screen_width m));
         (js "screen_height", JNum (screen_height m));
         (js "viewport_width", JNum (viewport_width m));
         (js "viewport_height", JNum (viewport_height m));
         (js "device_pixel_ratio", JNum (device_pixel_ratio m));
         (js "language", JStr (language m));
         (js "timezone", JStr (timezone m));
         (js "user_agent", JStr (user_agent m)) ].
End ClientMeta.

(** An optional property: [undefined] when absent. *)
Definition opt_json {A} (f : A -> jsval) (o : option A) : jsval :=
  match o with Some a => f a | None => JUndef end.

Module BatchPayload.
(** The session's identifiers come from storage, so they are kept as the values
    read there; [JUndef] is an absent [share_token]. *)
Record t := mk {
  session_id : jsval;
  identifier : jsval;
  service_name : jsstr;
  environment : jsstr;
  bat_session_id : option jsstr;
  trigger : Trigger;
  share_token : jsval;
  client : option ClientMeta.t;
  events : list RawEvent.t
}.

Definition to_json (p : t) : jsval :=
  JObj [ (js "session_id", session_id p);
         (js "identifier", identifier p);
         (js "service_name", JStr (service_name p));
         (js "environment", JStr (environment p));
         (js "bat_session_id", opt_json JStr (bat_session_id p));
         (js "trigger", JStr (trigger_text (trigger p)));
         (js "share_token", share_token p);
         (js "client", opt_json ClientMeta.to_json (client p));
         (js "events", JArr (map RawEvent.to_json (events p))) ].
End BatchPayload.

Module ReportResult.
Record t := mk { sessionId : jsval; shareToken : jsval; shareUrl : jsstr }.
End ReportResult.
