(* ===== verification/Transport.v ===== *)
(** * Sending a batch: packages/browser/src/transport.ts

    [sendBatch] issues one [fetch] and swallows its failure, so the model of the
    call is the request it makes. *)

From S2P Require Import Prelude Decimal JsValue Json Types.

Record Request := {
  url : jsstr;
  method : jsstr;
  headers : list (jsstr * jsstr);
  body : jsstr;
  keepalive : bool
}.

Definition sendBatch (endpoint apiKey : jsstr) (payload : BatchPayload.t) (keepalive : bool)
    : Request := {|
  url := endpoint ++ js "/v1/record";
  method := js "POST";
  headers := [ (js "Content-Type", js "application/json"); (js "X-API-Key", apiKey) ];
  body := json_text (BatchPayload.to_json payload);
  keepalive := keepalive
|}.

(** ** What the receiver reads back *)

(** An object without its [undefined] properties, as [JSON.stringify] prints it. *)
Definition defined_props (kvs : list (jsstr * jsval)) : list (jsstr * jsval) :=
  filter (fun kv => kv.2 <> JUndef) kvs.

Lemma stringify_undef_props kvs :
  stringify (JObj kvs) = stringify (JObj (defined_props kvs)).
Proof.
  rewrite !stringify_obj. do 4 f_equal. unfold defined_props.
  induction kvs as [|[k v] kvs IH]; [done|].
  destruct (decide (v = JUndef)) as [->|Hv].
  - rewrite filter_cons_False by naive_solver. by rewrite <- IH.
  - rewrite filter_cons_True by done. cbn. by rewrite IH.
Qed.

(** The fields of a payload that JSON text can carry. *)
Definition payload_ok (p : BatchPayload.t) : Prop :=
  json_value (BatchPayload.session_id p) /\ json_value (BatchPayload.identifier p) /\
  (BatchPayload.share_token p = JUndef \/ json_value (BatchPayload.share_token p)) /\
  Forall unit16 (BatchPayload.service_name p) /\ Forall unit16 (BatchPayload.environment p) /\
  (forall s, BatchPayload.bat_session_id p = Some s -> Forall unit16 s) /\
  (forall m, BatchPayload.client p = Some m -> json_value (ClientMeta.to_json m)) /\
  Forall (fun e => json_value (RawEvent.data e)) (BatchPayload.events p).

Lemma json_value_event e :
  json_value (RawEvent.data e) -> json_value (RawEvent.to_json e).
Proof.
  intros H. json_object; [|done|]; constructor; by left.
Qed.

Lemma opt_json_cases {A} (f : A -> jsval) o :
  (forall a, o = Some a -> json_value (f a)) ->
  opt_json f o = JUndef \/ json_value (opt_json f o).
Proof. destruct o; cbn; auto. Qed.

(** [defined_props] drops one property or keeps it. *)
Lemma defined_props_ok kvs :
  NoDup kvs.*1 -> Forall (fun kv => Forall unit16 kv.1) kvs ->
  Forall (fun kv => kv.2 = JUndef \/ json_value kv.2) kvs ->
  json_value (JObj (defined_props kvs)).
Proof.
  intros Hnd Hk Hv. unfold defined_props. apply json_obj.
  - induction kvs as [|[k v] kvs IH]; [done|]. rewrite fmap_cons in Hnd. cbn [fst] in Hnd.
    apply NoDup_cons in Hnd as [Hin Hnd]. inversion Hk; inversion Hv; subst.
    rewrite filter_cons. destruct (decide _); [|by apply IH].
    rewrite fmap_cons. cbn [fst]. apply NoDup_cons. split; [|by apply IH].
    intros ([k' w] & -> & [_ Hw]%list_elem_of_filter)%list_elem_of_fmap.
    apply Hin. apply list_elem_of_fmap. by exists (k', w).
  - rewrite Forall_forall in Hk |- *. intros x [_ Hx]%list_elem_of_filter. auto.
  - rewrite Forall_forall in Hv |- *. intros x [Hu Hx]%list_elem_of_filter.
    destruct (Hv x Hx); [done|done].
Qed.

Lemma assoc_defined k kvs : NoDup kvs.*1 -> assoc k (defined_props kvs) = assoc k kvs.
Proof.
  unfold defined_props. induction kvs as [|[k' v] kvs IH]; [done|].
  rewrite fmap_cons. cbn [fst]. intros [Hin Hnd]%NoDup_cons.
  rewrite filter_cons. cbn [snd assoc]. destruct (decide (v <> JUndef)) as [Hv|Hv]; cbn [assoc].
  - destruct (decide (k' = k)); auto.
  - destruct (decide (k' = k)) as [->|]; [|auto]. rewrite IH by done.
    destruct (decide (v = JUndef)) as [->|]; [|done].
    clear -Hin. induction kvs as [|[k' v] kvs IH]; [done|].
    rewrite fmap_cons in Hin. cbn [fst] in Hin. apply not_elem_of_cons in Hin as [H1 H2].
    cbn [assoc]. rewrite decide_False by congruence. auto.
Qed.

Definition payload_props (p : BatchPayload.t) : list (jsstr * jsval) :=
  match BatchPayload.to_json p with JObj kvs => kvs | _ => [] end.

Lemma payload_props_keys p : NoDup (payload_props p).*1.
Proof. apply (bool_decide_unpack _). vm_compute. exact I. Qed.

Lemma payload_props_json p :
  payload_ok p -> Forall (fun kv => kv.2 = JUndef \/ json_value kv.2) (payload_props p).
Proof.
  intros (H1 & H2 & H3 & H4 & H5 & H6 & H7 & H8). cbn [payload_props BatchPayload.to_json].
  repeat (apply Forall_cons_2); [..|apply Forall_nil_2]; cbn [snd]; auto with batdb.
  - apply opt_json_cases. eauto with batdb.
  - right. constructor. apply (bool_decide_unpack _). by destruct (BatchPayload.trigger p).
  - apply opt_json_cases. eauto.
  - right. constructor. rewrite Forall_map.
    eapply Forall_impl; [exact H8|]. apply json_value_event.
Qed.
