(* ===== verification/Session.v ===== *)
(** * The visitor's session: packages/browser/src/session.ts

    The session handle lives in [sessionStorage] under one key, as JSON text with
    an expiry that every use pushes back by [SESSION_TTL_MS]. The environment of
    the call is an explicit state: the storage (which a browser may refuse to
    read or to write), the source of random identifiers and the clock. *)

From S2P Require Import Prelude Decimal JsValue Json.

Definition SESSION_KEY : jsstr := js "__batrewind_session__".
Definition SESSION_TTL_MS : Z := 30 * 60 * 1000.

(** What [crypto.randomUUID()] promises: the n-th identifier is a non-empty ASCII
    string, and no two are equal. *)
Class UuidSource := {
  random_uuid : nat -> jsstr;
  random_uuid_nonempty n : random_uuid n <> [];
  random_uuid_ascii n : Forall (fun c => (c < 128)%N) (random_uuid n);
  random_uuid_inj n m : random_uuid n = random_uuid m -> n = m
}.

Record Env := mkEnv {
  storage : gmap jsstr jsstr;   (* sessionStorage *)
  readable : bool;              (* getItem does not throw *)
  writable : bool;              (* setItem does not throw *)
  secure_context : bool;        (* crypto.randomUUID exists *)
  uuid_next : nat;              (* identifiers drawn so far *)
  now : Z                       (* Date.now() *)
}.

Definition set_storage (st : gmap jsstr jsstr) (e : Env) : Env :=
  mkEnv st (readable e) (writable e) (secure_context e) (uuid_next e) (now e).
Definition set_uuid_next (n : nat) (e : Env) : Env :=
  mkEnv (storage e) (readable e) (writable e) (secure_context e) n (now e).
Definition set_now (t : Z) (e : Env) : Env :=
  mkEnv (storage e) (readable e) (writable e) (secure_context e) (uuid_next e) t.

(** [id] and [shareToken] are what [JSON.parse] gave, whatever it was. *)
Record SessionHandle := mkHandle { id : jsval; shareToken : jsval }.

(** [JSON.stringify({ id, shareToken, expiresAt })]. *)
Definition stored_json (h : SessionHandle) (expiresAt : Z) : jsval :=
  JObj [ (js "id", id h); (js "shareToken", shareToken h);
         (js "expiresAt", JNum (dec_of_Z expiresAt)) ].

Section Session.
Context `{JsonEngine} `{UuidSource}.

Definition getItem (k : jsstr) : SM Env (option jsstr) := fun e =>
  (e, if readable e then Ok (storage e !! k) else Throw DOMException).

Definition setItem (k v : jsstr) : SM Env unit := fun e =>
  if writable e then (set_storage (<[k := v]> (storage e)) e, Ok tt)
  else (e, Throw DOMException).

Definition generateId : SM Env jsstr := fun e =>
  if secure_context e then (set_uuid_next (S (uuid_next e)) e, Ok (random_uuid (uuid_next e)))
  else (e, Throw TypeError).

Definition JSON_parse (s : jsstr) : SM Env jsval :=
  match json_parse s with Some v => sm_ret v | None => sm_throw SyntaxError end.

Definition save (h : SessionHandle) : SM Env unit :=
  let! t := sm_reads now in
  setItem SESSION_KEY (json_text (stored_json h (t + SESSION_TTL_MS))).

(** The body of the first [try]: the stored session, if it can still be used. *)
Definition reuseSession : SM Env (option SessionHandle) :=
  let! raw := getItem SESSION_KEY in
  match raw with
  | Some raw =>
    if str_truthy raw then
      let! stored := JSON_parse raw in
      let! t := sm_reads now in
      let! expiresAt := sm_lift (prop (js "expiresAt") stored) in
      let! limit := sm_lift (to_number expiresAt) in
      if num_lt (Some (dec_of_Z t)) limit then
        let! sid := sm_lift (prop (js "id") stored) in
        if truthy sid then
          let! tok := sm_lift (prop (js "shareToken") stored) in
          let! token :=
            (if truthy tok then sm_ret tok
             else let! u := generateId in sm_ret (JStr u)) in
          let! _ := save (mkHandle sid token) in
          sm_ret (Some (mkHandle sid token))
        else sm_ret None
      else sm_ret None
    else sm_ret None
  | None => sm_ret None
  end.

Definition getOrCreateSession : SM Env SessionHandle :=
  let! early := sm_try reuseSession (sm_ret None) in
  match early with
  | Some h => sm_ret h
  | None =>
    let! a := generateId in
    let! b := generateId in
    let h := mkHandle (JStr a) (JStr b) in
    let! _ := sm_try (save h) (sm_ret tt) in
    sm_ret h
  end.

Definition getOrCreateSessionId : SM Env jsval :=
  let! h := getOrCreateSession in sm_ret (id h).

(** ** Lemmas *)

Definition good_handle (h : SessionHandle) : Prop :=
  truthy (id h) = true /\ truthy (shareToken h) = true /\
  json_value (id h) /\ json_value (shareToken h).

(** The storage holds [h], valid before [expiresAt]. *)
Definition holds (e : Env) (h : SessionHandle) (expiresAt : Z) : Prop :=
  storage e !! SESSION_KEY = Some (json_text (stored_json h expiresAt)).

Definition refreshed (h : SessionHandle) (e : Env) : Env :=
  set_storage (<[SESSION_KEY := json_text (stored_json h (now e + SESSION_TTL_MS))]>
               (storage e)) e.

Lemma json_value_stored h x :
  json_value (id h) -> json_value (shareToken h) -> json_value (stored_json h x).
Proof. intros H1 H2. json_object; auto with batdb. Qed.

Lemma json_value_uuid n : json_value (JStr (random_uuid n)).
Proof.
  constructor. eapply Forall_impl; [apply random_uuid_ascii|].
  unfold unit16. cbn. lia.
Qed.

Lemma truthy_uuid n : truthy (JStr (random_uuid n)) = true.
Proof. cbn. pose proof (random_uuid_nonempty n). by destruct (random_uuid n). Qed.

Lemma parse_stored h x :
  json_value (id h) -> json_value (shareToken h) ->
  json_parse (json_text (stored_json h x)) = Some (stored_json h x).
Proof.
  intros H1 H2. pose proof (json_value_stored h x H1 H2) as Hj.
  destruct (json_value_stringify _ Hj) as [t Ht]. unfold json_text. rewrite Ht.
  by apply json_parse_stringify.
Qed.

Lemma stored_text_truthy h x : str_truthy (json_text (stored_json h x)) = true.
Proof. unfold json_text, stored_json. by rewrite stringify_obj. Qed.

(** Reading the handle back while it is valid. *)
Lemma reuse_valid e h x :
  good_handle h -> readable e = true -> writable e = true ->
  holds e h x -> (now e < x)%Z ->
  reuseSession e = (refreshed h e, Ok (Some h)).
Proof.
  intros (Hid & Htok & Hj1 & Hj2) Hr Hw Hh Hx. unfold reuseSession, sm_bind, getItem.
  rewrite Hr, Hh, stored_text_truthy. unfold JSON_parse. rewrite parse_stored by done.
  unfold sm_ret, sm_reads, sm_lift.
  assert (prop (js "expiresAt") (stored_json h x) = Ok (JNum (dec_of_Z x))) as -> by done.
  cbn [to_number num_lt]. rewrite dec_ltb_Z, (proj2 (Z.ltb_lt _ _)) by done.
  assert (prop (js "id") (stored_json h x) = Ok (id h)) as -> by done. rewrite Hid.
  assert (prop (js "shareToken") (stored_json h x) = Ok (shareToken h)) as -> by done.
  rewrite Htok. unfold save, sm_bind, sm_reads, setItem. rewrite Hw. by destruct h.
Qed.

Lemma getOrCreate_valid e h x :
  good_handle h -> readable e = true -> writable e = true ->
  holds e h x -> (now e < x)%Z ->
  getOrCreateSession e = (refreshed h e, Ok h).
Proof.
  intros. unfold getOrCreateSession, sm_bind, sm_try. by erewrite reuse_valid.
Qed.

Lemma holds_refreshed h e : holds (refreshed h e) h (now e + SESSION_TTL_MS).
Proof. unfold holds, refreshed. cbn. by rewrite lookup_insert_eq. Qed.

(** The state of the environment other than storage and identifiers is not touched. *)
Definition frame (e e' : Env) : Prop :=
  readable e' = readable e /\ writable e' = writable e /\
  secure_context e' = secure_context e /\ now e' = now e /\ uuid_next e <= uuid_next e'.

Lemma frame_refl e : frame e e.
Proof. by unfold frame. Qed.
Lemma frame_trans a b c : frame a b -> frame b c -> frame a c.
Proof. unfold frame. intuition (congruence || lia). Qed.

Definition keeps {A} (m : SM Env A) : Prop := forall e, frame e (m e).1.

Lemma keeps_ret {A} (a : A) : keeps (sm_ret a).
Proof. intros e. apply frame_refl. Qed.
Lemma keeps_lift {A} (r : res A) : keeps (sm_lift r).
Proof. intros e. apply frame_refl. Qed.
Lemma keeps_reads {A} (f : Env -> A) : keeps (sm_reads f).
Proof. intros e. apply frame_refl. Qed.
Lemma keeps_bind {A B} (m : SM Env A) (k : A -> SM Env B) :
  keeps m -> (forall a, keeps (k a)) -> keeps (sm_bind m k).
Proof.
  intros Hm Hk e. unfold sm_bind. specialize (Hm e).
  destruct (m e) as [e' [a|?]]; [|done]. eapply frame_trans; [exact Hm|apply Hk].
Qed.
Lemma keeps_try {A} (m h : SM Env A) : keeps m -> keeps h -> keeps (sm_try m h).
Proof.
  intros Hm Hh e. unfold sm_try. specialize (Hm e).
  destruct (m e) as [e' [a|?]]; [done|]. eapply frame_trans; [exact Hm|apply Hh].
Qed.
Lemma keeps_getItem k : keeps (getItem k).
Proof. intros e. apply frame_refl. Qed.
Lemma keeps_setItem k v : keeps (setItem k v).
Proof.
  intros e. unfold setItem. destruct (writable e) eqn:E; [|apply frame_refl].
  unfold frame; cbn. by rewrite E.
Qed.
Lemma keeps_generateId : keeps generateId.
Proof.
  intros e. unfold generateId. destruct (secure_context e) eqn:E; [|apply frame_refl].
  unfold frame; cbn. rewrite E. repeat split. lia.
Qed.
Lemma keeps_parse s : keeps (JSON_parse s).
Proof. unfold JSON_parse. destruct (json_parse s); intros e; apply frame_refl. Qed.

Ltac keeps_tac :=
  repeat first
    [ apply keeps_ret | apply keeps_lift | apply keeps_reads | apply keeps_getItem
    | apply keeps_setItem | apply keeps_generateId | apply keeps_parse
    | apply keeps_try | apply keeps_bind; [|intros ?]
    | match goal with |- keeps (if ?b then _ else _) => destruct b end
    | match goal with |- keeps (match ?o with Some _ => _ | None => _ end) => destruct o end ].

Lemma keeps_save h : keeps (save h).
Proof. unfold save. keeps_tac. Qed.

Lemma keeps_reuse : keeps reuseSession.
Proof. unfold reuseSession. keeps_tac. all: apply keeps_save. Qed.

Lemma keeps_getOrCreate : keeps getOrCreateSession.
Proof. unfold getOrCreateSession. keeps_tac; apply keeps_reuse || apply keeps_save. Qed.

(** What the fresh branch does, whatever the storage held: two new identifiers,
    saved if the storage can be written. *)
Definition fresh_handle (n : nat) : SessionHandle :=
  mkHandle (JStr (random_uuid n)) (JStr (random_uuid (S n))).

Definition create (e : Env) : Env :=
  let h := fresh_handle (uuid_next e) in
  let e' := set_uuid_next (S (S (uuid_next e))) e in
  if writable e then refreshed h e' else e'.

Lemma good_fresh n : good_handle (fresh_handle n).
Proof. repeat split; apply truthy_uuid || apply json_value_uuid. Qed.

Lemma create_branch e e1 :
  secure_context e = true ->
  sm_try reuseSession (sm_ret None) e = (e1, Ok None) ->
  getOrCreateSession e = (create e1, Ok (fresh_handle (uuid_next e1))).
Proof.
  intros Hs He. pose proof (keeps_try _ (sm_ret None) keeps_reuse (keeps_ret _) e) as Hf.
  rewrite He in Hf. destruct Hf as (_ & _ & Hsec & _). cbn in Hsec.
  unfold getOrCreateSession, sm_bind. rewrite He. unfold generateId.
  rewrite Hsec, Hs. cbn [secure_context set_uuid_next uuid_next]. rewrite Hsec, Hs.
  unfold create, sm_try, save, sm_bind, sm_reads, setItem. cbn [writable set_uuid_next].
  by destruct (writable e1).
Qed.

(** The first [try] either yields a session or falls through. *)
Lemma try_reuse_cases e :
  exists e1, sm_try reuseSession (sm_ret None) e = (e1, Ok None) \/
  exists h, sm_try reuseSession (sm_ret None) e = (e1, Ok (Some h)) /\
            reuseSession e = (e1, Ok (Some h)).
Proof.
  unfold sm_try. destruct (reuseSession e) as [e1 [[h|]|x]]; exists e1; eauto.
Qed.

(** A session that is reused has a truthy identifier and token, and was just saved. *)
Lemma reuse_inv e e1 h :
  reuseSession e = (e1, Ok (Some h)) ->
  truthy (id h) = true /\ truthy (shareToken h) = true /\
  exists e0, e1 = refreshed h e0 /\ frame e e0.
Proof.
  intros Hr. unfold reuseSession in Hr. apply sm_bind_ok in Hr as (s0 & raw & E0 & Hr).
  assert (s0 = e) as -> by (unfold getItem in E0; congruence).
  destruct raw as [raw|]; [|done]. destruct (str_truthy raw); [|done].
  apply sm_bind_ok in Hr as (s1 & v & E1 & Hr).
  assert (s1 = e) as -> by (unfold JSON_parse in E1; destruct (json_parse raw); by injection E1).
  sm_inv Hr. unfold sm_reads, sm_lift in *.
  destruct (num_lt (Some (dec_of_Z a)) a1); [|done].
  apply sm_bind_ok in Hr as (s4 & sid & E4 & Hr). destruct (truthy sid) eqn:Hid; [|done].
  apply sm_bind_ok in Hr as (s5 & tok & E5 & Hr).
  apply sm_bind_ok in Hr as (s6 & token & E6 & Hr).
  apply sm_bind_ok in Hr as (s7 & [] & E7 & Hr).
  assert (truthy token = true /\ frame s5 s6) as [Htok Hf].
  { destruct (truthy tok) eqn:Ht; [injection E6 as <- <-; split; [done|apply frame_refl]|].
    apply sm_bind_ok in E6 as (s8 & u & E8 & E6). injection E6 as <- <-.
    pose proof (keeps_generateId s5) as Hf. rewrite E8 in Hf. split; [|done].
    unfold generateId in E8. destruct (secure_context s5); [|done].
    injection E8 as _ <-. apply truthy_uuid. }
  injection Hr as <- <-. split; [done|]. split; [done|]. exists s6.
  split; [|simplify_eq; done].
  unfold save, sm_bind, sm_reads, setItem in E7. by destruct (writable s6); simplify_eq.
Qed.

(** A call on working storage leaves its handle there for [SESSION_TTL_MS]. *)
Lemma getOrCreate_holds e e' h :
  readable e = true -> writable e = true -> secure_context e = true ->
  getOrCreateSession e = (e', Ok h) -> holds e' h (now e + SESSION_TTL_MS).
Proof.
  intros Hr Hw Hs He.
  destruct (try_reuse_cases e) as [e1 [Hn|(h' & Ht & Hu)]].
  - pose proof (keeps_try _ (sm_ret None) keeps_reuse (keeps_ret _) e) as Hf.
    rewrite Hn in Hf. destruct Hf as (_ & Hw1 & _ & Hn1 & _). cbn in Hw1, Hn1.
    rewrite (create_branch e e1) in He by done. injection He as <- <-.
    unfold create. rewrite Hw1, Hw, <- Hn1.
    apply (holds_refreshed _ (set_uuid_next _ e1)).
  - unfold getOrCreateSession, sm_bind in He. rewrite Ht in He. injection He as <- <-.
    destruct (reuse_inv _ _ _ Hu) as (_ & _ & e0 & -> & (_ & _ & _ & <- & _)).
    apply holds_refreshed.
Qed.

Lemma getOrCreate_total e :
  secure_context e = true ->
  exists e' h, getOrCreateSession e = (e', Ok h) /\
    truthy (id h) = true /\ truthy (shareToken h) = true /\ frame e e'.
Proof.
  intros Hs. pose proof (keeps_getOrCreate e) as Hf.
  destruct (try_reuse_cases e) as [e1 [Hn|(h & Ht & Hu)]].
  - rewrite (create_branch e e1) in * by done. eexists _, _. split; [done|].
    by destruct (good_fresh (uuid_next e1)) as (? & ? & _).
  - unfold getOrCreateSession, sm_bind in *. rewrite Ht in *. eexists _, _. split; [done|].
    by destruct (reuse_inv _ _ _ Hu) as (? & ? & _).
Qed.

(** A session that is returned is usable. *)
Lemma getOrCreate_truthy e e' h :
  getOrCreateSession e = (e', Ok h) -> truthy (id h) = true /\ truthy (shareToken h) = true.
Proof.
  intros He. destruct (try_reuse_cases e) as [e1 [Hn|(h' & Ht & Hu)]].
  - unfold getOrCreateSession, sm_bind in He. rewrite Hn in He.
    destruct (generateId e1) as [e2 [a|]] eqn:Ea; [|done].
    destruct (generateId e2) as [e3 [b|]] eqn:Eb; [|done].
    unfold generateId in Ea, Eb. destruct (secure_context e1), (secure_context e2); try done.
    injection Ea as _ <-. injection Eb as _ <-.
    destruct (sm_try (save _) (sm_ret tt) e3) as [e4 [|]]; [|done].
    injection He as _ <-. split; apply truthy_uuid.
  - unfold getOrCreateSession, sm_bind in He. rewrite Ht in He. injection He as _ <-.
    by destruct (reuse_inv _ _ _ Hu) as (? & ? & _).
Qed.

(** Page loads: [d] milliseconds pass, then the SDK asks for its session. *)
Fixpoint visits (ds : list Z) (e : Env) : list (res SessionHandle) :=
  match ds with
  | [] => []
  | d :: r => let '(e', h) := getOrCreateSession (set_now (now e + d) e) in h :: visits r e'
  end.

Lemma visits_same ds e h :
  good_handle h -> readable e = true -> writable e = true ->
  holds e h (now e + SESSION_TTL_MS) -> Forall (fun d => 0 <= d < SESSION_TTL_MS)%Z ds ->
  visits ds e = repeat (Ok h) (length ds).
Proof.
  intros Hg Hr Hw Hh Hds. revert e Hr Hw Hh.
  induction Hds as [|d ds Hd _ IH]; intros e Hr Hw Hh; [done|]. cbn [visits length repeat].
  rewrite (getOrCreate_valid _ h (now e + SESSION_TTL_MS)) by (done || (cbn; lia)).
  f_equal. apply IH; [done|done|apply (holds_refreshed h (set_now (now e + d) e))].
Qed.
End Session.
