(* ===== verification/Metadata.v ===== *)
(** * Device metadata: packages/browser/src/metadata.ts

    The ambient globals the SDK reads, each of which may be missing outside a
    browser page, and the record built from them. *)

From S2P Require Import Prelude Decimal JsValue Json Types.

Record Navigator := { language : option jsstr; userAgent : option jsstr }.
Record Screen := { width : option dec; height : option dec }.
Record Window := { innerWidth : dec; innerHeight : dec; devicePixelRatio : option dec }.

(** [None]: the global is [undefined]. [resolvedTimeZone] is what
    [Intl.DateTimeFormat().resolvedOptions().timeZone] gives, or throws. *)
Record Ambient := {
  navigator : option Navigator;
  screen : option Screen;
  window : option Window;
  resolvedTimeZone : res (option jsstr)
}.

Definition collectClientMeta (a : Ambient) : ClientMeta.t :=
  let zero := dec_of_Z 0 in
  {| ClientMeta.screen_width := (s ← screen a; width s) ?? zero;
     ClientMeta.screen_height := (s ← screen a; height s) ?? zero;
     ClientMeta.viewport_width := (innerWidth <$> window a) ?? zero;
     ClientMeta.viewport_height := (innerHeight <$> window a) ?? zero;
     ClientMeta.device_pixel_ratio :=
       match window a with
       | Some w => devicePixelRatio w ?? dec_of_Z 1
       | None => dec_of_Z 1
       end;
     ClientMeta.language := (n ← navigator a; language n) ?? [];
     ClientMeta.timezone := catch ((fun z => z ?? []) <$> resolvedTimeZone a) [];
     ClientMeta.user_agent := (n ← navigator a; userAgent n) ?? [] |}.

(** Outside a page every field has its neutral value. *)
Lemma collect_nothing e :
  collectClientMeta {| navigator := None; screen := None; window := None;
                       resolvedTimeZone := Throw e |} =
  ClientMeta.mk (dec_of_Z 0) (dec_of_Z 0) (dec_of_Z 0) (dec_of_Z 0) (dec_of_Z 1) [] [] [].
Proof. reflexivity. Qed.
