(* ===== verification/Sdk.v ===== *)
(** * The recorder's state machine: packages/browser/src/index.ts

    The module-level variables are the record [Sdk]; the page it runs in (its
    configuration objects, recorders, timers, listeners, widgets and the requests
    it sent) is the rest of [St]. Every function of the file is a state
    transformer of the same name; [step] runs the one an input triggers. *)

From S2P Require Import Prelude Decimal JsValue Json Types Transport Session Metadata.

Definition FLUSH_INTERVAL_MS : Z := 5000.
Definition FLUSH_MAX_BYTES : Z := 500000.
Definition BUFFER_MS : Z := 120000.
Definition CHECKOUT_EVERY_NMS : Z := 30000.

(** ** State *)

(** The module variables. [_config] is a reference: the SDK keeps the host's own
    object, so it is an index into the heap of configuration objects. *)
Record Sdk := mkSdk {
  _config : option nat;
  _sessionId : jsval;
  _shareToken : jsval;
  _stopRecording : option nat;
  _unmountWidget : option nat;
  _initialized : bool;
  _clientMeta : option ClientMeta.t;
  _clientMetaSent : bool;
  _buffer : list RawEvent.t;
  _flushTimer : option nat;
  _segments : list (list RawEvent.t)
}.

Definition initial_sdk : Sdk :=
  mkSdk None JNull JNull None None false None false [] None [].

(** The options of one [record] call: the masking options, the checkout interval
    (absent in always mode) and the console plugins, each a list of levels. *)
Record PrivacyOptions := {
  maskAllInputs : bool;
  maskTextClass : option jsstr;
  maskTextSelector : option jsstr;
  blockClass : option jsstr;
  blockSelector : option jsstr;
  ignoreClass : option jsstr
}.

(** A running recorder: which [emit] closure it calls, with the closure's captured
    [config] and [firstSnapshot]. *)
Record Recorder := mkRecorder {
  r_mode : Mode;
  r_config : nat;
  r_firstSnapshot : bool;
  r_privacy : PrivacyOptions;
  r_checkoutEveryNms : option Z;
  r_plugins : list (list ConsoleLevel)
}.

(** The four (target, type, handler) triples the SDK registers. *)
Inductive Listener := OnVisibilityChange | OnBeforeUnload | OnWindowError | OnUnhandledRejection.

#[export] Instance Listener_eq_dec : EqDecision Listener.
Proof. solve_decision. Defined.
#[export] Instance Listener_countable : Countable Listener.
Proof.
  apply (inj_countable'
    (fun l => match l with
              | OnVisibilityChange => 0 | OnBeforeUnload => 1 | OnWindowError => 2
              | OnUnhandledRejection => 3 end)
    (fun n => match n with
              | 0 => OnVisibilityChange | 1 => OnBeforeUnload | 2 => OnWindowError
              | _ => OnUnhandledRejection end)).
  by intros [].
Defined.

Record WidgetOptions := { position : Position; color : jsstr; label : option jsstr }.

(** The arguments of one [sendBatch] call. *)
Record Sent := mkSent {
  s_endpoint : jsstr;
  s_apiKey : jsstr;
  s_payload : BatchPayload.t;
  s_keepalive : bool
}.

Definition request_of (r : Sent) : Request :=
  sendBatch (s_endpoint r) (s_apiKey r) (s_payload r) (s_keepalive r).

Record St := mkSt {
  sdk : Sdk;
  env : Env;
  heap : list BatRewindConfig.t;
  ambient : Ambient;
  has_body : bool;
  recorders : gmap nat Recorder;
  timers : gmap nat Z;
  listeners : gset Listener;
  widgets : gmap nat WidgetOptions;
  next_id : nat;
  network : list Sent
}.

Definition set_config (x : option nat) (k : Sdk) : Sdk :=
  mkSdk x (_sessionId k) (_shareToken k) (_stopRecording k) (_unmountWidget k) 
    (_initialized k) (_clientMeta k) (_clientMetaSent k) (_buffer k) (_flushTimer k) 
    (_segments k).
Definition set_sessionId (x : jsval) (k : Sdk) : Sdk :=
  mkSdk (_config k) x (_shareToken k) (_stopRecording k) (_unmountWidget k) 
    (_initialized k) (_clientMeta k) (_clientMetaSent k) (_buffer k) (_flushTimer k) 
    (_segments k).
Definition set_shareToken (x : jsval) (k : Sdk) : Sdk :=
  mkSdk (_config k) (_sessionId k) x (_stopRecording k) (_unmountWidget k) (_initialized k) 
    (_clientMeta k) (_clientMetaSent k) (_buffer k) (_flushTimer k) (_segments k).
Definition set_stopRecording (x : option nat) (k : Sdk) : Sdk :=
  mkSdk (_config k) (_sessionId k) (_shareToken k) x (_unmountWidget k) (_initialized k) 
    (_clientMeta k) (_clientMetaSent k) (_buffer k) (_flushTimer k) (_segments k).
Definition set_unmountWidget (x : option nat) (k : Sdk) : Sdk :=
  mkSdk (_config k) (_sessionId k) (_shareToken k) (_stopRecording k) x (_initialized k) 
    (_clientMeta k) (_clientMetaSent k) (_buffer k) (_flushTimer k) (_segments k).
Definition set_initialized (x : bool) (k : Sdk) : Sdk :=
  mkSdk (_config k) (_sessionId k) (_shareToken k) (_stopRecording k) (_unmountWidget k) x 
    (_clientMeta k) (_clientMetaSent k) (_buffer k) (_flushTimer k) (_segments k).
Definition set_clientMeta (x : option ClientMeta.t) (k : Sdk) : Sdk :=
  mkSdk (_config k) (_sessionId k) (_shareToken k) (_stopRecording k) (_unmountWidget k) 
    (_initialized k) x (_clientMetaSent k) (_buffer k) (_flushTimer k) (_segments k).
Definition set_clientMetaSent (x : bool) (k : Sdk) : Sdk :=
  mkSdk (_config k) (_sessionId k) (_shareToken k) (_stopRecording k) (_unmountWidget k) 
    (_initialized k) (_clientMeta k) x (_buffer k) (_flushTimer k) (_segments k).
Definition set_buffer (x : list RawEvent.t) (k : Sdk) : Sdk :=
  mkSdk (_config k) (_sessionId k) (_shareToken k) (_stopRecording k) (_unmountWidget k) 
    (_initialized k) (_clientMeta k) (_clientMetaSent k) x (_flushTimer k) (_segments k).
Definition set_flushTimer (x : option nat) (k : Sdk) : Sdk :=
  mkSdk (_config k) (_sessionId k) (_shareToken k) (_stopRecording k) (_unmountWidget k) 
    (_initialized k) (_clientMeta k) (_clientMetaSent k) (_buffer k) x (_segments k).
Definition set_segments (x : list (list RawEvent.t)) (k : Sdk) : Sdk :=
  mkSdk (_config k) (_sessionId k) (_shareToken k) (_stopRecording k) (_unmountWidget k) 
    (_initialized k) (_clientMeta k) (_clientMetaSent k) (_buffer k) (_flushTimer k) x.

Definition set_sdk (x : Sdk) (k : St) : St :=
  mkSt x (env k) (heap k) (ambient k) (has_body k) (recorders k) (timers k) (listeners k) 
    (widgets k) (next_id k) (network k).
Definition set_env (x : Env) (k : St) : St :=
  mkSt (sdk k) x (heap k) (ambient k) (has_body k) (recorders k) (timers k) (listeners k) 
    (widgets k) (next_id k) (network k).
Definition set_heap (x : list BatRewindConfig.t) (k : St) : St :=
  mkSt (sdk k) (env k) x (ambient k) (has_body k) (recorders k) (timers k) (listeners k) 
    (widgets k) (next_id k) (network k).
Definition set_ambient (x : Ambient) (k : St) : St :=
  mkSt (sdk k) (env k) (heap k) x (has_body k) (recorders k) (timers k) (listeners k) 
    (widgets k) (next_id k) (network k).
Definition set_has_body (x : bool) (k : St) : St :=
  mkSt (sdk k) (env k) (heap k) (ambient k) x (recorders k) (timers k) (listeners k) 
    (widgets k) (next_id k) (network k).
Definition set_recorders (x : gmap nat Recorder) (k : St) : St :=
  mkSt (sdk k) (env k) (heap k) (ambient k) (has_body k) x (timers k) (listeners k) 
    (widgets k) (next_id k) (network k).
Definition set_timers (x : gmap nat Z) (k : St) : St :=
  mkSt (sdk k) (env k) (heap k) (ambient k) (has_body k) (recorders k) x (listeners k) 
    (widgets k) (next_id k) (network k).
Definition set_listeners (x : gset Listener) (k : St) : St :=
  mkSt (sdk k) (env k) (heap k) (ambient k) (has_body k) (recorders k) (timers k) x 
    (widgets k) (next_id k) (network k).
Definition set_widgets (x : gmap nat WidgetOptions) (k : St) : St :=
  mkSt (sdk k) (env k) (heap k) (ambient k) (has_body k) (recorders k) (timers k) 
    (listeners k) x (next_id k) (network k).
Definition set_next_id (x : nat) (k : St) : St :=
  mkSt (sdk k) (env k) (heap k) (ambient k) (has_body k) (recorders k) (timers k) 
    (listeners k) (widgets k) x (network k).
Definition set_network (x : list Sent) (k : St) : St :=
  mkSt (sdk k) (env k) (heap k) (ambient k) (has_body k) (recorders k) (timers k) 
    (listeners k) (widgets k) (next_id k) x.

Definition on_sdk (f : Sdk -> Sdk) (s : St) : St := set_sdk (f (sdk s)) s.

(** The configuration [_config] refers to. *)
Definition cfg (s : St) : option BatRewindConfig.t := l ← _config (sdk s); heap s !! l.

Section Sdk.
Context `{JsonEngine} `{UuidSource}.

(** ** Uploading *)

(** [new TextEncoder().encode(JSON.stringify(buf)).length] *)
Definition bufferSize (buf : list RawEvent.t) : Z :=
  utf8_length (json_text (JArr (map RawEvent.to_json buf))).

Definition upload (events : list RawEvent.t) (trigger : Trigger) (keepalive : bool) (s : St) : St :=
  match cfg s with
  | None => s
  | Some c =>
    if negb (truthy (_sessionId (sdk s))) then s
    else
      let client := if negb (_clientMetaSent (sdk s)) then _clientMeta (sdk s) else None in
      let payload := {|
        BatchPayload.session_id := _sessionId (sdk s);
        BatchPayload.identifier :=
          match BatRewindConfig.identifier c with Some i => JStr i | None => _sessionId (sdk s) end;
        BatchPayload.service_name :=
          match BatRewindConfig.serviceName c with
          | Some n => n
          | None => BatRewindConfig.service c ?? js "web"
          end;
        BatchPayload.environment := BatRewindConfig.environment c ?? js "production";
        BatchPayload.bat_session_id := BatRewindConfig.batSessionId c;
        BatchPayload.trigger := trigger;
        BatchPayload.share_token := coalesce (_shareToken (sdk s)) JUndef;
        BatchPayload.client := client;
        BatchPayload.events := events |} in
      let s1 := set_network (network s ++
        [mkSent (BatRewindConfig.endpoint c) (BatRewindConfig.apiKey c) payload keepalive]) s in
      match client with
      | Some _ => on_sdk (set_clientMetaSent true) s1
      | None => s1
      end
  end.

Definition flush (force keepalive : bool) (s : St) : St :=
  match cfg s with
  | None => s
  | Some c =>
    if negb (truthy (_sessionId (sdk s))) then s
    else match _buffer (sdk s) with
    | [] => s
    | events =>
      if negb force && (bufferSize events <? BatRewindConfig.flushMaxBytes c ?? FLUSH_MAX_BYTES)%Z
      then s
      else upload events Stream keepalive (on_sdk (set_buffer []) s)
    end
  end.

(** The loop of [pruneSegments]. *)
Fixpoint prune (cutoff : Z) (segs : list (list RawEvent.t)) : list (list RawEvent.t) :=
  match segs with
  | _ :: ((next :: _) as rest) =>
    match next with
    | e :: _ => if (RawEvent.timestamp e <=? cutoff)%Z then prune cutoff rest else segs
    | [] => segs
    end
  | _ => segs
  end.

Definition pruneSegments (s : St) : St :=
  let bufferMs := (c ← cfg s; BatRewindConfig.bufferMs c) ?? BUFFER_MS in
  on_sdk (set_segments (prune (now (env s) - bufferMs) (_segments (sdk s)))) s.

Definition uploadBuffer (trigger : Trigger) (keepalive : bool) (s : St) : St :=
  match cfg s with
  | None => s
  | Some _ =>
    if negb (truthy (_sessionId (sdk s))) then s
    else match concat (_segments (sdk s)) with
    | [] => s
    | events => upload events trigger keepalive s
    end
  end.

(** [s.replace(/\/$/, '')]: one trailing slash. *)
Definition strip_slash (s : jsstr) : jsstr :=
  match reverse s with
  | c :: r => if (c =? 47)%N then reverse r else s
  | [] => s
  end.

Definition shareUrl (s : St) : res jsstr :=
  let base := strip_slash
    (match c ← cfg s; BatRewindConfig.shareBaseUrl c with
     | Some b => b
     | None => (BatRewindConfig.endpoint <$> cfg s) ?? []
     end) in
  token ← to_string (coalesce (_shareToken (sdk s)) (JStr []));
  Ok (base ++ js "/share/" ++ token).

Definition isBuffered (s : St) : bool :=
  bool_decide ((c ← cfg s; BatRewindConfig.mode c) ?? Buffered = Buffered).

(** ** Recorder options *)

Definition buildPlugins (config : BatRewindConfig.t) : list (list ConsoleLevel) :=
  match BatRewindConfig.captureConsole config with
  | None | Some (CaptureFlag false) => []
  | Some (CaptureFlag true) => [[LLog; LInfo; LWarn; LError]]
  | Some (CaptureLevels level) => [level]
  end.

Definition privacyOptions (config : BatRewindConfig.t) : PrivacyOptions := {|
  maskAllInputs := BatRewindConfig.maskInputs config ?? true;
  maskTextClass := BatRewindConfig.maskTextClass config;
  maskTextSelector := BatRewindConfig.maskTextSelector config;
  blockClass := BatRewindConfig.blockClass config;
  blockSelector := BatRewindConfig.blockSelector config;
  ignoreClass := BatRewindConfig.ignoreClass config
|}.

(** ** Page events *)

Definition onVisibilityChange (hidden : bool) (s : St) : St :=
  if hidden && negb (isBuffered s) then flush true true s else s.

Definition onBeforeUnload (s : St) : St := if negb (isBuffered s) then flush true true s else s.

Definition onError (s : St) : St :=
  match c ← cfg s; BatRewindConfig.captureOnError c with
  | Some false => s
  | _ => uploadBuffer OnErrorTrigger true s
  end.

(** ** The two [emit] callbacks *)

Definition emitBuffered (raw : RawEvent.t) (isCheckout : bool) (s : St) : St :=
  let segs := _segments (sdk s) in
  if isCheckout || bool_decide (segs = []) then
    pruneSegments (on_sdk (set_segments (segs ++ [[raw]])) s)
  else
    on_sdk (set_segments (alter (fun seg => seg ++ [raw]) (length segs - 1) segs)) s.

Definition emitAlways (rid : nat) (r : Recorder) (raw : RawEvent.t) (s : St) : St :=
  if (RawEvent.type raw =? 2)%Z && r_firstSnapshot r then
    let r' := mkRecorder (r_mode r) (r_config r) false (r_privacy r) (r_checkoutEveryNms r)
                         (r_plugins r) in
    upload [raw] Stream false (set_recorders (<[rid := r']> (recorders s)) s)
  else
    let s1 := on_sdk (set_buffer (_buffer (sdk s) ++ [raw])) s in
    let limit := (c ← heap s !! r_config r; BatRewindConfig.flushMaxBytes c) ?? FLUSH_MAX_BYTES in
    if (limit <=? bufferSize (_buffer (sdk s1)))%Z then flush true false s1 else s1.

(** A recorder that was stopped calls nothing. *)
Definition emit (rid : nat) (raw : RawEvent.t) (isCheckout : bool) (s : St) : St :=
  match recorders s !! rid with
  | None => s
  | Some r =>
    match r_mode r with
    | Buffered => emitBuffered raw isCheckout s
    | Always => emitAlways rid r raw s
    end
  end.

(** ** The public functions *)

Definition set_interval (period : Z) (s : St) : St * nat :=
  let t := next_id s in
  (set_next_id (S t) (set_timers (<[t := period]> (timers s)) s), t).

Definition add_listeners (l : list Listener) (s : St) : St :=
  set_listeners (list_to_set l ∪ listeners s) s.

(** [record(options)] from rrweb: the recorder runs, and its first events are
    emitted before the call returns. *)
Definition record (r : Recorder) (sync : list (RawEvent.t * bool)) (s : St) : St * nat :=
  let rid := next_id s in
  let s1 := set_next_id (S rid) (set_recorders (<[rid := r]> (recorders s)) s) in
  (fold_left (fun s e => emit rid e.1 e.2 s) sync s1, rid).

(** [mountWidget(options)] appends its host to [document.body]. *)
Definition mountWidget (o : WidgetOptions) (s : St) : St * res nat :=
  if has_body s then
    let w := next_id s in
    (set_next_id (S w) (set_widgets (<[w := o]> (widgets s)) s), Ok w)
  else (s, Throw TypeError).

Definition start_recording (loc : nat) (config : BatRewindConfig.t)
    (sync : list (RawEvent.t * bool)) (s : St) : St :=
  if isBuffered s then
    let r := mkRecorder Buffered loc false (privacyOptions config)
               (Some (BatRewindConfig.checkoutEveryNms config ?? CHECKOUT_EVERY_NMS))
               (buildPlugins config) in
    let '(s1, rid) := record r sync s in
    let s2 := on_sdk (set_stopRecording (Some rid)) s1 in
    match BatRewindConfig.captureOnError config with
    | Some false => s2
    | _ => add_listeners [OnWindowError; OnUnhandledRejection] s2
    end
  else
    let r := mkRecorder Always loc true (privacyOptions config) None (buildPlugins config) in
    let '(s1, rid) := record r sync s in
    let s2 := on_sdk (set_stopRecording (Some rid)) s1 in
    let '(s3, t) := set_interval (BatRewindConfig.flushIntervalMs config ?? FLUSH_INTERVAL_MS) s2 in
    let s4 := on_sdk (set_flushTimer (Some t)) s3 in
    add_listeners [OnVisibilityChange; OnBeforeUnload] s4.

Definition mount (config : BatRewindConfig.t) (s : St) : St * res unit :=
  match BatRewindConfig.showWidget config with
  | Some false => (s, Ok tt)
  | _ =>
    let o := {| position := BatRewindConfig.widgetPosition config ?? BottomRight;
                color := BatRewindConfig.widgetColor config ?? js "#818cf8";
                label := BatRewindConfig.widgetLabel config |} in
    match mountWidget o s with
    | (s1, Ok w) => (on_sdk (set_unmountWidget (Some w)) s1, Ok tt)
    | (s1, Throw e) => (s1, Throw e)
    end
  end.

(** The variables [init] sets once it has a session. *)
Definition adopt_session (config : BatRewindConfig.t) (h : SessionHandle) (s : St) : St :=
  on_sdk (fun k =>
    set_clientMetaSent false
      (set_clientMeta (match BatRewindConfig.captureClientMetadata config with
                       | Some false => None
                       | _ => Some (collectClientMeta (ambient s))
                       end)
        (set_shareToken (shareToken h) (set_sessionId (id h) k)))) s.

(** [init(config)], with [config] the object at [loc]; [sync] are the events rrweb
    emits before [record] returns. *)
Definition init (loc : nat) (sync : list (RawEvent.t * bool)) (s : St) : St * res unit :=
  if _initialized (sdk s) then (s, Ok tt)
  else
    match heap s !! loc with
    | None => (s, Throw TypeError)
    | Some config =>
      let s1 := on_sdk (fun k => set_config (Some loc) (set_initialized true k)) s in
      match getOrCreateSession (env s1) with
      | (e, Throw x) => (set_env e s1, Throw x)
      | (e, Ok h) =>
        mount config (start_recording loc config sync (adopt_session config h (set_env e s1)))
      end
    end.

(** [_config.identifier = identifier] writes the host's object. *)
Definition identify (identifier : jsstr) (s : St) : St :=
  match _config (sdk s) with
  | None => s
  | Some loc => set_heap (alter (BatRewindConfig.set_identifier identifier) loc (heap s)) s
  end.

Definition report (s : St) : St * res ReportResult.t :=
  let s1 := if isBuffered s then uploadBuffer Manual false s else flush true false s in
  (s1,
   u ← shareUrl s1;
   Ok (ReportResult.mk (coalesce (_sessionId (sdk s1)) (JStr []))
                       (coalesce (_shareToken (sdk s1)) (JStr [])) u)).

Definition delete_opt {A} (o : option nat) (m : gmap nat A) : gmap nat A :=
  match o with Some i => delete i m | None => m end.

(** The last eight assignments of [stop]: the three handles keep their values. *)
Definition reset (k : Sdk) : Sdk :=
  mkSdk None JNull JNull (_stopRecording k) (_unmountWidget k) false None false []
        (_flushTimer k) [].

Definition stop (s : St) : St :=
  let s1 := set_timers (delete_opt (_flushTimer (sdk s)) (timers s)) s in
  let s2 := set_recorders (delete_opt (_stopRecording (sdk s)) (recorders s1)) s1 in
  let s3 := set_widgets (delete_opt (_unmountWidget (sdk s)) (widgets s2)) s2 in
  let s4 := set_listeners (listeners s3 ∖
    {[OnVisibilityChange; OnBeforeUnload; OnWindowError; OnUnhandledRejection]}) s3 in
  let s5 := if negb (isBuffered s4) then flush true false s4 else s4 in
  on_sdk reset s5.

(** ** Inputs *)

Inductive input :=
  | HostConfig (c : BatRewindConfig.t)              (* the host builds a config object *)
  | HostInit (loc : nat) (sync : list (RawEvent.t * bool))
  | HostIdentify (identifier : jsstr)
  | HostReport
  | HostStop
  | Emit (rid : nat) (raw : RawEvent.t) (isCheckout : bool)
  | TimerFires (t : nat)
  | VisibilityChanges (hidden : bool)
  | Unload
  | UncaughtError
  | Rejection
  | WidgetClick (w : nat)
  | Wait (ms : N).

Definition on_listener (l : Listener) (f : St -> St) (s : St) : St :=
  if decide (l ∈ listeners s) then f s else s.

(** One input: the handler it reaches, if any is registered for it. *)
Definition step (i : input) (s : St) : St :=
  match i with
  | HostConfig c => set_heap (heap s ++ [c]) s
  | HostInit loc sync => (init loc sync s).1
  | HostIdentify x => identify x s
  | HostReport => (report s).1
  | HostStop => stop s
  | Emit rid raw chk => emit rid raw chk s
  | TimerFires t => match timers s !! t with Some _ => flush true false s | None => s end
  | VisibilityChanges hidden => on_listener OnVisibilityChange (onVisibilityChange hidden) s
  | Unload => on_listener OnBeforeUnload onBeforeUnload s
  | UncaughtError => on_listener OnWindowError onError s
  | Rejection => on_listener OnUnhandledRejection onError s
  | WidgetClick w => match widgets s !! w with Some _ => (report s).1 | None => s end
  | Wait ms => set_env (set_now (now (env s) + Z.of_N ms) (env s)) s
  end.

Fixpoint run (t : list input) (s : St) : St :=
  match t with [] => s | i :: r => run r (step i s) end.

(** The page before the script runs. *)
Definition page (e : Env) (a : Ambient) (body : bool) : St :=
  mkSt initial_sdk e [] a body ∅ ∅ ∅ ∅ 0 [].

Inductive reachable : St -> Prop :=
  | reachable_page e a body : reachable (page e a body)
  | reachable_step i s : reachable s -> reachable (step i s).

Lemma reachable_run t s : reachable s -> reachable (run t s).
Proof. revert s. induction t as [|i t IH]; intros s Hs; [done|]. by apply IH, reachable_step. Qed.

Lemma run_app t u s : run (t ++ u) s = run u (run t s).
Proof. revert s. induction t as [|i t IH]; intros s; [done|]. apply IH. Qed.
End Sdk.
