(* ===== verification/SdkInv.v ===== *)
(** * The recorder's state machine: frames and invariants

    [shell] is the part of the state that page events leave alone; [Inv] is what
    holds in every reachable state: who owns the active recorders, timers and
    widgets, which mode fills which buffer, and the bounds of both. *)

From S2P Require Import Prelude Decimal JsValue Json Types Transport Session Metadata Sdk.

(** ** Automation for record updates *)

Ltac sdk_simpl := cbn [
  sdk env heap ambient has_body recorders timers listeners widgets next_id network
  set_sdk set_env set_heap set_recorders set_timers set_listeners set_widgets set_next_id
  set_network on_sdk
  _config _sessionId _shareToken _stopRecording _unmountWidget _initialized _clientMeta
  _clientMetaSent _buffer _flushTimer _segments
  set_config set_sessionId set_shareToken set_stopRecording set_unmountWidget set_initialized
  set_clientMeta set_clientMetaSent set_buffer set_flushTimer set_segments ] in *.

(** ** Frames *)

Definition erase (r : Recorder) : Recorder :=
  mkRecorder (r_mode r) (r_config r) false (r_privacy r) (r_checkoutEveryNms r) (r_plugins r).

(** Everything but the buffers, the requests, [_clientMetaSent] and the recorders'
    [firstSnapshot]. *)
Definition shell (s : St) :=
  (_config (sdk s), _sessionId (sdk s), _shareToken (sdk s), _stopRecording (sdk s),
   _unmountWidget (sdk s), _initialized (sdk s), _clientMeta (sdk s), _flushTimer (sdk s),
   env s, heap s, (ambient s, has_body s, erase <$> recorders s, timers s, listeners s,
   widgets s, next_id s)).

Section frames.
Context `{JsonEngine} `{UuidSource}.

Lemma shell_cfg s s' : shell s = shell s' -> cfg s = cfg s'.
Proof. unfold shell, cfg. intros [= -> _ _ _ _ _ _ _ _ -> _ _ _ _ _ _ _]. done. Qed.

Lemma shell_isBuffered s s' : shell s = shell s' -> isBuffered s = isBuffered s'.
Proof. intros Hs. unfold isBuffered. by rewrite (shell_cfg _ _ Hs). Qed.

Lemma shell_recorder s s' rid r :
  shell s = shell s' -> recorders s' !! rid = Some r ->
  exists r0, recorders s !! rid = Some r0 /\ erase r0 = erase r.
Proof.
  unfold shell. intros [= _ _ _ _ _ _ _ _ _ _ _ _ Hr _ _ _ _] Hl.
  assert ((erase <$> recorders s) !! rid = Some (erase r)) as Hm
    by (by rewrite Hr, lookup_fmap, Hl).
  rewrite lookup_fmap in Hm. destruct (recorders s !! rid) as [r0|]; [|done].
  cbn in Hm. apply (inj Some) in Hm. eauto.
Qed.

(** The batch an upload sends from [s] with configuration [c]. *)
Definition batch (c : BatRewindConfig.t) (events : list RawEvent.t) (trigger : Trigger)
    (keepalive : bool) (s : St) : Sent :=
  mkSent (BatRewindConfig.endpoint c) (BatRewindConfig.apiKey c)
    {| BatchPayload.session_id := _sessionId (sdk s);
       BatchPayload.identifier :=
         match BatRewindConfig.identifier c with Some i => JStr i | None => _sessionId (sdk s) end;
       BatchPayload.service_name :=
         match BatRewindConfig.serviceName c with
         | Some n => n
         | None => BatRewindConfig.service c ?? js "web"
         end;
       BatchPayload.environment := BatRewindConfig.environment c ?? js "production";
       BatchPayload.bat_session_id := BatRewindConfig.batSessionId c;
       BatchPayload.trigger := trigger;
       BatchPayload.share_token := coalesce (_shareToken (sdk s)) JUndef;
       BatchPayload.client := if negb (_clientMetaSent (sdk s)) then _clientMeta (sdk s) else None;
       BatchPayload.events := events |} keepalive.

(** The SDK can send: it has a configuration and a session. *)
Definition live (c : BatRewindConfig.t) (s : St) : Prop :=
  cfg s = Some c /\ truthy (_sessionId (sdk s)) = true.

Lemma upload_live c events trigger ka s :
  live c s ->
  upload events trigger ka s =
  set_network (network s ++ [batch c events trigger ka s])
    (on_sdk (set_clientMetaSent
       (_clientMetaSent (sdk s) || bool_decide (is_Some (_clientMeta (sdk s))))) s).
Proof.
  intros [Hc Ht]. unfold upload. rewrite Hc, Ht. cbn [negb].
  destruct s as [k e h a b rs ts ls ws n net], k as [c' i t sr u ini m sent buf ft segs].
  sdk_simpl. destruct sent, m; reflexivity.
Qed.

Lemma shell_upload events trigger ka s : shell (upload events trigger ka s) = shell s.
Proof.
  unfold upload. destruct (cfg s); [|done].
  destruct (negb (truthy (_sessionId (sdk s)))); [done|].
  by destruct (negb (_clientMetaSent (sdk s))); [destruct (_clientMeta (sdk s)) eqn:E|].
Qed.

Lemma buffers_upload events trigger ka s :
  _buffer (sdk (upload events trigger ka s)) = _buffer (sdk s) /\
  _segments (sdk (upload events trigger ka s)) = _segments (sdk s) /\
  recorders (upload events trigger ka s) = recorders s.
Proof.
  unfold upload. destruct (cfg s); [|done].
  destruct (negb (truthy (_sessionId (sdk s)))); [done|].
  by destruct (negb (_clientMetaSent (sdk s))); [destruct (_clientMeta (sdk s)) eqn:E|].
Qed.

Lemma shell_flush force ka s : shell (flush force ka s) = shell s.
Proof.
  unfold flush. destruct (cfg s); [|done]. destruct (negb (truthy (_sessionId (sdk s)))); [done|].
  destruct (_buffer (sdk s)); [done|]. destruct (_ && _); [done|]. by rewrite shell_upload.
Qed.

Lemma recorders_flush force ka s : recorders (flush force ka s) = recorders s.
Proof.
  unfold flush. destruct (cfg s); [|done]. destruct (negb (truthy (_sessionId (sdk s)))); [done|].
  destruct (_buffer (sdk s)); [done|]. destruct (_ && _); [done|].
  by rewrite (proj2 (proj2 (buffers_upload _ _ _ _))).
Qed.

Lemma segments_flush force ka s : _segments (sdk (flush force ka s)) = _segments (sdk s).
Proof.
  unfold flush. destruct (cfg s); [|done]. destruct (negb (truthy (_sessionId (sdk s)))); [done|].
  destruct (_buffer (sdk s)); [done|]. destruct (_ && _); [done|].
  by rewrite (proj1 (proj2 (buffers_upload _ _ _ _))).
Qed.

(** What a forced flush does. *)
Lemma flush_live c ka s :
  live c s -> _buffer (sdk s) <> [] ->
  flush true ka s = upload (_buffer (sdk s)) Stream ka (on_sdk (set_buffer []) s).
Proof.
  intros [Hc Ht] Hb. unfold flush. rewrite Hc, Ht. cbn [negb andb].
  by destruct (_buffer (sdk s)).
Qed.

Lemma flush_empty force ka s : _buffer (sdk s) = [] -> flush force ka s = s.
Proof.
  intros Hb. unfold flush. rewrite Hb. destruct (cfg s); [|done].
  by destruct (negb (truthy (_sessionId (sdk s)))).
Qed.

Lemma buffer_flush_forced c ka s : live c s -> _buffer (sdk (flush true ka s)) = [].
Proof.
  intros Hl. destruct (_buffer (sdk s)) eqn:Hb; [by rewrite flush_empty|].
  rewrite (flush_live c) by (done || congruence).
  by rewrite (proj1 (buffers_upload _ _ _ _)).
Qed.

Lemma shell_uploadBuffer t ka s : shell (uploadBuffer t ka s) = shell s.
Proof.
  unfold uploadBuffer. destruct (cfg s); [|done].
  destruct (negb (truthy (_sessionId (sdk s)))); [done|].
  destruct (concat (_segments (sdk s))); [done|]. apply shell_upload.
Qed.

Lemma buffers_uploadBuffer t ka s :
  _buffer (sdk (uploadBuffer t ka s)) = _buffer (sdk s) /\
  _segments (sdk (uploadBuffer t ka s)) = _segments (sdk s) /\
  recorders (uploadBuffer t ka s) = recorders s.
Proof.
  unfold uploadBuffer. destruct (cfg s); [|done].
  destruct (negb (truthy (_sessionId (sdk s)))); [done|].
  destruct (concat (_segments (sdk s))); [done|]. apply buffers_upload.
Qed.

Lemma shell_emitBuffered raw chk s : shell (emitBuffered raw chk s) = shell s.
Proof. unfold emitBuffered. by destruct (chk || _). Qed.

Lemma erase_same_snapshot (rs : gmap nat Recorder) rid r b :
  rs !! rid = Some r ->
  erase <$> <[rid := mkRecorder (r_mode r) (r_config r) b (r_privacy r) (r_checkoutEveryNms r)
                      (r_plugins r)]> rs = erase <$> rs.
Proof.
  intros Hr. rewrite fmap_insert. apply insert_id. rewrite lookup_fmap, Hr. done.
Qed.

Lemma shell_emitAlways rid r raw s :
  recorders s !! rid = Some r -> shell (emitAlways rid r raw s) = shell s.
Proof.
  intros Hr. unfold emitAlways. destruct (_ && _).
  - rewrite shell_upload. unfold shell. sdk_simpl. by rewrite erase_same_snapshot.
  - destruct (_ <=? _)%Z; [by rewrite shell_flush|done].
Qed.

Lemma shell_emit rid raw chk s : shell (emit rid raw chk s) = shell s.
Proof.
  unfold emit. destruct (recorders s !! rid) as [r|] eqn:Hr; [|done].
  destruct (r_mode r); [apply shell_emitBuffered|by apply shell_emitAlways].
Qed.

Lemma shell_emits sync rid s : shell (fold_left (fun s e => emit rid e.1 e.2 s) sync s) = shell s.
Proof.
  revert s. induction sync as [|e sync IH]; intros s; [done|]. cbn. by rewrite IH, shell_emit.
Qed.
End frames.

(** ** Invariants *)

Section invariants.
Context `{JsonEngine} `{UuidSource}.

Definition mode_of (s : St) : Mode := (c ← cfg s; BatRewindConfig.mode c) ?? Buffered.
Definition max_bytes (s : St) : Z :=
  (c ← cfg s; BatRewindConfig.flushMaxBytes c) ?? FLUSH_MAX_BYTES.

Lemma isBuffered_mode s : isBuffered s = bool_decide (mode_of s = Buffered).
Proof. done. Qed.

(** The buffer a mode does not use is empty, no segment is, and the linear buffer is
    below the flush threshold. *)
Record BufOk (m : Mode) (limit : Z) (buf : list RawEvent.t) (segs : list (list RawEvent.t)) : Prop := {
  ok_buffered : m = Buffered -> buf = [];
  ok_always : m = Always -> segs = [];
  ok_nonempty : Forall (fun seg => seg <> []) segs;
  ok_bound : buf = [] \/ (bufferSize buf < limit)%Z
}.

(** A configuration in use exists, and each recorder was started from it. *)
Record ClosuresOk (s : St) : Prop := {
  closures_config : forall l, _config (sdk s) = Some l -> is_Some (heap s !! l);
  closures_rec : forall rid r, recorders s !! rid = Some r ->
    _config (sdk s) = Some (r_config r) /\ truthy (_sessionId (sdk s)) = true /\
    r_mode r = mode_of s
}.

(** Only the handles the module remembers are active, and none when it is idle. *)
Record Owned (s : St) : Prop := {
  own_rec : forall rid r, recorders s !! rid = Some r -> _stopRecording (sdk s) = Some rid;
  own_timer : forall t p, timers s !! t = Some p -> _flushTimer (sdk s) = Some t;
  own_widget : forall w o, widgets s !! w = Some o -> _unmountWidget (sdk s) = Some w;
  own_idle : _initialized (sdk s) = false ->
    _config (sdk s) = None /\ recorders s = ∅ /\ timers s = ∅ /\ listeners s = ∅ /\
    widgets s = ∅ /\ _buffer (sdk s) = [] /\ _segments (sdk s) = []
}.

Definition bufs_ok (s : St) : Prop :=
  BufOk (mode_of s) (max_bytes s) (_buffer (sdk s)) (_segments (sdk s)).

Record Inv (s : St) : Prop := {
  inv_bufs : bufs_ok s;
  inv_closures : ClosuresOk s;
  inv_owned : Owned s
}.

Lemma shell_mode_of s s' : shell s = shell s' -> mode_of s = mode_of s'.
Proof. intros Hs. unfold mode_of. by rewrite (shell_cfg _ _ Hs). Qed.

Lemma shell_max_bytes s s' : shell s = shell s' -> max_bytes s = max_bytes s'.
Proof. intros Hs. unfold max_bytes. by rewrite (shell_cfg _ _ Hs). Qed.

Lemma shell_closures s s' : shell s = shell s' -> ClosuresOk s -> ClosuresOk s'.
Proof.
  intros Hs [Hc Hr]. pose proof (shell_mode_of _ _ Hs) as Hm. pose proof Hs as Hs'.
  unfold shell in Hs'. injection Hs' as E1 E2 _ _ _ _ _ _ _ E3 _ _ _ _ _ _ _.
  split; rewrite <- ?E1, <- ?E3; [done|]. intros rid r Hl.
  destruct (shell_recorder _ _ _ _ Hs Hl) as (r0 & Hl0 & He).
  destruct (Hr _ _ Hl0) as (H1 & H2 & H3).
  destruct r, r0; unfold erase in He; cbn in *; simplify_eq. by rewrite <- E2, <- Hm.
Qed.

Lemma shell_dom_recorders s s' :
  shell s = shell s' -> recorders s = ∅ -> recorders s' = ∅.
Proof.
  intros Hs He. apply map_empty. intros i. destruct (recorders s' !! i) eqn:Hl; [|done].
  destruct (shell_recorder _ _ _ _ Hs Hl) as (r0 & Hl0 & _). by rewrite He in Hl0.
Qed.

Lemma shell_owned s s' :
  shell s = shell s' ->
  (_initialized (sdk s) = false -> _buffer (sdk s') = [] /\ _segments (sdk s') = []) ->
  Owned s -> Owned s'.
Proof.
  intros Hs Hb [Hr Ht Hw Hi]. pose proof Hs as Hs'. unfold shell in Hs'.
  injection Hs' as E1 _ _ E4 E5 E6 _ E8 _ _ _ _ _ E14 E15 E16 _.
  split; rewrite <- ?E1, <- ?E4, <- ?E5, <- ?E6, <- ?E8, <- ?E14, <- ?E15, <- ?E16; try done.
  - intros rid r Hl. destruct (shell_recorder _ _ _ _ Hs Hl) as (r0 & Hl0 & _). eauto.
  - intros Hf. destruct (Hi Hf) as (? & ? & ? & ? & ? & _). destruct (Hb Hf).
    split_and!; try done. by eapply shell_dom_recorders.
Qed.

(** ** The buffers under each operation *)

Lemma cfg_truthy_live s rid r :
  ClosuresOk s -> recorders s !! rid = Some r ->
  exists c, live c s /\ heap s !! r_config r = Some c.
Proof.
  intros [Hc Hr] Hl. destruct (Hr _ _ Hl) as (E & Ht & _). destruct (Hc _ E) as [c Hh].
  exists c. split; [|done]. split; [|done]. unfold cfg. rewrite E. cbn. by rewrite Hh.
Qed.

Lemma bufs_ok_upload events t ka s : bufs_ok s -> bufs_ok (upload events t ka s).
Proof.
  unfold bufs_ok. rewrite (shell_mode_of _ _ (shell_upload events t ka s)).
  rewrite (shell_max_bytes _ _ (shell_upload events t ka s)).
  destruct (buffers_upload events t ka s) as (-> & -> & _). done.
Qed.

Lemma flush_buffer_cases force ka s :
  _buffer (sdk (flush force ka s)) = _buffer (sdk s) \/ _buffer (sdk (flush force ka s)) = [].
Proof.
  unfold flush. destruct (cfg s); [|by left].
  destruct (negb (truthy (_sessionId (sdk s)))); [by left|].
  destruct (_buffer (sdk s)) eqn:E; [by left|]. destruct (_ && _); [by left|].
  right. by rewrite (proj1 (buffers_upload _ _ _ _)).
Qed.

Lemma bufs_ok_flush force ka s : bufs_ok s -> bufs_ok (flush force ka s).
Proof.
  unfold bufs_ok. rewrite (shell_mode_of _ _ (shell_flush force ka s)).
  rewrite (shell_max_bytes _ _ (shell_flush force ka s)), segments_flush.
  intros [H1 H2 H3 H4]. destruct (flush_buffer_cases force ka s) as [->| ->]; split; auto.
Qed.

Lemma bufs_ok_uploadBuffer t ka s : bufs_ok s -> bufs_ok (uploadBuffer t ka s).
Proof.
  unfold bufs_ok. rewrite (shell_mode_of _ _ (shell_uploadBuffer t ka s)).
  rewrite (shell_max_bytes _ _ (shell_uploadBuffer t ka s)).
  destruct (buffers_uploadBuffer t ka s) as (-> & -> & _). done.
Qed.

Lemma prune_cons cutoff seg e next rest :
  prune cutoff (seg :: (e :: next) :: rest) =
  if (RawEvent.timestamp e <=? cutoff)%Z then prune cutoff ((e :: next) :: rest)
  else seg :: (e :: next) :: rest.
Proof. reflexivity. Qed.

Lemma prune_suffix cutoff segs : exists k, prune cutoff segs = drop k segs.
Proof.
  induction segs as [|seg segs IH]; [by exists 0|]. destruct segs as [|next rest]; [by exists 0|].
  destruct next as [|e next]; [by exists 0|]. rewrite prune_cons.
  destruct (_ <=? _)%Z; [|by exists 0]. destruct IH as [k ->]. by exists (S k).
Qed.

Lemma Forall_prune (P : list RawEvent.t -> Prop) cutoff segs :
  Forall P segs -> Forall P (prune cutoff segs).
Proof. destruct (prune_suffix cutoff segs) as [k ->]. apply Forall_drop. Qed.

Lemma bufs_ok_emitBuffered raw chk s :
  mode_of s = Buffered -> bufs_ok s -> bufs_ok (emitBuffered raw chk s).
Proof.
  unfold bufs_ok. intros Hm. rewrite (shell_mode_of _ _ (shell_emitBuffered raw chk s)).
  rewrite (shell_max_bytes _ _ (shell_emitBuffered raw chk s)), Hm.
  intros [H1 H2 H3 H4]. unfold emitBuffered, pruneSegments.
  destruct (chk || _); sdk_simpl; split; auto; try done.
  - apply Forall_prune, Forall_app. split; [done|]. by constructor.
  - apply Forall_alter; [done|]. intros seg _ Hne Hnil. by destruct seg.
Qed.

Lemma bufs_ok_emitAlways rid r raw s :
  ClosuresOk s -> recorders s !! rid = Some r -> r_mode r = Always -> bufs_ok s ->
  bufs_ok (emitAlways rid r raw s).
Proof.
  intros Hc Hr Hm Hb. destruct (cfg_truthy_live _ _ _ Hc Hr) as (c & Hl & Hh).
  assert (mode_of s = Always) as Hma
    by (destruct (closures_rec _ Hc _ _ Hr) as (_ & _ & ?); congruence).
  unfold emitAlways. destruct (_ && _); [apply bufs_ok_upload; exact Hb|].
  set (s1 := on_sdk (set_buffer (_buffer (sdk s) ++ [raw])) s).
  assert (max_bytes s1 = (c ← heap s !! r_config r; BatRewindConfig.flushMaxBytes c) ?? FLUSH_MAX_BYTES) as Hmax.
  { unfold max_bytes. change (cfg s1) with (cfg s). destruct Hl as [-> _]. by rewrite Hh. }
  assert (live c s1) as Hl1 by done. assert (mode_of s1 = Always) as Hm1 by done.
  rewrite <- Hmax. destruct Hb as [_ H2 H3 _].
  destruct (max_bytes s1 <=? _)%Z eqn:E.
  - unfold bufs_ok. rewrite (shell_mode_of _ _ (shell_flush true false s1)), Hm1.
    rewrite segments_flush, (buffer_flush_forced c) by done.
    split; [done|intros _; by apply H2|exact H3|by left].
  - unfold bufs_ok. rewrite Hm1.
    split; [done|intros _; by apply H2|exact H3|right; bool_lia].
Qed.

Lemma bufs_ok_emit rid raw chk s : ClosuresOk s -> bufs_ok s -> bufs_ok (emit rid raw chk s).
Proof.
  intros Hc Hb. unfold emit. destruct (recorders s !! rid) as [r|] eqn:Hr; [|done].
  destruct (closures_rec _ Hc _ _ Hr) as (_ & _ & Hm).
  destruct (r_mode r) eqn:E; [by apply bufs_ok_emitBuffered|by apply bufs_ok_emitAlways].
Qed.

Lemma emits_ok rid sync s :
  ClosuresOk s -> bufs_ok s ->
  let s' := fold_left (fun s e => emit rid e.1 e.2 s) sync s in ClosuresOk s' /\ bufs_ok s'.
Proof.
  revert s. induction sync as [|e sync IH]; intros s Hc Hb; [done|]. cbn.
  apply IH; [|by apply bufs_ok_emit].
  eapply shell_closures; [|exact Hc]. by rewrite shell_emit.
Qed.

(** ** Every input keeps the invariant *)

Lemma inv_shell s s' :
  Inv s -> shell s' = shell s -> bufs_ok s' ->
  (_initialized (sdk s) = false -> _buffer (sdk s') = [] /\ _segments (sdk s') = []) -> Inv s'.
Proof.
  intros [Hb Hc Ho] Hs Hb' Hi. symmetry in Hs. split; [done|by eapply shell_closures|].
  by eapply shell_owned.
Qed.

Lemma inv_flush force ka s : Inv s -> Inv (flush force ka s).
Proof.
  intros HI. pose proof HI as [Hb Hc Ho].
  apply (inv_shell s); [done|apply shell_flush|by apply bufs_ok_flush|].
  intros Hi. destruct (own_idle _ Ho Hi) as (_ & _ & _ & _ & _ & Hbuf & Hseg).
  by rewrite flush_empty.
Qed.

Lemma inv_uploadBuffer t ka s : Inv s -> Inv (uploadBuffer t ka s).
Proof.
  intros HI. pose proof HI as [Hb Hc Ho].
  apply (inv_shell s); [done|apply shell_uploadBuffer|by apply bufs_ok_uploadBuffer|].
  intros Hi. destruct (own_idle _ Ho Hi) as (_ & _ & _ & _ & _ & Hbuf & Hseg).
  by destruct (buffers_uploadBuffer t ka s) as (-> & -> & _).
Qed.

Lemma inv_emit rid raw chk s : Inv s -> Inv (emit rid raw chk s).
Proof.
  intros HI. pose proof HI as [Hb Hc Ho].
  apply (inv_shell s); [done|apply shell_emit|by apply bufs_ok_emit|].
  intros Hi. destruct (own_idle _ Ho Hi) as (_ & Hr & _ & _ & _ & Hbuf & Hseg).
  unfold emit. by rewrite Hr.
Qed.

Lemma inv_report s : Inv s -> Inv (report s).1.
Proof.
  intros HI. unfold report. cbn [fst]. destruct (isBuffered s).
  - by apply inv_uploadBuffer.
  - by apply inv_flush.
Qed.

Lemma inv_identify i s : Inv s -> Inv (identify i s).
Proof.
  intros HI. pose proof HI as [Hb [Hc Hr] Ho]. unfold identify. destruct (_config (sdk s)) as [l|] eqn:E; [|done].
  destruct (Hc l) as [c Hh]; [done|].
  set (s' := set_heap _ s).
  assert (cfg s' = BatRewindConfig.set_identifier i <$> cfg s) as Hcfg.
  { unfold cfg. subst s'. sdk_simpl. rewrite E. cbn. by rewrite list_lookup_alter_eq, Hh. }
  assert (cfg s = Some c) as Hcs by (unfold cfg; rewrite E; cbn; by rewrite Hh).
  assert (mode_of s' = mode_of s) as Hm by (unfold mode_of; rewrite Hcfg, Hcs; done).
  assert (max_bytes s' = max_bytes s) as HM by (unfold max_bytes; rewrite Hcfg, Hcs; done).
  split.
  - unfold bufs_ok. rewrite Hm, HM. done.
  - split; subst s'; sdk_simpl.
    + intros l' Hl'. simplify_eq. rewrite list_lookup_alter_eq, Hh. by eexists.
    + intros rid r Hl. destruct (Hr _ _ Hl) as (? & ? & ?). rewrite Hm. split_and!; congruence.
  - by destruct Ho as [H1 H2 H3 H4]; split.
Qed.

Lemma inv_host_config c s : Inv s -> Inv (set_heap (heap s ++ [c]) s).
Proof.
  intros [Hb [Hc Hr] Ho]. set (s' := set_heap _ s).
  assert (cfg s' = cfg s) as Hcfg.
  { unfold cfg, s'. sdk_simpl. destruct (_config (sdk s)) as [l|] eqn:E; [|done]. cbn.
    destruct (Hc l eq_refl) as [c' Hh]. rewrite Hh. by apply lookup_app_l_Some. }
  split.
  - unfold bufs_ok, mode_of, max_bytes. rewrite Hcfg. exact Hb.
  - split.
    + intros l Hl. destruct (Hc l Hl) as [c' Hh]. exists c'. by apply lookup_app_l_Some.
    + intros rid r Hl. unfold mode_of. rewrite Hcfg. exact (Hr rid r Hl).
  - by destruct Ho as [H1 H2 H3 H4]; split.
Qed.

(** After [stop]: nothing is active and the variables are reset. *)
Lemma delete_opt_empty {A} (o : option nat) (m : gmap nat A) :
  (forall i x, m !! i = Some x -> o = Some i) -> delete_opt o m = ∅.
Proof.
  intros Hm. apply map_empty. intros i. destruct o as [j|]; cbn.
  - rewrite lookup_delete. case_decide; [done|].
    destruct (m !! i) eqn:E; [|done]. apply Hm in E. congruence.
  - destruct (m !! i) eqn:E; [|done]. by apply Hm in E.
Qed.

Lemma all_listeners (X : gset Listener) :
  X ∖ {[OnVisibilityChange; OnBeforeUnload; OnWindowError; OnUnhandledRejection]} = ∅.
Proof. apply set_eq. intros l. destruct l; set_solver. Qed.

(** The page part of [stop]: its handlers, recorders, timers and widget are gone. *)
Definition unhooked (s : St) : St :=
  mkSt (sdk s) (env s) (heap s) (ambient s) (has_body s) ∅ ∅ ∅ ∅ (next_id s) (network s).

Lemma stop_unhooked s :
  Owned s ->
  stop s = on_sdk reset (if negb (isBuffered s) then flush true false (unhooked s) else unhooked s).
Proof.
  intros [Hr Ht Hw _]. unfold stop. sdk_simpl.
  rewrite (delete_opt_empty _ _ Ht), (delete_opt_empty _ _ Hr), (delete_opt_empty _ _ Hw).
  rewrite all_listeners. reflexivity.
Qed.

Lemma shell_stop_body s :
  shell (if negb (isBuffered s) then flush true false (unhooked s) else unhooked s)
  = shell (unhooked s).
Proof. destruct (isBuffered s); [done|apply shell_flush]. Qed.

Lemma stop_clean s :
  Owned s ->
  sdk (stop s) = reset (sdk s) /\ recorders (stop s) = ∅ /\ timers (stop s) = ∅ /\
  listeners (stop s) = ∅ /\ widgets (stop s) = ∅ /\ env (stop s) = env s /\ heap (stop s) = heap s.
Proof.
  intros Ho. rewrite stop_unhooked by done. pose proof (shell_stop_body s) as Hs.
  set (s' := if negb (isBuffered s) then _ else _) in *.
  pose proof (shell_dom_recorders (unhooked s) s' (eq_sym Hs) eq_refl) as Hr.
  unfold shell in Hs. injection Hs as E1 E2 E3 E4 E5 E6 E7 E8 E9 E10 _ _ _ E14 E15 E16 _.
  unfold on_sdk. sdk_simpl. split_and!; try done. unfold reset. by rewrite E4, E5, E8.
Qed.

Lemma inv_stop s : Inv s -> Inv (stop s).
Proof.
  intros [Hb Hc Ho]. destruct (stop_clean s Ho) as (Hk & Hr & Ht & Hl & Hw & He & Hh).
  assert (cfg (stop s) = None) as Hcfg by (unfold cfg; by rewrite Hk).
  split.
  - unfold bufs_ok. rewrite Hk. by split; [| | |left].
  - split; [by rewrite Hk|]. intros rid r. by rewrite Hr.
  - split; rewrite ?Hr, ?Ht, ?Hw, ?Hl, ?Hk; done.
Qed.

(** ** [init] *)

(** A state [init] hands to the recorder: a live configuration and nothing active. *)
Record Ready (loc : nat) (config : BatRewindConfig.t) (s : St) : Prop := {
  ready_bufs : bufs_ok s;
  ready_init : _initialized (sdk s) = true;
  ready_config : _config (sdk s) = Some loc;
  ready_heap : heap s !! loc = Some config;
  ready_session : truthy (_sessionId (sdk s)) = true;
  ready_recorders : recorders s = ∅;
  ready_timers : timers s = ∅;
  ready_widgets : widgets s = ∅
}.

Lemma ready_cfg loc config s : Ready loc config s -> cfg s = Some config.
Proof. intros Hr. unfold cfg. rewrite (ready_config _ _ _ Hr). cbn. apply Hr. Qed.

(** [record] on a ready state: the closures are sound and the only recorder is the new one. *)
Lemma record_ok loc config s r sync s1 rid :
  Ready loc config s -> r_config r = loc -> r_mode r = mode_of s ->
  record r sync s = (s1, rid) ->
  shell s1 = shell (set_next_id (S rid) (set_recorders {[rid := r]} s)) /\ rid = next_id s /\
  ClosuresOk s1 /\ bufs_ok s1 /\ (forall i r', recorders s1 !! i = Some r' -> i = rid).
Proof.
  intros Hr Hc Hm. unfold record. rewrite (ready_recorders _ _ _ Hr), insert_empty.
  set (s0 := set_next_id _ _). intros [= <- <-].
  assert (ClosuresOk s0) as Hc0.
  { split; subst s0; sdk_simpl.
    - intros l Hl. rewrite (ready_config _ _ _ Hr) in Hl. injection Hl as <-.
      by rewrite (ready_heap _ _ _ Hr).
    - intros i r' [-> <-]%lookup_singleton_Some.
      split_and!; [by rewrite Hc; apply Hr|apply Hr|exact Hm]. }
  pose proof (shell_emits sync (next_id s) s0) as Hs.
  destruct (emits_ok (next_id s) sync s0 Hc0 (ready_bufs _ _ _ Hr)) as [Hc1 Hb1].
  split_and!; [exact Hs|done|exact Hc1|exact Hb1|].
  intros i r' Hi. destruct (shell_recorder _ _ _ _ (eq_sym Hs) Hi) as (r0 & Hl & _).
  subst s0. sdk_simpl. by apply lookup_singleton_Some in Hl as [-> _].
Qed.

(** Setting the handle of the new recorder makes the state owned. *)
Lemma recording_inv loc config s r sync s1 rid :
  Ready loc config s -> r_config r = loc -> r_mode r = mode_of s ->
  record r sync s = (s1, rid) ->
  Inv (on_sdk (set_stopRecording (Some rid)) s1) /\ widgets s1 = ∅ /\ timers s1 = ∅ /\
  _initialized (sdk s1) = true.
Proof.
  intros Hr Hc Hm Hrec.
  destruct (record_ok _ _ _ _ _ _ _ Hr Hc Hm Hrec) as (Hs & _ & Hc1 & Hb1 & Hu).
  unfold shell in Hs. injection Hs as _ _ _ _ _ E6 _ _ _ _ _ _ _ E14 _ E16 _. sdk_simpl.
  rewrite (ready_init _ _ _ Hr) in E6. rewrite (ready_timers _ _ _ Hr) in E14.
  rewrite (ready_widgets _ _ _ Hr) in E16.
  split_and!; try done. split; [exact Hb1|by destruct Hc1|].
  split; sdk_simpl; rewrite ?E14, ?E16, ?E6; try done.
  intros i r' Hi. by rewrite (Hu _ _ Hi).
Qed.

Lemma inv_add_listeners l s : Inv s -> _initialized (sdk s) = true -> Inv (add_listeners l s).
Proof.
  intros [Hb [Hc1 Hc2] [H1 H2 H3 H4]] Hi. split; [exact Hb|by split|].
  split; [exact H1|exact H2|exact H3|]. unfold add_listeners. sdk_simpl. congruence.
Qed.

Lemma start_recording_inv loc config sync s :
  Ready loc config s ->
  Inv (start_recording loc config sync s) /\ widgets (start_recording loc config sync s) = ∅ /\
  _initialized (sdk (start_recording loc config sync s)) = true.
Proof.
  intros Hr. unfold start_recording. rewrite isBuffered_mode.
  destruct (decide (mode_of s = Buffered)) as [Hm|Hm].
  - rewrite bool_decide_true by done.
    set (r := mkRecorder _ _ _ _ _ _). destruct (record r sync s) as [s1 rid] eqn:Hrec.
    destruct (recording_inv _ _ _ r _ _ _ Hr eq_refl (eq_sym Hm) Hrec) as (HI & Hw & Ht & Hi).
    destruct (BatRewindConfig.captureOnError config) as [[|]|];
      split_and!; try done; by apply inv_add_listeners.
  - rewrite bool_decide_false by done.
    set (r := mkRecorder _ _ _ _ _ _). destruct (record r sync s) as [s1 rid] eqn:Hrec.
    assert (r_mode r = mode_of s) as Hm' by (subst r; cbn; by destruct (mode_of s)).
    destruct (recording_inv _ _ _ r _ _ _ Hr eq_refl Hm' Hrec) as (HI & Hw & Ht & Hi).
    unfold set_interval. split_and!; try done. apply inv_add_listeners; [|done].
    sdk_simpl. rewrite Ht, insert_empty. destruct HI as [Hb [Hc1 Hc2] [H1 H2 H3 H4]].
    split; [exact Hb|by split|]. split; sdk_simpl; [exact H1| |exact H3|congruence].
    intros t p [-> _]%lookup_singleton_Some. done.
Qed.

Lemma mount_inv config s :
  Inv s -> widgets s = ∅ -> _initialized (sdk s) = true -> Inv (mount config s).1.
Proof.
  intros HI Hw Hi. unfold mount, mountWidget.
  destruct (BatRewindConfig.showWidget config) as [[|]|]; try done; destruct (has_body s); try done;
    cbn [fst]; rewrite Hw, insert_empty; destruct HI as [Hb [Hc1 Hc2] [H1 H2 H3 H4]];
    (split; [exact Hb|by split|]); (split; sdk_simpl; [exact H1|exact H2| |congruence]);
    by intros w o [-> _]%lookup_singleton_Some.
Qed.

(** The state in which [init] has adopted its session. *)
Lemma adopt_ready loc config e h s :
  Inv s -> _initialized (sdk s) = false -> heap s !! loc = Some config ->
  truthy (id h) = true ->
  Ready loc config (adopt_session config h
    (set_env e (on_sdk (fun k => set_config (Some loc) (set_initialized true k)) s))).
Proof.
  intros [Hb Hc Ho] Hi Hh Hid. destruct (own_idle _ Ho Hi) as (Hcf & Hr & Ht & Hl & Hw & Hbuf & Hseg).
  split; unfold adopt_session; sdk_simpl; try done.
  unfold bufs_ok. sdk_simpl. rewrite Hbuf, Hseg. by split; [| | |left].
Qed.

Lemma inv_init loc sync s : Inv s -> Inv (init loc sync s).1.
Proof.
  intros HI. unfold init. destruct (_initialized (sdk s)) eqn:Hi; [done|].
  destruct (heap s !! loc) as [config|] eqn:Hh; [|done].
  set (s1 := on_sdk _ s).
  destruct (getOrCreateSession (env s1)) as [e [h|x]] eqn:He.
  - destruct (getOrCreate_truthy _ _ _ He) as [Hid _].
    pose proof (adopt_ready loc config e h s HI Hi Hh Hid) as Hready.
    destruct (start_recording_inv loc config sync _ Hready) as (HI2 & Hw & Hi2).
    by apply mount_inv.
  - destruct HI as [Hb Hc Ho].
    destruct (own_idle _ Ho Hi) as (Hcf & Hr & Ht & Hl & Hw & Hbuf & Hseg).
    cbn [fst]. split.
    + unfold bufs_ok. subst s1. sdk_simpl. rewrite Hbuf, Hseg. by split; [| | |left].
    + split; subst s1; sdk_simpl; [|by rewrite Hr]. intros l [= <-]. by rewrite Hh.
    + split; subst s1; sdk_simpl; rewrite ?Hr, ?Ht, ?Hw; done.
Qed.

Lemma inv_page e a body : Inv (page e a body).
Proof. split; [by split; [| | |left]|by split|by split]. Qed.

Lemma inv_step i s : Inv s -> Inv (step i s).
Proof.
  intros HI. destruct i; cbn [step]; unfold on_listener, onVisibilityChange, onBeforeUnload, onError;
    repeat case_match; auto using inv_host_config, inv_init, inv_identify, inv_report, inv_stop,
      inv_emit, inv_flush, inv_uploadBuffer.
  destruct HI as [Hb [Hc1 Hc2] [H1 H2 H3 H4]]. by split; [exact Hb|split|split].
Qed.

Lemma reachable_inv s : reachable s -> Inv s.
Proof. induction 1; [apply inv_page|by apply inv_step]. Qed.

Lemma inv_run t s : Inv s -> Inv (run t s).
Proof. revert s. induction t as [|i t IH]; intros s HI; [done|]. by apply IH, inv_step. Qed.
End invariants.

#[export] Hint Resolve reachable_inv inv_run inv_step : batdb.
