(* ===== verification/SdkProps.v ===== *)
(** * What the recorder sends and when

    Each input sends at most one batch, built from the session the SDK is in
    ([step_sends]). From that: silence while stopped or while buffering, no event
    lost or duplicated while streaming, one copy of the device metadata. *)

From S2P Require Import Prelude Decimal JsValue Json Types Transport Session Metadata.
From S2P Require Import Sdk SdkInv.

Section props.
Context `{JsonEngine} `{UuidSource}.

(** ** One input, at most one batch *)

Inductive Sends (s s' : St) : list Sent -> Prop :=
  | sends_none :
    network s' = network s -> _clientMetaSent (sdk s') = _clientMetaSent (sdk s) -> Sends s s' []
  | sends_one c events trigger ka :
    live c s -> events <> [] ->
    network s' = network s ++ [batch c events trigger ka s] ->
    _clientMetaSent (sdk s') =
      (_clientMetaSent (sdk s) || bool_decide (is_Some (_clientMeta (sdk s)))) ->
    Sends s s' [batch c events trigger ka s].

Lemma sends_network s s' l : Sends s s' l -> network s' = network s ++ l.
Proof. destruct 1; by rewrite ?app_nil_r. Qed.

Lemma sends_refl s : Sends s s [].
Proof. by constructor. Qed.

(** An upload from a state that differs from [s] in its buffers or recorders only. *)
Lemma sends_upload events t ka s s0 :
  events <> [] ->
  network s0 = network s -> _clientMetaSent (sdk s0) = _clientMetaSent (sdk s) ->
  shell s0 = shell s -> exists l, Sends s (upload events t ka s0) l.
Proof.
  intros Hne Hn Hm Hs. pose proof (shell_cfg _ _ Hs) as Hc. pose proof Hs as Hs'.
  unfold shell in Hs'. injection Hs' as _ E2 E3 _ _ _ E7 _ _ _ _ _ _ _ _ _ _.
  destruct (cfg s0) as [c|] eqn:Ec.
  - destruct (truthy (_sessionId (sdk s0))) eqn:Et.
    + rewrite (upload_live c) by done. exists [batch c events t ka s].
      econstructor; [|done| |]; unfold on_sdk; sdk_simpl.
      * split; congruence.
      * unfold batch. by rewrite Hn, E2, E3, E7, Hm.
      * by rewrite Hm, E7.
    + exists []. unfold upload. rewrite Ec, Et. by constructor.
  - exists []. unfold upload. rewrite Ec. by constructor.
Qed.

Lemma flush_sends force ka s : exists l, Sends s (flush force ka s) l.
Proof.
  unfold flush. destruct (cfg s); [|eauto using sends_refl].
  destruct (negb (truthy (_sessionId (sdk s)))); [eauto using sends_refl|].
  destruct (_buffer (sdk s)); [eauto using sends_refl|].
  destruct (_ && _); [eauto using sends_refl|]. by apply sends_upload.
Qed.

Lemma uploadBuffer_sends t ka s : exists l, Sends s (uploadBuffer t ka s) l.
Proof.
  unfold uploadBuffer. destruct (cfg s); [|eauto using sends_refl].
  destruct (negb (truthy (_sessionId (sdk s)))); [eauto using sends_refl|].
  destruct (concat (_segments (sdk s))); [eauto using sends_refl|]. by apply sends_upload.
Qed.

Lemma report_sends s : exists l, Sends s (report s).1 l.
Proof.
  unfold report. cbn [fst].
  destruct (isBuffered s); [apply uploadBuffer_sends|apply flush_sends].
Qed.

(** Sending from a state that only got one more buffered event. *)
Lemma sends_from s s0 s' l :
  network s0 = network s -> _clientMetaSent (sdk s0) = _clientMetaSent (sdk s) ->
  shell s0 = shell s -> Sends s0 s' l -> Sends s s' l.
Proof.
  intros Hn Hm Hs. pose proof (shell_cfg _ _ Hs) as Hc.
  unfold shell in Hs. injection Hs as _ E2 E3 _ _ _ E7 _ _ _ _ _ _ _ _ _ _.
  destruct 1 as [Hn' Hm'|c events t ka [Hl1 Hl2] Hne Hn' Hm'].
  - constructor; congruence.
  - assert (batch c events t ka s0 = batch c events t ka s) as Hb
      by (unfold batch; by rewrite E2, E3, E7, Hm).
    rewrite Hb in Hn' |- *. constructor; [by split; congruence|done|by rewrite Hn', Hn|by rewrite Hm', Hm, E7].
Qed.

Lemma emit_sends rid raw chk s : exists l, Sends s (emit rid raw chk s) l.
Proof.
  unfold emit. destruct (recorders s !! rid) as [r|] eqn:Hr; [|eauto using sends_refl].
  destruct (r_mode r).
  - exists []. unfold emitBuffered, pruneSegments. destruct (chk || _); by apply sends_none.
  - unfold emitAlways. destruct (_ && _).
    + apply sends_upload; try done. unfold shell. sdk_simpl. by rewrite erase_same_snapshot.
    + destruct (_ <=? _)%Z.
      * destruct (flush_sends true false (on_sdk (set_buffer (_buffer (sdk s) ++ [raw])) s)) as [l Hl].
        exists l. by eapply sends_from; [..|exact Hl].
      * exists []. by apply sends_none.
Qed.

(** Inputs other than starting and stopping. *)
Definition quiet (i : input) : bool :=
  match i with HostInit _ _ | HostStop => false | _ => true end.

Lemma step_sends i s : quiet i = true -> exists l, Sends s (step i s) l.
Proof.
  destruct i; try done; intros _; cbn [step];
    unfold on_listener, onVisibilityChange, onBeforeUnload, onError; repeat case_match;
    eauto using sends_refl, report_sends, emit_sends, flush_sends, uploadBuffer_sends.
  - exists []. by apply sends_none.
  - unfold identify. destruct (_config (sdk s)); exists []; by apply sends_none.
  - exists []. by apply sends_none.
Qed.

(** ** What quiet inputs leave alone *)

(** The variables [init] sets once. *)
Definition ids (s : St) :=
  (_config (sdk s), _sessionId (sdk s), _shareToken (sdk s), _clientMeta (sdk s),
   _initialized (sdk s)).

Lemma shell_ids s s' : shell s' = shell s -> ids s' = ids s.
Proof. unfold shell, ids. intros [= -> -> -> _ _ -> -> _ _ _ _ _ _ _ _ _ _]. done. Qed.

Lemma shell_report s : shell (report s).1 = shell s.
Proof.
  unfold report. cbn [fst]. destruct (isBuffered s); [apply shell_uploadBuffer|apply shell_flush].
Qed.

(** A quiet input either leaves the shell alone or is one of three trivial ones. *)
Lemma step_shell i s :
  quiet i = true ->
  shell (step i s) = shell s \/ (exists c, i = HostConfig c) \/
  (exists x, i = HostIdentify x) \/ (exists d, i = Wait d).
Proof.
  destruct i; try done; intros _; eauto; left; cbn [step];
    unfold on_listener, onVisibilityChange, onBeforeUnload, onError; repeat case_match;
    auto using shell_report, shell_emit, shell_flush, shell_uploadBuffer.
Qed.

Lemma quiet_ids i s : quiet i = true -> ids (step i s) = ids s.
Proof.
  intros Hq. destruct (step_shell i s Hq) as [Hs|[[c ->]|[[x ->]|[d ->]]]]; try done.
  - by apply shell_ids.
  - cbn [step]. unfold identify. by destruct (_config (sdk s)) eqn:E.
Qed.

(** The configuration in use, its identifier aside. *)
Definition fixed_cfg (s : St) : option BatRewindConfig.t :=
  BatRewindConfig.set_identifier [] <$> cfg s.

Lemma quiet_cfg i s : Inv s -> quiet i = true -> fixed_cfg (step i s) = fixed_cfg s.
Proof.
  intros HI Hq. destruct (step_shell i s Hq) as [Hs|[[c ->]|[[x ->]|[d ->]]]].
  - unfold fixed_cfg. by rewrite (shell_cfg _ _ Hs).
  - unfold fixed_cfg, cfg. cbn [step]. sdk_simpl.
    destruct (_config (sdk s)) as [l|] eqn:E; [|done]. cbn.
    destruct (closures_config _ (inv_closures _ HI) l E) as [c' Hh]. rewrite Hh.
    by rewrite (lookup_app_l_Some _ _ _ _ Hh).
  - unfold fixed_cfg, cfg. cbn [step]. unfold identify.
    destruct (_config (sdk s)) as [l|] eqn:E; [|by rewrite E]. sdk_simpl. rewrite E. cbn.
    rewrite list_lookup_alter_eq. by destruct (heap s !! l).
  - done.
Qed.

(** The identifier is the only field [identify] touches. *)
Lemma cfg_field {A} (f : BatRewindConfig.t -> A) s s' :
  (forall x c, f (BatRewindConfig.set_identifier x c) = f c) ->
  fixed_cfg s' = fixed_cfg s -> f <$> cfg s' = f <$> cfg s.
Proof.
  intros Hf Hc. assert (forall x, f <$> cfg x = f <$> fixed_cfg x) as Hx.
  { intros x. unfold fixed_cfg. destruct (cfg x); cbn; by rewrite ?Hf. }
  by rewrite !Hx, Hc.
Qed.

Lemma mode_of_fmap s : mode_of s = (c ← (BatRewindConfig.mode <$> cfg s); c) ?? Buffered.
Proof. unfold mode_of. by destruct (cfg s). Qed.

Lemma fixed_cfg_mode s s' : fixed_cfg s' = fixed_cfg s -> mode_of s' = mode_of s.
Proof. intros Hc. rewrite !mode_of_fmap. by rewrite (cfg_field BatRewindConfig.mode s s'). Qed.

(** ** Runs *)

Lemma run_quiet_inv t s :
  Inv s -> forallb quiet t = true ->
  Inv (run t s) /\ ids (run t s) = ids s /\ fixed_cfg (run t s) = fixed_cfg s.
Proof.
  revert s. induction t as [|i t IH]; intros s HI Hq; [done|]. cbn in Hq. reflect_bool.
  destruct (IH (step i s)) as (? & ? & ?); [by apply inv_step|done|].
  split; [done|]. cbn [run]. by rewrite <- (quiet_cfg i s), <- (quiet_ids i s).
Qed.

(** What every batch of one session says about its origin. *)
Record BatchOf (s : St) (c : BatRewindConfig.t) (b : Sent) : Prop := {
  of_session : BatchPayload.session_id (s_payload b) = _sessionId (sdk s);
  of_token : BatchPayload.share_token (s_payload b) = coalesce (_shareToken (sdk s)) JUndef;
  of_endpoint : s_endpoint b = BatRewindConfig.endpoint c;
  of_key : s_apiKey b = BatRewindConfig.apiKey c;
  of_bat : BatchPayload.bat_session_id (s_payload b) = BatRewindConfig.batSessionId c;
  of_events : BatchPayload.events (s_payload b) <> []
}.

Lemma batch_of s c s0 c0 events t ka :
  ids s0 = ids s -> fixed_cfg s0 = fixed_cfg s -> cfg s = Some c -> cfg s0 = Some c0 ->
  events <> [] -> BatchOf s c (batch c0 events t ka s0).
Proof.
  unfold ids. intros [= E1 E2 E3 E4 E5] Hf Hc Hc0 Hne.
  pose proof (cfg_field BatRewindConfig.endpoint s s0 (fun _ _ => eq_refl) Hf) as H1.
  pose proof (cfg_field BatRewindConfig.apiKey s s0 (fun _ _ => eq_refl) Hf) as H2.
  pose proof (cfg_field BatRewindConfig.batSessionId s s0 (fun _ _ => eq_refl) Hf) as H3.
  rewrite Hc, Hc0 in H1, H2, H3. cbn in H1, H2, H3.
  apply (inj Some) in H1, H2, H3. by split; cbn; rewrite ?E2, ?E3.
Qed.

(** The copies of the metadata in a list of batches, when [todo] says one is due. *)
Fixpoint meta_once (todo : option ClientMeta.t) (l : list Sent) : Prop :=
  match l with
  | [] => True
  | b :: r => BatchPayload.client (s_payload b) = todo /\ meta_once None r
  end.

Definition meta_due (s : St) : option ClientMeta.t :=
  if _clientMetaSent (sdk s) then None else _clientMeta (sdk s).

Lemma meta_once_none l : meta_once None l <-> Forall (fun b => BatchPayload.client (s_payload b) = None) l.
Proof. induction l; cbn; [|rewrite Forall_cons, IHl]; intuition. Qed.

Lemma cfg_fixed_inv s s' c :
  fixed_cfg s' = fixed_cfg s -> cfg s' = Some c -> exists c', cfg s = Some c'.
Proof. unfold fixed_cfg. intros Hf Hc. rewrite Hc in Hf. destruct (cfg s); [eauto|done]. Qed.

(** Everything a quiet run sends. *)
Lemma run_sends t s :
  Inv s -> forallb quiet t = true ->
  exists l, network (run t s) = network s ++ l /\
    (forall c, cfg s = Some c -> Forall (BatchOf s c) l) /\ (cfg s = None -> l = []) /\
    meta_once (meta_due s) l.
Proof.
  revert s. induction t as [|i t IH]; intros s HI Hq; [exists []; by rewrite app_nil_r|].
  cbn in Hq. reflect_bool. cbn [run].
  destruct (IH (step i s)) as (l & Hn & Hof & Hno & Hm); [by apply inv_step|done|].
  pose proof (quiet_ids i s ltac:(done)) as Hids. pose proof (quiet_cfg i s HI ltac:(done)) as Hfix.
  destruct (step_sends i s ltac:(done)) as [l1 Hs]. exists (l1 ++ l).
  split; [by rewrite Hn, (sends_network _ _ _ Hs), app_assoc|].
  assert (forall c, cfg s = Some c -> Forall (BatchOf s c) l) as Hof'.
  { intros c Hc. destruct (cfg_fixed_inv _ _ _ (eq_sym Hfix) Hc) as [c' Hc'].
    eapply Forall_impl; [exact (Hof c' Hc')|]. intros b [B1 B2 B3 B4 B5 B6].
    unfold ids in Hids. injection Hids as E1 E2 E3 E4 E5.
    pose proof (cfg_field BatRewindConfig.endpoint _ _ (fun _ _ => eq_refl) Hfix) as K1.
    pose proof (cfg_field BatRewindConfig.apiKey _ _ (fun _ _ => eq_refl) Hfix) as K2.
    pose proof (cfg_field BatRewindConfig.batSessionId _ _ (fun _ _ => eq_refl) Hfix) as K3.
    rewrite Hc, Hc' in K1, K2, K3. cbn in K1, K2, K3. apply (inj Some) in K1, K2, K3.
    split; congruence. }
  destruct Hs as [Hn1 Hm1|c events tr ka [Hl1 Hl2] Hne Hn1 Hm1].
  - split; [exact Hof'|]. split.
    + intros Hc. apply Hno. unfold fixed_cfg in Hfix. rewrite Hc in Hfix. by destruct (cfg (step i s)).
    + unfold ids in Hids. injection Hids as _ _ _ E _. unfold meta_due in *. by rewrite <- Hm1, <- E.
  - split; [|split; [by rewrite Hl1|]].
    + intros c' Hc'. apply Forall_cons_2; [by apply batch_of|by apply Hof'].
    + cbn [app meta_once]. split; [unfold meta_due; cbn; by destruct (_clientMetaSent (sdk s))|].
      unfold ids in Hids. injection Hids as _ _ _ E _.
      unfold meta_due in Hm. rewrite Hm1, E in Hm.
      destruct (_clientMetaSent (sdk s)), (_clientMeta (sdk s)); exact Hm.
Qed.

(** ** Requests are only ever added *)

Lemma network_emits rid sync s :
  exists l, network (fold_left (fun s e => emit rid e.1 e.2 s) sync s) = network s ++ l.
Proof.
  revert s. induction sync as [|e sync IH]; intros s; [exists []; by rewrite app_nil_r|]. cbn.
  destruct (emit_sends rid e.1 e.2 s) as [l1 H1]. apply sends_network in H1.
  destruct (IH (emit rid e.1 e.2 s)) as [l2 ->]. exists (l1 ++ l2). by rewrite H1, app_assoc.
Qed.

Lemma network_mount c s : network (mount c s).1 = network s.
Proof. unfold mount, mountWidget. by repeat case_match; simplify_eq. Qed.

Lemma network_init loc sync s : exists l, network (init loc sync s).1 = network s ++ l.
Proof.
  assert (exists l, network s = network s ++ l) as Hnil by (exists []; by rewrite app_nil_r).
  unfold init. destruct (_initialized (sdk s)); [done|]. destruct (heap s !! loc) as [c|]; [|done].
  destruct (getOrCreateSession _) as [e [h|x]]; [|done]. rewrite network_mount.
  unfold start_recording, record, set_interval. set (s1 := adopt_session _ _ _).
  change (network s) with (network s1) in *. clearbody s1.
  destruct (isBuffered s1); [destruct (BatRewindConfig.captureOnError c) as [[|]|]|];
    match goal with |- context [fold_left _ _ ?s2] => exact (network_emits (next_id s1) sync s2) end.
Qed.

Lemma network_stop s : exists l, network (stop s) = network s ++ l.
Proof.
  unfold stop. set (s4 := set_listeners _ _). change (network s) with (network s4). clearbody s4.
  destruct (negb (isBuffered s4)); [|exists []; by rewrite app_nil_r].
  destruct (flush_sends true false s4) as [l Hl]. apply sends_network in Hl. by exists l.
Qed.

Lemma network_grows t s : exists l, network (run t s) = network s ++ l.
Proof.
  revert s. induction t as [|i t IH]; intros s; [exists []; by rewrite app_nil_r|]. cbn [run].
  assert (exists l, network (step i s) = network s ++ l) as [l1 H1].
  { destruct (quiet i) eqn:Hq.
    - destruct (step_sends i s Hq) as [l Hl]. apply sends_network in Hl. by exists l.
    - destruct i; try done; [apply network_init|apply network_stop]. }
  destruct (IH (step i s)) as [l2 ->]. exists (l1 ++ l2). by rewrite H1, app_assoc.
Qed.
End props.
