(* ===== verification/Demo.v ===== *)
(** * A concrete page

    The parameters of the recorder (its source of identifiers, the browser's
    globals, two configurations, some events) instantiated, for the witnesses. *)

From S2P Require Import Prelude Decimal JsValue Json Types Transport Session Metadata Sdk.

Definition demo_id (n : nat) : jsstr := js "u-" ++ num_to_string (Z.of_nat n).

Lemma demo_id_inj n m : demo_id n = demo_id m -> n = m.
Proof.
  unfold demo_id. intros H%(inj (app (js "u-"))). apply num_to_string_inj in H. lia.
Qed.

Lemma demo_id_ascii n : Forall (fun c => (c < 128)%N) (demo_id n).
Proof.
  apply Forall_app. split; [apply (bool_decide_unpack _); vm_compute; exact I|].
  assert (num_to_string (Z.of_nat n) = digits_of_N (N.of_nat n)) as ->.
  { unfold num_to_string. destruct n; [done|]. cbn [Z.of_nat]. by f_equal. }
  eapply Forall_impl; [apply digits_of_N_digits|]. intros c Hc. unfold is_digit in Hc.
  cbn in Hc. bool_lia.
Qed.

#[export] Instance demo_uuid : UuidSource := {
  random_uuid := demo_id;
  random_uuid_nonempty n := ltac:(done);
  random_uuid_ascii := demo_id_ascii;
  random_uuid_inj := demo_id_inj
}.

Definition demo_env : Env := mkEnv ∅ true true true 0 1000000.

Definition demo_ambient : Ambient := {|
  navigator := None; screen := None; window := None; resolvedTimeZone := Ok (Some (js "UTC")) |}.

Definition demo_page : St := page demo_env demo_ambient true.

(** The default configuration (buffered) and the same in always mode. *)
Definition demo_buffered : BatRewindConfig.t :=
  BatRewindConfig.minimal (js "https://bat.example/") (js "key").
Definition demo_always : BatRewindConfig.t := BatRewindConfig.set_mode Always demo_buffered.

(** An event whose type is [ty], recorded [ms] milliseconds after the page was loaded. *)
Definition demo_event (ty ms : Z) : RawEvent.t := RawEvent.mk ty (JObj []) (1000000 + ms).

(** What rrweb emits before [record] returns: Meta, then the first FullSnapshot. *)
Definition demo_sync : list (RawEvent.t * bool) :=
  [(demo_event 4 0, false); (demo_event 2 1, false)].

Definition demo_start (c : BatRewindConfig.t) : St :=
  run [HostConfig c; HostInit 0 demo_sync] demo_page.

Lemma demo_reachable c : reachable (demo_start c).
Proof. apply reachable_run, reachable_page. Qed.

(** The page after the host has built its configuration object. *)
Definition demo_idle (c : BatRewindConfig.t) : St := step (HostConfig c) demo_page.

Lemma demo_idle_reachable c : reachable (demo_idle c).
Proof. apply reachable_step, reachable_page. Qed.

(** A few seconds of a page's life: events, the flush timer, a report, a click. *)
Definition demo_trace : list input :=
  [Emit 0 (demo_event 3 1200) false; HostIdentify (js "ana"); Emit 0 (demo_event 3 1500) false;
   TimerFires 1; Wait 6000; Emit 0 (demo_event 3 6100) false; HostReport; WidgetClick 2;
   Emit 0 (demo_event 2 6200) true; VisibilityChanges true; Emit 0 (demo_event 3 6300) false].

(** The recorder [init] starts for each configuration. *)
Definition demo_recorder : Recorder :=
  mkRecorder Always 0 false (privacyOptions demo_always) None [].

(** Three minutes in buffered mode: two checkouts, the first one pushed out of the window. *)
Definition demo_minutes : list input :=
  [Emit 0 (demo_event 3 20000) false; Wait 30000; Emit 0 (demo_event 4 30000) true;
   Emit 0 (demo_event 2 30001) false; HostIdentify (js "ana"); Wait 130000;
   Emit 0 (demo_event 4 160000) true; Emit 0 (demo_event 3 160500) false].

(** A closed list of timestamps is ordered. *)
Ltac by_sorted :=
  vm_compute; repeat (constructor; [|repeat constructor; vm_compute; discriminate]); constructor.
