(* ===== verification/SessionProps.v ===== *)
(** * The session and the wire: properties

    What a visitor's session promises across page loads, and what the server can
    read back from a batch. *)

From S2P Require Import Prelude Decimal JsValue Json Types Transport Session Metadata Sdk Demo.

Section session_props.
Context `{JsonEngine} `{UuidSource}.

(** ** Properties *)

(** C7: in a page whose storage can be read and written and that is a secure context, a
    session once obtained is the same for every later page load, as long as no two consecutive
    loads are [SESSION_TTL_MS] or more apart. [good_handle] says that its identifier and its
    share token are truthy and values that JSON carries, as those of every session the SDK
    creates are. Without write access the claim fails: see [session_unwritable]. *)
Theorem session_stable e e' h ds :
  readable e = true -> writable e = true -> secure_context e = true ->
  getOrCreateSession e = (e', Ok h) -> good_handle h ->
  Forall (fun d => 0 <= d < SESSION_TTL_MS)%Z ds ->
  visits ds e' = repeat (Ok h) (length ds).
Proof.
  intros Hr Hw Hs He Hg Hds. pose proof (keeps_getOrCreate e) as Hf. rewrite He in Hf.
  destruct Hf as (Hr' & Hw' & _ & Hn' & _). cbn in Hr', Hw', Hn'.
  apply visits_same; [done|congruence|congruence| |done].
  rewrite Hn'. by eapply getOrCreate_holds.
Qed.

(** C39: whatever the storage holds and whether or not it can be read or
    written, a call returns a session with a truthy identifier and share token. *)
Theorem session_total e :
  secure_context e = true ->
  exists e' h, getOrCreateSession e = (e', Ok h) /\
    truthy (id h) = true /\ truthy (shareToken h) = true /\ frame e e'.
Proof.
  apply getOrCreate_total.
Qed.

(** A stored session whose expiry has been reached is replaced by a
    new one, with identifiers never drawn before, and the storage holds the new one. *)
Theorem session_expired e h x n :
  readable e = true -> writable e = true -> secure_context e = true ->
  id h = JStr (random_uuid n) -> n < uuid_next e -> json_value (shareToken h) ->
  holds e h x -> (x <= now e)%Z ->
  exists e' h', getOrCreateSession e = (e', Ok h') /\ id h' <> id h /\
    holds e' h' (now e + SESSION_TTL_MS).
Proof.
  intros Hr Hw Hs Hid Hn Hj Hh Hx.
  assert (sm_try reuseSession (sm_ret None) e = (e, Ok None)) as Ht.
  { unfold sm_try, reuseSession, sm_bind, getItem. rewrite Hr, Hh, stored_text_truthy.
    unfold JSON_parse. rewrite parse_stored by (done || (rewrite Hid; apply json_value_uuid)).
    unfold sm_ret, sm_reads, sm_lift.
    assert (prop (js "expiresAt") (stored_json h x) = Ok (JNum (dec_of_Z x))) as -> by done.
    cbn [to_number num_lt]. by rewrite dec_ltb_Z, (proj2 (Z.ltb_ge _ _)). }
  eexists _, _. split; [by apply create_branch|]. split.
  - cbn. rewrite Hid. intros [= E]. apply random_uuid_inj in E. lia.
  - unfold create. rewrite Hw. apply (holds_refreshed _ (set_uuid_next _ e)).
Qed.

(** When the storage can be read but refuses writes, a still
    valid session is abandoned: the refresh throws, and the call returns a new
    session that is not stored either, so every load gets another one. *)
Theorem session_unwritable e h x :
  readable e = true -> writable e = false -> secure_context e = true ->
  good_handle h -> holds e h x -> (now e < x)%Z ->
  getOrCreateSession e =
    (set_uuid_next (S (S (uuid_next e))) e, Ok (fresh_handle (uuid_next e))).
Proof.
  intros Hr Hw Hs (Hid & Htok & Hj1 & Hj2) Hh Hx.
  rewrite (create_branch e e); [by unfold create; rewrite Hw|done|].
  unfold sm_try, reuseSession, sm_bind, getItem. rewrite Hr, Hh, stored_text_truthy.
  unfold JSON_parse. rewrite parse_stored by done. unfold sm_ret, sm_reads, sm_lift.
  assert (prop (js "expiresAt") (stored_json h x) = Ok (JNum (dec_of_Z x))) as -> by done.
  cbn [to_number num_lt]. rewrite dec_ltb_Z, (proj2 (Z.ltb_lt _ _)) by done.
  assert (prop (js "id") (stored_json h x) = Ok (id h)) as -> by done. rewrite Hid.
  assert (prop (js "shareToken") (stored_json h x) = Ok (shareToken h)) as -> by done.
  rewrite Htok. unfold save, sm_bind, sm_reads, setItem. by rewrite Hw.
Qed.
End session_props.

(** What a receiver reads in the JSON of one event, and in that of the client's data. *)
Definition reads_event (j : jsval) (e : RawEvent.t) : Prop :=
  opt_prop (js "type") j = JNum (dec_of_Z (RawEvent.type e)) /\
  opt_prop (js "data") j = RawEvent.data e /\
  opt_prop (js "timestamp") j = JNum (dec_of_Z (RawEvent.timestamp e)).

Definition reads_client (j : jsval) (m : ClientMeta.t) : Prop :=
  opt_prop (js "screen_width") j = JNum (ClientMeta.screen_width m) /\
  opt_prop (js "screen_height") j = JNum (ClientMeta.screen_height m) /\
  opt_prop (js "viewport_width") j = JNum (ClientMeta.viewport_width m) /\
  opt_prop (js "viewport_height") j = JNum (ClientMeta.viewport_height m) /\
  opt_prop (js "device_pixel_ratio") j = JNum (ClientMeta.device_pixel_ratio m) /\
  opt_prop (js "language") j = JStr (ClientMeta.language m) /\
  opt_prop (js "timezone") j = JStr (ClientMeta.timezone m) /\
  opt_prop (js "user_agent") j = JStr (ClientMeta.user_agent m).

(** What a receiver reads in the JSON [v] of a batch, property by property; a property that
    reads [undefined] is absent. *)
Record reads_batch (v : jsval) (p : BatchPayload.t) : Prop := {
  reads_session_id : opt_prop (js "session_id") v = BatchPayload.session_id p;
  reads_identifier : opt_prop (js "identifier") v = BatchPayload.identifier p;
  reads_service_name : opt_prop (js "service_name") v = JStr (BatchPayload.service_name p);
  reads_environment : opt_prop (js "environment") v = JStr (BatchPayload.environment p);
  reads_bat_session_id :
    opt_prop (js "bat_session_id") v =
      match BatchPayload.bat_session_id p with Some s => JStr s | None => JUndef end;
  reads_trigger :
    opt_prop (js "trigger") v =
      JStr match BatchPayload.trigger p with
           | Manual => js "manual" | OnErrorTrigger => js "error" | Stream => js "stream"
           end;
  reads_share_token : opt_prop (js "share_token") v = BatchPayload.share_token p;
  reads_client_meta :
    match BatchPayload.client p with
    | Some m => reads_client (opt_prop (js "client") v) m
    | None => opt_prop (js "client") v = JUndef
    end;
  reads_events :
    exists l, opt_prop (js "events") v = JArr l /\ Forall2 reads_event l (BatchPayload.events p);
  reads_nothing_else k :
    opt_prop k v <> JUndef ->
    k ∈ [js "session_id"; js "identifier"; js "service_name"; js "environment";
         js "bat_session_id"; js "trigger"; js "share_token"; js "client"; js "events"]
}.

Lemma reads_event_json es : Forall2 reads_event (map RawEvent.to_json es) es.
Proof. induction es; constructor; [by split_and!|done]. Qed.

(** The serialised properties of a batch are the ones [reads_batch] writes out. *)
Lemma payload_reads p : reads_batch (JObj (defined_props (payload_props p))) p.
Proof.
  assert (forall k, opt_prop k (JObj (defined_props (payload_props p))) = assoc k (payload_props p)) as H
    by (intros k; cbn [opt_prop]; by rewrite assoc_defined by apply payload_props_keys).
  destruct p as [sid ident svc env bat trig tok cl evs]. split; intros; rewrite ?H; try reflexivity.
  - destruct cl as [m|]; [|reflexivity]. by split_and!.
  - exists (map RawEvent.to_json evs). split; [reflexivity|apply reads_event_json].
  - rewrite H in H0. eapply (assoc_in k) in H0; [|done].
    apply (list_elem_of_fmap_2 fst) in H0. exact H0.
Qed.

(** C13: a batch is one POST of JSON to /v1/record, with the API key in its header, in which a
    receiver that parses the body reads every field of the payload under its name of types.ts:
    the identifiers, the service, the environment, the trigger, the eight client values, and
    the type, data and time of every event in order; an optional field is absent exactly when
    it is undefined, and nothing else is there. [payload_ok] asks for fields that JSON text
    can carry. *)
Lemma sendBatch_body_reads `{JsonEngine} ep key p ka :
  payload_ok p ->
  let r := sendBatch ep key p ka in
  url r = ep ++ js "/v1/record" /\ method r = js "POST" /\ keepalive r = ka /\
  headers r = [(js "Content-Type", js "application/json"); (js "X-API-Key", key)] /\
  exists v, json_parse (body r) = Some v /\ reads_batch v p.
Proof.
  intros Hp. cbn zeta. split_and!; try done. exists (JObj (defined_props (payload_props p))).
  split; [|apply payload_reads]. cbn [body sendBatch].
  assert (BatchPayload.to_json p = JObj (payload_props p)) as -> by done.
  unfold json_text. rewrite stringify_undef_props, stringify_obj. cbn [default].
  apply json_parse_stringify; [|by rewrite stringify_obj].
  apply defined_props_ok; [apply payload_props_keys| |by apply payload_props_json].
  apply (bool_decide_unpack _). vm_compute. exact I.
Qed.

(** ** Witnesses *)

Definition demo_handle : SessionHandle := fresh_handle 0.

(** The page after its first call: the session [demo_handle] is stored. *)
Definition demo_stored : Env := create demo_env.

Lemma demo_holds : holds demo_stored demo_handle (1000000 + SESSION_TTL_MS).
Proof. apply (holds_refreshed demo_handle (set_uuid_next 2 demo_env)). Qed.

Lemma session_stable_witness :
  visits [1000; 1799999; 60000]%Z demo_stored = repeat (Ok demo_handle) 3.
Proof.
  apply (session_stable demo_env demo_stored demo_handle [1000; 1799999; 60000]%Z);
    [done|done|done|by_eval|apply good_fresh|].
  repeat constructor; vm_compute; done.
Defined.

Lemma session_total_witness :
  exists e' h, getOrCreateSession (mkEnv {[SESSION_KEY := js "not json"]} true false true 0 5)
                 = (e', Ok h) /\
    truthy (id h) = true /\ truthy (shareToken h) = true /\
    frame (mkEnv {[SESSION_KEY := js "not json"]} true false true 0 5) e'.
Proof.
  apply (session_total (mkEnv {[SESSION_KEY := js "not json"]} true false true 0 5)). done.
Defined.

Lemma session_expired_witness :
  let e := set_now (1000000 + SESSION_TTL_MS) demo_stored in
  exists e' h', getOrCreateSession e = (e', Ok h') /\ id h' <> id demo_handle /\
    holds e' h' (1000000 + SESSION_TTL_MS + SESSION_TTL_MS).
Proof.
  apply (session_expired (set_now (1000000 + SESSION_TTL_MS) demo_stored) demo_handle
           (1000000 + SESSION_TTL_MS) 0);
    [done|done|done|done|cbn; lia|apply json_value_uuid|exact demo_holds|cbn; lia].
Defined.

Lemma session_unwritable_witness :
  let e := mkEnv (storage demo_stored) true false true 2 1000001 in
  getOrCreateSession e = (set_uuid_next 4 e, Ok (fresh_handle 2)).
Proof.
  apply (session_unwritable (mkEnv (storage demo_stored) true false true 2 1000001)
           demo_handle (1000000 + SESSION_TTL_MS));
    [done|done|done|apply good_fresh|exact demo_holds|vm_compute; reflexivity].
Defined.

Definition demo_payload : BatchPayload.t :=
  BatchPayload.mk (JStr (js "u-0")) (JStr (js "ana")) (js "web") (js "production") None Stream
    (JStr (js "u-1")) None [demo_event 2 1; demo_event 3 9].

Lemma demo_payload_ok : payload_ok demo_payload.
Proof.
  unfold payload_ok, demo_payload. cbn.
  split_and!; try done; try (right; constructor); try constructor;
    try (apply (bool_decide_unpack _); vm_compute; exact I).
  all: repeat constructor; json_object.
Qed.

Lemma sendBatch_body_reads_witness :
  let r := sendBatch (js "https://bat.example") (js "key") demo_payload false in
  url r = js "https://bat.example" ++ js "/v1/record" /\ method r = js "POST" /\
  keepalive r = false /\
  headers r = [(js "Content-Type", js "application/json"); (js "X-API-Key", js "key")] /\
  exists v, json_parse (body r) = Some v /\ reads_batch v demo_payload.
Proof.
  apply (sendBatch_body_reads (js "https://bat.example") (js "key") demo_payload false).
  apply demo_payload_ok.
Defined.
