(* ===== verification/Streaming.v ===== *)
(** * Always mode: every event is uploaded once

    [outflow] is what has been sent plus what waits in the linear buffer. Each
    input adds to it exactly the events the recorder delivered. *)

From S2P Require Import Prelude Decimal JsValue Json Types Transport Session Metadata.
From S2P Require Import Sdk SdkInv SdkProps Demo.

Definition events_of (l : list Sent) : list RawEvent.t :=
  concat (map (fun b => BatchPayload.events (s_payload b)) l).

Lemma events_of_app l l' : events_of (l ++ l') = events_of l ++ events_of l'.
Proof. unfold events_of. by rewrite map_app, concat_app. Qed.

(** The events an input carries to the recorder [rid]. *)
Definition accepted (rid : nat) (i : input) : list RawEvent.t :=
  match i with Emit r raw _ => if decide (r = rid) then [raw] else [] | _ => [] end.

Definition delivered (rid : nat) (t : list input) : list RawEvent.t :=
  concat (map (accepted rid) t).

Definition outflow (s : St) : list RawEvent.t := events_of (network s) ++ _buffer (sdk s).

Section streaming.
Context `{JsonEngine} `{UuidSource}.

(** The recorder [rid] runs in always mode; [first] is its [firstSnapshot]. *)
Definition streaming (rid : nat) (first : bool) (s : St) : Prop :=
  exists r, recorders s !! rid = Some r /\ r_mode r = Always /\ r_firstSnapshot r = first.

Lemma network_upload c events t ka s :
  live c s -> network (upload events t ka s) = network s ++ [batch c events t ka s].
Proof. intros Hl. by rewrite (upload_live c). Qed.

Lemma outflow_upload c events t ka s :
  live c s -> outflow (upload events t ka s) = events_of (network s) ++ events ++ _buffer (sdk s).
Proof.
  intros Hl. unfold outflow. rewrite (network_upload c) by done.
  destruct (buffers_upload events t ka s) as (-> & _). rewrite events_of_app.
  cbn. by rewrite app_nil_r, <- app_assoc.
Qed.

Lemma outflow_flush force ka s : outflow (flush force ka s) = outflow s.
Proof.
  unfold flush. destruct (cfg s) as [c|] eqn:Hc; [|done].
  destruct (negb (truthy (_sessionId (sdk s)))) eqn:Ht; [done|].
  destruct (_buffer (sdk s)) eqn:Hb; [done|]. destruct (_ && _); [done|].
  rewrite (outflow_upload c) by (split; [done|by apply negb_false_iff in Ht]).
  unfold outflow. rewrite Hb. sdk_simpl. by rewrite app_nil_r.
Qed.

(** Flows that lose nothing; in order unless the first snapshot overtakes. *)
Definition flows (first : bool) (a b : list RawEvent.t) : Prop :=
  a ≡ₚ b /\ (first = false -> a = b).

Lemma flows_refl first a : flows first a a.
Proof. by split. Qed.

Lemma emitAlways_flows rid r raw s :
  ClosuresOk s -> recorders s !! rid = Some r -> r_mode r = Always ->
  exists first', streaming rid first' (emitAlways rid r raw s) /\
    flows (r_firstSnapshot r) (outflow (emitAlways rid r raw s)) (outflow s ++ [raw]) /\
    (r_firstSnapshot r = false -> first' = false).
Proof.
  intros Hc Hr Hm. destruct (cfg_truthy_live _ _ _ Hc Hr) as (c & Hl & _). unfold emitAlways.
  destruct (_ && _) eqn:Hfs.
  - reflect_bool. exists false. split; [|split; [|done]].
    + unfold streaming. rewrite (proj2 (proj2 (buffers_upload _ _ _ _))). sdk_simpl.
      eexists. by rewrite lookup_insert_eq.
    + rewrite (outflow_upload c) by done. unfold outflow. sdk_simpl.
      split; [|congruence]. rewrite <- app_assoc. apply Permutation_app_head.
      apply Permutation_cons_append.
  - set (s1 := on_sdk _ s).
    assert (outflow s1 = outflow s ++ [raw]) as Ho by (unfold outflow; by rewrite <- app_assoc).
    assert (streaming rid (r_firstSnapshot r) s1) as Hs by (by exists r).
    exists (r_firstSnapshot r). rewrite <- Ho. destruct (_ <=? _)%Z.
    + rewrite outflow_flush. split; [|split; [apply flows_refl|done]].
      unfold streaming. by rewrite recorders_flush.
    + split; [done|split; [apply flows_refl|done]].
Qed.

Lemma emit_flows rid raw chk first s :
  ClosuresOk s -> streaming rid first s ->
  exists first', streaming rid first' (emit rid raw chk s) /\
    flows first (outflow (emit rid raw chk s)) (outflow s ++ [raw]) /\
    (first = false -> first' = false).
Proof.
  intros Hc (r & Hr & Hm & <-). unfold emit. rewrite Hr, Hm. by apply emitAlways_flows.
Qed.


Lemma flows_app first first' a b c x y :
  (first = false -> first' = false) ->
  flows first b (a ++ x) -> flows first' c (b ++ y) -> flows first c (a ++ x ++ y).
Proof.
  intros Hf [H1 H2] [H3 H4]. rewrite app_assoc. split.
  - by rewrite H3, H1.
  - intros Hn. by rewrite H4, H2 by auto.
Qed.

Lemma emits_flow rid sync first s :
  ClosuresOk s -> streaming rid first s ->
  exists first',
    let s' := fold_left (fun s e => emit rid e.1 e.2 s) sync s in
    streaming rid first' s' /\ flows first (outflow s') (outflow s ++ map fst sync) /\
    (first = false -> first' = false).
Proof.
  revert first s. induction sync as [|e sync IH]; intros first s Hc Hs.
  - exists first. cbn. rewrite app_nil_r. split_and!; [done|apply flows_refl|done].
  - destruct (emit_flows rid e.1 e.2 first s Hc Hs) as (f1 & Hs1 & Hf1 & Hi1).
    destruct (IH f1 (emit rid e.1 e.2 s)) as (f2 & Hs2 & Hf2 & Hi2); [|done|].
    { eapply shell_closures; [|exact Hc]. by rewrite shell_emit. }
    exists f2. cbn. split_and!; [done| |auto].
    by eapply (flows_app first f1 _ _ _ [e.1]).
Qed.

Lemma always_uploadBuffer rid first t ka s :
  Inv s -> streaming rid first s -> uploadBuffer t ka s = s.
Proof.
  intros [Hb Hc _] (r & Hr & Hm & _). destruct (closures_rec _ Hc _ _ Hr) as (_ & _ & Hm').
  unfold uploadBuffer. destruct (cfg s); [|done]. destruct (negb _); [done|].
  by rewrite (ok_always _ _ _ _ Hb) by congruence.
Qed.

Lemma step_flows rid i first s :
  Inv s -> streaming rid first s -> quiet i = true ->
  exists first', streaming rid first' (step i s) /\
    flows first (outflow (step i s)) (outflow s ++ accepted rid i) /\
    (first = false -> first' = false).
Proof.
  intros HI Hs Hq.
  assert (forall s', streaming rid first s' -> outflow s' = outflow s ->
    exists first', streaming rid first' s' /\ flows first (outflow s') (outflow s ++ []) /\
      (first = false -> first' = false)) as Hsame.
  { intros s' Hs' ->. exists first. rewrite app_nil_r. split_and!; [done|apply flows_refl|done]. }
  assert (forall ka, streaming rid first (flush true ka s)) as Hfl
    by (intros; unfold streaming; by rewrite recorders_flush).
  assert (isBuffered s = false) as Hbuf.
  { destruct Hs as (r & Hr & Hm & _).
    destruct (closures_rec _ (inv_closures _ HI) _ _ Hr) as (_ & _ & Hm').
    rewrite isBuffered_mode. apply bool_decide_eq_false. congruence. }
  destruct i as [c|?|x| | |rid' raw chk|t|hidden| | | |w|ms]; try done; cbn [step accepted].
  - by apply Hsame.
  - unfold identify. apply Hsame; by destruct (_config (sdk s)).
  - unfold report. rewrite Hbuf. cbn [fst]. apply Hsame; [done|apply outflow_flush].
  - destruct (decide (rid' = rid)) as [->|Hne]; [by apply emit_flows; [apply HI|]|].
    assert (emit rid' raw chk s = s) as ->; [|by apply Hsame].
    unfold emit. destruct (recorders s !! rid') as [r'|] eqn:Hr'; [|done].
    destruct Hs as (r & Hr & _).
    pose proof (own_rec _ (inv_owned _ HI) _ _ Hr). pose proof (own_rec _ (inv_owned _ HI) _ _ Hr').
    congruence.
  - destruct (timers s !! t); apply Hsame; try done. apply outflow_flush.
  - unfold on_listener, onVisibilityChange. destruct (decide _); [|by apply Hsame].
    destruct (_ && _); apply Hsame; try done. apply outflow_flush.
  - unfold on_listener, onBeforeUnload. destruct (decide _); [|by apply Hsame].
    destruct (negb _); apply Hsame; try done. apply outflow_flush.
  - unfold on_listener, onError. destruct (decide _); [|by apply Hsame].
    rewrite (always_uploadBuffer rid first) by done. repeat case_match; by apply Hsame.
  - unfold on_listener, onError. destruct (decide _); [|by apply Hsame].
    rewrite (always_uploadBuffer rid first) by done. repeat case_match; by apply Hsame.
  - destruct (widgets s !! w); [|by apply Hsame]. unfold report. rewrite Hbuf. cbn [fst].
    apply Hsame; [done|apply outflow_flush].
  - by apply Hsame.
Qed.

Lemma run_flows rid t first s :
  Inv s -> streaming rid first s -> forallb quiet t = true ->
  exists first', streaming rid first' (run t s) /\
    flows first (outflow (run t s)) (outflow s ++ delivered rid t) /\
    (first = false -> first' = false).
Proof.
  revert first s. induction t as [|i t IH]; intros first s HI Hs Hq.
  - exists first. cbn. rewrite app_nil_r. split_and!; [done|apply flows_refl|done].
  - cbn in Hq. reflect_bool. destruct (step_flows rid i first s) as (f1 & Hs1 & Hf1 & Hi1); [done..|].
    destruct (IH f1 (step i s)) as (f2 & Hs2 & Hf2 & Hi2); [by apply inv_step|done|done|].
    exists f2. split_and!; [done| |auto]. by eapply (flows_app first f1).
Qed.

Lemma streaming_always rid first s : Inv s -> streaming rid first s -> isBuffered s = false.
Proof.
  intros HI (r & Hr & Hm & _). destruct (closures_rec _ (inv_closures _ HI) _ _ Hr) as (_ & _ & Hm').
  rewrite isBuffered_mode. apply bool_decide_eq_false. congruence.
Qed.

(** [stop] sends what is left. *)
Lemma stop_outflow rid first s :
  Inv s -> streaming rid first s -> events_of (network (stop s)) = outflow s.
Proof.
  intros HI Hs. rewrite stop_unhooked by apply HI. rewrite (streaming_always rid first) by done.
  cbn [negb]. destruct Hs as (r & Hr & _).
  destruct (cfg_truthy_live _ _ _ (inv_closures _ HI) Hr) as (c & Hl & _).
  assert (live c (unhooked s)) as Hlu by done.
  pose proof (outflow_flush true false (unhooked s)) as Ho. unfold outflow in Ho.
  rewrite (buffer_flush_forced c), app_nil_r in Ho by done. exact Ho.
Qed.

Lemma mount_outflow c s :
  outflow (mount c s).1 = outflow s /\ recorders (mount c s).1 = recorders s.
Proof. unfold mount, mountWidget. by repeat case_match; simplify_eq. Qed.

(** What [init] leaves behind in always mode. *)
Lemma init_flows loc sync s c e h :
  Inv s -> _initialized (sdk s) = false -> heap s !! loc = Some c ->
  BatRewindConfig.mode c = Some Always -> getOrCreateSession (env s) = (e, Ok h) ->
  exists first, streaming (next_id s) first (init loc sync s).1 /\
    outflow (init loc sync s).1 ≡ₚ outflow s ++ map fst sync.
Proof.
  intros HI Hi Hh Hm He. unfold init. rewrite Hi, Hh. sdk_simpl. rewrite He.
  destruct (getOrCreate_truthy _ _ _ He) as [Hid _].
  pose proof (adopt_ready loc c e h s HI Hi Hh Hid) as Hready.
  set (s0 := adopt_session _ _ _) in *.
  unfold streaming. destruct (mount_outflow c (start_recording loc c sync s0)) as [-> ->].
  unfold start_recording. rewrite isBuffered_mode.
  assert (mode_of s0 = Always) as Hm0.
  { unfold mode_of. rewrite (ready_cfg _ _ _ Hready). cbn. by rewrite Hm. }
  rewrite bool_decide_false by congruence.
  set (r := mkRecorder _ _ _ _ _ _). unfold record.
  set (s1 := set_next_id _ _). unfold set_interval.
  assert (ClosuresOk s1) as Hc1.
  { split.
    - intros l Hl. change (_config (sdk s0) = Some l) in Hl. change (is_Some (heap s0 !! l)).
      rewrite (ready_config _ _ _ Hready) in Hl. injection Hl as <-.
      by rewrite (ready_heap _ _ _ Hready).
    - intros i r' Hr'. unfold s1 in Hr'. sdk_simpl. rewrite (ready_recorders _ _ _ Hready), insert_empty in Hr'.
      apply lookup_singleton_Some in Hr' as [_ <-].
      split_and!; [exact (ready_config _ _ _ Hready)|exact (ready_session _ _ _ Hready)|by symmetry]. }
  assert (streaming (next_id s0) true s1) as Hs1.
  { exists r. unfold s1. sdk_simpl. by rewrite lookup_insert_eq. }
  destruct (emits_flow (next_id s0) sync true s1 Hc1 Hs1) as (first & Hs2 & [Hp _] & _).
  exists first. split; [exact Hs2|]. exact Hp.
Qed.

(** ** Properties *)

(** C18: once streaming has started, the flush timer, the page being hidden and the page
    being unloaded each leave the buffer empty, with everything it held in a single
    batch, the last one with [keepalive]. *)
Theorem flush_points s rid r i ka :
  reachable s -> recorders s !! rid = Some r -> r_mode r = Always -> _buffer (sdk s) <> [] ->
  (exists p, (i = TimerFires p /\ is_Some (timers s !! p) /\ ka = false)) \/
  (i = VisibilityChanges true /\ OnVisibilityChange ∈ listeners s /\ ka = true) \/
  (i = Unload /\ OnBeforeUnload ∈ listeners s /\ ka = true) ->
  _buffer (sdk (step i s)) = [] /\
  exists b, network (step i s) = network s ++ [b] /\
    BatchPayload.events (s_payload b) = _buffer (sdk s) /\ s_keepalive b = ka /\
    BatchPayload.trigger (s_payload b) = Stream.
Proof.
  intros Hs Hr Hm Hb Hi. apply reachable_inv in Hs.
  pose proof (streaming_always rid (r_firstSnapshot r) s Hs (ex_intro _ r (conj Hr (conj Hm eq_refl)))) as Ha.
  destruct (cfg_truthy_live _ _ _ (inv_closures _ Hs) Hr) as (c & Hl & _).
  assert (step i s = flush true ka s) as ->.
  { destruct Hi as [(p & -> & [q Hp] & ->)|[(-> & Hin & ->)|(-> & Hin & ->)]]; cbn [step].
    - by rewrite Hp.
    - unfold on_listener, onVisibilityChange. by rewrite decide_True, Ha.
    - unfold on_listener, onBeforeUnload. by rewrite decide_True, Ha. }
  split; [by apply (buffer_flush_forced c)|].
  rewrite (flush_live c), (network_upload c) by done. by eexists.
Qed.

(** C5: in always mode the SDK neither loses nor duplicates an event: over any run of
    inputs short of a stop, what was uploaded followed by what is still buffered is what was
    buffered before followed by what the recorder delivered, in that order as soon as
    the first full snapshot (which is uploaded ahead of the buffer) is out. *)
Theorem stream_conserves s rid r t :
  reachable s -> recorders s !! rid = Some r -> r_mode r = Always -> forallb quiet t = true ->
  exists l, network (run t s) = network s ++ l /\
    events_of l ++ _buffer (sdk (run t s)) ≡ₚ _buffer (sdk s) ++ delivered rid t /\
    (r_firstSnapshot r = false ->
     events_of l ++ _buffer (sdk (run t s)) = _buffer (sdk s) ++ delivered rid t).
Proof.
  intros Hs Hr Hm Hq. apply reachable_inv in Hs.
  destruct (run_sends t s Hs Hq) as (l & Hn & _). exists l. split; [done|].
  destruct (run_flows rid t (r_firstSnapshot r) s) as (first & _ & [Hp He] & _); [done|by exists r|done|].
  unfold outflow in Hp, He. rewrite Hn, events_of_app, <- !app_assoc in Hp, He.
  split; [by apply (inj (app (events_of (network s)))) in Hp|].
  intros Hf. apply He in Hf. by apply (inj (app (events_of (network s)))) in Hf.
Qed.

(** C2: a whole session in always mode, from [init] to [stop], uploads exactly the events
    the recorder delivered, each once, whatever timers, page events, reports and
    identifications happen in between. *)
Theorem stream_complete s loc c e h sync t :
  reachable s -> _initialized (sdk s) = false -> heap s !! loc = Some c ->
  BatRewindConfig.mode c = Some Always -> getOrCreateSession (env s) = (e, Ok h) ->
  forallb quiet t = true ->
  exists l, network (stop (run t (init loc sync s).1)) = network s ++ l /\
    events_of l ≡ₚ map fst sync ++ delivered (next_id s) t.
Proof.
  intros Hs Hi Hh Hm He Hq. apply reachable_inv in Hs.
  destruct (init_flows loc sync s c e h) as (first & Hst & Hp); [done..|].
  pose proof (inv_init loc sync s Hs) as HI1.
  destruct (run_flows _ t _ _ HI1 Hst Hq) as (f2 & Hst2 & [Hp2 _] & _).
  pose proof (inv_run t _ HI1) as HI2.
  destruct (network_grows (HostInit loc sync :: t ++ [HostStop]) s) as [l Hl].
  cbn [run] in Hl. rewrite run_app in Hl. cbn [run step] in Hl. exists l. split; [exact Hl|].
  pose proof (stop_outflow _ _ _ HI2 Hst2) as Ho. rewrite Hl, events_of_app in Ho.
  rewrite <- Ho, Hp in Hp2. unfold outflow in Hp2.
  destruct (own_idle _ (inv_owned _ Hs) Hi) as (_ & _ & _ & _ & _ & Hb & _).
  rewrite Hb, app_nil_r, <- app_assoc in Hp2.
  by apply (inj (app (events_of (network s)))) in Hp2.
Qed.
End streaming.

Lemma stream_conserves_witness :
  let s := demo_start demo_always in
  exists l, network (run demo_trace s) = network s ++ l /\
    events_of l ++ _buffer (sdk (run demo_trace s)) ≡ₚ _buffer (sdk s) ++ delivered 0 demo_trace /\
    (r_firstSnapshot demo_recorder = false ->
     events_of l ++ _buffer (sdk (run demo_trace s)) = _buffer (sdk s) ++ delivered 0 demo_trace).
Proof.
  apply (stream_conserves (demo_start demo_always) 0 demo_recorder demo_trace);
    [apply demo_reachable|by_eval|by_eval|by_eval].
Defined.

Lemma stream_complete_witness :
  exists l, network (stop (run demo_trace (init 0 demo_sync (demo_idle demo_always)).1))
            = network (demo_idle demo_always) ++ l /\
    events_of l ≡ₚ map fst demo_sync ++ delivered (next_id (demo_idle demo_always)) demo_trace.
Proof.
  eapply (stream_complete (demo_idle demo_always) 0 demo_always _ _ demo_sync demo_trace);
    [apply demo_idle_reachable|by_eval|by_eval|by_eval|by_eval|by_eval].
Defined.

Lemma flush_points_witness :
  let s := run [Emit 0 (demo_event 3 9) false] (demo_start demo_always) in
  _buffer (sdk (step Unload s)) = [] /\
  exists b, network (step Unload s) = network s ++ [b] /\
    BatchPayload.events (s_payload b) = _buffer (sdk s) /\ s_keepalive b = true /\
    BatchPayload.trigger (s_payload b) = Stream.
Proof.
  apply (flush_points (run [Emit 0 (demo_event 3 9) false] (demo_start demo_always)) 0 demo_recorder
           Unload true);
    [apply reachable_run, demo_reachable|by_eval|by_eval|vm_compute; discriminate|].
  right. right. split; [done|]. split; [|done]. apply (bool_decide_unpack _). vm_compute. exact I.
Defined.
