(* ===== verification/Rewind.v ===== *)
(** * Buffered mode: the rolling window

    [chunks] cuts what the recorder delivered at its checkouts; the segments the
    SDK holds are a suffix of those chunks, and what it dropped is older than the
    window. Nothing leaves the page until a report or an error asks for it. *)

From S2P Require Import Prelude Decimal JsValue Json Types Transport Session Metadata.
From S2P Require Import Sdk SdkInv SdkProps Demo.
From stdpp Require Import sorting.

(** ** Cutting a history into chunks *)

Definition push (segs : list (list RawEvent.t)) (x : RawEvent.t * bool) : list (list RawEvent.t) :=
  if x.2 || bool_decide (segs = []) then segs ++ [[x.1]]
  else alter (fun seg => seg ++ [x.1]) (length segs - 1) segs.

Definition chunks (h : list (RawEvent.t * bool)) : list (list RawEvent.t) := fold_left push h [].

Lemma chunks_snoc h x : chunks (h ++ [x]) = push (chunks h) x.
Proof. unfold chunks. by rewrite fold_left_app. Qed.

(** [push] either opens a segment or extends the last one. *)
Lemma push_cases segs x :
  push segs x = segs ++ [[x.1]] \/
  exists segs' last, segs = segs' ++ [last] /\ push segs x = segs' ++ [last ++ [x.1]].
Proof.
  unfold push. destruct x.2; [by left|].
  destruct segs as [|last segs' _] using rev_ind; [by left|]. right. exists segs', last.
  split; [done|]. rewrite bool_decide_false by (by destruct segs').
  assert (length (segs' ++ [last]) - 1 = length segs' + 0) as ->
    by (rewrite length_app; cbn; lia).
  by rewrite alter_app_r.
Qed.

Lemma push_concat segs x : concat (push segs x) = concat segs ++ [x.1].
Proof.
  destruct (push_cases segs x) as [->|(segs' & last & -> & ->)]; rewrite !concat_app; cbn;
    by rewrite ?app_nil_r, ?app_assoc.
Qed.

Lemma push_nonempty segs x :
  Forall (fun seg => seg <> []) segs -> Forall (fun seg => seg <> []) (push segs x).
Proof.
  intros Hs. destruct (push_cases segs x) as [->|(segs' & last & -> & ->)].
  - apply Forall_app. by split; [|constructor].
  - apply Forall_app in Hs as [Hs _]. apply Forall_app. split; [done|]. constructor; [|done].
    by destruct last.
Qed.

Lemma chunks_concat h : concat (chunks h) = map fst h.
Proof.
  induction h as [|x h IH] using rev_ind; [done|].
  by rewrite chunks_snoc, push_concat, IH, map_app.
Qed.

Lemma chunks_nonempty h : Forall (fun seg => seg <> []) (chunks h).
Proof.
  induction h as [|x h IH] using rev_ind; [by constructor|].
  rewrite chunks_snoc. by apply push_nonempty.
Qed.

Lemma push_length segs x : length segs <= length (push segs x) /\ 0 < length (push segs x).
Proof.
  destruct (push_cases segs x) as [->|(segs' & last & -> & ->)]; rewrite !length_app; cbn; lia.
Qed.

(** Pushing keeps the first event of every segment. *)
Lemma push_head segs x k e rest :
  segs !! k = Some (e :: rest) -> exists rest', push segs x !! k = Some (e :: rest').
Proof.
  intros Hk. destruct (push_cases segs x) as [->|(segs' & last & -> & ->)].
  - exists rest. by apply lookup_app_l_Some.
  - apply lookup_app_Some in Hk as [Hk|[Hle Hk]]; [exists rest; by apply lookup_app_l_Some|].
    rewrite lookup_app_r by done.
    destruct (k - length segs') eqn:E; cbn in Hk |- *; [|done].
    injection Hk as ->. by exists (rest ++ [x.1]).
Qed.

(** Pushing on a proper suffix. *)
Lemma push_drop k segs x :
  k = 0 \/ k < length segs -> push (drop k segs) x = drop k (push segs x).
Proof.
  intros [->|Hk]; [by rewrite !drop_0|]. unfold push. destruct x.2; cbn [orb].
  { by rewrite drop_app_le by lia. }
  rewrite !bool_decide_false; [| |].
  - rewrite length_drop, drop_alter_ge by lia. f_equal. lia.
  - by destruct segs; [cbn in Hk; lia|].
  - intros Hd%(f_equal length). rewrite length_drop in Hd. cbn in Hd. lia.
Qed.

(** ** Pruning *)

(** What the loop of [pruneSegments] removes: the leading segments, as long as the
    next one already opened at or before the cutoff. *)
Record Pruned (cutoff : Z) (segs segs' : list (list RawEvent.t)) (j : nat) : Prop := {
  pruned_drop : segs' = drop j segs;
  pruned_some : segs <> [] -> j < length segs;
  pruned_old : forall i e rest, 0 < i <= j -> segs !! i = Some (e :: rest) ->
    (RawEvent.timestamp e <= cutoff)%Z;
  pruned_tight : forall e rest, segs !! S j = Some (e :: rest) ->
    (cutoff < RawEvent.timestamp e)%Z
}.

Lemma prune_pruned cutoff segs :
  Forall (fun seg => seg <> []) segs -> exists j, Pruned cutoff segs (prune cutoff segs) j.
Proof.
  induction 1 as [|seg segs Hseg Hne IH]; [exists 0; by split; intros; simplify_eq|].
  destruct segs as [|[|e next] rest].
  - exists 0. split; intros; cbn in *; try done; lia.
  - by apply Forall_cons_1 in Hne as [? _].
  - rewrite prune_cons. destruct (_ <=? _)%Z eqn:Hle; [|].
    + destruct IH as [j [-> Hs Ho Ht]]. exists (S j). split; [done| | |].
      * intros _. specialize (Hs ltac:(done)). cbn in *. lia.
      * intros [|[|i]] e' r Hi Hl; [lia| |].
        -- cbn in Hl. simplify_eq. bool_lia.
        -- apply (Ho (S i) e' r); [lia|done].
      * intros e' r Hl. by apply (Ht e' r).
    + exists 0. split; [done|cbn; lia|lia|]. intros e' r Hl. cbn in Hl. simplify_eq. bool_lia.
Qed.

(** ** What the segments hold *)

(** [segs] is what is left of the history [h] when nothing newer than [cut] was dropped. *)
Definition rewound (cut : Z) (h : list (RawEvent.t * bool)) (segs : list (list RawEvent.t)) : Prop :=
  exists k, segs = drop k (chunks h) /\
    (k = 0 \/ exists e rest, chunks h !! k = Some (e :: rest) /\ (RawEvent.timestamp e <= cut)%Z).

Lemma rewound_mono cut cut' h segs :
  (cut <= cut')%Z -> rewound cut h segs -> rewound cut' h segs.
Proof.
  intros Hc (k & -> & Hk). exists k. split; [done|].
  destruct Hk as [->|(e & rest & Hl & He)]; [by left|]. right. exists e, rest. split; [done|lia].
Qed.

Lemma rewound_push cut h segs x : rewound cut h segs -> rewound cut (h ++ [x]) (push segs x).
Proof.
  intros (k & -> & Hk). exists k. rewrite chunks_snoc. split.
  - apply push_drop. destruct Hk as [->|(e & rest & Hl & _)]; [by left|].
    right. by apply lookup_lt_Some in Hl.
  - destruct Hk as [->|(e & rest & Hl & He)]; [by left|]. right.
    destruct (push_head _ x _ _ _ Hl) as [rest' Hl']. by exists e, rest'.
Qed.

Lemma rewound_prune cut h segs : rewound cut h segs -> rewound cut h (prune cut segs).
Proof.
  intros (k & -> & Hk). destruct (decide (drop k (chunks h) = [])) as [Hn|Hn].
  { exists k. by rewrite Hn. }
  destruct (prune_pruned cut (drop k (chunks h))) as [j [-> Hs Ho _]].
  { apply Forall_drop, chunks_nonempty. }
  exists (k + j). rewrite drop_drop. split; [done|].
  destruct (decide (j = 0)) as [->|Hj]; [by rewrite Nat.add_0_r|]. right.
  destruct (lookup_lt_is_Some_2 _ _ (Hs Hn)) as [seg Hseg]. pose proof Hseg as Hc.
  rewrite lookup_drop in Hc.
  pose proof (Forall_lookup_1 _ _ _ _ (chunks_nonempty h) Hc) as Hne. cbn in Hne.
  destruct seg as [|e rest]; [done|]. exists e, rest. split; [done|].
  apply (Ho j e rest); [lia|done].
Qed.

(** The dropped events of an ordered history are no newer than the cutoff. *)
Lemma rewound_old cut h segs :
  StronglySorted Z.le (map RawEvent.timestamp (map fst h)) -> rewound cut h segs ->
  exists old, map fst h = old ++ concat segs /\
    Forall (fun e => RawEvent.timestamp e <= cut)%Z old.
Proof.
  intros Hs (k & -> & Hk). exists (concat (take k (chunks h))).
  assert (map fst h = concat (take k (chunks h)) ++ concat (drop k (chunks h))) as E
    by (by rewrite <- concat_app, take_drop, chunks_concat).
  split; [done|]. destruct Hk as [->|(e & rest & Hl & He)]; [done|].
  rewrite E in Hs. rewrite (drop_S _ _ _ Hl), map_app in Hs. cbn [concat] in Hs.
  apply Forall_forall. intros x Hx. etrans; [|exact He].
  eapply StronglySorted_app_1_elem_of; [exact Hs| |].
  - by apply list_elem_of_fmap_2.
  - cbn. by left.
Qed.

Section rewind.
Context `{JsonEngine} `{UuidSource}.

Lemma emitBuffered_segments raw chk s :
  _segments (sdk (emitBuffered raw chk s)) =
  if chk || bool_decide (_segments (sdk s) = [])
  then prune (now (env s) - ((c ← cfg s; BatRewindConfig.bufferMs c) ?? BUFFER_MS))%Z
             (push (_segments (sdk s)) (raw, chk))
  else push (_segments (sdk s)) (raw, chk).
Proof.
  unfold emitBuffered, push, pruneSegments. cbn [fst snd].
  by destruct (chk || _); sdk_simpl.
Qed.

(** The window [bufferMs] asks for. *)
Definition window_ms (s : St) : Z := (c ← cfg s; BatRewindConfig.bufferMs c) ?? BUFFER_MS.
Definition cutoff (s : St) : Z := (now (env s) - window_ms s)%Z.

Lemma emitBuffered_rewound raw chk h s :
  rewound (cutoff s) h (_segments (sdk s)) ->
  rewound (cutoff s) (h ++ [(raw, chk)]) (_segments (sdk (emitBuffered raw chk s))).
Proof.
  intros Hr. rewrite emitBuffered_segments.
  destruct (chk || _); [apply rewound_prune|]; by apply rewound_push.
Qed.

Lemma shell_cutoff s s' : shell s' = shell s -> cutoff s' = cutoff s.
Proof.
  intros Hs. unfold cutoff, window_ms. rewrite (shell_cfg _ _ Hs).
  unfold shell in Hs. by injection Hs as _ _ _ _ _ _ _ _ -> _ _ _ _ _ _ _ _.
Qed.

(** The recorder [rid] runs in buffered mode. *)
Definition rewinding (rid : nat) (s : St) : Prop :=
  exists r, recorders s !! rid = Some r /\ r_mode r = Buffered.

Lemma rewinding_shell rid s s' : shell s' = shell s -> rewinding rid s -> rewinding rid s'.
Proof.
  intros Hs (r & Hr & Hm).
  destruct (shell_recorder _ _ _ _ Hs Hr) as (r' & Hr' & He). exists r'. split; [done|].
  unfold erase in He. injection He as E1 _ _ _ _. congruence.
Qed.

(** The events, with their checkout flags, an input carries to the recorder [rid]. *)
Definition heard1 (rid : nat) (i : input) : list (RawEvent.t * bool) :=
  match i with Emit r raw chk => if decide (r = rid) then [(raw, chk)] else [] | _ => [] end.
Definition heard (rid : nat) (t : list input) : list (RawEvent.t * bool) :=
  concat (map (heard1 rid) t).

Lemma emit_rewound rid raw chk h s :
  rewinding rid s -> rewound (cutoff s) h (_segments (sdk s)) ->
  rewound (cutoff s) (h ++ [(raw, chk)]) (_segments (sdk (emit rid raw chk s))).
Proof.
  intros (r & Hr & Hm) Hw. unfold emit. rewrite Hr, Hm. by apply emitBuffered_rewound.
Qed.

Lemma emits_rewound rid sync h s :
  rewinding rid s -> rewound (cutoff s) h (_segments (sdk s)) ->
  rewound (cutoff s) (h ++ sync)
    (_segments (sdk (fold_left (fun s e => emit rid e.1 e.2 s) sync s))).
Proof.
  revert h s. induction sync as [|[raw chk] sync IH]; intros h s Hr Hw; [by rewrite app_nil_r|].
  cbn [fold_left fst snd]. rewrite cons_middle, app_assoc.
  rewrite <- (shell_cutoff s (emit rid raw chk s)) by apply shell_emit.
  apply IH; [by eapply rewinding_shell; [apply shell_emit|]|].
  rewrite (shell_cutoff s) by apply shell_emit. by apply emit_rewound.
Qed.

(** ** Quiet inputs *)

Lemma step_segments i s :
  quiet i = true -> (forall rid raw chk, i <> Emit rid raw chk) ->
  _segments (sdk (step i s)) = _segments (sdk s) /\ recorders (step i s) = recorders s.
Proof.
  intros Hq Hi.
  assert (forall t ka, _segments (sdk (uploadBuffer t ka s)) = _segments (sdk s) /\
    recorders (uploadBuffer t ka s) = recorders s) as Hu
    by (intros; by destruct (buffers_uploadBuffer t ka s) as (_ & -> & ->)).
  assert (forall ka, _segments (sdk (flush true ka s)) = _segments (sdk s) /\
    recorders (flush true ka s) = recorders s) as Hf
    by (intros; by rewrite segments_flush, recorders_flush).
  destruct i; try done; cbn [step];
    unfold on_listener, onVisibilityChange, onBeforeUnload, onError, report, identify; cbn [fst];
    repeat case_match; auto.
  all: by destruct (Hi rid raw isCheckout).
Qed.

Lemma window_fixed s s' : fixed_cfg s' = fixed_cfg s -> window_ms s' = window_ms s.
Proof.
  intros Hf. unfold window_ms.
  pose proof (cfg_field BatRewindConfig.bufferMs s s' (fun _ _ => eq_refl) Hf) as Hb.
  destruct (cfg s), (cfg s'); cbn in *; simplify_eq; congruence.
Qed.

Lemma quiet_cutoff i s : Inv s -> quiet i = true -> (cutoff s <= cutoff (step i s))%Z.
Proof.
  intros HI Hq. unfold cutoff. rewrite (window_fixed s (step i s)) by (by apply quiet_cfg).
  destruct (step_shell i s Hq) as [Hs|[[c ->]|[[x ->]|[d ->]]]].
  - unfold shell in Hs. injection Hs as _ _ _ _ _ _ _ _ -> _ _ _ _ _ _ _ _. lia.
  - cbn. lia.
  - cbn [step]. unfold identify. destruct (_config (sdk s)); cbn; lia.
  - cbn [step]. sdk_simpl. cbn. lia.
Qed.

Lemma step_cases i :
  (exists r raw chk, i = Emit r raw chk) \/ (forall r raw chk, i <> Emit r raw chk).
Proof. destruct i; try (by right). left. by eexists _, _, _. Qed.

Lemma step_rewinding rid i s : Inv s -> quiet i = true -> rewinding rid s -> rewinding rid (step i s).
Proof.
  intros HI Hq Hr. destruct (step_cases i) as [(r' & raw & chk & ->)|Hne].
  - cbn [step]. by eapply rewinding_shell; [apply shell_emit|].
  - destruct (step_segments i s Hq Hne) as [_ Hrec]. unfold rewinding. by rewrite Hrec.
Qed.

Lemma step_rewound rid i h s :
  Inv s -> quiet i = true -> rewinding rid s -> rewound (cutoff s) h (_segments (sdk s)) ->
  rewound (cutoff (step i s)) (h ++ heard1 rid i) (_segments (sdk (step i s))).
Proof.
  intros HI Hq Hr Hw.
  assert (heard1 rid i = [] -> _segments (sdk (step i s)) = _segments (sdk s) ->
    rewound (cutoff (step i s)) (h ++ heard1 rid i) (_segments (sdk (step i s)))) as Hsame.
  { intros -> ->. rewrite app_nil_r. eapply rewound_mono; [|exact Hw]. by apply quiet_cutoff. }
  destruct (step_cases i) as [(r' & raw & chk & ->)|Hne].
  - cbn [heard1 step] in *. destruct (decide (r' = rid)) as [->|Hr'].
    + rewrite (shell_cutoff s) by apply shell_emit. by apply emit_rewound.
    + apply Hsame; [done|]. unfold emit. destruct (recorders s !! r') as [rc|] eqn:Hl; [|done].
      destruct Hr as (r & Hl0 & _). pose proof (own_rec _ (inv_owned _ HI) _ _ Hl0).
      pose proof (own_rec _ (inv_owned _ HI) _ _ Hl). congruence.
  - destruct (step_segments i s Hq Hne) as [Hs _]. apply Hsame; [|done].
    destruct i; try done. by destruct (Hne rid0 raw isCheckout).
Qed.

Lemma run_rewound rid t h s :
  Inv s -> forallb quiet t = true -> rewinding rid s -> rewound (cutoff s) h (_segments (sdk s)) ->
  rewinding rid (run t s) /\
  rewound (cutoff (run t s)) (h ++ heard rid t) (_segments (sdk (run t s))).
Proof.
  revert h s. induction t as [|i t IH]; intros h s HI Hq Hr Hw; [by rewrite app_nil_r|].
  cbn in Hq. reflect_bool. pose proof (step_rewound rid i h s ltac:(done) ltac:(done) Hr Hw) as Hw1.
  change (heard rid (i :: t)) with (heard1 rid i ++ heard rid t). rewrite app_assoc.
  apply IH; [by apply inv_step|done|by apply step_rewinding|done].
Qed.

(** ** Nothing is sent unasked *)

(** Inputs that never ask for an upload in buffered mode. *)
Definition unasked (i : input) : bool :=
  match i with
  | HostInit _ _ | HostStop | HostReport | UncaughtError | Rejection | WidgetClick _ => false
  | _ => true
  end.

Lemma unasked_quiet t : forallb unasked t = true -> forallb quiet t = true.
Proof.
  induction t as [|i t IH]; [done|]. cbn. intros Hu. reflect_bool. rewrite IH by done.
  by destruct i.
Qed.

Lemma emit_unsent rid raw chk s : rewinding rid s -> network (emit rid raw chk s) = network s.
Proof.
  intros (r & Hr & Hm). unfold emit. rewrite Hr, Hm. unfold emitBuffered, pruneSegments.
  by destruct (chk || _).
Qed.

Lemma emits_unsent rid sync s :
  rewinding rid s -> network (fold_left (fun s e => emit rid e.1 e.2 s) sync s) = network s.
Proof.
  revert s. induction sync as [|e sync IH]; intros s Hr; [done|]. cbn [fold_left].
  rewrite IH by (by eapply rewinding_shell; [apply shell_emit|]). by apply emit_unsent.
Qed.

Lemma rewinding_mode rid s : Inv s -> rewinding rid s -> isBuffered s = true.
Proof.
  intros HI (r & Hr & Hm). destruct (closures_rec _ (inv_closures _ HI) _ _ Hr) as (_ & _ & Hm').
  rewrite isBuffered_mode. apply bool_decide_eq_true. congruence.
Qed.

Lemma buffered_flush force ka s : Inv s -> isBuffered s = true -> flush force ka s = s.
Proof.
  intros HI Hb. apply flush_empty. rewrite isBuffered_mode in Hb. apply bool_decide_eq_true in Hb.
  by apply (ok_buffered _ _ _ _ (inv_bufs _ HI)).
Qed.

Lemma unasked_step rid i s :
  Inv s -> rewinding rid s -> unasked i = true -> network (step i s) = network s.
Proof.
  intros HI Hr Hu. pose proof (rewinding_mode _ _ HI Hr) as Hb.
  pose proof (fun f k => buffered_flush f k s HI Hb) as Hf.
  destruct i; try done; cbn [step]; unfold on_listener, onVisibilityChange, onBeforeUnload, identify;
    rewrite ?Hf; repeat case_match; try done.
  unfold emit. destruct (recorders s !! rid0) as [r'|] eqn:Hl; [|done].
  destruct Hr as (r & Hl0 & Hm). pose proof (own_rec _ (inv_owned _ HI) _ _ Hl0).
  pose proof (own_rec _ (inv_owned _ HI) _ _ Hl). simplify_eq. rewrite Hm.
  unfold emitBuffered, pruneSegments. by destruct (isCheckout || _).
Qed.

Lemma unasked_run rid t s :
  Inv s -> rewinding rid s -> forallb unasked t = true -> network (run t s) = network s.
Proof.
  revert s. induction t as [|i t IH]; intros s HI Hr Hu; [done|]. cbn in Hu. reflect_bool.
  cbn [run]. rewrite IH; [by eapply unasked_step|by apply inv_step| |done].
  apply (step_rewinding rid i); [done| |done]. by destruct i.
Qed.

(** ** [init] in buffered mode *)

Definition view (s : St) := (recorders s, cutoff s, _segments (sdk s), network s).

Lemma view_mount c s : view (mount c s).1 = view s.
Proof. unfold mount, mountWidget. by repeat case_match; simplify_eq. Qed.

Lemma init_rewound loc sync s c e h :
  Inv s -> _initialized (sdk s) = false -> heap s !! loc = Some c ->
  BatRewindConfig.mode c <> Some Always -> getOrCreateSession (env s) = (e, Ok h) ->
  let s1 := (init loc sync s).1 in
  rewinding (next_id s) s1 /\ rewound (cutoff s1) sync (_segments (sdk s1)) /\
  network s1 = network s.
Proof.
  intros HI Hi Hh Hm He. unfold init. rewrite Hi, Hh. sdk_simpl. rewrite He.
  destruct (getOrCreate_truthy _ _ _ He) as [Hid _].
  pose proof (adopt_ready loc c e h s HI Hi Hh Hid) as Hready.
  set (s0 := adopt_session _ _ _) in *.
  assert (_segments (sdk s0) = []) as Hseg.
  { by destruct (own_idle _ (inv_owned _ HI) Hi) as (_ & _ & _ & _ & _ & _ & Hseg). }
  assert (isBuffered s0 = true) as Hb.
  { rewrite isBuffered_mode. apply bool_decide_eq_true. unfold mode_of.
    rewrite (ready_cfg _ _ _ Hready). cbn. by destruct (BatRewindConfig.mode c) as [[]|]. }
  change (next_id s) with (next_id s0). change (network s) with (network s0). clearbody s0.
  set (s1 := (mount c (start_recording loc c sync s0)).1).
  set (r := mkRecorder Buffered loc false (privacyOptions c)
              (Some (BatRewindConfig.checkoutEveryNms c ?? CHECKOUT_EVERY_NMS)) (buildPlugins c)).
  set (s2 := set_next_id (S (next_id s0)) (set_recorders (<[next_id s0 := r]> (recorders s0)) s0)).
  assert (rewinding (next_id s0) s2) as Hr2.
  { exists r. split; [|done]. unfold s2. sdk_simpl. by rewrite lookup_insert_eq. }
  assert (view s1 = view (fold_left (fun s e => emit (next_id s0) e.1 e.2 s) sync s2)) as Hv.
  { unfold s1. rewrite view_mount. unfold start_recording. rewrite Hb.
    unfold record. by destruct (BatRewindConfig.captureOnError c) as [[|]|]. }
  unfold view in Hv. injection Hv as E1 E2 E3 E4.
  unfold rewinding. rewrite E1, E2, E3, E4. split_and!.
  - exact (rewinding_shell _ s2 _ (shell_emits _ _ _) Hr2).
  - rewrite (shell_cutoff s2) by apply shell_emits.
    apply (emits_rewound _ sync [] s2 Hr2). exists 0. split; [exact Hseg|by left].
  - by rewrite emits_unsent by done.
Qed.

Lemma rewound_empty cut h segs : rewound cut h segs -> concat segs = [] -> h = [].
Proof.
  intros (k & -> & Hk) Hc. destruct (drop k (chunks h)) as [|seg rest] eqn:Hd.
  - destruct Hk as [->|(e & r & Hl & _)].
    + rewrite drop_0 in Hd. pose proof (chunks_concat h) as E. rewrite Hd in E. by destruct h.
    + by rewrite (drop_S _ _ _ Hl) in Hd.
  - assert (seg ∈ drop k (chunks h)) as Hin by (rewrite Hd; by left).
    pose proof (Forall_drop _ k _ (chunks_nonempty h)) as Hne. rewrite Forall_forall in Hne.
    apply Hne in Hin. by destruct seg.
Qed.

(** What a report sends. *)
Lemma uploadBuffer_sent rid t ka s :
  Inv s -> rewinding rid s -> concat (_segments (sdk s)) <> [] ->
  exists c, live c s /\
    network (uploadBuffer t ka s) = network s ++ [batch c (concat (_segments (sdk s))) t ka s].
Proof.
  intros HI (r & Hr & _) Hne. destruct (cfg_truthy_live _ _ _ (inv_closures _ HI) Hr) as (c & Hl & _).
  exists c. split; [done|]. unfold uploadBuffer. pose proof Hl as [Hc Ht]. rewrite Hc, Ht. cbn [negb].
  destruct (concat (_segments (sdk s))) eqn:E; [done|]. by rewrite (upload_live c).
Qed.

Lemma report_step s : isBuffered s = true -> step HostReport s = uploadBuffer Manual false s.
Proof. intros Hb. cbn [step]. unfold report. by rewrite Hb. Qed.

(** ** Properties *)

(** C3: the rewind. Whatever has happened since [init], a report uploads, as one batch, a
    suffix of what the recorder delivered, and the events it leaves out are all at
    least [bufferMs] old: the batch covers the whole window. *)
Theorem rewind_covers s loc c e h sync t :
  reachable s -> _initialized (sdk s) = false -> heap s !! loc = Some c ->
  BatRewindConfig.mode c <> Some Always -> getOrCreateSession (env s) = (e, Ok h) ->
  forallb quiet t = true ->
  let events := map fst (sync ++ heard (next_id s) t) in
  let s1 := run t (init loc sync s).1 in
  events <> [] -> StronglySorted Z.le (map RawEvent.timestamp events) ->
  exists old b, network (step HostReport s1) = network s1 ++ [b] /\
    events = old ++ BatchPayload.events (s_payload b) /\
    Forall (fun ev => RawEvent.timestamp ev <= cutoff s1)%Z old /\
    BatchPayload.trigger (s_payload b) = Manual /\ s_keepalive b = false.
Proof.
  intros Hs Hi Hh Hm He Hq events s1 Hne Hsort. apply reachable_inv in Hs.
  pose proof (inv_init loc sync s Hs) as HI1.
  destruct (init_rewound loc sync s c e h) as (Hr & Hw & _); [done..|].
  destruct (run_rewound _ t sync _ HI1 Hq Hr Hw) as [Hr1 Hw1].
  pose proof (inv_run t _ HI1) as HI2. fold s1 in Hr1, Hw1, HI2.
  destruct (rewound_old _ _ _ Hsort Hw1) as (old & E & Hold).
  destruct (uploadBuffer_sent _ Manual false s1 HI2 Hr1) as (c1 & Hl & Hn).
  { intros Hc. apply (rewound_empty _ _ _ Hw1) in Hc. apply Hne. unfold events. by rewrite Hc. }
  rewrite (report_step s1) by (by eapply rewinding_mode).
  eexists old, _. split; [exact Hn|]. split; [exact E|]. done.
Qed.

(** The window is as small as the segments allow. Right after a checkout, every
    segment but the first opened within the last [bufferMs] milliseconds. *)
Theorem checkout_tight s rid raw i e rest :
  reachable s -> rewinding rid s -> StronglySorted Z.le (map RawEvent.timestamp
    (concat (_segments (sdk s)) ++ [raw])) ->
  let s1 := step (Emit rid raw true) s in
  _segments (sdk s1) !! S i = Some (e :: rest) ->
  (cutoff s1 < RawEvent.timestamp e)%Z.
Proof.
  intros Hs (r & Hr & Hm) Hsort. cbn [step]. intros Hl. apply reachable_inv in Hs.
  rewrite (shell_cutoff s) by apply shell_emit. unfold emit in Hl. rewrite Hr, Hm in Hl.
  rewrite emitBuffered_segments in Hl. cbn [orb] in Hl. fold (window_ms s) (cutoff s) in Hl.
  change (concat (_segments (sdk s)) ++ [raw]) with (concat (_segments (sdk s)) ++ [(raw, true).1]) in Hsort.
  rewrite <- push_concat in Hsort.
  pose proof (push_nonempty _ (raw, true) (ok_nonempty _ _ _ _ (inv_bufs _ Hs))) as Hne.
  set (segs := push _ _) in *. destruct (prune_pruned (cutoff s) segs Hne) as [j [Hd _ _ Ht]].
  rewrite Hd, lookup_drop in Hl.
  destruct (lookup_lt_is_Some_2 segs (S j)) as [seg Hseg]; [apply lookup_lt_Some in Hl; lia|].
  pose proof (Forall_lookup_1 _ _ _ _ Hne Hseg) as Hne1. destruct seg as [|e0 rest0]; [done|].
  eapply Z.lt_le_trans; [by eapply Ht|]. destruct i as [|i].
  { rewrite Nat.add_1_r in Hl. simplify_eq. lia. }
  rewrite <- (take_drop (S (S j)) segs), concat_app, map_app in Hsort.
  eapply StronglySorted_app_1_elem_of; [exact Hsort| |]; apply list_elem_of_fmap_2, list_elem_of_In, in_concat.
  - exists (e0 :: rest0). split; [|by left]. apply list_elem_of_In, elem_of_take. eauto with lia.
  - exists (e :: rest). split; [|by left]. apply list_elem_of_In, list_elem_of_lookup.
    exists i. rewrite lookup_drop, <- Hl. f_equal. lia.
Qed.

(** C4: in buffered mode nothing leaves the page unless a report, an error, an unhandled
    rejection or the widget asks for it: recording, hiding, unloading and stopping
    send nothing. *)
Theorem buffered_private s loc c e h sync t :
  reachable s -> _initialized (sdk s) = false -> heap s !! loc = Some c ->
  BatRewindConfig.mode c <> Some Always -> getOrCreateSession (env s) = (e, Ok h) ->
  forallb unasked t = true ->
  network (stop (run t (init loc sync s).1)) = network s.
Proof.
  intros Hs Hi Hh Hm He Hu. apply reachable_inv in Hs.
  pose proof (inv_init loc sync s Hs) as HI1.
  destruct (init_rewound loc sync s c e h) as (Hr & Hw & Hn); [done..|].
  destruct (run_rewound _ t sync _ HI1 (unasked_quiet t Hu) Hr Hw) as [Hr1 _].
  pose proof (inv_run t _ HI1) as HI2.
  rewrite stop_unhooked by apply HI2. rewrite (rewinding_mode _ _ HI2 Hr1). cbn [negb].
  change (network (run t (init loc sync s).1) = network s). by erewrite unasked_run.
Qed.

(** Reports are not incremental. The rolling buffer stays as it is after an upload, so
    a second report sends every event of the first one again. *)
Theorem report_repeats s rid :
  reachable s -> rewinding rid s -> concat (_segments (sdk s)) <> [] ->
  exists b1 b2, network (run [HostReport; HostReport] s) = network s ++ [b1; b2] /\
    BatchPayload.events (s_payload b1) = concat (_segments (sdk s)) /\
    BatchPayload.events (s_payload b2) = concat (_segments (sdk s)).
Proof.
  intros Hs Hr Hne. apply reachable_inv in Hs. cbn [run].
  rewrite (report_step s) by (by eapply rewinding_mode).
  set (s1 := uploadBuffer Manual false s).
  assert (rewinding rid s1) as Hr1 by (eapply rewinding_shell; [apply shell_uploadBuffer|done]).
  assert (Inv s1) as HI1 by (by apply inv_uploadBuffer).
  assert (_segments (sdk s1) = _segments (sdk s)) as Hseg
    by (exact (proj1 (proj2 (buffers_uploadBuffer Manual false s)))). 
  rewrite (report_step s1) by (by eapply rewinding_mode).
  destruct (uploadBuffer_sent rid Manual false s) as (c & _ & Hn); [done..|].
  destruct (uploadBuffer_sent rid Manual false s1) as (c1 & _ & Hn1); [done|done|congruence|].
  fold s1 in Hn. rewrite Hn1, Hn, <- app_assoc, Hseg. by eexists _, _.
Qed.

(** An uncaught error or an unhandled rejection uploads the whole rolling buffer, as a
    [keepalive] request, however large the buffer is. *)
Theorem error_upload s rid i :
  reachable s -> rewinding rid s -> concat (_segments (sdk s)) <> [] ->
  (i = UncaughtError /\ OnWindowError ∈ listeners s) \/
  (i = Rejection /\ OnUnhandledRejection ∈ listeners s) ->
  (c ← cfg s; BatRewindConfig.captureOnError c) <> Some false ->
  exists b, network (step i s) = network s ++ [b] /\
    BatchPayload.events (s_payload b) = concat (_segments (sdk s)) /\
    BatchPayload.trigger (s_payload b) = OnErrorTrigger /\ s_keepalive b = true.
Proof.
  intros Hs Hr Hne Hi Hc. apply reachable_inv in Hs.
  assert (step i s = uploadBuffer OnErrorTrigger true s) as ->.
  { destruct Hi as [[-> Hin]|[-> Hin]]; cbn [step]; unfold on_listener, onError;
      rewrite decide_True by done; by destruct (c ← cfg s; _) as [[|]|]. }
  destruct (uploadBuffer_sent rid OnErrorTrigger true s) as (c & _ & Hn); [done..|].
  rewrite Hn. by eexists.
Qed.
End rewind.

Definition demo_later : St := run demo_minutes (demo_start demo_buffered).

Lemma demo_later_reachable : reachable demo_later.
Proof. apply reachable_run, demo_reachable. Qed.

Lemma demo_rewinding : rewinding 0 demo_later.
Proof. eexists. split; by_eval. Qed.

Lemma rewind_covers_witness :
  let events := map fst (demo_sync ++ heard 0 demo_minutes) in
  let s1 := run demo_minutes (init 0 demo_sync (demo_idle demo_buffered)).1 in
  exists old b, network (step HostReport s1) = network s1 ++ [b] /\
    events = old ++ BatchPayload.events (s_payload b) /\
    Forall (fun ev => RawEvent.timestamp ev <= cutoff s1)%Z old /\
    BatchPayload.trigger (s_payload b) = Manual /\ s_keepalive b = false.
Proof.
  eapply (rewind_covers (demo_idle demo_buffered) 0 demo_buffered _ _ demo_sync demo_minutes);
    [apply demo_idle_reachable|by_eval|by_eval|vm_compute; discriminate|by_eval|by_eval
    |vm_compute; discriminate|by_sorted].
Defined.

Lemma checkout_tight_witness :
  let s1 := step (Emit 0 (demo_event 4 170000) true) demo_later in
  (cutoff s1 < 1170000)%Z.
Proof.
  apply (checkout_tight demo_later 0 (demo_event 4 170000) 1 (demo_event 4 170000) []);
    [apply demo_later_reachable|apply demo_rewinding|by_sorted|by_eval].
Defined.

Lemma buffered_private_witness :
  network (stop (run demo_minutes (init 0 demo_sync (demo_idle demo_buffered)).1))
  = network (demo_idle demo_buffered).
Proof.
  eapply (buffered_private (demo_idle demo_buffered) 0 demo_buffered _ _ demo_sync demo_minutes);
    [apply demo_idle_reachable|by_eval|by_eval|vm_compute; discriminate|by_eval|by_eval].
Defined.

Lemma report_repeats_witness :
  exists b1 b2, network (run [HostReport; HostReport] demo_later) = network demo_later ++ [b1; b2] /\
    BatchPayload.events (s_payload b1) = concat (_segments (sdk demo_later)) /\
    BatchPayload.events (s_payload b2) = concat (_segments (sdk demo_later)).
Proof.
  apply (report_repeats demo_later 0);
    [apply demo_later_reachable|apply demo_rewinding|vm_compute; discriminate].
Defined.

Lemma error_upload_witness :
  exists b, network (step Rejection demo_later) = network demo_later ++ [b] /\
    BatchPayload.events (s_payload b) = concat (_segments (sdk demo_later)) /\
    BatchPayload.trigger (s_payload b) = OnErrorTrigger /\ s_keepalive b = true.
Proof.
  apply (error_upload demo_later 0 Rejection);
    [apply demo_later_reachable|apply demo_rewinding|vm_compute; discriminate| |vm_compute; discriminate].
  right. split; [done|]. apply (bool_decide_unpack _). vm_compute. exact I.
Defined.
