(* ===== verification/Lifecycle.v ===== *)
(** * The life of the recorder: starting, stopping, identifying, reporting

    What holds across whole runs of the state machine: a stopped SDK is idle and silent, one
    recorder at most is active, every batch belongs to its session, the metadata goes out
    once, [identify] sticks, and a failed [init] cannot be repeated. *)

From S2P Require Import Prelude Decimal JsValue Json Types Transport Session Metadata.
From S2P Require Import Sdk SdkInv SdkProps Demo.

Section lifecycle.
Context `{JsonEngine} `{UuidSource}.

(** ** A page with nothing active *)

Record Idle (s : St) : Prop := {
  idle_init : _initialized (sdk s) = false;
  idle_config : _config (sdk s) = None;
  idle_session : _sessionId (sdk s) = JNull /\ _shareToken (sdk s) = JNull;
  idle_meta : _clientMeta (sdk s) = None /\ _clientMetaSent (sdk s) = false;
  idle_buffers : _buffer (sdk s) = [] /\ _segments (sdk s) = [];
  idle_recorders : recorders s = ∅;
  idle_timers : timers s = ∅;
  idle_listeners : listeners s = ∅;
  idle_widgets : widgets s = ∅
}.

Lemma stop_idle s : Inv s -> Idle (stop s).
Proof.
  intros HI. destruct (stop_clean s (inv_owned _ HI)) as (Hk & Hr & Ht & Hl & Hw & _).
  split; rewrite ?Hk; done.
Qed.

Lemma idle_unsent t : forall s, Idle s -> forallb quiet t = true ->
  Idle (run t s) /\ network (run t s) = network s.
Proof.
  induction t as [|i t IH]; intros s HI Hq; [done|]. cbn in Hq. reflect_bool. cbn [run].
  assert (Idle (step i s) /\ network (step i s) = network s) as [Hi Hn].
  2: { destruct (IH (step i s) Hi) as [? ->]; done. }
  pose proof HI as [I1 I2 I3 I4 [I5 I6] I7 I8 I9 I10].
  assert (forall f k, flush f k s = s) as Hf by (intros; by apply flush_empty).
  assert (forall t k, uploadBuffer t k s = s) as Hu
    by (intros; unfold uploadBuffer, cfg; by rewrite I2).
  assert ((report s).1 = s) as Hrep by (unfold report; cbn [fst]; rewrite Hf, Hu; by destruct isBuffered).
  destruct i; try done; cbn [step]; unfold on_listener, identify, emit;
    rewrite ?I2, ?I7, ?I8, ?I9, ?I10, ?Hrep, ?lookup_empty; try done.
Qed.

Lemma owned_singleton {A} (m : gmap nat A) (o : option nat) :
  (forall i x, m !! i = Some x -> o = Some i) ->
  m = ∅ \/ exists i x, m = {[i := x]} /\ o = Some i.
Proof.
  intros Hm. destruct (map_choose_or_empty m) as [(i & x & Hx)|He]; [|by left]. right.
  exists i, x. split; [|by eapply Hm]. apply map_eq. intros j.
  destruct (decide (i = j)) as [<-|Hne]; [by rewrite lookup_singleton_eq|].
  rewrite lookup_singleton_ne by done. destruct (m !! j) as [y|] eqn:Hj; [|done].
  apply Hm in Hx, Hj. congruence.
Qed.

(** ** Whose session it is *)

(** The configuration in use names the user [x]. *)
Definition named (x : jsstr) (s : St) : Prop :=
  BatRewindConfig.identifier <$> cfg s = Some (Some x).

Definition called (x : jsstr) (b : Sent) : Prop :=
  BatchPayload.identifier (s_payload b) = JStr x.

(** What [s'] sent beyond [s] carries the name [x]. *)
Definition names (x : jsstr) (s s' : St) : Prop :=
  exists l, network s' = network s ++ l /\ Forall (called x) l.

Lemma names_same x s s' : network s' = network s -> names x s s'.
Proof. intros Hn. exists []. by rewrite app_nil_r. Qed.

Lemma names_trans x a b c : names x a b -> names x b c -> names x a c.
Proof.
  intros (l & Hl & Fl) (k & Hk & Fk). exists (l ++ k). rewrite Hk, Hl, app_assoc.
  split; [done|]. by apply Forall_app.
Qed.

Lemma sends_names x s s' l : named x s -> Sends s s' l -> names x s s'.
Proof.
  intros Hx Hs. destruct Hs as [Hn _|c events t ka [Hc _] _ Hn _]; [by apply names_same|].
  exists [batch c events t ka s]. split; [done|]. constructor; [|done].
  unfold named in Hx. rewrite Hc in Hx. cbn in Hx. apply (inj Some) in Hx.
  unfold called, batch. cbn. by rewrite Hx.
Qed.

Lemma named_shell x s s' : shell s' = shell s -> named x s -> named x s'.
Proof. intros Hs. unfold named. by rewrite (shell_cfg _ _ Hs). Qed.

(** Inputs short of starting, stopping and identifying. *)
Definition steady (i : input) : bool :=
  match i with HostIdentify _ => false | _ => quiet i end.

Lemma steady_quiet i : steady i = true -> quiet i = true.
Proof. by destruct i. Qed.

Lemma step_names x i s :
  Inv s -> named x s -> steady i = true -> names x s (step i s) /\ named x (step i s).
Proof.
  intros HI Hx Hi. pose proof (steady_quiet i Hi) as Hq. split.
  - destruct (step_sends i s Hq) as [l Hl]. by eapply sends_names.
  - destruct (step_shell i s Hq) as [Hs|[[c ->]|[[y ->]|[d ->]]]]; try done.
    + by eapply named_shell.
    + unfold named, cfg in *. cbn [step]. sdk_simpl. destruct (_config (sdk s)) as [l|]; [|done].
      cbn in *. destruct (heap s !! l) as [c'|] eqn:Hh; [|done].
      by rewrite (lookup_app_l_Some _ _ _ _ Hh).
Qed.

Lemma run_names x t s :
  Inv s -> named x s -> forallb steady t = true -> names x s (run t s) /\ named x (run t s).
Proof.
  revert s. induction t as [|i t IH]; intros s HI Hx Ht; [by split; [apply names_same|]|].
  cbn in Ht. reflect_bool. destruct (step_names x i s) as [H1' H2']; [done..|].
  destruct (IH (step i s)) as [H3' H4']; [by apply inv_step|done|done|].
  split; [by eapply names_trans|done].
Qed.

Lemma emits_names x rid sync s :
  named x s -> names x s (fold_left (fun s e => emit rid e.1 e.2 s) sync s).
Proof.
  revert s. induction sync as [|e sync IH]; intros s Hx; [by apply names_same|]. cbn [fold_left].
  destruct (emit_sends rid e.1 e.2 s) as [l Hl]. eapply names_trans; [by eapply sends_names|].
  apply IH. eapply named_shell; [apply shell_emit|done].
Qed.

Lemma start_recording_names x loc c sync s :
  named x s -> names x s (mount c (start_recording loc c sync s)).1 /\
    cfg (mount c (start_recording loc c sync s)).1 = cfg s.
Proof.
  intros Hx.
  assert (forall s', cfg (mount c s').1 = cfg s' /\ network (mount c s').1 = network s') as Hm
    by (intros; unfold mount, mountWidget; by repeat case_match; simplify_eq).
  destruct (Hm (start_recording loc c sync s)) as [-> Hn]. unfold names. rewrite Hn.
  assert (forall rid s2, named x s2 -> exists l,
    network (fold_left (fun s e => emit rid e.1 e.2 s) sync s2) = network s2 ++ l /\
    Forall (called x) l) as Hem by (intros; by apply emits_names).
  assert (forall rid s2, cfg (fold_left (fun s e => emit rid e.1 e.2 s) sync s2) = cfg s2) as Hcfg
    by (intros; apply shell_cfg, shell_emits).
  unfold start_recording, record, set_interval.
  destruct (isBuffered s); [destruct (BatRewindConfig.captureOnError c) as [[|]|]|];
    match goal with |- context [fold_left _ _ ?s2] =>
      split; [exact (Hem (next_id s) s2 Hx)|exact (Hcfg (next_id s) s2)] end.
Qed.

Lemma init_names x loc c sync s :
  Idle s -> heap s !! loc = Some c -> BatRewindConfig.identifier c = Some x ->
  names x s (init loc sync s).1 /\ named x (init loc sync s).1.
Proof.
  intros HI Hh Hx. unfold init. rewrite (idle_init _ HI), Hh.
  assert (forall e, named x (set_env e (on_sdk (fun k => set_config (Some loc) (set_initialized true k)) s)))
    as Hcfg by (intros e; unfold named, cfg; sdk_simpl; cbn; rewrite Hh; cbn; by rewrite Hx).
  destruct (getOrCreateSession _) as [e [h|y]].
  - destruct (start_recording_names x loc c sync (adopt_session c h (set_env e
      (on_sdk (fun k => set_config (Some loc) (set_initialized true k)) s))) (Hcfg e)) as [Hn Hc].
    split; [exact Hn|]. unfold named. rewrite Hc. exact (Hcfg e).
  - split; [by apply names_same|apply Hcfg].
Qed.

Lemma stop_names x s : Inv s -> named x s -> names x s (stop s).
Proof.
  intros HI Hx. rewrite stop_unhooked by apply HI.
  change (names x (unhooked s) (on_sdk reset
    (if negb (isBuffered s) then flush true false (unhooked s) else unhooked s))).
  destruct (negb (isBuffered s)); [|by apply names_same].
  destruct (flush_sends true false (unhooked s)) as [l Hl].
  exact (sends_names x (unhooked s) _ l Hx Hl).
Qed.

Lemma identify_named x s : Inv s -> is_Some (_config (sdk s)) -> named x (identify x s).
Proof.
  intros HI [loc Hl]. unfold identify, named, cfg. rewrite Hl. sdk_simpl. rewrite Hl. cbn.
  rewrite list_lookup_alter_eq. destruct (closures_config _ (inv_closures _ HI) loc Hl) as [c ->].
  done.
Qed.
(** ** The device metadata *)

(** What is still due after a list of batches. *)
Definition meta_left (m : option ClientMeta.t) (l : list Sent) : option ClientMeta.t :=
  match l with [] => m | _ => None end.

Definition metas (s s' : St) : Prop :=
  exists l, network s' = network s ++ l /\ meta_once (meta_due s) l /\
    meta_due s' = meta_left (meta_due s) l.

Lemma metas_same s s' : network s' = network s -> meta_due s' = meta_due s -> metas s s'.
Proof. intros Hn Hm. exists []. by rewrite app_nil_r. Qed.

Lemma meta_once_app m l k :
  meta_once m l -> meta_once (meta_left m l) k -> meta_once m (l ++ k).
Proof.
  revert m. induction l as [|b l IH]; intros m; [done|]. cbn. intros [? ?] Hk. split; [done|].
  apply IH; [done|]. by destruct l.
Qed.

Lemma metas_trans a b c : metas a b -> metas b c -> metas a c.
Proof.
  intros (l & Hl & Ml & El) (k & Hk & Mk & Ek). exists (l ++ k).
  rewrite El in Mk, Ek. split; [by rewrite Hk, Hl, app_assoc|].
  split; [by apply meta_once_app|]. rewrite Ek. by destruct l, k.
Qed.

Lemma sends_metas s s' l : Sends s s' l -> _clientMeta (sdk s') = _clientMeta (sdk s) -> metas s s'.
Proof.
  intros Hs Hm. destruct Hs as [Hn Hf|c events t ka _ _ Hn Hf].
  - apply metas_same; [done|]. unfold meta_due. by rewrite Hf, Hm.
  - exists [batch c events t ka s]. unfold meta_due. rewrite Hf, Hm.
    split; [done|]. cbn. by destruct (_clientMetaSent (sdk s)), (_clientMeta (sdk s)).
Qed.

Lemma ids_meta s s' : ids s' = ids s -> _clientMeta (sdk s') = _clientMeta (sdk s).
Proof. unfold ids. by intros [= _ _ _ -> _]. Qed.

Lemma run_metas t s : forallb quiet t = true -> metas s (run t s).
Proof.
  revert s. induction t as [|i t IH]; intros s Ht; [by apply metas_same|]. cbn in Ht. reflect_bool.
  destruct (step_sends i s) as [l Hl]; [done|]. eapply metas_trans; [|by apply IH].
  eapply sends_metas; [done|]. by apply ids_meta, quiet_ids.
Qed.

Lemma emits_metas rid sync s : metas s (fold_left (fun s e => emit rid e.1 e.2 s) sync s).
Proof.
  revert s. induction sync as [|e sync IH]; intros s; [by apply metas_same|]. cbn [fold_left].
  destruct (emit_sends rid e.1 e.2 s) as [l Hl]. eapply metas_trans; [|apply IH].
  eapply sends_metas; [done|]. by apply ids_meta, shell_ids, shell_emit.
Qed.

Lemma start_recording_metas loc c sync s : metas s (mount c (start_recording loc c sync s)).1.
Proof.
  eapply metas_trans.
  2: { apply (metas_same (start_recording loc c sync s)); unfold mount, mountWidget;
         by repeat case_match; simplify_eq. }
  unfold start_recording, record, set_interval.
  destruct (isBuffered s); [destruct (BatRewindConfig.captureOnError c) as [[|]|]|];
    match goal with |- context [fold_left _ _ ?s2] => exact (emits_metas (next_id s) sync s2) end.
Qed.

(** ** Properties *)

(** [stop] undoes [init]: afterwards no recorder, timer, listener or widget is active and
    every variable of the module but the three handles has its initial value. *)
Lemma stop_cleans s : reachable s -> Idle (stop s).
Proof. intros Hs. by apply stop_idle, reachable_inv. Qed.

(** C6: a stopped SDK is silent: whatever the page does until the next [init], nothing is
    sent and nothing becomes active. *)
Theorem stopped_silent s t :
  reachable s -> forallb quiet t = true ->
  Idle (run t (stop s)) /\ network (run t (stop s)) = network (stop s).
Proof. intros Hs Hq. apply idle_unsent; [by apply stop_idle, reachable_inv|done]. Qed.

(** C19: however often [init] and [stop] are called, at most one recorder, one timer and one
    widget are active, and they are the ones the module's handles refer to. *)
Theorem single_handles s :
  reachable s ->
  (recorders s = ∅ \/ exists rid r, recorders s = {[rid := r]} /\ _stopRecording (sdk s) = Some rid) /\
  (timers s = ∅ \/ exists t p, timers s = {[t := p]} /\ _flushTimer (sdk s) = Some t) /\
  (widgets s = ∅ \/ exists w o, widgets s = {[w := o]} /\ _unmountWidget (sdk s) = Some w).
Proof.
  intros Hs. apply reachable_inv in Hs. destruct Hs as [_ _ [Hr Ht Hw _]].
  split_and!; by apply owned_singleton.
Qed.

(** What [identify] sets reaches every later upload, and since it writes the configuration object
    the host passed, the name outlives [stop]: a session started again from the same
    object carries it too. *)
Theorem identify_sticks s loc x t1 sync t2 :
  reachable s -> _config (sdk s) = Some loc ->
  forallb steady t1 = true -> forallb steady t2 = true ->
  names x s (run t2 (init loc sync (stop (run t1 (identify x s)))).1).
Proof.
  intros Hs Hc Ht1 Ht2. apply reachable_inv in Hs.
  assert (named x (identify x s)) as Hx by (apply identify_named; [done|by rewrite Hc]).
  assert (names x s (identify x s)) as Hn0
    by (apply names_same; unfold identify; by destruct (_config (sdk s))).
  pose proof (inv_identify x s Hs) as HI0.
  destruct (run_names x t1 _ HI0 Hx Ht1) as [Hn1 Hx1]. pose proof (inv_run t1 _ HI0) as HI1.
  assert (_config (sdk (run t1 (identify x s))) = Some loc) as Hc1.
  { assert (forallb quiet t1 = true) as Hq1
      by (apply forallb_forall; intros i Hi; eapply forallb_forall in Ht1; [|done]; by apply steady_quiet).
    destruct (run_quiet_inv t1 _ HI0 Hq1) as (_ & Hids & _).
    unfold ids in Hids. injection Hids as -> _ _ _ _. unfold identify. by rewrite Hc. }
  set (s1 := run t1 _) in *. pose proof (stop_names x s1 HI1 Hx1) as Hn2.
  destruct (stop_clean s1 (inv_owned _ HI1)) as (_ & _ & _ & _ & _ & _ & Hheap).
  unfold named, cfg in Hx1. rewrite Hc1 in Hx1. cbn in Hx1.
  destruct (heap s1 !! loc) as [c|] eqn:Hh; [|done]. cbn in Hx1. apply (inj Some) in Hx1.
  rewrite <- Hheap in Hh.
  destruct (init_names x loc c sync (stop s1) (stop_idle s1 HI1) Hh Hx1) as [Hn3 Hx3].
  pose proof (inv_init loc sync _ (inv_stop s1 HI1)) as HI3.
  destruct (run_names x t2 _ HI3 Hx3 Ht2) as [Hn4 _].
  by do 4 (eapply names_trans; [done|]).
Qed.

(** The first batch of a session started by [init] carries the device metadata collected
    at that [init], and no other batch does, whichever way the batches come about. *)
Theorem metadata_once s loc c e h sync t :
  reachable s -> _initialized (sdk s) = false -> heap s !! loc = Some c ->
  getOrCreateSession (env s) = (e, Ok h) -> forallb quiet t = true ->
  exists l, network (run t (init loc sync s).1) = network s ++ l /\
    meta_once (match BatRewindConfig.captureClientMetadata c with
               | Some false => None
               | _ => Some (collectClientMeta (ambient s))
               end) l.
Proof.
  intros Hs Hi Hh He Hq. unfold init. rewrite Hi, Hh. sdk_simpl. rewrite He.
  set (s0 := adopt_session _ _ _).
  destruct (metas_trans s0 _ _ (start_recording_metas loc c sync s0) (run_metas t _ Hq))
    as (l & Hl & Hm & _).
  exists l. split; [exact Hl|exact Hm].
Qed.

(** C16: every batch of a running session names the session's identifier and share token, goes
    to the configured endpoint with the configured key, and is never empty. *)
Theorem session_batches s c t :
  reachable s -> cfg s = Some c -> forallb quiet t = true ->
  exists l, network (run t s) = network s ++ l /\ Forall (BatchOf s c) l.
Proof.
  intros Hs Hc Hq. destruct (run_sends t s) as (l & Hn & Hof & _); [by apply reachable_inv|done|].
  eauto.
Qed.

(** What [report] returns, and what it uploads, for a session with a share token. *)
Lemma report_value s c tok :
  live c s -> _shareToken (sdk s) = JStr tok ->
  (report s).2 = Ok (ReportResult.mk (_sessionId (sdk s)) (JStr tok)
    (strip_slash (BatRewindConfig.shareBaseUrl c ?? BatRewindConfig.endpoint c)
       ++ js "/share/" ++ tok)).
Proof.
  intros [Hc Ht] Htok. pose proof (shell_report s) as Hs. pose proof (shell_cfg _ _ Hs) as Hc1.
  unfold report in Hs, Hc1 |- *. cbn [fst snd] in *.
  set (s1 := if isBuffered s then _ else _) in *. unfold shell in Hs.
  injection Hs as _ E2 E3 _ _ _ _ _ _ _ _ _ _ _ _ _ _.
  unfold shareUrl. rewrite E2, E3, Hc1, Hc, Htok. cbn.
  assert (coalesce (_sessionId (sdk s)) (JStr []) = _sessionId (sdk s)) as ->
    by (by destruct (_sessionId (sdk s))).
  by destruct (BatRewindConfig.shareBaseUrl c).
Qed.

Lemma report_batches s tok :
  _shareToken (sdk s) = JStr tok ->
  exists l, network (report s).1 = network s ++ l /\
    Forall (fun b => BatchPayload.share_token (s_payload b) = JStr tok /\
                     BatchPayload.session_id (s_payload b) = _sessionId (sdk s)) l.
Proof.
  intros Htok. destruct (report_sends s) as [l Hl]. exists l. split; [by apply sends_network|].
  destruct Hl as [|c' events tr ka _ _ _ _]; [done|]. constructor; [|done].
  cbn. by rewrite Htok.
Qed.

(** The link [report] returns is the share page of the token its own batch was uploaded
    under, below the configured base (or the endpoint) with at most one slash removed. *)
Theorem report_link s c tok :
  live c s -> _shareToken (sdk s) = JStr tok -> tok <> [] ->
  (report s).2 = Ok (ReportResult.mk (_sessionId (sdk s)) (JStr tok)
    (strip_slash (BatRewindConfig.shareBaseUrl c ?? BatRewindConfig.endpoint c)
       ++ js "/share/" ++ tok)) /\
  exists l, network (report s).1 = network s ++ l /\
    Forall (fun b => BatchPayload.share_token (s_payload b) = JStr tok /\
                     BatchPayload.session_id (s_payload b) = _sessionId (sdk s)) l.
Proof. intros. split; [by apply report_value|by apply report_batches]. Qed.

(** C17: in every reachable state the linear buffer is empty or below [flushMaxBytes] bytes of
    JSON, each mode leaves the other mode's buffer empty, and no segment is empty. *)
Theorem buffers_bounded s :
  reachable s -> BufOk (mode_of s) (max_bytes s) (_buffer (sdk s)) (_segments (sdk s)).
Proof. intros Hs. apply reachable_inv in Hs. apply Hs. Qed.

(** Outside a secure context, with no stored session, [init] throws after it has marked
    the SDK initialised: later calls of [init] return normally and do nothing, and
    nothing is ever recorded or sent. *)
Theorem init_stuck s loc c sync :
  Idle s -> heap s !! loc = Some c -> secure_context (env s) = false ->
  storage (env s) !! SESSION_KEY = None ->
  let s1 := (init loc sync s).1 in
  (init loc sync s).2 = Throw TypeError /\ recorders s1 = ∅ /\
  (forall loc' sync', init loc' sync' s1 = (s1, Ok tt)) /\
  (forall rid raw chk, step (Emit rid raw chk) s1 = s1).
Proof.
  intros HI Hh Hsec Hst.
  assert (getOrCreateSession (env s) = (env s, Throw TypeError)) as He.
  { unfold getOrCreateSession, sm_bind, sm_try, reuseSession, sm_bind, getItem.
    rewrite Hst. unfold generateId. by destruct (readable (env s)); cbn; rewrite Hsec. }
  unfold init. rewrite (idle_init _ HI), Hh. sdk_simpl. rewrite He. cbn [fst snd]. sdk_simpl.
  split_and!; [done|apply HI|done|].
  intros rid raw chk. cbn [step]. unfold emit. sdk_simpl. by rewrite (idle_recorders _ HI), lookup_empty.
Qed.
End lifecycle.

Lemma stopped_silent_witness :
  let s := run demo_trace (demo_start demo_always) in
  Idle (run demo_trace (stop s)) /\ network (run demo_trace (stop s)) = network (stop s).
Proof.
  apply (stopped_silent (run demo_trace (demo_start demo_always)) demo_trace);
    [apply reachable_run, demo_reachable|by_eval].
Defined.

Lemma single_handles_witness :
  let s := run [HostStop; HostInit 0 demo_sync; HostInit 0 demo_sync] (demo_start demo_always) in
  (recorders s = ∅ \/ exists rid r, recorders s = {[rid := r]} /\ _stopRecording (sdk s) = Some rid) /\
  (timers s = ∅ \/ exists t p, timers s = {[t := p]} /\ _flushTimer (sdk s) = Some t) /\
  (widgets s = ∅ \/ exists w o, widgets s = {[w := o]} /\ _unmountWidget (sdk s) = Some w).
Proof.
  apply (single_handles (run [HostStop; HostInit 0 demo_sync; HostInit 0 demo_sync]
                           (demo_start demo_always))), reachable_run, demo_reachable.
Defined.

Lemma identify_sticks_witness :
  names (js "ana") (demo_start demo_always)
    (run [Emit 3 (demo_event 3 99) false; HostReport]
       (init 0 demo_sync (stop (run [Emit 0 (demo_event 3 9) false; TimerFires 1]
          (identify (js "ana") (demo_start demo_always))))).1).
Proof.
  apply (identify_sticks (demo_start demo_always) 0 (js "ana")
           [Emit 0 (demo_event 3 9) false; TimerFires 1] demo_sync
           [Emit 3 (demo_event 3 99) false; HostReport]);
    [apply demo_reachable|by_eval..].
Defined.

Lemma metadata_once_witness :
  exists l, network (run demo_trace (init 0 demo_sync (demo_idle demo_always)).1)
            = network (demo_idle demo_always) ++ l /\
    meta_once (Some (collectClientMeta demo_ambient)) l.
Proof.
  eapply (metadata_once (demo_idle demo_always) 0 demo_always _ _ demo_sync demo_trace);
    [apply demo_idle_reachable|by_eval|by_eval|by_eval|by_eval].
Defined.

Lemma session_batches_witness :
  exists l, network (run demo_trace (demo_start demo_always))
            = network (demo_start demo_always) ++ l /\
    Forall (BatchOf (demo_start demo_always) demo_always) l.
Proof.
  apply (session_batches (demo_start demo_always) demo_always demo_trace);
    [apply demo_reachable|by_eval|by_eval].
Defined.

Lemma report_link_witness :
  let s := demo_start demo_buffered in
  (report s).2 = Ok (ReportResult.mk (_sessionId (sdk s)) (JStr (demo_id 1))
    (strip_slash (js "https://bat.example/") ++ js "/share/" ++ demo_id 1)) /\
  exists l, network (report s).1 = network s ++ l /\
    Forall (fun b => BatchPayload.share_token (s_payload b) = JStr (demo_id 1) /\
                     BatchPayload.session_id (s_payload b) = _sessionId (sdk s)) l.
Proof.
  apply (report_link (demo_start demo_buffered) demo_buffered (demo_id 1));
    [by split; by_eval|by_eval|vm_compute; discriminate].
Defined.

Lemma buffers_bounded_witness :
  let s := run [Emit 0 (demo_event 3 9) false] (demo_start demo_always) in
  BufOk (mode_of s) (max_bytes s) (_buffer (sdk s)) (_segments (sdk s)).
Proof.
  apply (buffers_bounded (run [Emit 0 (demo_event 3 9) false] (demo_start demo_always))),
    reachable_run, demo_reachable.
Defined.

Lemma init_stuck_witness :
  let s := step (HostConfig demo_buffered) (page (mkEnv ∅ true true false 0 0) demo_ambient true) in
  let s1 := (init 0 demo_sync s).1 in
  (init 0 demo_sync s).2 = Throw TypeError /\ recorders s1 = ∅ /\
  (forall loc' sync', init loc' sync' s1 = (s1, Ok tt)) /\
  (forall rid raw chk, step (Emit rid raw chk) s1 = s1).
Proof.
  apply (init_stuck _ 0 demo_buffered); [by split; [..|split|split|split| | | |]|by_eval..].
Defined.
