(* ===== verification/Contract.v ===== *)
(** * What the recorder promises

    The contract of packages/browser/src/index.ts, without its buffers, segments, timers,
    listeners, handles and configuration objects: three phases, the events heard, and the
    batches that may leave the page at each input. [Refine] proves that the code keeps it. *)

From S2P Require Import Prelude JsValue Types Session Sdk.
From stdpp Require Import sorting.

(** What the server can tell of a batch. *)
Record Batch := mkBatch {
  b_session : jsval;
  b_events : list RawEvent.t;
  b_trigger : Trigger;
  b_keepalive : bool
}.

Inductive Phase :=
  | Silent
  (** [pending] was heard and not sent; [fresh] until a first snapshot overtakes it *)
  | Streams (session : jsval) (pending : list RawEvent.t) (fresh : bool)
  (** [tape] is everything heard since the start; [window] is in milliseconds *)
  | Rewinds (session : jsval) (window : Z) (tape : list RawEvent.t).

Record Spec := mkSpec { phase : Phase; time : Z }.

Inductive label := Hear (e : RawEvent.t) | Send (b : Batch).

Definition heard_of (ls : list label) : list RawEvent.t :=
  omap (fun l => match l with Hear e => Some e | Send _ => None end) ls.
Definition sent_of (ls : list label) : list Batch :=
  omap (fun l => match l with Send b => Some b | Hear _ => None end) ls.

(** The inputs that ask for the rewind, with what its batch is triggered by. *)
Definition asks (i : input) : option Trigger :=
  match i with
  | HostReport | WidgetClick _ => Some Manual
  | UncaughtError | Rejection => Some OnErrorTrigger
  | _ => None
  end.

(** The inputs after which the page may be gone: their batches must outlive it. *)
Definition leaving (i : input) : bool :=
  match i with VisibilityChanges _ | Unload => true | _ => false end.

Definition survives (t : Trigger) : bool :=
  match t with OnErrorTrigger => true | _ => false end.

(** One move of the contract while the input [i] is handled. *)
Inductive cstep (i : input) : Spec -> list label -> Spec -> Prop :=
  | c_start_stream t session :
    truthy session = true -> (exists loc sync, i = HostInit loc sync) ->
    cstep i (mkSpec Silent t) [] (mkSpec (Streams session [] true) t)
  | c_start_rewind t session window :
    truthy session = true -> (exists loc sync, i = HostInit loc sync) ->
    cstep i (mkSpec Silent t) [] (mkSpec (Rewinds session window []) t)
  | c_keep t session pending fresh e :
    cstep i (mkSpec (Streams session pending fresh) t) [Hear e]
            (mkSpec (Streams session (pending ++ [e]) fresh) t)
  | c_overtake t session pending e :
    RawEvent.type e = 2%Z ->
    cstep i (mkSpec (Streams session pending true) t)
            [Hear e; Send (mkBatch session [e] Stream false)]
            (mkSpec (Streams session pending false) t)
  | c_flush t session pending fresh :
    pending <> [] ->
    cstep i (mkSpec (Streams session pending fresh) t)
            [Send (mkBatch session pending Stream (leaving i))]
            (mkSpec (Streams session [] fresh) t)
  | c_record t session window tape e :
    cstep i (mkSpec (Rewinds session window tape) t) [Hear e]
            (mkSpec (Rewinds session window (tape ++ [e])) t)
  | c_rewind t session window tape trigger old events :
    asks i = Some trigger -> events <> [] -> tape = old ++ events ->
    (StronglySorted Z.le (map RawEvent.timestamp tape) ->
     Forall (fun e => RawEvent.timestamp e <= t - window)%Z old) ->
    cstep i (mkSpec (Rewinds session window tape) t)
            [Send (mkBatch session events trigger (survives trigger))]
            (mkSpec (Rewinds session window tape) t)
  (** a stream ends only when nothing is pending *)
  | c_stop_stream t session fresh :
    i = HostStop -> cstep i (mkSpec (Streams session [] fresh) t) [] (mkSpec Silent t)
  | c_stop_rewind t session window tape :
    i = HostStop -> cstep i (mkSpec (Rewinds session window tape) t) [] (mkSpec Silent t)
  | c_tick t ph ms :
    i = Wait ms -> cstep i (mkSpec ph t) [] (mkSpec ph (t + Z.of_N ms)%Z).

(** Any number of moves at one input, and a run of inputs. *)
Inductive csteps (i : input) : Spec -> list label -> Spec -> Prop :=
  | csteps_refl a : csteps i a [] a
  | csteps_cons a l b l' c : cstep i a l b -> csteps i b l' c -> csteps i a (l ++ l') c.

Inductive crun : list input -> Spec -> list label -> Spec -> Prop :=
  | crun_nil a : crun [] a [] a
  | crun_cons i t a l b l' c : csteps i a l b -> crun t b l' c -> crun (i :: t) a (l ++ l') c.

#[export] Hint Constructors cstep csteps crun : batdb.

Lemma csteps_one i a l b : cstep i a l b -> csteps i a l b.
Proof. intros Hs. rewrite <- (app_nil_r l). eauto with batdb. Qed.

Lemma csteps_trans i a l b l' c : csteps i a l b -> csteps i b l' c -> csteps i a (l ++ l') c.
Proof. induction 1; intros Hc; [done|]. rewrite <- app_assoc. eauto with batdb. Qed.

Lemma heard_of_app l l' : heard_of (l ++ l') = heard_of l ++ heard_of l'.
Proof. apply omap_app. Qed.
Lemma sent_of_app l l' : sent_of (l ++ l') = sent_of l ++ sent_of l'.
Proof. apply omap_app. Qed.

(** ** What the contract alone implies *)

Definition pending_of (a : Spec) : list RawEvent.t :=
  match phase a with Streams _ p _ => p | _ => [] end.
Definition rewinds (a : Spec) : bool := match phase a with Rewinds _ _ _ => true | _ => false end.

Definition streamed (ls : list label) : list RawEvent.t := concat (map b_events (sent_of ls)).

Lemma streamed_app l l' : streamed (l ++ l') = streamed l ++ streamed l'.
Proof. unfold streamed. by rewrite sent_of_app, map_app, concat_app. Qed.

(** Streaming loses nothing and repeats nothing, move by move. *)
Lemma cstep_conserves i a l b :
  cstep i a l b -> rewinds a = false -> rewinds b = false ->
  pending_of a ++ heard_of l ≡ₚ streamed l ++ pending_of b.
Proof.
  intros Hs. destruct Hs; cbn; try done; intros _ _; rewrite ?app_nil_r; try done.
  symmetry. apply Permutation_cons_append.
Qed.

(** A silent recorder stays silent until the next [init]. *)
Lemma csteps_silent i a l b :
  csteps i a l b -> phase a = Silent -> (forall loc sync, i <> HostInit loc sync) ->
  l = [] /\ phase b = Silent.
Proof.
  intros Hs Ha Hi. induction Hs as [|a l b l' c Hs _ IH]; [done|].
  destruct Hs as [? ? ? (loc&sync&?)|? ? ? ? (loc&sync&?)| | | | | | | |]; cbn in Ha; try done;
    [by destruct (Hi loc sync)|by destruct (Hi loc sync)|by apply IH].
Qed.

(** Nothing recorded for the rewind leaves the page unasked. *)
Lemma csteps_unasked i a l b :
  csteps i a l b -> rewinds a = true -> asks i = None -> sent_of l = [].
Proof.
  intros Hs Ha Hi. assert (rewinds a = true \/ phase a = Silent /\ i = HostStop) as H by auto.
  clear Ha. induction Hs as [|a l b l' c Hs _ IH]; [done|]. rewrite sent_of_app.
  assert (sent_of l = [] /\ (rewinds b = true \/ phase b = Silent /\ i = HostStop)) as [-> Hb].
  { destruct Hs; cbn in *; destruct H as [H|[H ->]]; try done; auto; try congruence; naive_solver. }
  by apply IH.
Qed.
