(* ===== verification/Refine.v ===== *)
(** * The code keeps the contract

    [Abs] relates a state of the SDK to a state of [Contract]; every input the SDK handles
    is matched by moves of the contract that hear and send the same things. *)

From S2P Require Import Prelude Decimal JsValue Json Types Transport Session Metadata.
From S2P Require Import Sdk SdkInv SdkProps Demo Streaming Rewind Contract.
From stdpp Require Import sorting.

Definition obs (b : Sent) : Batch :=
  mkBatch (BatchPayload.session_id (s_payload b)) (BatchPayload.events (s_payload b))
          (BatchPayload.trigger (s_payload b)) (s_keepalive b).

Section refine.
Context `{JsonEngine} `{UuidSource}.

(** ** The abstraction *)

(** [rid] is the running recorder. *)
Definition Abs_on (rid : nat) (s : St) (ph : Phase) : Prop :=
  match ph with
  | Silent => False
  | Streams session pending fresh =>
    streaming rid fresh s /\ pending = _buffer (sdk s) /\ session = _sessionId (sdk s)
  | Rewinds session window tape =>
    rewinding rid s /\ window = window_ms s /\ session = _sessionId (sdk s) /\
    exists h, rewound (cutoff s) h (_segments (sdk s)) /\ tape = map fst h
  end.

Definition Abs (s : St) (a : Spec) : Prop :=
  time a = now (env s) /\
  match phase a with
  | Silent => recorders s = ∅ /\ _buffer (sdk s) = [] /\ _segments (sdk s) = []
  | ph => exists rid, Abs_on rid s ph
  end.

Lemma Abs_on_Abs rid s a : time a = now (env s) -> Abs_on rid s (phase a) -> Abs s a.
Proof. intros Ht Ha. split; [done|]. destruct (phase a); [done|eauto..]. Qed.

(** [s'] is reached from [s] by moves of the contract that hear [es]. *)
Definition matched (i : input) (s s' : St) (a : Spec) (es : list RawEvent.t) (P : Spec -> Prop) : Prop :=
  exists ls b l, csteps i a ls b /\ P b /\ network s' = network s ++ l /\
    sent_of ls = map obs l /\ heard_of ls = es.

Lemma matched_stay i s s' a (P : Spec -> Prop) : network s' = network s -> P a -> matched i s s' a [] P.
Proof. intros Hn HP. exists [], a, []. rewrite Hn, app_nil_r. split_and!; auto with batdb. Qed.

Lemma matched_quiet i s s' a b (P : Spec -> Prop) :
  network s' = network s -> cstep i a [] b -> P b -> matched i s s' a [] P.
Proof.
  intros Hn Hc HP. exists [], b, []. rewrite Hn, app_nil_r. split_and!; auto. by apply csteps_one.
Qed.

Lemma matched_trans i s s1 s2 a es es' (P Q : Spec -> Prop) :
  matched i s s1 a es P -> (forall b, P b -> matched i s1 s2 b es' Q) ->
  matched i s s2 a (es ++ es') Q.
Proof.
  intros (ls & b & l & H1 & H2 & H3 & H4 & H5) Hq.
  destruct (Hq b H2) as (ls' & c & l' & K1 & K2 & K3 & K4 & K5).
  exists (ls ++ ls'), c, (l ++ l').
  rewrite sent_of_app, heard_of_app, map_app, K3, H3, H4, H5, K4, K5, app_assoc.
  split_and!; [by eapply csteps_trans|done..].
Qed.

(** ** Streaming *)

Lemma match_flush i rid ka f s t :
  ClosuresOk s -> streaming rid f s -> ka = leaving i ->
  matched i s (flush true ka s)
    (mkSpec (Streams (_sessionId (sdk s)) (_buffer (sdk s)) f) t) []
    (fun b => b = mkSpec (Streams (_sessionId (sdk s)) [] f) t /\ _buffer (sdk (flush true ka s)) = []).
Proof.
  intros Hc (r & Hr & _) ->. destruct (cfg_truthy_live _ _ _ Hc Hr) as (c & Hl & _).
  destruct (decide (_buffer (sdk s) = [])) as [He|Hne].
  - rewrite flush_empty by done. apply matched_stay; [done|]. by rewrite He.
  - rewrite (flush_live c) by done.
    assert (live c (on_sdk (set_buffer []) s)) as Hl' by done.
    eexists _, _, [_]. split; [by apply csteps_one, c_flush|].
    split; [split; [done|by rewrite (proj1 (buffers_upload _ _ _ _))]|].
    rewrite (network_upload c) by done. done.
Qed.

Lemma flush_abs rid ka f s :
  streaming rid f s -> _buffer (sdk (flush true ka s)) = [] ->
  Abs_on rid (flush true ka s) (Streams (_sessionId (sdk s)) [] f).
Proof.
  intros Hs Hb. pose proof (shell_flush true ka s) as Hsh. cbn. rewrite Hb. split_and!; [|done|].
  - unfold streaming. by rewrite recorders_flush.
  - unfold shell in Hsh. by injection Hsh.
Qed.

Lemma shell_session s s' : shell s' = shell s -> _sessionId (sdk s') = _sessionId (sdk s).
Proof. unfold shell. by intros [=]. Qed.
Lemma shell_now s s' : shell s' = shell s -> now (env s') = now (env s).
Proof. unfold shell. by intros [= _ _ _ _ _ _ _ _ -> _]. Qed.

Lemma match_emit_stream i rid raw chk f s t :
  ClosuresOk s -> streaming rid f s -> leaving i = false ->
  matched i s (emit rid raw chk s)
    (mkSpec (Streams (_sessionId (sdk s)) (_buffer (sdk s)) f) t) [raw]
    (fun b => time b = t /\ Abs_on rid (emit rid raw chk s) (phase b)).
Proof.
  intros Hc Hs Hi. pose proof Hs as (r & Hr & Hm & Hf). unfold emit. rewrite Hr, Hm.
  destruct (cfg_truthy_live _ _ _ Hc Hr) as (c & Hl & _). unfold emitAlways.
  destruct (_ && _) eqn:E.
  - apply andb_prop in E as [E1 E2]. apply Z.eqb_eq in E1. rewrite Hf in E2. subst f.
    set (r' := mkRecorder _ _ _ _ _ _). set (s1 := set_recorders _ s).
    assert (live c s1) as Hl1 by done.
    eexists [Hear raw; Send _], _, [_]. split; [by rewrite E2; apply csteps_one, c_overtake|].
    split; [split; [done|]|split; [by rewrite (network_upload c)|done]].
    cbn. destruct (buffers_upload [raw] Stream false s1) as (-> & _ & Hrec).
    split_and!; [|done|by rewrite (upload_live c) by done].
    unfold streaming. rewrite Hrec. exists r'. unfold s1. cbn. by rewrite lookup_insert_eq.
  - set (s1 := on_sdk (set_buffer (_buffer (sdk s) ++ [raw])) s).
    assert (streaming rid f s1) as Hs1 by (by exists r).
    assert (ClosuresOk s1) as Hc1 by (by apply (shell_closures s)).
    assert (matched i s s1 (mkSpec (Streams (_sessionId (sdk s)) (_buffer (sdk s)) f) t) [raw]
      (fun b => b = mkSpec (Streams (_sessionId (sdk s1)) (_buffer (sdk s1)) f) t)) as Hk.
    { exists [Hear raw], (mkSpec (Streams (_sessionId (sdk s)) (_buffer (sdk s) ++ [raw]) f) t), [].
      rewrite app_nil_r. split; [by apply csteps_one, c_keep|done]. }
    destruct (_ <=? _)%Z.
    + change [raw] with ([raw] ++ []). eapply matched_trans; [exact Hk|]. intros b ->.
      destruct (match_flush i rid false f s1 t Hc1 Hs1 (eq_sym Hi)) as (ls & b & l & M1 & [-> Hb] & M2 & M3 & M4).
      exists ls, (mkSpec (Streams (_sessionId (sdk s1)) [] f) t), l. split_and!; try done. by apply flush_abs.
    + destruct Hk as (ls & b & l & M1 & -> & M2 & M3 & M4). eexists ls, _, l. split_and!; try done.
Qed.

(** ** Rewinding *)

Lemma match_emit_rewind i rid raw chk h s t :
  rewinding rid s -> rewound (cutoff s) h (_segments (sdk s)) ->
  matched i s (emit rid raw chk s)
    (mkSpec (Rewinds (_sessionId (sdk s)) (window_ms s) (map fst h)) t) [raw]
    (fun b => time b = t /\ Abs_on rid (emit rid raw chk s) (phase b)).
Proof.
  intros Hr Hw. pose proof (shell_emit rid raw chk s) as Hsh.
  eexists [Hear raw], _, []. split; [apply csteps_one, c_record|].
  rewrite emit_unsent, app_nil_r by done. split_and!; try done. cbn. split_and!.
  - by eapply rewinding_shell.
  - unfold window_ms. by rewrite (shell_cfg _ _ Hsh).
  - symmetry. by apply shell_session.
  - exists (h ++ [(raw, chk)]). rewrite (shell_cutoff s) by done. rewrite map_app.
    split; [by apply emit_rewound|done].
Qed.

(** What the segments hold is a suffix of the tape that covers the window. *)
Lemma rewound_suffix cut h segs :
  rewound cut h segs ->
  exists old, map fst h = old ++ concat segs /\
    (StronglySorted Z.le (map RawEvent.timestamp (map fst h)) ->
     Forall (fun e => RawEvent.timestamp e <= cut)%Z old).
Proof.
  intros Hw. pose proof Hw as (k & -> & _).
  exists (concat (take k (chunks h))).
  assert (map fst h = concat (take k (chunks h)) ++ concat (drop k (chunks h))) as E
    by (by rewrite <- concat_app, take_drop, chunks_concat).
  split; [done|]. intros Hs. destruct (rewound_old _ _ _ Hs Hw) as (old & E' & Ho).
  rewrite E in E'. by apply app_inv_tail in E' as ->.
Qed.

Lemma match_rewind i rid trigger h s :
  Inv s -> rewinding rid s -> rewound (cutoff s) h (_segments (sdk s)) -> asks i = Some trigger ->
  let a := mkSpec (Rewinds (_sessionId (sdk s)) (window_ms s) (map fst h)) (now (env s)) in
  matched i s (uploadBuffer trigger (survives trigger) s) a [] (fun b => b = a).
Proof.
  intros HI Hr Hw Hi a. destruct (decide (concat (_segments (sdk s)) = [])) as [He|Hne].
  - apply matched_stay; [|done]. unfold uploadBuffer. rewrite He. by repeat case_match.
  - destruct (uploadBuffer_sent rid trigger (survives trigger) s) as (c & Hl & Hn); [done..|].
    destruct (rewound_suffix _ _ _ Hw) as (old & E & Ho).
    eexists [Send _], _, [_]. split; [|by rewrite Hn].
    apply csteps_one. by eapply c_rewind.
Qed.

(** ** Events *)

Lemma match_emit i rid raw chk s ph t :
  ClosuresOk s -> Abs_on rid s ph -> leaving i = false ->
  matched i s (emit rid raw chk s) (mkSpec ph t) [raw]
    (fun b => time b = t /\ Abs_on rid (emit rid raw chk s) (phase b)).
Proof.
  intros Hc Ha Hi. destruct ph as [|session pending fresh|session window tape]; [done| |].
  - destruct Ha as (Hs & -> & ->). by apply match_emit_stream.
  - destruct Ha as (Hr & -> & -> & h & Hw & ->). by apply match_emit_rewind.
Qed.

Lemma match_emits i rid sync s ph t :
  ClosuresOk s -> Abs_on rid s ph -> leaving i = false ->
  let s' := fold_left (fun s e => emit rid e.1 e.2 s) sync s in
  matched i s s' (mkSpec ph t) (map fst sync) (fun b => time b = t /\ Abs_on rid s' (phase b)).
Proof.
  revert s ph. induction sync as [|[raw chk] sync IH]; intros s ph Hc Ha Hi; cbn [fold_left map].
  - by apply matched_stay.
  - cbn [fst snd]. change (raw :: map fst sync) with ([raw] ++ map fst sync).
    eapply matched_trans; [by apply match_emit|]. intros [ph' t'] [Ht Hb]. cbn in Ht. subst t'.
    apply IH; [|done|done]. eapply shell_closures; [|exact Hc]. by rewrite shell_emit.
Qed.

(** ** Starting *)

(** What [Abs] looks at. *)
Definition core (s : St) :=
  (recorders s, _buffer (sdk s), _segments (sdk s), _sessionId (sdk s), cutoff s, window_ms s,
   now (env s)).

Lemma Abs_on_core rid s s' ph : core s' = core s -> Abs_on rid s ph -> Abs_on rid s' ph.
Proof.
  unfold core. intros [= E1 E2 E3 E4 E5 E6 _].
  destruct ph; [done|..]; unfold Abs_on, streaming, rewinding; by rewrite E1, ?E2, ?E3, E4, ?E5, ?E6.
Qed.

Lemma Abs_core s s' a : core s' = core s -> Abs s a -> Abs s' a.
Proof.
  intros Hc [Ht Ha]. pose proof Hc as Hc'. unfold core in Hc'. injection Hc' as E1 E2 E3 _ _ _ E7.
  split; [congruence|]. destruct (phase a); [intuition congruence|..]; destruct Ha as [rid Ha]; exists rid;
    by eapply Abs_on_core.
Qed.

Lemma core_mount c s : core (mount c s).1 = core s /\ network (mount c s).1 = network s.
Proof. unfold mount, mountWidget. by repeat case_match; simplify_eq. Qed.

(** [start_recording] is the recorder's first events, then handles and listeners. *)
Definition recorder_of (loc : nat) (config : BatRewindConfig.t) (s : St) : Recorder :=
  if isBuffered s
  then mkRecorder Buffered loc false (privacyOptions config)
         (Some (BatRewindConfig.checkoutEveryNms config ?? CHECKOUT_EVERY_NMS)) (buildPlugins config)
  else mkRecorder Always loc true (privacyOptions config) None (buildPlugins config).

Definition recording (loc : nat) (config : BatRewindConfig.t) (s : St) : St :=
  set_next_id (S (next_id s)) (set_recorders (<[next_id s := recorder_of loc config s]> (recorders s)) s).

Lemma core_start loc config sync s :
  let s2 := fold_left (fun s0 e => emit (next_id s) e.1 e.2 s0) sync (recording loc config s) in
  core (start_recording loc config sync s) = core s2 /\
  network (start_recording loc config sync s) = network s2.
Proof.
  unfold start_recording, recording, recorder_of, record. destruct (isBuffered s); [|done].
  by destruct (BatRewindConfig.captureOnError config) as [[|]|].
Qed.

Lemma recording_closures loc config s :
  Ready loc config s -> ClosuresOk (recording loc config s).
Proof.
  intros Hr. split.
  - intros l Hl. change (_config (sdk s) = Some l) in Hl. change (is_Some (heap s !! l)).
    rewrite (ready_config _ _ _ Hr) in Hl. injection Hl as <-. by rewrite (ready_heap _ _ _ Hr).
  - intros i r Hi. unfold recording in Hi. sdk_simpl.
    rewrite (ready_recorders _ _ _ Hr), insert_empty in Hi. apply lookup_singleton_Some in Hi as [_ <-].
    change (_config (sdk s) = Some (r_config (recorder_of loc config s)) /\
      truthy (_sessionId (sdk s)) = true /\ r_mode (recorder_of loc config s) = mode_of s).
    unfold recorder_of. rewrite isBuffered_mode. case_bool_decide as Hm; cbn;
      (split; [apply Hr|split; [apply Hr|]]); [done|by destruct (mode_of s)].
Qed.

Lemma match_start i loc sync config s t :
  Ready loc config s -> _buffer (sdk s) = [] -> _segments (sdk s) = [] ->
  i = HostInit loc sync -> t = now (env s) ->
  let s' := start_recording loc config sync s in
  matched i s s' (mkSpec Silent t) (map fst sync)
    (fun b => time b = t /\ exists rid, Abs_on rid s' (phase b)).
Proof.
  intros Hr Hb Hs Hi Ht s'. destruct (core_start loc config sync s) as [Hc Hn].
  set (s1 := recording loc config s) in *. set (s2 := fold_left _ sync s1) in *.
  assert (matched i s s1 (mkSpec Silent t) []
    (fun b => time b = t /\ Abs_on (next_id s) s1 (phase b))) as Hstart.
  { assert (recorders s1 !! next_id s = Some (recorder_of loc config s)) as Hl
      by (unfold s1, recording; sdk_simpl; by rewrite lookup_insert_eq).
    destruct (isBuffered s) eqn:Eb.
    - eapply matched_quiet; [done|apply (c_start_rewind i t (_sessionId (sdk s)) (window_ms s));
        [apply Hr|by exists loc, sync]|].
      split; [done|]. cbn. split_and!; [|done|done|].
      + eexists. split; [exact Hl|]. unfold recorder_of. by rewrite Eb.
      + exists []. split; [|done]. exists 0. split; [exact Hs|by left].
    - eapply matched_quiet; [done|apply (c_start_stream i t (_sessionId (sdk s)));
        [apply Hr|by exists loc, sync]|].
      split; [done|]. cbn. split_and!; [|done|done].
      eexists. split; [exact Hl|]. unfold recorder_of. by rewrite Eb. }
  change (map fst sync) with ([] ++ map fst sync).
  eapply matched_trans; [exact Hstart|]. intros [ph t'] [Htt Ha]. cbn in Htt. subst t'.
  destruct (match_emits i (next_id s) sync s1 ph t) as (ls & b & l & M1 & [Hbt M2] & M3 & M4 & M5);
    [by apply recording_closures|done|by rewrite Hi|].
  exists ls, b, l. split_and!; try done; [|by unfold s'; rewrite Hn].
  exists (next_id s). eapply Abs_on_core; [|exact M2]. exact Hc.
Qed.

(** ** Inputs *)

(** The events an input brings to a running recorder. *)
Definition listened (i : input) (s : St) : list RawEvent.t :=
  match i with
  | Emit rid e _ => match recorders s !! rid with Some _ => [e] | None => [] end
  | HostInit loc sync =>
    if _initialized (sdk s) then []
    else match heap s !! loc, (getOrCreateSession (env s)).2 with
         | Some _, Ok _ => map fst sync
         | _, _ => []
         end
  | _ => []
  end.

Lemma idle_silent s a :
  Inv s -> _initialized (sdk s) = false -> Abs s a -> phase a = Silent.
Proof.
  intros HI Hi [_ Ha]. destruct (own_idle _ (inv_owned _ HI) Hi) as (_ & Hr & _).
  destruct (phase a); [done|..]; exfalso;
    [destruct Ha as (rid & (r & Hl & _) & _)|destruct Ha as (rid & (r & Hl & _) & _)];
    by rewrite Hr in Hl.
Qed.

Lemma match_init loc sync s a :
  Inv s -> Abs s a ->
  matched (HostInit loc sync) s (init loc sync s).1 a (listened (HostInit loc sync) s)
    (Abs (init loc sync s).1).
Proof.
  intros HI Ha. unfold listened, init. destruct (_initialized (sdk s)) eqn:Hi; [by apply matched_stay|].
  destruct (heap s !! loc) as [c|] eqn:Hh; [|by apply matched_stay].
  pose proof (idle_silent s a HI Hi Ha) as Hp. destruct Ha as [Ht Ha]. rewrite Hp in Ha.
  sdk_simpl. pose proof (keeps_getOrCreate (env s)) as Hk.
  destruct (getOrCreateSession (env s)) as [e [h|x]] eqn:He; cbn [fst snd] in Hk |- *;
    destruct Hk as (_ & _ & _ & Hnow & _).
  - destruct (getOrCreate_truthy _ _ _ He) as [Hid _].
    pose proof (adopt_ready loc c e h s HI Hi Hh Hid) as Hr. set (s0 := adopt_session _ _ _) in *.
    destruct (match_start (HostInit loc sync) loc sync c s0 (time a) Hr) as
      (ls & b & l & M1 & [Hbt (rid & M2)] & M3 & M4 & M5);
      [apply Ha|apply Ha|done|by rewrite Ht|].
    destruct (core_mount c (start_recording loc c sync s0)) as [Hc Hn].
    destruct a as [ph t]. cbn in Hp, Ht. subst ph.
    exists ls, b, l. split_and!; [done| |by rewrite Hn|done|done].
    apply (Abs_core (start_recording loc c sync s0)); [done|].
    apply (Abs_on_Abs rid); [|done]. rewrite Hbt. cbn.
    destruct (core_start loc c sync s0) as [Hcs _]. unfold core in Hcs. injection Hcs as _ _ _ _ _ _ ->.
    set (s1 := recording loc c s0). rewrite (shell_now s1 _ (shell_emits _ _ _)). cbn. congruence.
  - apply matched_stay; [done|]. split; [cbn; congruence|]. by rewrite Hp.
Qed.

(** While silent, an input other than [init] does nothing that shows. *)
Lemma match_silent i s a :
  Inv s -> Abs s a -> phase a = Silent -> quiet i = true ->
  matched i s (step i s) a (listened i s) (Abs (step i s)).
Proof.
  intros HI [Ht Ha] Hp Hq. rewrite Hp in Ha. destruct Ha as (Hr & Hb & Hs).
  assert (forall f k, flush f k s = s) as Hf by (intros; by apply flush_empty).
  assert (forall t k, uploadBuffer t k s = s) as Hu.
  { intros. unfold uploadBuffer. rewrite Hs. by repeat case_match. }
  assert (forall s', network s' = network s -> recorders s' = recorders s -> sdk s' = sdk s ->
    now (env s') = now (env s) -> matched i s s' a [] (Abs s')) as Hsame.
  { intros s' E1 E2 E3 E4. apply matched_stay; [done|]. split; [congruence|].
    rewrite Hp, E2, E3. auto. }
  assert (listened i s = []) as ->.
  { destruct i; try done. cbn. by rewrite Hr, lookup_empty. }
  destruct i as [c|?|x| | |rid raw chk|t|hidden| | | |w|ms]; try done; cbn [step];
    unfold on_listener, onVisibilityChange, onBeforeUnload, onError, report, identify, emit; cbn [fst];
    rewrite ?Hf, ?Hu, ?Hr, ?lookup_empty;
    try (by repeat case_match; apply Hsame).
  eapply (matched_quiet _ _ _ _ (mkSpec (phase a) (time a + Z.of_N ms)%Z)); [done| |].
  - destruct a. by apply c_tick.
  - split; [cbn; by rewrite Ht|]. cbn. rewrite Hp. auto.
Qed.

Lemma emit_other rid rid' raw chk s :
  Inv s -> is_Some (recorders s !! rid) -> rid' <> rid -> emit rid' raw chk s = s /\ recorders s !! rid' = None.
Proof.
  intros HI [r Hr] Hne. unfold emit. destruct (recorders s !! rid') as [r'|] eqn:Hr'; [|done].
  pose proof (own_rec _ (inv_owned _ HI) _ _ Hr). pose proof (own_rec _ (inv_owned _ HI) _ _ Hr').
  congruence.
Qed.

Lemma match_emit_step rid rid' raw chk s a :
  Inv s -> Abs_on rid s (phase a) -> time a = now (env s) -> is_Some (recorders s !! rid) ->
  matched (Emit rid' raw chk) s (step (Emit rid' raw chk) s) a (listened (Emit rid' raw chk) s)
    (Abs (step (Emit rid' raw chk) s)).
Proof.
  intros HI Ha Ht Hr. cbn [step listened]. destruct (decide (rid' = rid)) as [->|Hne].
  - destruct Hr as [r ->]. destruct a as [ph t]. cbn in Ht.
    destruct (match_emit (Emit rid raw chk) rid raw chk s ph t) as (ls & b & l & M1 & [Hbt M2] & M3 & M4 & M5);
      [apply HI|done|done|].
    exists ls, b, l. split_and!; try done. eapply Abs_on_Abs; [|exact M2].
    rewrite Hbt, Ht. symmetry. by apply shell_now, shell_emit.
  - destruct (emit_other rid rid' raw chk s HI Hr Hne) as [-> ->].
    apply matched_stay; [done|]. by apply (Abs_on_Abs rid).
Qed.

(** Inputs that move no event and no clock. *)
Lemma Abs_on_frame rid i s ph :
  Inv s -> quiet i = true -> now (env (step i s)) = now (env s) ->
  recorders (step i s) = recorders s -> _buffer (sdk (step i s)) = _buffer (sdk s) ->
  _segments (sdk (step i s)) = _segments (sdk s) -> Abs_on rid s ph -> Abs_on rid (step i s) ph.
Proof.
  intros HI Hq Hn Hr Hb Hs. pose proof (quiet_ids i s Hq) as Hi. unfold ids in Hi. injection Hi as _ Hi _ _ _.
  pose proof (window_fixed _ _ (quiet_cfg i s HI Hq)) as Hw.
  apply Abs_on_core. unfold core, cutoff. by rewrite Hr, Hb, Hs, Hi, Hw, Hn.
Qed.

Lemma match_streams rid f i s t :
  Inv s -> streaming rid f s -> quiet i = true -> t = now (env s) ->
  matched i s (step i s) (mkSpec (Streams (_sessionId (sdk s)) (_buffer (sdk s)) f) t)
    (listened i s) (Abs (step i s)).
Proof.
  intros HI Hs Hq Ht. pose proof (streaming_always rid f s HI Hs) as Hbuf.
  set (a := mkSpec _ t). assert (Abs_on rid s (phase a)) as Ha by done.
  assert (forall s', s' = s -> matched i s s' a [] (Abs s')) as Hstay.
  { intros s' ->. apply matched_stay; [done|]. by apply (Abs_on_Abs rid). }
  assert (forall ka, ka = leaving i -> matched i s (flush true ka s) a [] (Abs (flush true ka s))) as Hfl.
  { intros ka Hka. destruct (match_flush i rid ka f s t) as (ls & b & l & M1 & [-> Hb] & M2 & M3 & M4);
      [apply HI|done|done|].
    eexists ls, _, l. split_and!; try done. eapply Abs_on_Abs; [|by apply flush_abs].
    cbn. rewrite Ht. symmetry. by apply shell_now, shell_flush. }
  assert (forall tr ka, uploadBuffer tr ka s = s) as Hup by (intros; by eapply always_uploadBuffer).
  assert (forall s', s' = step i s -> network s' = network s -> now (env s') = now (env s) ->
    recorders s' = recorders s -> _buffer (sdk s') = _buffer (sdk s) ->
    _segments (sdk s') = _segments (sdk s) -> matched i s s' a [] (Abs s')) as Hframe.
  { intros s' -> E1 E2 E3 E4 E5. apply matched_stay; [done|]. apply (Abs_on_Abs rid); [cbn; congruence|].
    by apply Abs_on_frame. }
  destruct i as [c|?|x| | |rid' raw chk|tm|hidden| | | |w|ms]; try done.
  - by apply Hframe.
  - apply Hframe; [done|..]; cbn [step]; unfold identify; by destruct (_config (sdk s)).
  - cbn [step listened]. unfold report. rewrite Hbuf. by apply Hfl.
  - apply (match_emit_step rid); [done..|]. destruct Hs as (r & -> & _). by eexists.
  - cbn [step listened]. destruct (timers s !! tm); [by apply Hfl|by apply Hstay].
  - cbn [step listened]. unfold on_listener, onVisibilityChange. rewrite Hbuf.
    destruct (decide _), hidden; first [by apply Hfl|by apply Hstay].
  - cbn [step listened]. unfold on_listener, onBeforeUnload. rewrite Hbuf.
    destruct (decide _); first [by apply Hfl|by apply Hstay].
  - cbn [step listened]. unfold on_listener, onError. rewrite Hup. by repeat case_match; apply Hstay.
  - cbn [step listened]. unfold on_listener, onError. rewrite Hup. by repeat case_match; apply Hstay.
  - cbn [step listened]. unfold report. rewrite Hbuf. destruct (widgets s !! w); first [by apply Hfl|by apply Hstay].
  - eapply (matched_quiet _ _ _ _ (mkSpec _ _)); [done|by apply c_tick|].
    apply (Abs_on_Abs rid); [cbn; by rewrite Ht|]. done.
Qed.

(** An asked-for upload is the whole rolling buffer, or nothing was listening. *)
Lemma asked_step rid i trigger s :
  Inv s -> rewinding rid s -> asks i = Some trigger ->
  step i s = uploadBuffer trigger (survives trigger) s \/ step i s = s.
Proof.
  intros HI Hr Hi. pose proof (rewinding_mode _ _ HI Hr) as Hb.
  destruct i; try done; injection Hi as <-; cbn [step]; unfold on_listener, onError, report; rewrite ?Hb;
    repeat case_match; auto.
Qed.

Lemma step_now i s :
  quiet i = true -> (forall ms, i <> Wait ms) -> now (env (step i s)) = now (env s).
Proof.
  intros Hq Hi. destruct (step_shell i s Hq) as [Hsh|[[c ->]|[[x ->]|[d ->]]]].
  - by apply shell_now.
  - done.
  - cbn [step]. unfold identify. by destruct (_config (sdk s)).
  - by destruct (Hi d).
Qed.

Lemma rewinds_after rid h i s :
  Inv s -> rewinding rid s -> rewound (cutoff s) h (_segments (sdk s)) -> quiet i = true ->
  heard1 rid i = [] ->
  Abs_on rid (step i s) (Rewinds (_sessionId (sdk s)) (window_ms s) (map fst h)).
Proof.
  intros HI Hr Hw Hq Hh. pose proof (quiet_ids i s Hq) as Hi. unfold ids in Hi. injection Hi as _ Hi _ _ _.
  split_and!; [by apply step_rewinding| |done|].
  - symmetry. by apply window_fixed, quiet_cfg.
  - exists h. split; [|done]. pose proof (step_rewound rid i h s HI Hq Hr Hw) as Hs.
    by rewrite Hh, app_nil_r in Hs.
Qed.

Lemma match_rewinds rid h i s t :
  Inv s -> rewinding rid s -> rewound (cutoff s) h (_segments (sdk s)) -> quiet i = true ->
  t = now (env s) ->
  matched i s (step i s) (mkSpec (Rewinds (_sessionId (sdk s)) (window_ms s) (map fst h)) t)
    (listened i s) (Abs (step i s)).
Proof.
  intros HI Hr Hw Hq ->. set (a := mkSpec _ _).
  destruct (step_cases i) as [(rid' & raw & chk & ->)|Hne].
  { apply (match_emit_step rid); [done| |done|destruct Hr as (r & -> & _); by eexists].
    cbn. split_and!; [done..|by exists h]. }
  assert (listened i s = []) as -> by (destruct i; try done; by destruct (Hne rid0 raw isCheckout)).
  assert (heard1 rid i = []) as Hh by (destruct i; try done; by destruct (Hne rid0 raw isCheckout)).
  pose proof (rewinds_after rid h i s HI Hr Hw Hq Hh) as Hab.
  assert ((exists ms, i = Wait ms) \/ ~ (exists ms, i = Wait ms)) as [[ms ->]|Hms]
    by (destruct i; try (by right; intros [? ?]); by left; eexists).
  { eapply (matched_quiet _ _ _ _ (mkSpec _ _)); [done|by apply c_tick|]. by apply (Abs_on_Abs rid). }
  pose proof (step_now i s Hq ltac:(by intros ms ->; destruct Hms; exists ms)) as Hn.
  assert (Abs (step i s) a) as HA by (by apply (Abs_on_Abs rid)).
  destruct (asks i) as [trigger|] eqn:Hask.
  - destruct (asked_step rid i trigger s HI Hr Hask) as [E|E].
    + destruct (match_rewind i rid trigger h s HI Hr Hw Hask) as (ls & b & l & M1 & -> & M2 & M3 & M4).
      exists ls, a, l. rewrite E in HA |- *. split_and!; done.
    + rewrite E in HA |- *. by apply matched_stay.
  - apply matched_stay; [|done]. eapply unasked_step; [done..|]. by destruct i.
Qed.

(** ** Stopping *)

Lemma match_stop s a :
  Inv s -> Abs s a -> matched HostStop s (stop s) a [] (Abs (stop s)).
Proof.
  intros HI [Ht Ha]. destruct (stop_clean s (inv_owned _ HI)) as (Hsdk & Hr & _ & _ & _ & He & _).
  assert (forall b, time b = time a -> phase b = Silent -> Abs (stop s) b) as Hend.
  { intros b Hb1 Hb2. split; [by rewrite He, Hb1|]. rewrite Hb2, Hr, Hsdk. done. }
  pose proof (stop_unhooked s (inv_owned _ HI)) as Hu.
  destruct a as [ph t]. cbn in Ht, Ha. destruct ph as [|session pending fresh|session window tape].
  - apply matched_stay; [|by apply Hend]. destruct Ha as (_ & Hb & _). rewrite Hu.
    destruct (negb (isBuffered s)); [|done].
    rewrite flush_empty; [done|]. exact Hb.
  - destruct Ha as (rid & Hs & -> & ->). pose proof (streaming_always rid fresh s HI Hs) as Hbuf.
    rewrite Hbuf in Hu. cbn [negb] in Hu. rewrite Hu in Hend |- *.
    destruct Hs as (r & Hl & _). destruct (cfg_truthy_live _ _ _ (inv_closures _ HI) Hl) as (c & Hc & _).
    destruct (decide (_buffer (sdk s) = [])) as [E|E].
    + eapply (matched_quiet _ _ _ _ (mkSpec Silent t));
        [by rewrite flush_empty|rewrite E; by apply c_stop_stream|by apply Hend].
    + rewrite (flush_live c) in Hend |- * by done.
      eexists ([Send _] ++ []), (mkSpec Silent t), [_].
      split; [|split; [by apply Hend|]].
      * eapply csteps_cons; [by apply c_flush|]. by apply csteps_one, c_stop_stream.
      * cbn [network on_sdk set_sdk]. rewrite (network_upload c) by done. done.
  - destruct Ha as (rid & Hw & _). pose proof (rewinding_mode _ _ HI Hw) as Hbuf.
    rewrite Hbuf in Hu. cbn [negb] in Hu.
    eapply (matched_quiet _ _ _ _ (mkSpec Silent t)); [by rewrite Hu|by apply c_stop_rewind|by apply Hend].
Qed.

(** ** The simulation *)

Lemma match_step i s a :
  Inv s -> Abs s a -> matched i s (step i s) a (listened i s) (Abs (step i s)).
Proof.
  intros HI Ha. destruct (quiet i) eqn:Hq.
  - pose proof Ha as [Ht Hp]. destruct (phase a) as [|session pending fresh|session window tape] eqn:E.
    + by apply match_silent.
    + destruct Hp as (rid & Hs & -> & ->). destruct a as [ph t]. cbn in E, Ht. subst ph.
      by apply (match_streams rid).
    + destruct Hp as (rid & Hr & -> & -> & h & Hw & ->). destruct a as [ph t]. cbn in E, Ht. subst ph.
      by apply (match_rewinds rid).
  - destruct i; try done; [by apply match_init|by apply match_stop].
Qed.

Fixpoint listened_run (t : list input) (s : St) : list RawEvent.t :=
  match t with [] => [] | i :: r => listened i s ++ listened_run r (step i s) end.

Lemma match_run t s a :
  Inv s -> Abs s a ->
  exists ls b l, crun t a ls b /\ Abs (run t s) b /\ network (run t s) = network s ++ l /\
    sent_of ls = map obs l /\ heard_of ls = listened_run t s.
Proof.
  revert s a. induction t as [|i t IH]; intros s a HI Ha.
  - exists [], a, []. rewrite app_nil_r. split_and!; auto with batdb.
  - destruct (match_step i s a HI Ha) as (ls & b & l & M1 & M2 & M3 & M4 & M5).
    destruct (IH (step i s) b) as (ls' & c & l' & K1 & K2 & K3 & K4 & K5); [by apply inv_step|done|].
    exists (ls ++ ls'), c, (l ++ l').
    cbn [run listened_run]. rewrite K3, M3, sent_of_app, heard_of_app, map_app, M4, M5, K4, K5, app_assoc.
    split_and!; eauto with batdb.
Qed.

(** C1: every run of the code is a run of the contract. Whatever the host, the page and the
    recorder do from the moment the script is loaded, the moves of the contract at the
    same inputs hear exactly the events the running recorder delivered and send exactly
    the batches the SDK uploaded, in order. *)
Theorem sdk_refines_contract e amb body t :
  let s0 := page e amb body in
  exists ls a, crun t (mkSpec Silent (now e)) ls a /\ Abs (run t s0) a /\
    heard_of ls = listened_run t s0 /\ sent_of ls = map obs (network (run t s0)).
Proof.
  intros s0. destruct (match_run t s0 (mkSpec Silent (now e))) as (ls & a & l & M1 & M2 & M3 & M4 & M5);
    [apply inv_page|by split|].
  exists ls, a. split_and!; try done. by rewrite M3.
Qed.
End refine.
