(* ===== verification/Schema.v ===== *)
(** * The types of the wire: packages/browser/src/types.ts

    The interfaces of what the SDK sends and returns as types that are checked, and that every
    batch has its declared type. The compiler does not see it: the session's identifiers come
    out of [JSON.parse]. What makes it so is that the storage holds what the SDK wrote. *)

From S2P Require Import Prelude Decimal JsValue Json Types Transport Session Metadata Sdk SdkInv SdkProps Demo.

(** ** Types *)

(** An object's fields are its names, whether they are optional, and their types. *)
Unset Elimination Schemes.
Inductive ty :=
  | TUnknown
  | TNumber
  | TString
  | TLiterals (l : list string)
  | TArray (t : ty)
  | TObject (fields : list (string * bool * ty)).
Set Elimination Schemes.

(** A value has a type; an object has no other properties than those of its type. *)
Fixpoint has_type (t : ty) (v : jsval) : bool :=
  match t, v with
  | TUnknown, _ => true
  | TNumber, JNum _ => true
  | TString, JStr _ => true
  | TLiterals l, JStr s => existsb (fun x => bool_decide (s = js x)) l
  | TArray t, JArr l => forallb (has_type t) l
  | TObject fields, JObj kvs =>
    forallb (fun kv => existsb (fun f => bool_decide (kv.1 = js f.1.1)) fields) kvs
    && forallb (fun f : string * bool * ty =>
         match f with
         | (k, optional, t) =>
           match assoc (js k) kvs with
           | JUndef => optional || match t with TUnknown => true | _ => false end
           | x => has_type t x
           end
         end) fields
  | _, _ => false
  end.

Definition RawEvent_type : ty :=
  TObject [("type", false, TNumber); ("data", false, TUnknown); ("timestamp", false, TNumber)]%string.

Definition ClientMeta_type : ty :=
  TObject [("screen_width", false, TNumber); ("screen_height", false, TNumber);
           ("viewport_width", false, TNumber); ("viewport_height", false, TNumber);
           ("device_pixel_ratio", false, TNumber); ("language", false, TString);
           ("timezone", false, TString); ("user_agent", false, TString)]%string.

Definition BatchPayload_type : ty :=
  TObject [("session_id", false, TString); ("identifier", false, TString);
           ("service_name", false, TString); ("environment", false, TString);
           ("bat_session_id", true, TString); ("trigger", true, TLiterals ["manual"; "error"; "stream"]);
           ("share_token", true, TString); ("client", true, ClientMeta_type);
           ("events", false, TArray RawEvent_type)]%string.

Definition ReportResult_type : ty :=
  TObject [("sessionId", false, TString); ("shareToken", false, TString); ("shareUrl", false, TString)]%string.

Definition report_json (r : ReportResult.t) : jsval :=
  JObj [(js "sessionId", ReportResult.sessionId r); (js "shareToken", ReportResult.shareToken r);
        (js "shareUrl", JStr (ReportResult.shareUrl r))].

(** ** Objects *)

(** A property fits a field: it may be missing when the field is optional. *)
Definition fits (f : string * bool * ty) (v : jsval) : bool :=
  match f with
  | (k, optional, t) =>
    match v with
    | JUndef => optional || match t with TUnknown => true | _ => false end
    | x => has_type t x
    end
  end.

Lemma assoc_at kvs k v : NoDup (map fst kvs) -> In (k, v) kvs -> assoc k kvs = v.
Proof.
  induction kvs as [|[k' v'] r IH]; [done|]. cbn. intros Hd Hi. apply NoDup_cons in Hd as [Hn Hd].
  destruct Hi as [[= -> ->]|Hi]; [by rewrite decide_True|].
  rewrite decide_False; [by apply IH|]. intros ->. apply Hn. apply list_elem_of_In.
  exact (in_map fst _ _ Hi).
Qed.

(** An object whose properties are the fields of its type, in order. *)
Lemma object_typed fields kvs :
  map fst kvs = map (fun f => js f.1.1) fields -> NoDup (map fst kvs) ->
  Forall2 (fun f kv => fits f kv.2 = true) fields kvs ->
  has_type (TObject fields) (JObj kvs) = true.
Proof.
  intros Hk Hd Hf. cbn [has_type]. apply andb_true_intro. split; apply forallb_forall.
  - intros kv Hi. apply existsb_exists.
    assert (In kv.1 (map (fun f => js f.1.1) fields)) as Hi2 by (rewrite <- Hk; exact (in_map fst _ _ Hi)).
    apply in_map_iff in Hi2 as (f & Hf1 & Hf2). exists f. split; [done|]. by apply bool_decide_eq_true_2.
  - assert (forall f, In f fields -> fits f (assoc (js f.1.1) kvs) = true) as Hfit.
    { assert (forall gs ks, map fst ks = map (fun f => js f.1.1) gs -> incl ks kvs ->
        Forall2 (fun f kv => fits f kv.2 = true) gs ks ->
        forall f, In f gs -> fits f (assoc (js f.1.1) kvs) = true) as Hall;
        [|by apply (Hall fields kvs); [|apply incl_refl|]].
      intros gs ks He Hin H2. revert He Hin. induction H2 as [|f [k v] gs ks Hfv H2 IH]; [done|].
      cbn. intros [= -> He] Hin g [<- |Hg].
      - rewrite (assoc_at kvs _ v); [done|done|]. apply Hin. by left.
      - apply IH; [done| |done]. intros x Hx. apply Hin. by right. }
    intros [[k o] t] Hi. specialize (Hfit _ Hi).
    cbn [fits fst] in Hfit. by destruct (assoc (js k) kvs).
Qed.

(** ** The storage *)

(** A value that counts is text. *)
Definition text_value (v : jsval) : Prop := truthy v = true -> exists s, v = JStr s /\ json_value v.

Section typed.
Context `{JsonEngine} `{UuidSource}.

(** What is stored, if it can be read at all, has text where the SDK writes text. *)
Definition typed_env (e : Env) : Prop :=
  forall raw v, storage e !! SESSION_KEY = Some raw -> json_parse raw = Some v ->
    text_value (opt_prop (js "id") v) /\ text_value (opt_prop (js "shareToken") v).

Definition typed_handle (h : SessionHandle) : Prop :=
  (exists s, id h = JStr s /\ json_value (id h)) /\ exists s, shareToken h = JStr s /\ json_value (shareToken h).

Lemma typed_refreshed h e : typed_handle h -> typed_env (refreshed h e).
Proof.
  intros [(i & Hi & Ji) (t & Ht & Jt)] raw v. unfold refreshed.
  cbn [storage set_storage]. rewrite lookup_insert_eq.
  intros [= <-]. rewrite parse_stored by done. intros [= <-].
  split; intros _; [by exists i|by exists t].
Qed.

Lemma typed_frame e e' : storage e' = storage e -> typed_env e -> typed_env e'.
Proof. intros Hs He raw v. rewrite Hs. apply He. Qed.

Lemma typed_generated e e' u : generateId e = (e', Ok u) -> storage e' = storage e /\ json_value (JStr u).
Proof.
  unfold generateId. destruct (secure_context e); [|done]. intros [= <- <-]. split; [done|].
  apply json_value_uuid.
Qed.

Lemma typed_save e e' r h : typed_env e -> typed_handle h -> save h e = (e', r) -> typed_env e'.
Proof.
  intros He Hh. unfold save, sm_bind, sm_reads, setItem. destruct (writable e); intros [= <- _]; [|done].
  by apply (typed_refreshed h e).
Qed.

(** Making up the missing token of a stored session. *)
Lemma typed_token tok e e' r :
  text_value tok ->
  (if truthy tok then sm_ret tok else let! u := generateId in sm_ret (JStr u)) e = (e', r) ->
  storage e' = storage e /\ forall t, r = Ok t -> exists s, t = JStr s /\ json_value t.
Proof.
  intros Ht. destruct (truthy tok) eqn:Et.
  - intros [= <- <-]. split; [done|]. intros t [= <-]. by apply Ht.
  - unfold sm_bind. destruct (generateId e) as [e1 [u|x]] eqn:Eg.
    + intros [= <- <-]. apply typed_generated in Eg as [Hs Hu]. split; [done|]. intros t [= <-]. eauto.
    + intros [= <- <-]. split; [|done]. unfold generateId in Eg. by destruct (secure_context e); simplify_eq.
Qed.

Lemma typed_reuse e e' r :
  typed_env e -> reuseSession e = (e', r) ->
  typed_env e' /\ forall h, r = Ok (Some h) -> typed_handle h.
Proof.
  intros He. unfold reuseSession, sm_bind at 1, getItem.
  destruct (readable e); [|by intros [= <- <-]].
  destruct (storage e !! SESSION_KEY) as [raw|] eqn:Er; [|by intros [= <- <-]].
  destruct (str_truthy raw); [|by intros [= <- <-]].
  unfold sm_bind at 1, JSON_parse. destruct (json_parse raw) as [v|] eqn:Ep; [|by intros [= <- <-]].
  destruct (He raw v Er Ep) as [Hid Htok].
  cbn [sm_ret]. unfold sm_bind at 1, sm_reads. unfold sm_bind at 1, sm_lift at 1.
  unfold prop. destruct (nullish v); [by intros [= <- <-]|].
  unfold sm_bind at 1, sm_lift at 1. destruct (to_number _) as [limit|]; [|by intros [= <- <-]].
  destruct (num_lt _ limit); [|by intros [= <- <-]].
  unfold sm_bind at 1, sm_lift at 1. destruct (truthy (opt_prop (js "id") v)) eqn:Ei; [|by intros [= <- <-]].
  unfold sm_bind at 1, sm_lift at 1. unfold sm_bind at 1.
  match goal with |- context [(if ?c then ?a else ?b) e] =>
    destruct ((if c then a else b) e) as [e1 r1] eqn:Et end.
  destruct (typed_token _ e e1 r1 Htok Et) as [Hs Hr]. pose proof (typed_frame _ _ Hs He) as He1.
  destruct r1 as [t|]; [|by intros [= <- <-]].
  assert (typed_handle (mkHandle (opt_prop (js "id") v) t)) as Hh by (split; [by apply Hid|by apply Hr]).
  unfold sm_bind. destruct (save _ e1) as [e2 r2] eqn:Es. apply (typed_save _ _ _ _ He1 Hh) in Es.
  destruct r2; intros [= <- <-]; [|done]. split; [done|]. by intros h [= <-].
Qed.

(** Whatever [getOrCreateSession] does, its session is text, and so is what it leaves. *)
Lemma typed_session e e' r :
  typed_env e -> getOrCreateSession e = (e', r) ->
  typed_env e' /\ forall h, r = Ok h -> typed_handle h.
Proof.
  intros He. unfold getOrCreateSession, sm_bind at 1, sm_try at 1.
  destruct (reuseSession e) as [e1 r1] eqn:Er. apply (typed_reuse _ _ _ He) in Er as [He1 Hr1].
  assert (forall m, m = (let! a := generateId in let! b := generateId in
    let h := mkHandle (JStr a) (JStr b) in let! _ := sm_try (save h) (sm_ret tt) in sm_ret h) ->
    m e1 = (e', r) -> typed_env e' /\ forall h, r = Ok h -> typed_handle h) as Hnew.
  { intros m -> Hm. unfold sm_bind at 1 in Hm. destruct (generateId e1) as [e2 [a|x]] eqn:Ea.
    - destruct (typed_generated _ _ _ Ea) as [Hs2 Ha]. unfold sm_bind at 1 in Hm.
      destruct (generateId e2) as [e3 [b|x]] eqn:Eb.
      + destruct (typed_generated _ _ _ Eb) as [Hs3 Hb].
        assert (typed_env e3) as He3 by (eapply typed_frame; [|exact He1]; congruence).
        assert (typed_handle (mkHandle (JStr a) (JStr b))) as Hh by (split; eauto).
        unfold sm_bind, sm_try in Hm. destruct (save _ e3) as [e4 r4] eqn:Es.
        apply (typed_save _ _ _ _ He3 Hh) in Es. destruct r4; injection Hm as <- <-.
        all: split; [done|]; by intros h [= <-].
      + unfold generateId in Eb. destruct (secure_context e2); [done|]. simplify_eq.
        split; [|done]. by eapply typed_frame.
    - unfold generateId in Ea. destruct (secure_context e1); [done|]. simplify_eq. by split. }
  destruct r1 as [[h|]|x]; [|by apply Hnew..]. intros [= <- <-]. split; [done|]. intros h' [= <-]. by apply Hr1.
Qed.

(** ** The recorder *)

Definition text_or_null (v : jsval) : Prop := v = JNull \/ exists s, v = JStr s.
Definition conforms (b : Sent) : Prop := has_type BatchPayload_type (BatchPayload.to_json (s_payload b)) = true.

(** What every reachable state keeps. *)
Record Typed (s : St) : Prop := {
  typed_session_id : text_or_null (_sessionId (sdk s));
  typed_share_token : text_or_null (_shareToken (sdk s));
  typed_storage : typed_env (env s);
  typed_network : Forall conforms (network s)
}.

Lemma event_typed e : has_type RawEvent_type (RawEvent.to_json e) = true.
Proof. destruct e as [ty [] ts]; reflexivity. Qed.

Lemma client_typed m : has_type ClientMeta_type (ClientMeta.to_json m) = true.
Proof. by destruct m. Qed.

Lemma batch_typed c events tr ka s : Typed s -> live c s -> conforms (batch c events tr ka s).
Proof.
  intros HT [_ Hl]. destruct (typed_session_id _ HT) as [Hn|[i Hi]]; [by rewrite Hn in Hl|].
  assert (forallb (has_type RawEvent_type) (map RawEvent.to_json events) = true) as He.
  { induction events as [|e r IH]; [done|]. cbn [map forallb]. by rewrite event_typed. }
  pose proof client_typed as Hc. unfold conforms, batch, BatchPayload.to_json. cbn [s_payload].
  rewrite Hi. destruct (typed_share_token _ HT) as [-> |[t ->]].
  all: apply object_typed; [by_eval|apply (bool_decide_unpack _); vm_compute; exact I|].
  all: repeat (apply Forall2_cons; split); try apply Forall2_nil; cbn [snd fits]; try done;
    first [by destruct (BatRewindConfig.identifier c)|by destruct (BatRewindConfig.batSessionId c)
          |by destruct tr|cbn [BatchPayload.client]].
  all: destruct (if negb (_clientMetaSent (sdk s)) then _ else _) as [m|]; [exact (client_typed m)|done].
Qed.

(** [s'] has the identifiers and the storage of [s]. *)
Lemma typed_sends s s' l :
  Typed s -> (_sessionId (sdk s'), _shareToken (sdk s'), env s') = (_sessionId (sdk s), _shareToken (sdk s), env s) ->
  Sends s s' l -> Typed s'.
Proof.
  intros HT [= E1 E2 E3] Hs. pose proof (sends_network _ _ _ Hs) as Hn.
  constructor; [rewrite E1; apply HT|rewrite E2; apply HT|rewrite E3; apply HT|].
  rewrite Hn. apply Forall_app. split; [apply HT|].
  destruct Hs as [|c events tr ka Hl _ _ _]; [done|]. constructor; [by apply batch_typed|done].
Qed.

Lemma shell_ids_env s s' : shell s' = shell s ->
  (_sessionId (sdk s'), _shareToken (sdk s'), env s') = (_sessionId (sdk s), _shareToken (sdk s), env s).
Proof. unfold shell. by intros [= _ -> -> _ _ _ _ _ -> _ _ _ _ _ _ _]. Qed.

Lemma typed_emits rid sync s : Typed s -> Typed (fold_left (fun s e => emit rid e.1 e.2 s) sync s).
Proof.
  revert s. induction sync as [|e sync IH]; intros s HT; [done|]. cbn [fold_left].
  destruct (emit_sends rid e.1 e.2 s) as [l Hl]. apply IH. eapply typed_sends; [done| |done].
  apply shell_ids_env, shell_emit.
Qed.

(** A state that differs elsewhere. *)
Lemma typed_same s s' :
  (_sessionId (sdk s'), _shareToken (sdk s'), env s', network s') =
  (_sessionId (sdk s), _shareToken (sdk s), env s, network s) -> Typed s -> Typed s'.
Proof. intros [= E1 E2 E3 E4] []. by constructor; rewrite ?E1, ?E2, ?E3, ?E4. Qed.

Lemma typed_start loc c sync s : Typed s -> Typed (mount c (start_recording loc c sync s)).1.
Proof.
  intros HT.
  assert (forall s', Typed s' -> Typed (mount c s').1) as Hm
    by (intros s'; apply typed_same; unfold mount, mountWidget; by repeat case_match; simplify_eq).
  apply Hm. unfold start_recording, record, set_interval.
  destruct (isBuffered s); [destruct (BatRewindConfig.captureOnError c) as [[|]|]|];
    match goal with |- context [fold_left _ _ ?s2] =>
      eapply (typed_same (fold_left _ sync s2)); [reflexivity|];
      apply typed_emits; by apply (typed_same s) end.
Qed.

Lemma typed_init loc sync s : Typed s -> Typed (init loc sync s).1.
Proof.
  intros HT. unfold init. destruct (_initialized (sdk s)); [done|]. destruct (heap s !! loc) as [c|]; [|done].
  sdk_simpl. destruct (getOrCreateSession (env s)) as [e r] eqn:He.
  apply (typed_session _ _ _ (typed_storage _ HT)) in He as [He Hr].
  destruct r as [h|x]; [|constructor; [apply HT|apply HT|exact He|apply HT]].
  apply typed_start. destruct (Hr h eq_refl) as [(i & Hi & _) (t & Ht & _)].
  constructor; [right; by exists i|right; by exists t|exact He|apply HT].
Qed.

Lemma typed_stop s : Typed s -> Typed (stop s).
Proof.
  intros HT. unfold stop. set (s4 := set_listeners _ _). assert (Typed s4) as H4 by by apply (typed_same s).
  clearbody s4.
  assert (Typed (if negb (isBuffered s4) then flush true false s4 else s4)) as H5.
  { destruct (negb (isBuffered s4)); [|done]. destruct (flush_sends true false s4) as [l Hl].
    eapply typed_sends; [done| |done]. apply shell_ids_env, shell_flush. }
  constructor; [by left|by left|apply H5|apply H5].
Qed.

Lemma typed_step i s : Typed s -> Typed (step i s).
Proof.
  intros HT. destruct (quiet i) eqn:Hq; [|destruct i; try done; [by apply typed_init|by apply typed_stop]].
  destruct (step_sends i s Hq) as [l Hl]. destruct (step_shell i s Hq) as [Hs|[[c ->]|[[x ->]|[d ->]]]].
  - eapply typed_sends; [exact HT|by apply shell_ids_env|exact Hl].
  - by apply (typed_same s).
  - apply (typed_same s); [|done]. cbn [step]. unfold identify. by destruct (_config (sdk s)).
  - constructor; apply HT.
Qed.

Lemma typed_run t s : Typed s -> Typed (run t s).
Proof. revert s. induction t as [|i t IH]; intros s HT; [done|]. by apply IH, typed_step. Qed.

(** C8: on a page whose session storage holds nothing, or what the SDK stored, every batch ever
    sent has the type [BatchPayload] and [report] always returns a [ReportResult], whatever
    the page does; the storage is left so for the next page. *)
Theorem wire_typed e a body t :
  typed_env e ->
  let s := run t (page e a body) in
  Forall (fun b => has_type BatchPayload_type (BatchPayload.to_json (s_payload b)) = true) (network s) /\
  (exists r, (report s).2 = Ok r /\ has_type ReportResult_type (report_json r) = true) /\
  typed_env (env s).
Proof.
  intros He s. assert (Typed s) as HT.
  { apply typed_run. constructor; [by left|by left|exact He|constructor]. }
  split; [apply HT|]. split; [|apply HT]. clearbody s. clear He.
  unfold report. set (s1 := if isBuffered s then _ else _).
  assert (shell s1 = shell s) as Hs by (unfold s1; destruct (isBuffered s);
    [apply shell_uploadBuffer|apply shell_flush]).
  apply shell_ids_env in Hs as [= E1 E2 _]. cbn [snd]. unfold shareUrl. rewrite E1, E2.
  destruct (typed_session_id _ HT) as [-> |[i ->]], (typed_share_token _ HT) as [-> |[x ->]];
    (eexists; split; [done|]); (apply object_typed;
    [by_eval|apply (bool_decide_unpack _); vm_compute; exact I|by repeat constructor]).
Qed.
End typed.

(** ** Witnesses *)

(** Two pages one after the other on an empty storage. *)
Lemma typed_empty `{JsonEngine} body sec n x : typed_env (mkEnv ∅ body true sec n x).
Proof. intros raw v. cbn. by rewrite lookup_empty. Qed.

Lemma wire_typed_witness :
  let s := run ([HostConfig demo_always; HostInit 0 demo_sync] ++ demo_trace ++ [HostStop]) demo_page in
  Forall (fun b => has_type BatchPayload_type (BatchPayload.to_json (s_payload b)) = true) (network s) /\
  (exists r, (report s).2 = Ok r /\ has_type ReportResult_type (report_json r) = true) /\
  typed_env (env s).
Proof.
  apply (wire_typed demo_env demo_ambient true
           ([HostConfig demo_always; HostInit 0 demo_sync] ++ demo_trace ++ [HostStop])), typed_empty.
Defined.

(** The other way round: what the storage holds is sent as it is. *)
Example foreign_storage :
  let e := mkEnv {[SESSION_KEY := json_text (JObj [(js "id", JNum (dec_of_Z 7)); (js "expiresAt", JNum (dec_of_Z 9000000))])]} true true true 0 1000000 in
  let s := run [HostConfig demo_always; HostInit 0 demo_sync] (page e demo_ambient true) in
  map (fun b => BatchPayload.session_id (s_payload b)) (network s) = [JNum (dec_of_Z 7)].
Proof. by_eval. Qed.
