(* ===== verification/Widget.v ===== *)
(** * The report button: packages/browser/src/widget.ts

    The widget keeps one variable, the current toast, and works on the page: its host,
    its button, the toasts attached to it and the pending timeouts. What it looks like is in
    [WidgetView]. *)

From S2P Require Import Prelude Types Sdk.

Definition TOAST_MS : Z := 8000.

(** [POSITIONS[options.position]] *)
Definition anchor (p : Position) : jsstr :=
  match p with
  | BottomRight => js "bottom:24px;right:24px;"
  | BottomLeft => js "bottom:24px;left:24px;"
  | TopRight => js "top:24px;right:24px;"
  | TopLeft => js "top:24px;left:24px;"
  end.

(** A toast element: the link it shows and the text of its copy button. *)
Record Toast := mkToast { link : jsstr; copy_text : jsstr }.

Record Widget := mkWidget {
  toast : option nat;
  attached : gmap nat Toast;     (* the toasts in the shadow root *)
  button_shown : bool;           (* [button.style.display] *)
  mounted : bool;                (* the host is in the document *)
  timeouts : list Z;             (* when each pending timeout is due *)
  time : Z;
  next : nat
}.

(** [mountWidget(options)] *)
Definition mountWidget (now : Z) : Widget := mkWidget None ∅ true true [] now 0.

(** [toast?.remove()] *)
Definition remove_toast (w : Widget) : gmap nat Toast :=
  match toast w with Some i => delete i (attached w) | None => attached w end.

Definition showToast (url : jsstr) (w : Widget) : Widget :=
  mkWidget (Some (next w)) (<[next w := mkToast url (js "Copy")]> (remove_toast w)) false (mounted w)
    (timeouts w ++ [time w + TOAST_MS]%Z) (time w) (S (next w)).

(** The callback of [setTimeout]. *)
Definition hide (w : Widget) : Widget :=
  mkWidget None (remove_toast w) true (mounted w) (timeouts w) (time w) (next w).

(** The click on the button: [onReport] gives nothing or a result with its link. *)
Definition onClick (result : option jsstr) (w : Widget) : Widget :=
  match result with
  | Some url => if str_truthy url then showToast url w else w
  | None => w
  end.

(** The click on a toast's copy button; [copied] says whether the clipboard took it. *)
Definition onCopy (i : nat) (copied : bool) (w : Widget) : Widget :=
  mkWidget (toast w)
    (alter (fun t => mkToast (link t) (if copied then js "Copied" else js "Copy failed")) i (attached w))
    (button_shown w) (mounted w) (timeouts w) (time w) (next w).

(** The function [mountWidget] returns. *)
Definition unmount (w : Widget) : Widget :=
  mkWidget (toast w) (remove_toast w) (button_shown w) false (timeouts w) (time w) (next w).

(** [ms] milliseconds pass: the timeouts that come due run. *)
Definition wait (ms : N) (w : Widget) : Widget :=
  let t := (time w + Z.of_N ms)%Z in
  let due := filter (fun d => d <= t)%Z (timeouts w) in
  let w1 := mkWidget (toast w) (attached w) (button_shown w) (mounted w)
              (filter (fun d => ~ d <= t)%Z (timeouts w)) t (next w) in
  fold_left (fun w _ => hide w) due w1.

Inductive input :=
  | Click (result : option jsstr) | Copy (i : nat) (copied : bool) | Wait (ms : N) | Unmount.

Definition step (i : input) (w : Widget) : Widget :=
  match i with
  | Click r => if mounted w then onClick r w else w
  | Copy i c => onCopy i c w
  | Wait ms => wait ms w
  | Unmount => unmount w
  end.

Definition run (t : list input) (w : Widget) : Widget := fold_left (fun w i => step i w) t w.

(** ** The invariant *)

Record WidgetOk (w : Widget) : Prop := {
  ok_one : forall i t, attached w !! i = Some t -> toast w = Some i;
  ok_button : button_shown w = bool_decide (toast w = None);
  ok_pending : is_Some (toast w) -> timeouts w <> [];
  ok_due : Forall (fun d => d <= time w + TOAST_MS)%Z (timeouts w);
  ok_host : mounted w = false -> attached w = ∅
}.

Lemma remove_toast_empty w : WidgetOk w -> remove_toast w = ∅.
Proof.
  intros Hw. apply map_empty. intros i. unfold remove_toast.
  destruct (toast w) as [j|] eqn:E.
  - destruct (decide (j = i)) as [->|Hne]; [by rewrite lookup_delete_eq|].
    rewrite lookup_delete_ne by done. destruct (attached w !! i) as [t|] eqn:Ha; [|done].
    apply (ok_one w Hw) in Ha. congruence.
  - destruct (attached w !! i) as [t|] eqn:Ha; [|done]. apply (ok_one w Hw) in Ha. congruence.
Qed.

Lemma filter_none {A} (P : A -> Prop) `{!forall x, Decision (P x)} l :
  Forall (fun x => ~ P x) l -> filter P l = [].
Proof. induction 1 as [|x l Hx _ IH]; [done|]. by rewrite filter_cons_False. Qed.

Lemma wait_cases ms w :
  WidgetOk w ->
  let t := (time w + Z.of_N ms)%Z in
  let rest := filter (fun d => ~ d <= t)%Z (timeouts w) in
  wait ms w = mkWidget None ∅ true (mounted w) rest t (next w) \/
  (wait ms w = mkWidget (toast w) (attached w) (button_shown w) (mounted w) rest t (next w) /\
   rest = timeouts w).
Proof.
  intros Hw t rest. unfold wait. fold t rest.
  set (w1 := mkWidget (toast w) (attached w) (button_shown w) (mounted w) rest t (next w)).
  destruct (filter (fun d => d <= t)%Z (timeouts w)) as [|d l] eqn:Hd.
  - right. split; [done|]. unfold rest. clear -Hd.
    induction (timeouts w) as [|x r IH]; [done|]. rewrite filter_cons in Hd |- *.
    destruct (decide (x <= t)%Z); [done|]. rewrite decide_True by done. f_equal. by apply IH.
  - left.
    assert (hide w1 = mkWidget None ∅ true (mounted w) rest t (next w)) as Hh.
    { unfold hide, remove_toast, w1. cbn. pose proof (remove_toast_empty w Hw) as Hr.
      unfold remove_toast in Hr. by rewrite Hr. }
    cbn [fold_left]. rewrite Hh. clear. induction l as [|e l IH]; [done|]. exact IH.
Qed.

Lemma ok_mount now : WidgetOk (mountWidget now).
Proof. split; cbn; [by intros i t|done|by intros [? ?]|constructor|done]. Qed.

Lemma ok_step i w : WidgetOk w -> WidgetOk (step i w).
Proof.
  intros Hw. pose proof Hw as [H1 H2 H3 H4 H5]. destruct i as [r|i c|ms|]; cbn [step].
  - destruct (mounted w) eqn:Hm; [|done]. unfold onClick.
    destruct r as [url|]; [|done]. destruct (str_truthy url); [|done].
    unfold showToast. rewrite remove_toast_empty, insert_empty by done. split; cbn.
    + by intros i t [-> _]%lookup_singleton_Some.
    + done.
    + intros _. by destruct (timeouts w).
    + apply Forall_app. split; [done|]. apply Forall_singleton. lia.
    + congruence.
  - split; cbn; try done.
    + intros j t. rewrite lookup_alter. destruct (decide (i = j)) as [->|]; [|apply H1].
      destruct (attached w !! j) as [t0|] eqn:E; [|done]. intros _. by eapply H1.
    + intros Hm. rewrite (H5 Hm). apply map_empty. intros j. rewrite lookup_alter.
      by destruct (decide (i = j)) as [->|].
  - assert (Forall (fun d => d <= time w + Z.of_N ms + TOAST_MS)%Z (timeouts w)) as H4'
      by (eapply Forall_impl; [exact H4|]; cbn; lia).
    destruct (wait_cases ms w Hw) as [->|[-> Hr]].
    + split; cbn; [by intros i t|done|by intros [? ?]| |done].
      apply Forall_forall. intros d [_ Hd]%list_elem_of_filter. rewrite Forall_forall in H4'. auto.
    + rewrite Hr. by split.
  - unfold unmount. rewrite remove_toast_empty by done. by split; cbn.
Qed.

Lemma ok_run t w : WidgetOk w -> WidgetOk (run t w).
Proof.
  revert w. induction t as [|i t IH]; intros w Hw; [done|]. cbn. by apply IH, ok_step.
Qed.

(** ** Properties *)

(** C33: the widget always comes back: whatever was clicked, copied or waited for, at most one
    toast is shown, the button is hidden exactly while the toast variable is set, and
    after eight quiet seconds no toast is left and the button is shown. *)
Theorem toast_hides now t ms :
  (8000 <= ms)%N ->
  let w := run t (mountWidget now) in
  (attached w = ∅ \/ exists i x, attached w = {[i := x]} /\ toast w = Some i) /\
  button_shown w = bool_decide (toast w = None) /\
  attached (wait ms w) = ∅ /\ toast (wait ms w) = None /\ button_shown (wait ms w) = true.
Proof.
  intros Hms w. assert (WidgetOk w) as Hw by (apply ok_run, ok_mount).
  pose proof Hw as [H1 H2 H3 H4 H5]. split; [|split; [exact H2|]].
  - destruct (map_choose_or_empty (attached w)) as [(i & x & Hx)|He]; [right|by left].
    exists i, x. split; [|by eapply H1]. apply map_eq. intros j.
    destruct (decide (i = j)) as [<-|Hne]; [by rewrite lookup_singleton_eq|].
    rewrite lookup_singleton_ne by done. destruct (attached w !! j) as [y|] eqn:Hj; [|done].
    apply H1 in Hx, Hj. congruence.
  - destruct (wait_cases ms w Hw) as [->|[-> Hr]]; [done|]. cbn.
    assert (timeouts w = []) as Hnil.
    { rewrite <- Hr. apply filter_none. eapply Forall_impl; [exact H4|]. cbn. unfold TOAST_MS. lia. }
    assert (toast w = None) as Ht.
    { destruct (toast w) eqn:E; [|done]. by destruct (H3 ltac:(by eexists)). }
    split_and!; [|done|by rewrite H2, Ht].
    apply map_empty. intros i. destruct (attached w !! i) eqn:E; [|done]. apply H1 in E. congruence.
Qed.

(** The timeouts are not cancelled: a second report five seconds after the first shows its
    link for three seconds only. *)
Example toast_cut_short :
  let w := run [Click (Some (js "https://a")); Wait 5000; Click (Some (js "https://b"))]
             (mountWidget 0) in
  link <$> attached w = {[1%nat := js "https://b"]} /\ attached (wait 3000 w) = ∅.
Proof. split; by_eval. Qed.

Lemma toast_hides_witness :
  let w := run [Click (Some (js "https://a")); Wait 5000; Copy 0 true; Click (Some (js "https://b"))]
             (mountWidget 0) in
  (attached w = ∅ \/ exists i x, attached w = {[i := x]} /\ toast w = Some i) /\
  button_shown w = bool_decide (toast w = None) /\
  attached (wait 8000 w) = ∅ /\ toast (wait 8000 w) = None /\ button_shown (wait 8000 w) = true.
Proof.
  apply (toast_hides 0 [Click (Some (js "https://a")); Wait 5000; Copy 0 true;
                        Click (Some (js "https://b"))] 8000). done.
Defined.
