(* ===== verification/Timeline.v ===== *)
(** * The breadcrumb timeline: packages/dashboard/src/lib/timeline.ts

    The events come from the reader service as JSON; an event's [data] is any
    value, so every access the code makes to it can meet a value of the wrong
    shape. [indexNodes] and [buildTimeline] therefore return a result or throw. *)

From S2P Require Import Prelude Decimal JsValue.

Definition FULL_SNAPSHOT : Z := 2.
Definition META : Z := 4.
Definition INCREMENTAL : Z := 3.
Definition PLUGIN : Z := 6.
Definition NODE_ELEMENT : Z := 2.
Definition NODE_TEXT : Z := 3.
Definition SOURCE_MUTATION : Z := 0.
Definition SOURCE_MOUSE_INTERACTION : Z := 2.
Definition SOURCE_INPUT : Z := 5.
Definition MOUSE_CLICK : Z := 2.
Definition MOUSE_DBL_CLICK : Z := 4.

(** The fields of http/sessions/types.ts this file reads; [type] and [timestamp] are
    the integers the server stores. *)
Module ReplayEvent.
Record t := mk { type : Z; data : jsval; timestamp : Z }.
End ReplayEvent.

(** The strings come from unchecked JSON, so a field can hold any value. *)
Record NodeInfo := mkNode {
  tag : jsval;
  text : option jsstr;
  domId : jsval;
  className : option jsstr;
  aria : jsval;
  name : jsval;
  placeholder : jsval
}.

(** ** Naming nodes *)

(** [walk] of [collectText], over the captured [out]. *)
Fixpoint walk (n : jsval) (out : jsstr) {struct n} : res jsstr :=
  if negb (truthy n) || (60 <? length out)%nat then Ok out
  else
    let out' :=
      if num_eq (opt_prop (js "type") n) NODE_TEXT then
        match opt_prop (js "textContent") n with JStr s => out ++ s | _ => out end
      else out in
    for_children walk n out'.

Definition collectText (node : jsval) : res jsstr := one_line <$> walk node [].

(** The [NodeInfo] of an element and of a text node. *)
Definition element_info (n : jsval) : res NodeInfo :=
  let a := coalesce (opt_prop (js "attributes") n) (JObj []) in
  t ← collectText n;
  Ok (mkNode (opt_prop (js "tagName") n) (Some t) (opt_prop (js "id") a)
        (as_string (opt_prop (js "class") a)) (opt_prop (js "aria-label") a)
        (opt_prop (js "name") a) (opt_prop (js "placeholder") a)).

Definition text_info (n : jsval) : res NodeInfo :=
  match coalesce (opt_prop (js "textContent") n) (JStr []) with
  | JStr s => Ok (mkNode JUndef (Some (one_line s)) JUndef None JUndef JUndef JUndef)
  | _ => Throw TypeError
  end.

Definition set_node (n : jsval) (i : dec) (m : gmap dec NodeInfo) : res (gmap dec NodeInfo) :=
  if num_eq (opt_prop (js "type") n) NODE_ELEMENT then
    x ← element_info n; Ok (<[i := x]> m)
  else if num_eq (opt_prop (js "type") n) NODE_TEXT then
    x ← text_info n; Ok (<[i := x]> m)
  else Ok m.

(** [visit] of [indexNodes], over the captured [map]. *)
Fixpoint visit (n : jsval) (m : gmap dec NodeInfo) {struct n} : res (gmap dec NodeInfo) :=
  match (if truthy n then as_number (opt_prop (js "id") n) else None) with
  | None => for_children visit n m
  | Some i => match set_node n i m with Ok m' => for_children visit n m' | Throw e => Throw e end
  end.

(** [for (const add of d.adds) visit(add.node)]. *)
Definition visit_add (add : jsval) (m : gmap dec NodeInfo) : res (gmap dec NodeInfo) :=
  n ← prop (js "node") add; visit n m.

Definition index_event (e : ReplayEvent.t) (m : gmap dec NodeInfo) : res (gmap dec NodeInfo) :=
  let d := ReplayEvent.data e in
  m1 ← (if (ReplayEvent.type e =? FULL_SNAPSHOT)%Z && truthy (opt_prop (js "node") d)
        then visit (opt_prop (js "node") d) m else Ok m);
  if (ReplayEvent.type e =? INCREMENTAL)%Z && num_eq (opt_prop (js "source") d) SOURCE_MUTATION
  then match opt_prop (js "adds") d with JArr adds => for_each visit_add adds m1 | _ => Ok m1 end
  else Ok m1.

Fixpoint index_events (events : list ReplayEvent.t) (m : gmap dec NodeInfo)
    : res (gmap dec NodeInfo) :=
  match events with
  | [] => Ok m
  | e :: r => m' ← index_event e m; index_events r m'
  end.

Definition indexNodes (events : list ReplayEvent.t) : res (gmap dec NodeInfo) :=
  index_events events ∅.

(** A double quote. *)
Definition dquote : jsstr := [34%N].

Definition describeNode (map : gmap dec NodeInfo) (id : jsval) : res jsstr :=
  match as_number id with
  | None => Ok []
  | Some i =>
    match map !! i with
    | None => Ok []
    | Some n =>
      match coalesce (tag n) (JStr (js "element")) with
      | JStr t =>
        let tag := to_lower t in
        match slice 0 40 <$> text n with
        | Some (c :: s) => Ok (tag ++ js " " ++ dquote ++ (c :: s) ++ dquote)
        | _ =>
          let label := coalesce (coalesce (aria n) (placeholder n)) (name n) in
          if truthy label then
            l ← to_string label; Ok (tag ++ js " " ++ dquote ++ l ++ dquote)
          else if truthy (domId n) then
            d ← to_string (domId n); Ok (tag ++ js "#" ++ d)
          else match className n with
          | Some (c :: s) => Ok (tag ++ js "." ++ split_head 32 (c :: s))
          | _ => Ok tag
          end
        end
      | _ => Throw TypeError
      end
    end
  end.

(** ** Items *)

Inductive TimelineKind := KError | KWarn | KLog | KInfo | KClick | KNavigate | KInput.

#[export] Instance TimelineKind_eq_dec : EqDecision TimelineKind.
Proof. solve_decision. Defined.

Record TimelineItem := mkItem {
  eventIndex : nat;
  kind : TimelineKind;
  message : jsstr;
  timestamp : Z
}.

Record KindMeta := { label : jsstr; color : jsstr; dot : jsstr }.

Definition KIND_META (k : TimelineKind) : KindMeta :=
  match k with
  | KError => {| label := js "error"; color := js "text-[#f87171]"; dot := js "bg-[#f87171]" |}
  | KWarn => {| label := js "warn"; color := js "text-[#fbbf24]"; dot := js "bg-[#fbbf24]" |}
  | KLog => {| label := js "log"; color := js "text-[#94a3b8]"; dot := js "bg-[#94a3b8]" |}
  | KInfo => {| label := js "info"; color := js "text-[#60a5fa]"; dot := js "bg-[#60a5fa]" |}
  | KClick => {| label := js "click"; color := js "text-[#a78bfa]"; dot := js "bg-[#a78bfa]" |}
  | KNavigate => {| label := js "nav"; color := js "text-[#34d399]"; dot := js "bg-[#34d399]" |}
  | KInput => {| label := js "input"; color := js "text-[#64748b]"; dot := js "bg-[#64748b]" |}
  end.

Definition consoleLevelToKind (level : jsval) : TimelineKind :=
  if str_eq level (js "error") || str_eq level (js "assert") then KError
  else if str_eq level (js "warn") then KWarn
  else if str_eq level (js "info") then KInfo
  else KLog.

(** One layer of the quotes rrweb puts around a string. *)
Definition strip_quotes (p : jsstr) : jsstr :=
  if (2 <=? length p)%nat && starts_with dquote p && bool_decide (last p = Some 34%N)
  then slice 1 (length p - 1) p else p.

Definition console_arg (p : jsval) : res jsstr :=
  match p with JStr s => Ok (strip_quotes s) | _ => to_string p end.

Definition formatConsolePayload (payload : jsval) : res jsstr :=
  match payload with
  | JArr l => parts ← mapM console_arg l; Ok (trim (join (js " ") parts))
  | _ => to_string (coalesce payload (JStr []))
  end.

(** [typeof data.plugin === 'string' && data.plugin.includes('console')] *)
Definition console_plugin (data : jsval) : bool :=
  match opt_prop (js "plugin") data with JStr p => includes (js "console") p | _ => false end.

(** The callback of [events.forEach]: the items one event adds. *)
Definition event_items (nodes : gmap dec NodeInfo) (i : nat) (e : ReplayEvent.t)
    : res (list TimelineItem) :=
  let data := ReplayEvent.data e in
  let item k m := [mkItem i k m (ReplayEvent.timestamp e)] in
  if (ReplayEvent.type e =? PLUGIN)%Z && truthy data && console_plugin data then
    let payload := opt_prop (js "payload") data in
    let level := coalesce (opt_prop (js "level") payload) (JStr (js "log")) in
    msg ← formatConsolePayload (opt_prop (js "payload") payload);
    Ok (if str_truthy msg then item (consoleLevelToKind level) msg else [])
  else
  match (if (ReplayEvent.type e =? META)%Z && truthy data
         then as_string (opt_prop (js "href") data) else None) with
  | Some href => Ok (item KNavigate href)
  | None =>
    if (ReplayEvent.type e =? INCREMENTAL)%Z && truthy data then
      let source := opt_prop (js "source") data in
      if num_eq source SOURCE_MOUSE_INTERACTION then
        let t := opt_prop (js "type") data in
        if num_eq t MOUSE_CLICK || num_eq t MOUSE_DBL_CLICK then
          let verb := if num_eq t MOUSE_DBL_CLICK then js "Double click" else js "Click" in
          target ← describeNode nodes (opt_prop (js "id") data);
          Ok (item KClick (if str_truthy target then verb ++ js " on " ++ target else verb))
        else Ok []
      else if num_eq source SOURCE_INPUT then
        target ← describeNode nodes (opt_prop (js "id") data);
        Ok (item KInput (if str_truthy target then js "Typed in " ++ target else js "User typed"))
      else Ok []
    else Ok []
  end.

Fixpoint items_from (nodes : gmap dec NodeInfo) (i : nat) (events : list ReplayEvent.t)
    : res (list TimelineItem) :=
  match events with
  | [] => Ok []
  | e :: r =>
    a ← event_items nodes i e;
    b ← items_from nodes (S i) r;
    Ok (a ++ b)
  end.

Definition buildTimeline (events : list ReplayEvent.t) : res (list TimelineItem) :=
  nodes ← indexNodes events; items_from nodes 0 events.

(** [countConsole]: the errors and the warnings. *)
Fixpoint countConsole (items : list TimelineItem) : nat * nat :=
  match items with
  | [] => (0, 0)
  | x :: r =>
    let '(errors, warnings) := countConsole r in
    match kind x with
    | KError => (S errors, warnings)
    | KWarn => (errors, S warnings)
    | _ => (errors, warnings)
    end
  end.
