(* ===== verification/TimelineSpec.v ===== *)
(** * What a breadcrumb is

    A description of the breadcrumbs, by rules, that does not call the functions of
    [Timeline]: which recorded events become an item, of which kind and with which message.
    rrweb's event numbers and the texts are written out. *)

From stdpp Require Import sorting.
From S2P Require Import Prelude Decimal JsValue Timeline.

(** [v] is the number [n] of rrweb's enumerations. *)
Definition is_num (v : jsval) (n : Z) : Prop := v = JNum (dec_of_Z n).

(** ** A line of the console *)

(** The severity of a console call; a level that is missing, or any other one, is a log. *)
Inductive severity : jsval -> TimelineKind -> Prop :=
  | severity_error : severity (JStr (js "error")) KError
  | severity_assert : severity (JStr (js "assert")) KError
  | severity_warn : severity (JStr (js "warn")) KWarn
  | severity_info : severity (JStr (js "info")) KInfo
  | severity_other v :
    v ∉ [JStr (js "error"); JStr (js "assert"); JStr (js "warn"); JStr (js "info")] ->
    severity v KLog.

(** How an argument reads: a string without the pair of quotes around it, anything else
    as [String] prints it. *)
Inductive arg_reads : jsval -> jsstr -> Prop :=
  | arg_quoted t : arg_reads (JStr (34%N :: t ++ [34%N])) t
  | arg_bare s : (forall t, s <> 34%N :: t ++ [34%N]) -> arg_reads (JStr s) s
  | arg_value v s : as_string v = None -> to_string v = Ok s -> arg_reads v s.

(** How the recorded arguments of one call read. *)
Inductive line_reads : jsval -> jsstr -> Prop :=
  | line_args l ts : Forall2 arg_reads l ts -> line_reads (JArr l) (trim (join (js " ") ts))
  | line_none v : v = JUndef \/ v = JNull -> line_reads v []
  | line_value v s :
    v <> JUndef -> v <> JNull -> (forall l, v <> JArr l) -> to_string v = Ok s ->
    line_reads v s.

(** ** The name of a node *)

Definition quoted (tg t : jsstr) : jsstr := tg ++ js " " ++ [34%N] ++ t ++ [34%N].

(** The first of [vs] that is neither [null] nor [undefined]. *)
Inductive first_given : list jsval -> jsval -> Prop :=
  | given_here v vs : v <> JUndef -> v <> JNull -> first_given (v :: vs) v
  | given_later v vs w : v = JUndef \/ v = JNull -> first_given vs w -> first_given (v :: vs) w
  | given_last v : first_given [v] v.

Definition no_text (n : NodeInfo) : Prop := text n = None \/ text n = Some [].

(** What the page calls a node whose tag, in lower case, is [tg]: by its text (at most forty
    units of it), else by its label, else by its id, else by its first class. *)
Inductive called (n : NodeInfo) (tg : jsstr) : jsstr -> Prop :=
  | called_text t : text n = Some t -> t <> [] -> called n tg (quoted tg (take 40 t))
  | called_label v l :
    no_text n -> first_given [aria n; placeholder n; name n] v -> truthy v = true ->
    to_string v = Ok l -> called n tg (quoted tg l)
  | called_id v l :
    no_text n -> first_given [aria n; placeholder n; name n] v -> truthy v = false ->
    truthy (domId n) = true -> to_string (domId n) = Ok l -> called n tg (tg ++ js "#" ++ l)
  | called_class v c a :
    no_text n -> first_given [aria n; placeholder n; name n] v -> truthy v = false ->
    truthy (domId n) = false -> className n = Some c -> c <> [] ->
    32%N ∉ a -> (c = a \/ exists b, c = a ++ [32%N] ++ b) ->
    called n tg (tg ++ js "." ++ a)
  | called_tag v :
    no_text n -> first_given [aria n; placeholder n; name n] v -> truthy v = false ->
    truthy (domId n) = false -> (className n = None \/ className n = Some []) ->
    called n tg tg.

(** The tag of an element, in lower case; a text node has none. *)
Inductive tagged (n : NodeInfo) : jsstr -> Prop :=
  | tagged_element s : tag n = JStr s -> tagged n (to_lower s)
  | tagged_other : tag n = JUndef \/ tag n = JNull -> tagged n (js "element").

(** The target of an interaction: the name of the node with this id, if there is one. *)
Inductive target (nodes : gmap dec NodeInfo) (v : jsval) : option jsstr -> Prop :=
  | target_none : (forall i, v = JNum i -> nodes !! i = None) -> target nodes v None
  | target_node i n tg s :
    v = JNum i -> nodes !! i = Some n -> tagged n tg -> called n tg s ->
    target nodes v (Some s).

(** ** Breadcrumbs *)

Definition with_target (alone upto : jsstr) (t : option jsstr) : jsstr :=
  match t with Some (c :: s) => upto ++ (c :: s) | _ => alone end.

(** [crumb nodes e k m]: the event [e] is a breadcrumb of kind [k] with message [m]. *)
Inductive crumb (nodes : gmap dec NodeInfo) (e : ReplayEvent.t) : TimelineKind -> jsstr -> Prop :=
  | crumb_console a b k line :
    ReplayEvent.type e = 6%Z ->
    opt_prop (js "plugin") (ReplayEvent.data e) = JStr (a ++ js "console" ++ b) ->
    severity (opt_prop (js "level") (opt_prop (js "payload") (ReplayEvent.data e))) k ->
    line_reads (opt_prop (js "payload") (opt_prop (js "payload") (ReplayEvent.data e))) line ->
    line <> [] ->
    crumb nodes e k line
  | crumb_navigate href :
    ReplayEvent.type e = 4%Z ->
    opt_prop (js "href") (ReplayEvent.data e) = JStr href ->
    crumb nodes e KNavigate href
  | crumb_click t :
    ReplayEvent.type e = 3%Z -> is_num (opt_prop (js "source") (ReplayEvent.data e)) 2 ->
    is_num (opt_prop (js "type") (ReplayEvent.data e)) 2 ->
    target nodes (opt_prop (js "id") (ReplayEvent.data e)) t ->
    crumb nodes e KClick (with_target (js "Click") (js "Click on ") t)
  | crumb_double_click t :
    ReplayEvent.type e = 3%Z -> is_num (opt_prop (js "source") (ReplayEvent.data e)) 2 ->
    is_num (opt_prop (js "type") (ReplayEvent.data e)) 4 ->
    target nodes (opt_prop (js "id") (ReplayEvent.data e)) t ->
    crumb nodes e KClick (with_target (js "Double click") (js "Double click on ") t)
  | crumb_input t :
    ReplayEvent.type e = 3%Z -> is_num (opt_prop (js "source") (ReplayEvent.data e)) 5 ->
    target nodes (opt_prop (js "id") (ReplayEvent.data e)) t ->
    crumb nodes e KInput (with_target (js "User typed") (js "Typed in ") t).

(** ** The rules and the functions of the source agree *)

Lemma starts_with_spec p s : starts_with p s = true <-> exists b, s = p ++ b.
Proof.
  revert s. induction p as [|a p IH]; intros s; [split; [by exists s|done]|].
  destruct s as [|c s]; cbn; [split; [done|by intros [b Hb]]|].
  rewrite andb_true_iff, N.eqb_eq, IH. split.
  - intros [-> [b ->]]. by exists b.
  - intros [b [= -> ->]]. eauto.
Qed.

Lemma includes_spec p s : includes p s = true <-> exists a b, s = a ++ p ++ b.
Proof.
  induction s as [|c s IH]; cbn [includes]; rewrite orb_true_iff, starts_with_spec.
  - split.
    + intros [[b Hb]|]; [|done]. by exists [], b.
    + intros (a & b & Hb). left. exists b. destruct a; [exact Hb|done].
  - rewrite IH. split.
    + intros [[b ->]|(a & b & ->)]; [by exists [], b|by exists (c :: a), b].
    + intros ([|d a] & b & Hs); [left; by exists b|]. injection Hs as -> ->. right. eauto.
Qed.

Lemma str_eq_spec v s : str_eq v s = true <-> v = JStr s.
Proof. destruct v; try done. cbn. rewrite bool_decide_eq_true. naive_solver. Qed.

Lemma num_eq_spec v n : num_eq v n = true <-> is_num v n.
Proof. unfold is_num. destruct v; try done. cbn. rewrite bool_decide_eq_true. naive_solver. Qed.

Lemma severity_kind v k :
  severity v k <-> consoleLevelToKind (coalesce v (JStr (js "log"))) = k.
Proof.
  split; [|intros <-].
  - destruct 1 as [| | | |v Hv]; try by_eval.
    unfold consoleLevelToKind. set (w := coalesce _ _).
    assert (forall s, s = js "error" \/ s = js "assert" \/ s = js "warn" \/ s = js "info" ->
      str_eq w s = false) as Hw.
    { intros s Hs. destruct (str_eq w s) eqn:E; [|done]. apply str_eq_spec in E.
      unfold w, coalesce in E. destruct (nullish v) eqn:Hn.
      - by destruct Hs as [->|[->|[->| ->]]].
      - subst v. exfalso. apply Hv. rewrite !elem_of_cons.
        destruct Hs as [->|[->|[->| ->]]]; tauto. }
    by rewrite !Hw by tauto.
  - unfold consoleLevelToKind, coalesce. destruct (nullish v) eqn:Hn.
    + change (severity v KLog). apply severity_other. intros Hv. by repeat (
        apply elem_of_cons in Hv as [->|Hv]; [done|]); apply elem_of_nil in Hv.
    + destruct (str_eq v (js "error")) eqn:H1; [apply str_eq_spec in H1 as ->; constructor|].
      destruct (str_eq v (js "assert")) eqn:H2; [apply str_eq_spec in H2 as ->; constructor|].
      destruct (str_eq v (js "warn")) eqn:H3; [apply str_eq_spec in H3 as ->; constructor|].
      destruct (str_eq v (js "info")) eqn:H4; [apply str_eq_spec in H4 as ->; constructor|].
      cbn. apply severity_other. intros Hv.
      repeat (apply elem_of_cons in Hv as [->|Hv]; [done|]). by apply elem_of_nil in Hv.
Qed.

(** The test of [strip_quotes] is for a pair of quotes around the string. *)
Lemma quotes_around s :
  (2 <=? length s)%nat && starts_with dquote s && bool_decide (last s = Some 34%N) = true <->
  exists t, s = 34%N :: t ++ [34%N].
Proof.
  rewrite !andb_true_iff, Nat.leb_le, bool_decide_eq_true, starts_with_spec. split.
  - intros [[Hl [b ->]] Hq]. unfold dquote in *. destruct b as [|d b _] using rev_ind; [cbn in Hl; lia|].
    exists b. cbn [app] in *. by rewrite app_comm_cons, last_snoc in Hq; injection Hq as ->.
  - intros [t ->]. rewrite app_comm_cons, last_snoc, <- app_comm_cons. split; [|done]. split.
    + cbn. rewrite length_app. cbn. lia.
    + by exists (t ++ [34%N]).
Qed.

Lemma strip_quotes_quoted t : strip_quotes (34%N :: t ++ [34%N]) = t.
Proof.
  unfold strip_quotes. rewrite (proj2 (quotes_around _)) by eauto.
  unfold slice. cbn [length drop]. rewrite length_app. cbn [length].
  replace (S (length t + 1) - 1 - 1) with (length t) by lia. apply take_app_length.
Qed.

Lemma strip_quotes_bare s : (forall t, s <> 34%N :: t ++ [34%N]) -> strip_quotes s = s.
Proof.
  intros Hs. unfold strip_quotes. destruct (_ && _) eqn:E; [|done].
  apply quotes_around in E as [t Ht]. by destruct (Hs t).
Qed.

Lemma arg_console v s : arg_reads v s <-> console_arg v = Ok s.
Proof.
  split.
  - destruct 1 as [t|s Hs|v s Hv Ht]; cbn.
    + by rewrite strip_quotes_quoted.
    + by rewrite strip_quotes_bare.
    + by destruct v.
  - destruct v as [| | | |t| |]; try (intros H; by apply arg_value). cbn. intros [= <-].
    destruct ((2 <=? length t)%nat && starts_with dquote t && bool_decide (last t = Some 34%N)) eqn:E.
    + apply quotes_around in E as [u ->]. rewrite strip_quotes_quoted. constructor.
    + assert (forall u, t <> 34%N :: u ++ [34%N]) as Hn.
      { intros u ->. by rewrite (proj2 (quotes_around _)) in E by eauto. }
      rewrite strip_quotes_bare by done. by constructor.
Qed.

Lemma line_console v s : line_reads v s <-> formatConsolePayload v = Ok s.
Proof.
  split.
  - destruct 1 as [l ts Hl|v [->| ->]|v s Hu Hn Ha Ht]; [|done|done|].
    + cbn. assert (mapM console_arg l = Ok ts) as ->; [|done].
      induction Hl as [|x t l ts Hx _ IH]; [done|]. apply arg_console in Hx. cbn.
      by rewrite Hx, IH.
    + destruct v; try done. by destruct (Ha l).
  - destruct v as [| | | | |l|]; try (intros H; by apply line_value).
    + intros [= <-]. apply line_none. by left.
    + intros [= <-]. apply line_none. by right.
    + cbn. intros H. res_inv. constructor.
      match goal with H : mapM _ _ = Ok _ |- _ => revert H end. revert a.
      induction l as [|x l IH]; intros ts H; [injection H as <-; constructor|].
      cbn in H. res_inv. injection H as <-. constructor; [by apply arg_console|by apply IH].
Qed.

Lemma first_given_coalesce a b c v : first_given [a; b; c] v <-> v = coalesce (coalesce a b) c.
Proof.
  split.
  - intros Hf. inversion Hf as [? ? Hu Hn|? ? ? Ha Hf1|]; subst; [by destruct v|].
    inversion Hf1 as [? ? Hu Hn|? ? ? Hb Hf2|]; subst;
      [destruct Ha as [-> | ->]; by destruct v|].
    inversion Hf2 as [|? ? ? ? Hf3|]; subst; [|inversion Hf3|];
      destruct Ha as [-> | ->], Hb as [-> | ->]; done.
  - intros ->. unfold coalesce. destruct (nullish a) eqn:Ha.
    + apply given_later; [destruct a; auto; done|].
      destruct (nullish b) eqn:Hb.
      * apply given_later; [destruct b; auto; done|apply given_last].
      * by apply given_here; intros ->.
    + rewrite Ha. by apply given_here; intros ->.
Qed.

Lemma split_head_spec c s a :
  split_head c s = a <-> (c ∉ a) /\ (s = a \/ exists b, s = a ++ [c] ++ b).
Proof.
  revert a. induction s as [|d s IH]; intros a; cbn [split_head].
  - split; [by intros <-; split; [apply not_elem_of_nil|left]|].
    intros [_ [->|[b Hb]]]; [done|]. by destruct a.
  - destruct (d =? c)%N eqn:E; [apply N.eqb_eq in E as ->|apply N.eqb_neq in E].
    + split; [intros <-; split; [apply not_elem_of_nil|right; by exists s]|].
      intros [Hc Hs]. destruct a as [|x a]; [done|].
      assert (x = c) as -> by (destruct Hs as [Hs|[b Hs]]; by injection Hs).
      destruct Hc. apply elem_of_cons. by left.
    + split.
      * intros <-. destruct (proj1 (IH _) eq_refl) as [Hc Hs]. split; [by apply not_elem_of_cons|].
        destruct Hs as [Hs|[b Hs]]; [left|right; exists b]; exact (f_equal (cons d) Hs).
      * intros [Hc Hs]. destruct a as [|x a].
        { destruct Hs as [Hs|[b Hs]]; [done|]. by injection Hs. }
        apply not_elem_of_cons in Hc as [_ Hc].
        assert (x = d /\ (s = a \/ exists b, s = a ++ [c] ++ b)) as [-> Hs'].
        { destruct Hs as [Hs|[b Hs]]; injection Hs as -> Hs; (split; [done|]);
            [by left|right; by exists b]. }
        f_equal. by apply IH.
Qed.

(** The name of a node without text. *)
Lemma describe_label n tg s :
  no_text n ->
  (if truthy (coalesce (coalesce (aria n) (placeholder n)) (name n)) then
     l ← to_string (coalesce (coalesce (aria n) (placeholder n)) (name n));
     Ok (tg ++ js " " ++ dquote ++ l ++ dquote)
   else if truthy (domId n) then d ← to_string (domId n); Ok (tg ++ js "#" ++ d)
   else match className n with
        | Some (c :: k) => Ok (tg ++ js "." ++ split_head 32 (c :: k))
        | _ => Ok tg
        end) = Ok s <-> called n tg s.
Proof.
  intros Hno. assert (forall v, first_given [aria n; placeholder n; name n] v <->
    v = coalesce (coalesce (aria n) (placeholder n)) (name n)) as Hg by (intros; apply first_given_coalesce).
  set (lb := coalesce _ (name n)) in *.
  assert (first_given [aria n; placeholder n; name n] lb) as Hlb by (by apply Hg).
  split.
  - destruct (truthy lb) eqn:Hl; [|destruct (truthy (domId n)) eqn:Hd].
    + intros H. res_inv. by eapply called_label.
    + intros H. res_inv. by eapply called_id.
    + destruct (className n) as [[|c k]|] eqn:Hc; intros [= <-];
        [eapply called_tag; eauto|eapply called_class; eauto|eapply called_tag; eauto];
        by apply (split_head_spec 32%N (c :: k)).
  - destruct 1 as [t Ht Hn|v l _ Hv Ht Hs|v l _ Hv Ht Hd Hs|v c a _ Hv Ht Hd Hc Hn Ha Hs|v _ Hv Ht Hd Hc].
    + destruct Hno; congruence.
    + apply Hg in Hv as ->. by rewrite Ht, Hs.
    + apply Hg in Hv as ->. by rewrite Ht, Hd, Hs.
    + apply Hg in Hv as ->. rewrite Ht, Hd, Hc. destruct c as [|c k]; [done|].
      by rewrite (proj2 (split_head_spec 32%N (c :: k) a)).
    + apply Hg in Hv as ->. rewrite Ht, Hd. by destruct Hc as [-> | ->].
Qed.

(** [describeNode] gives the name of a node. *)
Lemma describe_called nodes i n tg s :
  nodes !! i = Some n -> coalesce (tag n) (JStr (js "element")) = JStr tg ->
  describeNode nodes (JNum i) = Ok s <-> called n (to_lower tg) s.
Proof.
  intros Hi Htg. unfold describeNode. cbn [as_number]. rewrite Hi, Htg.
  destruct (text n) as [[|c t]|] eqn:Ht; cbn [fmap option_fmap option_map];
    [apply describe_label; by right| |apply describe_label; by left].
  assert (slice 0 40 (c :: t) = take 40 (c :: t)) as -> by done. cbn [take]. split.
  - intros [= <-]. apply (called_text _ _ (c :: t)); by rewrite ?Ht.
  - destruct 1 as [u Hu _|? ? Hno|? ? Hno|? ? ? Hno|? Hno]; try (by destruct Hno; congruence).
    rewrite Ht in Hu. by injection Hu as <-.
Qed.

Lemma tagged_tag n tg : tagged n tg <->
  exists t, coalesce (tag n) (JStr (js "element")) = JStr t /\ tg = to_lower t.
Proof.
  split.
  - destruct 1 as [s Hs|Hn]; [rewrite Hs; by exists s|].
    exists (js "element"). by destruct Hn as [-> | ->].
  - intros (t & Ht & ->). destruct (tag n) as [| | | |s| |] eqn:Hn; try done.
    1, 2: injection Ht as <-; change (to_lower (js "element")) with (js "element");
      apply tagged_other; auto.
    injection Ht as ->. by apply tagged_element.
Qed.

Lemma describe_target nodes v s :
  describeNode nodes v = Ok s <-> exists t, target nodes v t /\ s = default [] t.
Proof.
  split.
  - intros H. destruct (as_number v) as [i|] eqn:Hv.
    + assert (v = JNum i) as -> by (destruct v; try done; by injection Hv as ->).
      destruct (nodes !! i) as [n|] eqn:Hn.
      * destruct (coalesce (tag n) (JStr (js "element"))) as [| | | |tg| |] eqn:Ht;
          try (unfold describeNode in H; cbn [as_number] in H; by rewrite Hn, Ht in H).
        exists (Some s). split; [|done]. apply (describe_called _ _ _ _ _ Hn Ht) in H.
        eapply target_node; [done|done| |done]. apply tagged_tag. eauto.
      * exists None. unfold describeNode in H. cbn [as_number] in H. rewrite Hn in H.
        injection H as <-. split; [|done]. constructor. by intros j [= <-].
    + exists None. unfold describeNode in H. rewrite Hv in H. injection H as <-.
      split; [|done]. constructor. by intros i ->.
  - intros (t & Ht & ->). destruct Ht as [Hn|i n tg s -> Hn Htg Hs].
    + unfold describeNode. destruct (as_number v) as [i|] eqn:Hv; [|done].
      rewrite (Hn i); [done|]. destruct v; try done. by injection Hv as ->.
    + apply tagged_tag in Htg as (t & Ht & ->). by apply (describe_called _ _ _ _ _ Hn Ht).
Qed.

Lemma console_plugin_spec data :
  console_plugin data = true <->
  exists a b, opt_prop (js "plugin") data = JStr (a ++ js "console" ++ b).
Proof.
  unfold console_plugin. destruct (opt_prop (js "plugin") data); rewrite ?includes_spec;
    try (by split; [done|intros (? & ? & ?)]).
  split; [intros (a & b & ->); eauto|intros (a & b & [= ->]); eauto].
Qed.

Lemma console_truthy data : console_plugin data = true -> truthy data = true.
Proof.
  unfold console_plugin. intros Hc. apply (opt_prop_truthy (js "plugin")).
  by destruct (opt_prop (js "plugin") data).
Qed.

(** A breadcrumb is an item. *)
Lemma crumb_item nodes i e k m :
  crumb nodes e k m ->
  event_items nodes i e = Ok [mkItem i k m (ReplayEvent.timestamp e)].
Proof.
  unfold event_items.
  destruct 1 as [a b k line Ht Hp Hk Hl Hne|h Ht Hh|t Ht Hs Hc Htg|t Ht Hs Hc Htg|t Ht Hs Htg];
    rewrite Ht; cbn [Z.eqb Pos.eqb PLUGIN META INCREMENTAL andb].
  - assert (console_plugin (ReplayEvent.data e) = true) as Hc by (apply console_plugin_spec; eauto).
    rewrite Hc, (console_truthy _ Hc). cbn [andb].
    apply line_console in Hl. apply severity_kind in Hk. rewrite Hl, Hk. by destruct line.
  - by rewrite (opt_prop_truthy (js "href")), Hh by (by rewrite Hh).
  - apply (num_eq_spec _ SOURCE_MOUSE_INTERACTION) in Hs.
    apply (num_eq_spec _ MOUSE_CLICK) in Hc.
    rewrite (num_eq_prop_truthy _ _ _ Hs), Hs, Hc. cbn [orb].
    destruct (num_eq _ MOUSE_DBL_CLICK) eqn:Hd; [by pose proof (num_eq_inj _ _ _ Hc Hd)|].
    rewrite (proj2 (describe_target nodes _ (default [] t))) by eauto.
    by destruct t as [[|c s]|].
  - apply (num_eq_spec _ SOURCE_MOUSE_INTERACTION) in Hs.
    apply (num_eq_spec _ MOUSE_DBL_CLICK) in Hc.
    rewrite (num_eq_prop_truthy _ _ _ Hs), Hs, Hc, orb_true_r.
    rewrite (proj2 (describe_target nodes _ (default [] t))) by eauto.
    by destruct t as [[|c s]|].
  - apply (num_eq_spec _ SOURCE_INPUT) in Hs.
    destruct (num_eq _ SOURCE_MOUSE_INTERACTION) eqn:Hd; [by pose proof (num_eq_inj _ _ _ Hs Hd)|].
    rewrite (num_eq_prop_truthy _ _ _ Hs), Hs.
    rewrite (proj2 (describe_target nodes _ (default [] t))) by eauto.
    by destruct t as [[|c s]|].
Qed.

(** An item is a breadcrumb. *)
Lemma item_crumb nodes i e l :
  event_items nodes i e = Ok l ->
  l = [] \/ exists k m, crumb nodes e k m /\ l = [mkItem i k m (ReplayEvent.timestamp e)].
Proof.
  intros H. enough (l = [] \/ exists k m, crumb nodes e k m) as [->|(k & m & Hc)]; [by left| |].
  { right. exists k, m. split; [done|]. pose proof (crumb_item nodes i e k m Hc). congruence. }
  revert H. unfold event_items. set (data := ReplayEvent.data e).
  destruct (_ && console_plugin data) eqn:Hp; [|clear Hp].
  { apply andb_true_iff in Hp as [[Hp%Z.eqb_eq _]%andb_true_iff Hc].
    apply console_plugin_spec in Hc as (a & b & Hc).
    intros H. res_inv. match goal with H : formatConsolePayload _ = Ok ?s |- _ =>
      apply line_console in H; destruct s; [by left|right] end.
    eexists _, _. eapply crumb_console; [done|done|by apply severity_kind|done|done]. }
  destruct (if _ && truthy data then _ else _) as [h|] eqn:Hh; [|clear Hh].
  { destruct (_ && _) eqn:Hm in Hh; [|done]. apply andb_true_iff in Hm as [Hm%Z.eqb_eq _].
    intros _. right. exists KNavigate, h. apply crumb_navigate; [done|]. fold data.
    destruct (opt_prop (js "href") data); try done. by injection Hh as ->. }
  destruct (_ && _) eqn:Hi; [|intros [= <-]; by left].
  apply andb_true_iff in Hi as [Hi%Z.eqb_eq _].
  destruct (num_eq _ SOURCE_MOUSE_INTERACTION) eqn:H2.
  - apply num_eq_spec in H2. destruct (_ || _) eqn:Hc; [|intros [= <-]; by left].
    intros H. res_inv. right. apply describe_target in E as (t & Ht & _). exists KClick.
    apply orb_true_iff in Hc as [Hc%num_eq_spec|Hc%num_eq_spec]; eexists;
      [by eapply crumb_click|by eapply crumb_double_click].
  - destruct (num_eq _ SOURCE_INPUT) eqn:H5; [|intros [= <-]; by left].
    apply num_eq_spec in H5. intros H. res_inv. right.
    apply describe_target in E as (t & Ht & _). exists KInput. eexists. by eapply crumb_input.
Qed.
