(* ===== verification/TimelineProps.v ===== *)
(** * The breadcrumb timeline: properties

    The items are the breadcrumbs of [TimelineSpec], the completeness of the node index,
    totality on the data rrweb records, and what the timeline does not reveal. *)

From stdpp Require Import sorting.
From S2P Require Import Prelude Decimal JsValue Timeline TimelineSpec.

(** ** Items and breadcrumbs *)

(** Each item has an index of its own, past [i], and is the breadcrumb of the event there. *)
Lemma items_from_crumbs nodes i events items :
  items_from nodes i events = Ok items ->
  StronglySorted lt (map eventIndex items) /\
  forall j k m ts, mkItem j k m ts ∈ items <->
    exists e, i <= j /\ events !! (j - i) = Some e /\ ts = ReplayEvent.timestamp e /\
      crumb nodes e k m.
Proof.
  revert i items. induction events as [|e r IH]; intros i items; cbn [items_from].
  { intros [= <-]. split; [constructor|]. intros j k m ts. split; [by intros ?%elem_of_nil|].
    by intros (e & _ & He & _). }
  intros H. res_inv. destruct (IH _ _ E0) as [Hs Hr].
  assert (forall j k m ts, mkItem j k m ts ∈ a0 -> i < j) as Hlt
    by (intros j k m ts (? & ? & _)%Hr; lia).
  assert (forall j, i < j -> (e :: r) !! (j - i) = r !! (j - S i)) as Hl.
  { intros j Hj. by replace (j - i) with (S (j - S i)) by lia. }
  apply item_crumb in E as Ha. split.
  - destruct Ha as [->|(k & m & _ & ->)]; [done|]. cbn. constructor; [done|].
    apply Forall_map, Forall_forall. intros [j k' m' ts] Hx. cbn. eauto.
  - intros j k m ts. rewrite elem_of_app, Hr. split.
    + intros [Hx|(e' & Hj & He & Ht)].
      * destruct Ha as [->|(k' & m' & Hc & ->)]; [by apply elem_of_nil in Hx|].
        apply list_elem_of_singleton in Hx. simplify_eq. exists e. by rewrite Nat.sub_diag.
      * exists e'. rewrite Hl by lia. split; [lia|done].
    + intros (e' & Hj & He & -> & Hc). destruct (decide (i = j)) as [->|Hne].
      * left. rewrite Nat.sub_diag in He. injection He as <-.
        apply (crumb_item nodes j) in Hc. rewrite Hc in E. injection E as <-. by left.
      * right. exists e'. rewrite Hl in He by lia. split; [lia|done].
Qed.

(** Each item has the index and the timestamp of the event it was made from. *)
Lemma items_sound nodes events items :
  items_from nodes 0 events = Ok items ->
  Forall (fun x => exists e, events !! eventIndex x = Some e /\
    timestamp x = ReplayEvent.timestamp e) items.
Proof.
  intros [_ Hi]%items_from_crumbs. apply Forall_forall. intros [j k m ts] Hx.
  apply Hi in Hx as (e & _ & He & Ht & _). exists e. rewrite Nat.sub_0_r in He. done.
Qed.

(** ** The node index *)

Lemma dom_set_node n i m m' :
  set_node n i m = Ok m' -> dom m ⊆ dom m' /\
  (num_eq (opt_prop (js "type") n) NODE_ELEMENT = true -> is_Some (m' !! i)).
Proof.
  unfold set_node. destruct (num_eq _ NODE_ELEMENT); [|destruct (num_eq _ NODE_TEXT)].
  - destruct (element_info n); [|done]. cbn. intros [= <-]. rewrite dom_insert.
    split; [set_solver|]. intros _. rewrite lookup_insert_eq. eauto.
  - destruct (text_info n); [|done]. cbn. intros [= <-]. rewrite dom_insert. by split; [set_solver|].
  - intros [= <-]. by split.
Qed.

Lemma for_children_grow (n : jsval) (m m' : gmap dec NodeInfo) :
  for_children visit n m = Ok m' ->
  (forall l, opt_prop (js "childNodes") n = JArr l ->
     Forall (fun c => forall a b, visit c a = Ok b -> dom a ⊆ dom b) l) -> dom m ⊆ dom m'.
Proof.
  rewrite for_children_prop. intros Hv Hl.
  destruct (opt_prop (js "childNodes") n) as [| | | | |l|]; cbn in Hv; try done;
    try (by injection Hv as <-).
  eapply (for_each_inv visit (fun b => dom m ⊆ dom b)); [exact Hv|done|].
  eapply Forall_impl; [by apply Hl|]. intros c Hc a b Hab. specialize (Hc a b Hab). set_solver.
Qed.

(** Visiting a node is visiting its children from the map the node left. *)
Lemma visit_unfold n m m' :
  visit n m = Ok m' -> exists m1, for_children visit n m1 = Ok m' /\ dom m ⊆ dom m1 /\
    forall i, truthy n = true -> as_number (opt_prop (js "id") n) = Some i ->
      num_eq (opt_prop (js "type") n) NODE_ELEMENT = true -> is_Some (m1 !! i).
Proof.
  intros Hv.
  assert (match (if truthy n then as_number (opt_prop (js "id") n) else None) with
          | None => for_children visit n m
          | Some i => match set_node n i m with
                      | Ok m' => for_children visit n m' | Throw e => Throw e end
          end = Ok m') as Hv' by (by destruct n).
  destruct (truthy n); cbn iota in Hv'.
  - destruct (as_number (opt_prop (js "id") n)) as [i|].
    + destruct (set_node n i m) as [m1|] eqn:Hs; [|done]. apply dom_set_node in Hs as [Hd Hi].
      exists m1. split; [done|]. split; [done|]. intros j _ [= <-]. exact Hi.
    + exists m. by split.
  - exists m. by split.
Qed.

Lemma visit_grows n m m' : visit n m = Ok m' -> dom m ⊆ dom m'.
Proof.
  revert n m m'. apply (node_ind (fun n => forall m m', visit n m = Ok m' -> dom m ⊆ dom m')).
  intros n IH m m' Hv.
  apply visit_unfold in Hv as (m1 & Hc & Hd & _). etrans; [exact Hd|].
  by eapply for_children_grow.
Qed.

Lemma is_some_dom {A} (m m' : gmap dec A) i : dom m ⊆ dom m' -> is_Some (m !! i) -> is_Some (m' !! i).
Proof. intros Hd Hi%elem_of_dom. apply elem_of_dom. set_solver. Qed.

(** [x] is [n] or one of its descendants. *)
Inductive subnode (x : jsval) : jsval -> Prop :=
  | subnode_here : subnode x x
  | subnode_child n l c :
    opt_prop (js "childNodes") n = JArr l -> c ∈ l -> subnode x c -> subnode x n.

Lemma for_each_visits l m m' c :
  for_each visit l m = Ok m' -> c ∈ l ->
  exists a b, visit c a = Ok b /\ dom b ⊆ dom m'.
Proof.
  revert m. induction l as [|y l IH]; intros m Hv Hc; [by apply elem_of_nil in Hc|]. cbn in Hv.
  destruct (visit y m) as [b|] eqn:Hy; [|done]. apply elem_of_cons in Hc as [<-|Hc].
  - exists m, b. split; [done|].
    eapply (for_each_inv visit (fun z => dom b ⊆ dom z)); [exact Hv|done|].
    apply Forall_forall. intros z _ a a' Hz. apply visit_grows in Hz. set_solver.
  - by eapply IH.
Qed.

Lemma visit_indexes n x i :
  subnode x n -> truthy x = true -> as_number (opt_prop (js "id") x) = Some i ->
  num_eq (opt_prop (js "type") x) NODE_ELEMENT = true ->
  forall m m', visit n m = Ok m' -> is_Some (m' !! i).
Proof.
  intros Hx Ht Hi He. induction Hx as [|n l c Hl Hc _ IH]; intros m m' Hv.
  - apply visit_unfold in Hv as (m1 & Hch & _ & Hs). eapply is_some_dom; [|by apply Hs].
    eapply for_children_grow; [exact Hch|]. intros l _. apply Forall_forall.
    intros c _. apply visit_grows.
  - apply visit_unfold in Hv as (m1 & Hch & _). rewrite for_children_prop, Hl in Hch. cbn in Hch.
    destruct (for_each_visits _ _ _ _ Hch Hc) as (a & b & Hab & Hd).
    eapply is_some_dom; [exact Hd|]. by eapply IH.
Qed.

Lemma subnode_truthy x n : subnode x n -> truthy x = true -> truthy n = true.
Proof.
  intros Hs Hx. destruct Hs as [|n l c Hl _ _]; [done|].
  apply (opt_prop_truthy (js "childNodes")). by rewrite Hl.
Qed.

Lemma index_event_adds e (m1 m' : gmap dec NodeInfo) :
  (if (ReplayEvent.type e =? INCREMENTAL)%Z &&
      num_eq (opt_prop (js "source") (ReplayEvent.data e)) SOURCE_MUTATION
   then match opt_prop (js "adds") (ReplayEvent.data e) with
        | JArr adds => for_each visit_add adds m1 | _ => Ok m1 end
   else Ok m1) = Ok m' -> dom m1 ⊆ dom m'.
Proof.
  destruct (_ && _); [|by intros [= <-]].
  destruct (opt_prop (js "adds") _) as [| | | | |adds|]; try (by intros [= <-]). intros Hf.
  eapply (for_each_inv visit_add (fun z => dom m1 ⊆ dom z)); [exact Hf|done|].
  apply Forall_forall. intros a _ s s' Hv. unfold visit_add, prop in Hv.
  destruct (nullish a); [done|]. cbn in Hv. apply visit_grows in Hv. set_solver.
Qed.

Lemma index_event_snapshot e m m' :
  index_event e m = Ok m' -> ReplayEvent.type e = FULL_SNAPSHOT ->
  truthy (opt_prop (js "node") (ReplayEvent.data e)) = true ->
  exists m1, visit (opt_prop (js "node") (ReplayEvent.data e)) m = Ok m1 /\ dom m1 ⊆ dom m'.
Proof.
  unfold index_event. intros Hi Ht Hn. rewrite Hn, Ht in Hi at 1. cbn [Z.eqb FULL_SNAPSHOT andb] in Hi.
  destruct (visit _ m) as [m1|]; [|done]. exists m1. split; [done|]. by apply (index_event_adds e).
Qed.

Lemma index_event_grows e m m' : index_event e m = Ok m' -> dom m ⊆ dom m'.
Proof.
  unfold index_event. intros Hi.
  destruct (if _ && _ then visit _ m else Ok m) as [m1|] eqn:H1; [|done].
  apply index_event_adds in Hi. etrans; [|exact Hi].
  destruct (_ && _); [by eapply visit_grows|by injection H1 as <-].
Qed.

Lemma index_events_grow events m m' : index_events events m = Ok m' -> dom m ⊆ dom m'.
Proof.
  revert m. induction events as [|e r IH]; intros m; cbn; [by intros [= <-]|].
  destruct (index_event e m) as [m1|] eqn:H1; [|done]. cbn. intros Hr.
  etrans; [by eapply index_event_grows|by apply IH].
Qed.

(** ** Data as rrweb records it *)

(** A string, or nothing. *)
Definition text_like (v : jsval) : bool :=
  match v with JUndef | JNull | JStr _ => true | _ => false end.

Definition node_attributes (n : jsval) : jsval := coalesce (opt_prop (js "attributes") n) (JObj []).

(** A serialized node: its children are nodes, its texts are strings. *)
Inductive wf_node (n : jsval) : Prop :=
  | wf_node_intro :
    nullish (opt_prop (js "childNodes") n) = true \/
    (exists l, opt_prop (js "childNodes") n = JArr l /\ Forall wf_node l) ->
    text_like (opt_prop (js "textContent") n) = true ->
    text_like (opt_prop (js "tagName") n) = true ->
    Forall (fun k => text_like (opt_prop k (node_attributes n)) = true)
      [js "id"; js "aria-label"; js "name"; js "placeholder"] ->
    wf_node n.

Definition wf_info (i : NodeInfo) : Prop :=
  text_like (tag i) = true /\ text_like (domId i) = true /\ text_like (aria i) = true /\
  text_like (name i) = true /\ text_like (placeholder i) = true.

Definition wf_map (m : gmap dec NodeInfo) : Prop := map_Forall (fun _ i => wf_info i) m.

(** The children of a well-formed node: a loop over them returns when each call does. *)
Lemma for_children_ok {S} (f : jsval -> S -> res S) (I : S -> Prop) n s :
  wf_node n -> I s ->
  (forall l, opt_prop (js "childNodes") n = JArr l ->
     Forall (fun c => wf_node c -> forall s, I s -> exists s', f c s = Ok s' /\ I s') l) ->
  exists s', for_children f n s = Ok s' /\ I s'.
Proof.
  intros [Hc _ _ _] Hs Hf. rewrite for_children_prop. destruct Hc as [Hn|(l & Hl & Hw)].
  - exists s. by destruct (opt_prop (js "childNodes") n).
  - rewrite Hl. cbn. specialize (Hf l Hl).
    apply (for_each_ok f (fun c => forall s, I s -> exists s', f c s = Ok s' /\ I s')); [|done|by eauto].
    apply Forall_forall. intros c Hin. rewrite Forall_forall in Hf, Hw. auto.
Qed.

Lemma walk_unfold n out :
  walk n out =
    if negb (truthy n) || (60 <? length out)%nat then Ok out
    else for_children walk n
      (if num_eq (opt_prop (js "type") n) NODE_TEXT then
         match opt_prop (js "textContent") n with JStr s => out ++ s | _ => out end
       else out).
Proof. by destruct n. Qed.

Lemma walk_ok n : wf_node n -> forall out, exists out', walk n out = Ok out' /\ True.
Proof.
  revert n. apply (node_ind (fun n => wf_node n -> forall out, exists out', walk n out = Ok out' /\ True)).
  intros n IH Hn out. rewrite walk_unfold. destruct (_ || _); [by exists out|].
  apply (for_children_ok walk (fun _ => True)); [done|done|]. intros l Hl.
  eapply Forall_impl; [by apply IH|]. intros c Hc Hw s _. by apply Hc.
Qed.

Lemma set_node_ok n i m : wf_node n -> wf_map m -> exists m', set_node n i m = Ok m' /\ wf_map m'.
Proof.
  intros Hn Hm. destruct (walk_ok n Hn []) as (t & Ht & _). destruct Hn as [_ Htc Htag Hattr].
  unfold set_node. destruct (num_eq _ NODE_ELEMENT); [|destruct (num_eq _ NODE_TEXT); [|by eexists]].
  - unfold element_info, collectText. rewrite Ht. cbn. eexists. split; [done|].
    apply map_Forall_insert_2; [|done]. fold (node_attributes n).
    repeat (apply Forall_cons_1 in Hattr as [? Hattr]). done.
  - unfold text_info. unfold coalesce. destruct (opt_prop (js "textContent") n); try done; cbn;
      (eexists; split; [done|by apply map_Forall_insert_2]).
Qed.

Lemma visit_step n m :
  visit n m =
    match (if truthy n then as_number (opt_prop (js "id") n) else None) with
    | None => for_children visit n m
    | Some i => match set_node n i m with Ok m' => for_children visit n m' | Throw e => Throw e end
    end.
Proof. by destruct n. Qed.

Lemma visit_ok n : wf_node n -> forall m, wf_map m -> exists m', visit n m = Ok m' /\ wf_map m'.
Proof.
  revert n.
  apply (node_ind (fun n => wf_node n -> forall m, wf_map m -> exists m', visit n m = Ok m' /\ wf_map m')).
  intros n IH Hn m Hm. rewrite visit_step.
  assert (forall m, wf_map m -> exists m', for_children visit n m = Ok m' /\ wf_map m') as Hch
    by (intros; by apply (for_children_ok visit wf_map)).
  destruct (if truthy n then _ else _) as [i|]; [|by apply Hch].
  destruct (set_node_ok n i m Hn Hm) as (m1 & -> & Hm1). by apply Hch.
Qed.

(** An event rrweb can have recorded, as far as the timeline looks at it. *)
Record wf_event (e : ReplayEvent.t) : Prop := {
  wf_snapshot : ReplayEvent.type e = FULL_SNAPSHOT ->
    wf_node (opt_prop (js "node") (ReplayEvent.data e));
  wf_adds : forall l, ReplayEvent.type e = INCREMENTAL ->
    num_eq (opt_prop (js "source") (ReplayEvent.data e)) SOURCE_MUTATION = true ->
    opt_prop (js "adds") (ReplayEvent.data e) = JArr l ->
    Forall (fun a => nullish a = false /\ wf_node (opt_prop (js "node") a)) l;
  wf_console : ReplayEvent.type e = PLUGIN ->
    let payload := opt_prop (js "payload") (opt_prop (js "payload") (ReplayEvent.data e)) in
    nullish payload = true \/ exists l, payload = JArr (map JStr l)
}.

Lemma index_event_ok e m : wf_event e -> wf_map m -> exists m', index_event e m = Ok m' /\ wf_map m'.
Proof.
  intros [Hs Ha _] Hm. unfold index_event.
  set (m1 := if (ReplayEvent.type e =? FULL_SNAPSHOT)%Z && _ then _ else _).
  assert (exists m', m1 = Ok m' /\ wf_map m') as (m' & -> & Hm').
  { unfold m1. destruct (_ && _) eqn:E; [|by eexists]. reflect_bool.
    apply visit_ok; [|done]. apply Hs. bool_lia. }
  cbn. destruct (_ && _) eqn:E; [|by eexists]. reflect_bool.
  destruct (opt_prop (js "adds") (ReplayEvent.data e)) as [| | | | |l|] eqn:Hl; try (by eexists).
  eapply for_each_ok; [apply (Ha l); [bool_lia|done|done]|done|].
  intros a s [Hn Hw] Hi. unfold visit_add, prop. rewrite Hn. cbn. by apply visit_ok.
Qed.

Lemma index_events_ok events m :
  Forall wf_event events -> wf_map m -> exists m', index_events events m = Ok m' /\ wf_map m'.
Proof.
  intros Hf. revert m. induction Hf as [|e r He _ IH]; intros m Hm; [by eexists|].
  destruct (index_event_ok e m He Hm) as (m1 & Hi & Hm1). cbn. rewrite Hi. cbn. by apply IH.
Qed.

Lemma text_like_string v : text_like v = true -> truthy v = true -> exists s, to_string v = Ok s.
Proof. destruct v; try done. by eexists. Qed.

Lemma text_like_coalesce a b : text_like a = true -> text_like b = true -> text_like (coalesce a b) = true.
Proof. by destruct a. Qed.

Lemma describeNode_ok m id : wf_map m -> exists s, describeNode m id = Ok s.
Proof.
  intros Hm. unfold describeNode. destruct (as_number id) as [i|]; [|by eexists].
  destruct (m !! i) as [n|] eqn:Hn; [|by eexists]. destruct (Hm i n Hn) as (Ht & Hd & Ha & Hna & Hp).
  set (tg := coalesce (tag n) _). assert (exists t, tg = JStr t) as [t ->]
    by (unfold tg; destruct (tag n); try done; by eexists).
  destruct (_ <$> text n) as [[|c s]|]; try by eexists.
  all: set (lb := coalesce _ _).
  all: assert (text_like lb = true) as Hlb by (by repeat apply text_like_coalesce).
  all: destruct (truthy lb) eqn:Hlt.
  1, 3: destruct (text_like_string lb Hlb Hlt) as [l ->]; by eexists.
  all: destruct (truthy (domId n)) eqn:Hdt.
  1, 3: destruct (text_like_string _ Hd Hdt) as [l ->]; by eexists.
  all: destruct (className n) as [[|]|]; by eexists.
Qed.

Lemma mapM_strings l : mapM console_arg (map JStr l) = Ok (map strip_quotes l).
Proof. induction l as [|s l IH]; [done|]. cbn. by rewrite IH. Qed.

Lemma event_items_ok nodes i e : wf_event e -> wf_map nodes -> exists l, event_items nodes i e = Ok l.
Proof.
  intros He Hm. unfold event_items. destruct (_ && _) eqn:E.
  - reflect_bool. destruct (wf_console e He) as [Hn|[l ->]]; [bool_lia| |].
    + unfold formatConsolePayload. destruct (opt_prop (js "payload") (opt_prop _ _)); try done; by eexists.
    + cbn [formatConsolePayload]. rewrite mapM_strings. by eexists.
  - set (href := if (_ =? META)%Z && _ then _ else _). destruct href; [by eexists|].
    destruct ((_ =? INCREMENTAL)%Z && _); [|by eexists].
    destruct (num_eq _ SOURCE_MOUSE_INTERACTION); [destruct (_ || _); [|by eexists]|
      destruct (num_eq _ SOURCE_INPUT); [|by eexists]];
      destruct (describeNode_ok nodes (opt_prop (js "id") (ReplayEvent.data e)) Hm) as [s ->]; by eexists.
Qed.

Lemma items_from_ok nodes i events :
  Forall wf_event events -> wf_map nodes -> exists l, items_from nodes i events = Ok l.
Proof.
  intros Hf Hm. revert i. induction Hf as [|e r He _ IH]; intros i; [by eexists|]. cbn.
  destruct (event_items_ok nodes i e He Hm) as [a ->]. destruct (IH (S i)) as [b ->]. by eexists.
Qed.

(** ** Events that differ in what was typed *)

Definition same_but_typed (e e' : ReplayEvent.t) : Prop :=
  ReplayEvent.type e = ReplayEvent.type e' /\
  ReplayEvent.timestamp e = ReplayEvent.timestamp e' /\
  (ReplayEvent.data e = ReplayEvent.data e' \/
   ReplayEvent.type e = INCREMENTAL /\
   num_eq (opt_prop (js "source") (ReplayEvent.data e)) SOURCE_INPUT = true /\
   num_eq (opt_prop (js "source") (ReplayEvent.data e')) SOURCE_INPUT = true /\
   opt_prop (js "id") (ReplayEvent.data e) = opt_prop (js "id") (ReplayEvent.data e')).

Lemma input_not_source d n :
  num_eq (opt_prop (js "source") d) SOURCE_INPUT = true -> n <> SOURCE_INPUT ->
  num_eq (opt_prop (js "source") d) n = false.
Proof.
  intros H5 Hn. destruct (num_eq _ n) eqn:E; [|done]. by pose proof (num_eq_inj _ _ _ E H5).
Qed.

Lemma index_event_typed e e' m : same_but_typed e e' -> index_event e m = index_event e' m.
Proof.
  destruct e as [ty d ts], e' as [ty' d' ts']. intros (Ht & _ & Hd). cbn in *. subst ty'.
  destruct Hd as [->|(-> & H5 & H5' & _)]; [done|]. unfold index_event. cbn [ReplayEvent.type ReplayEvent.data].
  by rewrite !(input_not_source _ SOURCE_MUTATION) by done.
Qed.

Lemma event_items_typed nodes i e e' :
  same_but_typed e e' -> event_items nodes i e = event_items nodes i e'.
Proof.
  destruct e as [ty d ts], e' as [ty' d' ts']. intros (Ht & Hts & Hd). cbn in *. subst ty' ts'.
  destruct Hd as [->|(-> & H5 & H5' & Hid)]; [done|].
  unfold event_items. cbn [ReplayEvent.type ReplayEvent.data ReplayEvent.timestamp].
  cbn [Z.eqb PLUGIN META INCREMENTAL andb].
  rewrite !(input_not_source _ SOURCE_MOUSE_INTERACTION), H5, H5', Hid by done.
  by rewrite (num_eq_prop_truthy _ _ _ H5), (num_eq_prop_truthy _ _ _ H5').
Qed.

(** ** Properties *)

(** C9: the timeline is exactly the breadcrumbs of the recording: one item for each event
    that the rules of [crumb] make a breadcrumb, in order, with that event's index and
    timestamp and the kind and the message the rules give; mutations, mouse moves, scrolls,
    snapshots and empty console lines leave none. [nodes] is the index of the recorded nodes,
    from which the targets of clicks and inputs are named. *)
Theorem timeline_classifies events items :
  buildTimeline events = Ok items ->
  exists nodes, indexNodes events = Ok nodes /\
    StronglySorted lt (map eventIndex items) /\
    forall i k m ts, mkItem i k m ts ∈ items <->
      exists e, events !! i = Some e /\ ts = ReplayEvent.timestamp e /\ crumb nodes e k m.
Proof.
  unfold buildTimeline. destruct (indexNodes events) as [nodes|]; [|done]. cbn.
  intros [Hs Hi]%items_from_crumbs. exists nodes. split; [done|]. split; [done|].
  intros i k m ts. rewrite Hi, Nat.sub_0_r. split; intros (e & He); exists e.
  - by destruct He as [_ He].
  - by split; [lia|].
Qed.

(** C11: on events of the shape rrweb records, building the timeline never throws. *)
Theorem timeline_total events :
  Forall wf_event events -> exists items, buildTimeline events = Ok items.
Proof.
  intros Hf. unfold buildTimeline, indexNodes.
  destruct (index_events_ok events ∅ Hf) as (m & -> & Hm); [done|]. cbn. by apply items_from_ok.
Qed.

(** Every element of a full snapshot that has a numeric id is in the index, however deep
    it is and whatever events come before or after, so a click on it can be named. *)
Theorem snapshot_indexed events e x i m :
  e ∈ events -> ReplayEvent.type e = FULL_SNAPSHOT ->
  subnode x (opt_prop (js "node") (ReplayEvent.data e)) ->
  truthy x = true -> as_number (opt_prop (js "id") x) = Some i ->
  num_eq (opt_prop (js "type") x) NODE_ELEMENT = true ->
  indexNodes events = Ok m -> is_Some (m !! i).
Proof.
  unfold indexNodes. generalize (∅ : gmap dec NodeInfo). intros m0 He Ht Hx Hxt Hi Hel Hm.
  revert m0 Hm. induction events as [|y events IH]; intros m0 Hm; [by apply elem_of_nil in He|].
  cbn in Hm. destruct (index_event y m0) as [m1|] eqn:H1; [|done]. cbn in Hm.
  apply elem_of_cons in He as [<-|He]; [|by eapply IH].
  eapply is_some_dom; [by eapply index_events_grow|].
  apply index_event_snapshot in H1 as (m2 & Hv & Hd); [|done|].
  - eapply is_some_dom; [exact Hd|]. by eapply visit_indexes.
  - by eapply subnode_truthy.
Qed.

(** C10: what the user typed never reaches the timeline: two recordings that differ only in
    the content of input events have the same timeline. *)
Theorem typed_text_hidden events events' :
  Forall2 same_but_typed events events' -> buildTimeline events = buildTimeline events'.
Proof.
  intros Hf. unfold buildTimeline, indexNodes.
  assert (forall m, index_events events m = index_events events' m) as ->.
  { induction Hf as [|e e' r r' He _ IH]; intros m; [done|]. cbn.
    rewrite (index_event_typed e e' m He). by destruct (index_event e' m); cbn. }
  destruct (index_events events' ∅) as [nodes|]; [|done]. cbn. generalize 0.
  induction Hf as [|e e' r r' He _ IH]; intros i; [done|]. cbn.
  by rewrite (event_items_typed nodes i e e' He), IH.
Qed.

(** A single mutation event whose [adds] hold a null entry makes the whole timeline
    throw, and with it the page that builds it. *)
Theorem malformed_add_throws events e adds a :
  e ∈ events -> ReplayEvent.type e = INCREMENTAL ->
  num_eq (opt_prop (js "source") (ReplayEvent.data e)) SOURCE_MUTATION = true ->
  opt_prop (js "adds") (ReplayEvent.data e) = JArr adds -> a ∈ adds -> nullish a = true ->
  exists x, buildTimeline events = Throw x.
Proof.
  intros He Ht Hs Ha Hin Hn. unfold buildTimeline, indexNodes.
  enough (exists x, index_events events ∅ = Throw x) as [x ->] by (by exists x).
  generalize (∅ : gmap dec NodeInfo). induction events as [|y events IH]; intros m;
    [by apply elem_of_nil in He|]. cbn.
  apply elem_of_cons in He as [<-|He].
  - assert (exists x, index_event e m = Throw x) as [x ->]; [|by exists x].
    unfold index_event. rewrite Ht. cbn [Z.eqb FULL_SNAPSHOT INCREMENTAL andb]. rewrite Hs, Ha. cbn.
    apply (for_each_throws _ _ _ a); [done|]. intros m'. unfold visit_add, prop. rewrite Hn. by eexists.
  - destruct (index_event y m) as [m1|x]; [by apply IH|by exists x].
Qed.

(** [countConsole] counts the items of kind error and of kind warn. *)
Lemma countConsole_counts items :
  countConsole items =
    (length (filter (fun x => kind x = KError) items), length (filter (fun x => kind x = KWarn) items)).
Proof.
  induction items as [|x r IH]; [done|]. cbn [countConsole]. rewrite IH, !filter_cons.
  by destruct (kind x).
Qed.

(** ** A recording *)

Definition jnum (z : Z) : jsval := JNum (dec_of_Z z).

Definition demo_text : jsval :=
  JObj [(js "type", jnum 3); (js "id", jnum 7); (js "textContent", JStr (js "  Save   now "))].
Definition demo_button : jsval :=
  JObj [(js "type", jnum 2); (js "id", jnum 5); (js "tagName", JStr (js "BUTTON"));
        (js "attributes", JObj [(js "class", JStr (js "btn primary"))]);
        (js "childNodes", JArr [demo_text])].
Definition demo_root : jsval :=
  JObj [(js "type", jnum 0); (js "id", jnum 1); (js "childNodes", JArr [demo_button])].

Definition demo_typed (value : jsstr) : jsval :=
  JObj [(js "source", jnum 5); (js "id", jnum 6); (js "text", JStr value)].

Definition demo_recording (value : jsstr) : list ReplayEvent.t :=
  [ReplayEvent.mk 4 (JObj [(js "href", JStr (js "https://shop.example/"))]) 1000;
   ReplayEvent.mk 2 (JObj [(js "node", demo_root)]) 1010;
   ReplayEvent.mk 3 (JObj [(js "source", jnum 1)]) 1100;
   ReplayEvent.mk 3 (demo_typed value) 2000;
   ReplayEvent.mk 3 (JObj [(js "source", jnum 2); (js "type", jnum 2); (js "id", jnum 5)]) 2500;
   ReplayEvent.mk 6 (JObj [(js "plugin", JStr (js "rrweb/console@1"));
                           (js "payload", JObj [(js "level", JStr (js "error"));
                              (js "payload", JArr [JStr (dquote ++ js "boom" ++ dquote)])])]) 2600].

Definition demo_items : list TimelineItem :=
  [mkItem 0 KNavigate (js "https://shop.example/") 1000;
   mkItem 3 KInput (js "User typed") 2000;
   mkItem 4 KClick (js "Click on button " ++ dquote ++ js "Save now" ++ dquote) 2500;
   mkItem 5 KError (js "boom") 2600].

Lemma demo_timeline : buildTimeline (demo_recording (js "secret")) = Ok demo_items.
Proof. by_eval. Qed.

Lemma timeline_classifies_witness :
  exists nodes, indexNodes (demo_recording (js "secret")) = Ok nodes /\
    StronglySorted lt (map eventIndex demo_items) /\
    forall i k m ts, mkItem i k m ts ∈ demo_items <->
      exists e, demo_recording (js "secret") !! i = Some e /\
        ts = ReplayEvent.timestamp e /\ crumb nodes e k m.
Proof. apply timeline_classifies. by_eval. Defined.

Lemma wf_demo_text : wf_node demo_text.
Proof. constructor; [by left|done|done|by repeat constructor]. Qed.

Lemma wf_demo_root : wf_node demo_root.
Proof.
  constructor; [|done|done|by repeat constructor]. right. eexists. split; [done|].
  apply Forall_singleton. constructor; [|done|done|by repeat constructor]. right. eexists.
  split; [done|]. apply Forall_singleton, wf_demo_text.
Qed.

(** Events without nodes and without console data are well formed. *)
Lemma wf_plain ty d ts :
  ty <> FULL_SNAPSHOT -> ty <> PLUGIN ->
  num_eq (opt_prop (js "source") d) SOURCE_MUTATION = false ->
  wf_event (ReplayEvent.mk ty d ts).
Proof. intros H1 H2 H3. split; cbn; intros; congruence. Qed.

Lemma timeline_total_witness : exists items, buildTimeline (demo_recording (js "secret")) = Ok items.
Proof.
  apply timeline_total. unfold demo_recording.
  repeat (apply Forall_cons_2); [..|apply Forall_nil_2];
    try (apply wf_plain; [discriminate|discriminate|reflexivity]).
  - split; cbn; [intros _; apply wf_demo_root|discriminate|discriminate].
  - split; cbn; [discriminate|discriminate|]. intros _. right. by exists [dquote ++ js "boom" ++ dquote].
Defined.

Lemma snapshot_indexed_witness :
  is_Some ((default ∅ (match indexNodes (demo_recording (js "secret")) with
                       | Ok m => Some m | Throw _ => None end)) !! dec_of_Z 5).
Proof.
  eapply (snapshot_indexed (demo_recording (js "secret"))
            (ReplayEvent.mk 2 (JObj [(js "node", demo_root)]) 1010) demo_button (dec_of_Z 5));
    [by right; left|done| |done|done|done|by_eval].
  eapply subnode_child; [done|by left|constructor].
Defined.

Lemma typed_text_hidden_witness :
  buildTimeline (demo_recording (js "secret")) = buildTimeline (demo_recording (js "hunter2")).
Proof.
  apply typed_text_hidden. repeat (apply Forall2_cons_2); [..|apply Forall2_nil_2];
    (split; [done|]); (split; [done|]); try (by left); right; done.
Defined.

Lemma malformed_add_throws_witness :
  exists x, buildTimeline (demo_recording (js "secret") ++
    [ReplayEvent.mk 3 (JObj [(js "source", jnum 0); (js "adds", JArr [JNull])]) 3000]) = Throw x.
Proof.
  eapply (malformed_add_throws _ (ReplayEvent.mk 3 (JObj [(js "source", jnum 0);
            (js "adds", JArr [JNull])]) 3000) [JNull] JNull);
    [apply elem_of_app; right; by left|done|done|done|by left|done].
Defined.
