(* ===== verification/Format.v ===== *)
(** * Numbers and dates as text

    What the pages use of the language's library: division of an integer by 1000 in
    double precision, [toFixed(1)], and [Date.prototype.toISOString]. *)

From S2P Require Import Prelude.

(** ** [a / 1000] as a double *)

(** The quotient rounded to the nearest integer, ties to even. *)
Definition div_even (a b : Z) : Z :=
  let q := (a / b)%Z in let r := (a mod b)%Z in
  if (2 * r <? b)%Z then q
  else if (b <? 2 * r)%Z then (q + 1)%Z
  else if Z.even q then q else (q + 1)%Z.

(** The double nearest to [a / 1000], for [0 < a < 2^53]: [q / 2^k] with [q] of 53 bits. *)
Definition thousandth (a : Z) : Z * Z :=
  let k := (62 - Z.log2 a)%Z in
  if (a * 2 ^ k / 1000 <? 2 ^ 53)%Z then (div_even (a * 2 ^ k) 1000, k)
  else (div_even (a * 2 ^ (k - 1)) 1000, (k - 1)%Z).

(** The integer [n] for which [n / 10] is nearest to the double, the larger one of two. *)
Definition tenths (a : Z) : Z :=
  if (a <=? 0)%Z then 0
  else let '(q, k) := thousandth a in ((20 * q + 2 ^ k) / 2 ^ (k + 1))%Z.

(** [(ms / 1000).toFixed(1)], for [|ms| < 2^53]. *)
Definition seconds_fixed1 (ms : Z) : jsstr :=
  let n := tenths (Z.abs ms) in
  (if (ms <? 0)%Z then js "-" else []) ++
  num_to_string (n / 10) ++ js "." ++ num_to_string (n mod 10).

Lemma div_even_near a b : (0 < b)%Z -> (Z.abs (2 * (div_even a b * b - a)) <= b)%Z.
Proof.
  intros Hb. unfold div_even.
  pose proof (Z.div_mod a b ltac:(lia)) as E. pose proof (Z.mod_pos_bound a b Hb) as Hr.
  set (q := (a / b)%Z) in *. set (r := (a mod b)%Z) in *.
  assert (forall x, ((q + x) * b - a = x * b - r)%Z) as Hx by (intros; rewrite E at 1; lia).
  pose proof (Hx 0%Z) as H0. rewrite Z.add_0_r in H0. pose proof (Hx 1%Z) as H1.
  destruct (2 * r <? b)%Z eqn:E1; [rewrite H0; bool_lia|].
  destruct (b <? 2 * r)%Z eqn:E2; [rewrite H1; bool_lia|].
  destruct (Z.even q); [rewrite H0|rewrite H1]; bool_lia.
Qed.

Lemma thousandth_near a q k :
  (0 < a < 2 ^ 53)%Z -> thousandth a = (q, k) ->
  (9 <= k)%Z /\ (Z.abs (2 * (q * 1000 - a * 2 ^ k)) <= 1000)%Z.
Proof.
  intros Ha. unfold thousandth.
  pose proof (Z.log2_lt_pow2 a 53 ltac:(lia)) as [Hl _]. specialize (Hl ltac:(lia)).
  destruct (_ <? _)%Z; intros [= <- <-]; (split; [lia|]); by apply div_even_near.
Qed.

(** [n / 10] seconds is within 50 milliseconds of [a]. *)
Lemma tenths_near a : (0 <= a < 2 ^ 53)%Z -> (Z.abs (100 * tenths a - a) <= 50)%Z.
Proof.
  intros Ha. unfold tenths. destruct (a <=? 0)%Z eqn:E; [bool_lia|].
  destruct (thousandth a) as [q k] eqn:Hq.
  destruct (thousandth_near a q k ltac:(bool_lia) Hq) as [Hk Hn].
  assert (2 ^ k = 512 * 2 ^ (k - 9))%Z as Hp
    by (change 512%Z with (2 ^ 9)%Z; rewrite <- Z.pow_add_r by lia; f_equal; lia).
  pose proof (Z.pow_pos_nonneg 2 (k - 9) ltac:(lia) ltac:(lia)) as Hpos.
  rewrite Z.pow_add_r, Z.pow_1_r by lia.
  set (p := (2 ^ k)%Z) in *. set (p9 := (2 ^ (k - 9))%Z) in *.
  pose proof (Z.div_mod (20 * q + p) (p * 2) ltac:(lia)) as Hd.
  pose proof (Z.mod_pos_bound (20 * q + p) (p * 2) ltac:(lia)) as Hr.
  set (n := ((20 * q + p) / (p * 2))%Z) in *. set (r := ((20 * q + p) mod (p * 2))%Z) in *.
  assert (Z.abs ((100 * n - a) * p) <= 50 * p + 500)%Z as Hnear by nia.
  assert (Z.abs (100 * n - a) * p <= 50 * p + 500)%Z as Hnear2
    by (rewrite <- (Z.abs_eq p) at 1 by lia; rewrite <- Z.abs_mul; exact Hnear).
  assert (Z.abs (100 * n - a) < 51)%Z; [|lia]. nia.
Qed.

Lemma tenths_nonneg a : (0 <= a < 2 ^ 53)%Z -> (0 <= tenths a)%Z.
Proof. intros Ha. pose proof (tenths_near a Ha). lia. Qed.

(** ** [toISOString] *)

(** The civil date of a day counted from 1970-01-01, in the proleptic Gregorian calendar. *)
Definition civil (day : Z) : Z * Z * Z :=
  (let z := day + 719468 in
   let era := z / 146097 in
   let doe := z mod 146097 in
   let yoe := (doe - doe / 1460 + doe / 36524 - doe / 146096) / 365 in
   let doy := doe - (365 * yoe + yoe / 4 - yoe / 100) in
   let mp := (5 * doy + 2) / 153 in
   let d := doy - (153 * mp + 2) / 5 + 1 in
   let m := if mp <? 10 then mp + 3 else mp - 9 in
   (yoe + era * 400 + (if m <=? 2 then 1 else 0), m, d))%Z.

(** [n] in [w] digits. *)
Fixpoint pad (w : nat) (n : Z) : jsstr :=
  match w with
  | O => []
  | S w' => pad w' (n / 10) ++ [Z.to_N (48 + n mod 10)]
  end.

(** Four digits for the years 0 to 9999, a sign and six digits for the others. *)
Definition year_text (y : Z) : jsstr :=
  if ((0 <=? y) && (y <=? 9999))%Z then pad 4 y
  else (if (y <? 0)%Z then js "-" else js "+") ++ pad 6 (Z.abs y).

Definition iso_text (t : Z) : jsstr :=
  let ms := (t mod 86400000)%Z in
  let '(y, m, d) := civil (t / 86400000) in
  year_text y ++ js "-" ++ pad 2 m ++ js "-" ++ pad 2 d ++ js "T" ++
  pad 2 (ms / 3600000) ++ js ":" ++ pad 2 (ms / 60000 mod 60) ++ js ":" ++
  pad 2 (ms / 1000 mod 60) ++ js "." ++ pad 3 (ms mod 1000) ++ js "Z".

(** The time value a date string denotes. ECMAScript leaves every format but its own to
    the implementation, so it is a parameter; [None] is an invalid date. *)
Class DateParse := date_parse : jsstr -> option Z.

(** How a date is shown is up to the visitor's locale and time zone; the options are those of
    [toLocaleString], and [None] is an invalid date. *)
Class Locale := {
  toLocaleString : list (string * string) -> option Z -> jsstr;
  toLocaleTimeString : list (string * string) -> option Z -> jsstr
}.

(** [new Date(s).toISOString()] *)
Definition to_iso_string `{DateParse} (s : jsstr) : res jsstr :=
  match date_parse s with
  | Some t => if (Z.abs t <=? 8640000000000000)%Z then Ok (iso_text t) else Throw RangeError
  | None => Throw RangeError
  end.

Example iso_epoch : iso_text 0 = js "1970-01-01T00:00:00.000Z".
Proof. by_eval. Qed.
Example iso_leap : iso_text 1709210096789 = js "2024-02-29T12:34:56.789Z".
Proof. by_eval. Qed.
Example fixed_half : seconds_fixed1 1150 = js "1.1" /\ seconds_fixed1 1050 = js "1.1" /\
  seconds_fixed1 250 = js "0.3" /\ seconds_fixed1 59950 = js "60.0".
Proof. split_and!; by_eval. Qed.
