(* ===== verification/Incident.v ===== *)
(** * The incident report: packages/dashboard/src/lib/incident.ts

    The text [buildIncidentReport] makes of a session and its events, line by line. *)

From S2P Require Import Prelude Decimal JsValue Timeline Format.

Definition MAX_MSG : nat := 300.

Definition clip (s : jsstr) : jsstr :=
  let oneLine := one_line s in
  if (MAX_MSG <? length oneLine)%nat then slice 0 MAX_MSG oneLine ++ js "…" else oneLine.

(** Durations are the integers the server stores; [None] is [null]. *)
Definition fmtDuration (ms : option Z) : jsstr :=
  match ms with
  | None => js "—"
  | Some ms =>
    if (ms =? 0)%Z then js "—"
    else if (ms <? 1000)%Z then num_to_string ms ++ js "ms"
    else if (ms <? 60000)%Z then seconds_fixed1 ms ++ js "s"
    else
      let m := (ms / 60000)%Z in
      let s := ((ms mod 60000) / 1000)%Z in
      num_to_string m ++ js "m " ++ num_to_string s ++ js "s"
  end.

Definition rel (ts start : Z) : jsstr := js "+" ++ seconds_fixed1 (ts - start) ++ js "s".

Definition LABEL (k : TimelineKind) : jsstr :=
  match k with
  | KError => js "error" | KWarn => js "warn" | KLog => js "log" | KInfo => js "info"
  | KClick => js "click" | KNavigate => js "nav" | KInput => js "input"
  end.

(** The fields of a session the report reads. *)
Record ReplaySession := {
  id : jsstr;
  identifier : jsstr;
  start_url : jsstr;
  environment : jsstr;
  service_name : jsstr;
  started_at : jsstr;
  duration_ms : option Z;
  event_count : Z;
  trigger : jsstr
}.

Definition is_nav (t : TimelineItem) : bool := bool_decide (kind t = KNavigate).
Definition is_console (t : TimelineItem) : bool :=
  bool_decide (kind t ∈ [KError; KWarn; KLog; KInfo]).

(** [list.find(p)?.message] *)
Fixpoint find_message (p : TimelineItem -> bool) (l : list TimelineItem) : option jsstr :=
  match l with
  | [] => None
  | x :: r => if p x then Some (message x) else find_message p r
  end.

Definition tab : jsstr := [9%N].

Definition item_line (start : Z) (item : TimelineItem) : jsstr :=
  rel (timestamp item) start ++ tab ++ LABEL (kind item) ++ tab ++ clip (message item).

Definition console_line (start : Z) (item : TimelineItem) : jsstr :=
  js "[" ++ LABEL (kind item) ++ js "] " ++ rel (timestamp item) start ++ js " "
  ++ clip (message item).

Section report.
Context `{DateParse}.

(** The lines pushed before the timeline; [start_url] etc. are not clipped. *)
Definition header_lines (session : ReplaySession) (timeline : list TimelineItem)
    (started : jsstr) : list jsstr :=
  let '(errors, warnings) := countConsole timeline in
  let trigger := if bool_decide (trigger session = js "manual") then js "reported"
                 else str_or (trigger session) (js "unknown") in
  let lastNav := find_message is_nav (reverse timeline) in
  let startUrl := str_or (start_url session)
                    (str_or (find_message is_nav timeline ?? []) (js "—")) in
  [ js "# BatRewind incident — " ++ service_name session ++ js " (" ++ environment session ++ js ")";
    [];
    js "- Session: " ++ id session;
    js "- User: " ++ str_or (identifier session) (js "—");
    js "- Trigger: " ++ trigger;
    js "- Started: " ++ started;
    js "- Duration: " ++ fmtDuration (duration_ms session);
    js "- Events: " ++ num_to_string (event_count session) ++ js " · Errors: "
      ++ num_to_string (Z.of_nat errors) ++ js " · Warnings: " ++ num_to_string (Z.of_nat warnings);
    js "- Start URL: " ++ startUrl ] ++
  match lastNav with
  | Some u => if str_truthy u && negb (bool_decide (u = startUrl)) then [js "- Last URL: " ++ u] else []
  | None => []
  end.

Definition timeline_lines (start : Z) (timeline : list TimelineItem) : list jsstr :=
  match timeline with
  | [] => [js "(no user actions captured)"]
  | _ => map (item_line start) timeline
  end.

Definition console_lines (start : Z) (timeline : list TimelineItem) : list jsstr :=
  match filter (fun t => is_console t = true) timeline with
  | [] => []
  | items => [] :: js "## Console" :: map (console_line start) items
  end.

Definition footer : jsstr :=
  js "This is a recorded user session (session replay). It describes what the user did and where it broke. Use it with the project source open to locate the cause.".

Definition report_lines (session : ReplaySession) (start : Z) (timeline : list TimelineItem)
    (started : jsstr) : list jsstr :=
  header_lines session timeline started
  ++ [[]; js "## Timeline (relative to session start)"]
  ++ timeline_lines start timeline
  ++ console_lines start timeline
  ++ [[]; js "---"; footer].

Definition buildIncidentReport (session : ReplaySession) (events : list ReplayEvent.t) : res jsstr :=
  timeline ← buildTimeline events;
  let start := match events with e :: _ => ReplayEvent.timestamp e | [] => 0%Z end in
  started ← to_iso_string (started_at session);
  Ok (join [10%N] (report_lines session start timeline started)).
End report.
