(* ===== verification/IncidentProps.v ===== *)
(** * The incident report: properties

    The report as a list of lines that can be read back, the text of durations, and when the
    report cannot be built. *)

From S2P Require Import Prelude Decimal JsValue Timeline TimelineProps Format Incident.

(** ** Text without line feeds *)

Definition flat (s : jsstr) : Prop := Forall (fun c => c <> 10%N) s.

(** A literal is flat. *)
Ltac by_flat :=
  lazymatch goal with
  | |- flat (js _) => apply (bool_decide_unpack _); vm_compute; exact I
  | |- flat tab => apply (bool_decide_unpack _); vm_compute; exact I
  | |- flat footer => apply (bool_decide_unpack _); vm_compute; exact I
  | |- flat [] => constructor
  | |- flat (LABEL ?k) => destruct k; apply (bool_decide_unpack _); vm_compute; exact I
  end.

Lemma flat_app a b : flat a -> flat b -> flat (a ++ b).
Proof. intros. by apply Forall_app. Qed.

(** Split a concatenation into its parts, down to the literals. *)
Ltac flat_parts :=
  repeat lazymatch goal with |- flat (_ ++ _) => apply flat_app end.

Lemma flat_num z : flat (num_to_string z).
Proof.
  assert (forall n, flat (digits_of_N n)) as Hd.
  { intros n. eapply Forall_impl; [apply digits_of_N_digits|]. intros c Hc ->. done. }
  destruct z; try apply Hd. constructor; [done|apply Hd].
Qed.

Lemma flat_seconds ms : flat (seconds_fixed1 ms).
Proof.
  unfold seconds_fixed1. flat_parts; [|apply flat_num|by_flat|apply flat_num].
  destruct (ms <? 0)%Z; by_flat.
Qed.

Ltac flat_lines :=
  repeat lazymatch goal with
  | |- Forall flat (_ :: _) => apply Forall_cons_2
  | |- Forall flat [] => apply Forall_nil_2
  | |- _ => by_flat
  end.

(** Every unit is a plain space or not white space at all. *)
Definition plain (s : jsstr) : Prop := Forall (fun c => c = 32%N \/ is_ws c = false) s.

Lemma plain_flat s : plain s -> flat s.
Proof. intros Hp. eapply Forall_impl; [exact Hp|]. intros c [->|Hc] Hn; [done|by subst]. Qed.

Lemma plain_join l : Forall word l -> plain (join [32%N] l).
Proof.
  assert (forall w, word w -> plain w) as Hw
    by (intros w [_ Hw]; eapply Forall_impl; [exact Hw|]; auto).
  induction 1 as [|w l Hwd Hl IH]; [constructor|]. destruct l as [|v l]; [by apply Hw|].
  change (plain (w ++ [32%N] ++ join [32%N] (v :: l))).
  apply Forall_app. split; [by apply Hw|]. constructor; [by left|exact IH].
Qed.

Lemma plain_one_line s : plain (one_line s).
Proof. rewrite one_line_words. apply plain_join, words_word. Qed.

Lemma plain_clip s : plain (clip s).
Proof.
  unfold clip. destruct (_ <? _)%nat; [|apply plain_one_line].
  apply Forall_app. split; [by apply Forall_take, plain_one_line|].
  constructor; [|constructor]. right. by_eval.
Qed.

Lemma flat_item_line start x : flat (item_line start x).
Proof.
  unfold item_line, rel. flat_parts; try by_flat;
    [apply flat_seconds|apply plain_flat, plain_clip].
Qed.

Lemma flat_console_line start x : flat (console_line start x).
Proof.
  unfold console_line, rel. flat_parts; try by_flat;
    [apply flat_seconds|apply plain_flat, plain_clip].
Qed.

(** ** Reading lines back *)

(** The lines of a text. *)
Fixpoint split_lines (s : jsstr) : list jsstr :=
  match s with
  | [] => [[]]
  | c :: r =>
    if (c =? 10)%N then [] :: split_lines r
    else match split_lines r with h :: t => (c :: h) :: t | [] => [[c]] end
  end.

Lemma split_flat s : flat s -> split_lines s = [s].
Proof.
  induction 1 as [|c s Hc _ IH]; [done|]. cbn.
  rewrite (proj2 (N.eqb_neq _ _) Hc). by rewrite IH.
Qed.

Lemma split_app s r : flat s -> split_lines (s ++ 10%N :: r) = s :: split_lines r.
Proof.
  induction 1 as [|c s Hc _ IH]; [done|]. cbn.
  rewrite (proj2 (N.eqb_neq _ _) Hc). by rewrite IH.
Qed.

Lemma split_join l : l <> [] -> Forall flat l -> split_lines (join [10%N] l) = l.
Proof.
  intros Hne Hl. induction Hl as [|s l Hs Hl IH]; [done|]. destruct l as [|v l]; [by apply split_flat|].
  change (split_lines (s ++ 10%N :: join [10%N] (v :: l)) = s :: v :: l).
  rewrite split_app, IH; done.
Qed.

(** The unclipped texts of the header, in one line each. *)
Record flat_session (session : ReplaySession) (timeline : list TimelineItem) : Prop := {
  flat_fields : Forall flat [id session; identifier session; start_url session;
    environment session; service_name session; trigger session];
  flat_navs : Forall (fun x => kind x = KNavigate -> flat (message x)) timeline
}.

Lemma flat_or a b : flat a -> flat b -> flat (str_or a b).
Proof. intros. unfold str_or. by destruct (str_truthy a). Qed.

Lemma flat_found l :
  Forall (fun x => kind x = KNavigate -> flat (message x)) l ->
  forall u, find_message is_nav l = Some u -> flat u.
Proof.
  induction 1 as [|x l Hx _ IH]; [done|]. cbn. unfold is_nav at 1. intros u.
  destruct (bool_decide _) eqn:E; [|apply IH]. intros [= <-]. apply bool_decide_eq_true in E. auto.
Qed.

Lemma flat_duration ms : flat (fmtDuration ms).
Proof.
  unfold fmtDuration. destruct ms as [ms|]; [|by_flat]. destruct (ms =? 0)%Z; [by_flat|].
  destruct (ms <? 1000)%Z; [apply flat_app; [apply flat_num|by_flat]|].
  destruct (ms <? 60000)%Z; [apply flat_app; [apply flat_seconds|by_flat]|].
  flat_parts; (apply flat_num || by_flat).
Qed.

Lemma flat_header session timeline started :
  flat_session session timeline -> flat started ->
  Forall flat (header_lines session timeline started).
Proof.
  intros [Hf Hn] Hs. repeat (apply Forall_cons_1 in Hf as [? Hf]). unfold header_lines.
  destruct (countConsole timeline) as [errors warnings].
  assert (flat (str_or (start_url session) (str_or (find_message is_nav timeline ?? []) (js "—")))) as Hu.
  { apply flat_or; [done|]. apply flat_or; [|by_flat].
    destruct (find_message is_nav timeline) as [u|] eqn:E; [|constructor]. by eapply flat_found. }
  apply Forall_app. split.
  - repeat lazymatch goal with |- Forall flat (_ :: _) => apply Forall_cons_2 end;
      [..|apply Forall_nil_2]; flat_parts;
      lazymatch goal with
      | |- flat (num_to_string _) => apply flat_num
      | |- flat (fmtDuration _) => apply flat_duration
      | |- flat (str_or (start_url _) _) => exact Hu
      | |- flat (str_or _ _) => apply flat_or; [assumption|by_flat]
      | |- flat (if ?b then _ else _) => destruct b; [by_flat|apply flat_or; [assumption|by_flat]]
      | |- flat (js _) => by_flat
      | |- flat [] => constructor
      | |- _ => assumption
      end.
  - destruct (find_message is_nav (reverse timeline)) as [u|] eqn:E; [|constructor].
    destruct (_ && _); [|constructor]. apply Forall_singleton, flat_app; [by_flat|].
    eapply (flat_found (reverse timeline)); [|done]. by apply Forall_reverse.
Qed.

Lemma pad_flat w n : flat (pad w n).
Proof.
  revert n. induction w as [|w IH]; intros n; [constructor|]. cbn.
  apply flat_app; [apply IH|]. apply Forall_singleton. div_lia.
Qed.

Lemma iso_flat t : flat (iso_text t).
Proof.
  unfold iso_text. destruct (civil _) as [[y m] d]. unfold year_text.
  flat_parts; try lazymatch goal with |- flat (pad _ _) => apply pad_flat | |- flat (js _) => by_flat end.
  destruct (_ && _); [apply pad_flat|]. apply flat_app; [destruct (_ <? _)%Z; by_flat|apply pad_flat].
Qed.

Lemma flat_report session start timeline started :
  flat_session session timeline -> flat started ->
  Forall flat (report_lines session start timeline started).
Proof.
  intros Hf Hs. unfold report_lines. apply Forall_app. split; [by apply flat_header|].
  apply Forall_app. split; [flat_lines|].
  apply Forall_app. split.
  - unfold timeline_lines. destruct timeline as [|x l]; [apply Forall_singleton; by_flat|].
    apply Forall_map, Forall_forall. intros y _. apply flat_item_line.
  - apply Forall_app. split; [|flat_lines].
    unfold console_lines. destruct (filter _ timeline) as [|x l]; [constructor|].
    constructor; [by_flat|]. constructor; [by_flat|].
    apply Forall_map, Forall_forall. intros y _. apply flat_console_line.
Qed.

(** ** What a reader finds in the lines

    The lines of a report described without the functions of [Incident]: the texts are
    written out, the names of the kinds are a table, and a time is within 50 milliseconds of
    what it stands for. *)

Inductive kind_name : TimelineKind -> jsstr -> Prop :=
  | name_error : kind_name KError (js "error")
  | name_warn : kind_name KWarn (js "warn")
  | name_log : kind_name KLog (js "log")
  | name_info : kind_name KInfo (js "info")
  | name_click : kind_name KClick (js "click")
  | name_navigate : kind_name KNavigate (js "nav")
  | name_input : kind_name KInput (js "input").

(** [t] tenths of a second stand for [ms] milliseconds. *)
Definition reads_seconds (ms : Z) (sec : jsstr) : Prop :=
  exists t, (0 <= t)%Z /\ (Z.abs (100 * t - Z.abs ms) <= 50)%Z /\
    sec = (if (ms <? 0)%Z then js "-" else []) ++ num_to_string (t / 10) ++ js "." ++ num_to_string (t mod 10).

(** A message in one line: its words with single spaces, of which at most 300 units show. *)
Definition shortened (m c : jsstr) : Prop :=
  let line := join [32%N] (words m) in
  length line <= 300 /\ c = line \/ 300 < length line /\ c = take 300 line ++ js "…".

Definition timeline_entry (start : Z) (x : TimelineItem) (line : jsstr) : Prop :=
  exists sec name msg, reads_seconds (timestamp x - start) sec /\ kind_name (kind x) name /\
    shortened (message x) msg /\
    line = js "+" ++ sec ++ js "s" ++ [9%N] ++ name ++ [9%N] ++ msg.

Definition console_entry (start : Z) (x : TimelineItem) (line : jsstr) : Prop :=
  exists sec name msg, reads_seconds (timestamp x - start) sec /\ kind_name (kind x) name /\
    shortened (message x) msg /\
    line = js "[" ++ name ++ js "] +" ++ sec ++ js "s " ++ msg.

(** Everything but clicks, navigations and inputs comes from the console. *)
Definition of_console (k : TimelineKind) : bool :=
  match k with KClick | KNavigate | KInput => false | KError | KWarn | KLog | KInfo => true end.
Definition console_items (timeline : list TimelineItem) : list TimelineItem :=
  List.filter (fun x => of_console (kind x)) timeline.

Definition of_kind (k : TimelineKind) (timeline : list TimelineItem) : list TimelineItem :=
  List.filter (fun x => bool_decide (kind x = k)) timeline.

(** The addresses visited, in order. *)
Definition visited (timeline : list TimelineItem) : list jsstr := map message (of_kind KNavigate timeline).

(** The first of the texts that is not empty. *)
Definition shown (l : list jsstr) : jsstr := default (js "—") (head (List.filter str_truthy l)).

Definition first_url (session : ReplaySession) (timeline : list TimelineItem) : jsstr :=
  shown [start_url session; default [] (head (visited timeline))].

(** The last address has a line of its own when it is not the start. *)
Definition last_url (session : ReplaySession) (timeline : list TimelineItem) (lines : list jsstr) : Prop :=
  match list.last (visited timeline) with
  | Some u =>
    u <> [] /\ u <> first_url session timeline /\ lines = [js "- Last URL: " ++ u] \/
    (u = [] \/ u = first_url session timeline) /\ lines = []
  | None => lines = []
  end.

(** The lines of a report whose session starts at [start]; [started] is the date, and the text
    of the duration is that of [fmtDuration], which has a theorem of its own. *)
Definition reads_report (session : ReplaySession) (start : Z) (timeline : list TimelineItem)
    (started : jsstr) (lines : list jsstr) : Prop :=
  exists trigger url rows console,
    (Incident.trigger session = js "manual" /\ trigger = js "reported" \/
     Incident.trigger session <> js "manual" /\
     trigger = (if str_truthy (Incident.trigger session) then Incident.trigger session else js "unknown")) /\
    last_url session timeline url /\
    (timeline = [] /\ rows = [js "(no user actions captured)"] \/
     timeline <> [] /\ Forall2 (timeline_entry start) timeline rows) /\
    (console_items timeline = [] /\ console = [] \/
     exists entries, console_items timeline <> [] /\ console = [] :: js "## Console" :: entries /\
       Forall2 (console_entry start) (console_items timeline) entries) /\
    lines =
      [js "# BatRewind incident — " ++ service_name session ++ js " (" ++ environment session ++ js ")";
       [];
       js "- Session: " ++ id session;
       js "- User: " ++ shown [identifier session];
       js "- Trigger: " ++ trigger;
       js "- Started: " ++ started;
       js "- Duration: " ++ fmtDuration (duration_ms session);
       js "- Events: " ++ num_to_string (event_count session) ++ js " · Errors: "
         ++ num_to_string (Z.of_nat (length (of_kind KError timeline))) ++ js " · Warnings: "
         ++ num_to_string (Z.of_nat (length (of_kind KWarn timeline)));
       js "- Start URL: " ++ first_url session timeline]
      ++ url ++ [[]; js "## Timeline (relative to session start)"] ++ rows ++ console
      ++ [[]; js "---";
          js "This is a recorded user session (session replay). It describes what the user did and where it broke. Use it with the project source open to locate the cause."].

Lemma seconds_read ms : (Z.abs ms < 2 ^ 53)%Z -> reads_seconds ms (seconds_fixed1 ms).
Proof.
  intros Hms. exists (tenths (Z.abs ms)). split_and!; [apply tenths_nonneg; lia|apply tenths_near; lia|done].
Qed.

Lemma label_name k : kind_name k (LABEL k).
Proof. destruct k; constructor. Qed.

Lemma clip_shortened s : shortened s (clip s).
Proof.
  unfold shortened, clip, slice, MAX_MSG. rewrite one_line_words. rewrite drop_0, Nat.sub_0_r.
  destruct (300 <? _)%nat eqn:E; [right|left].
  - by apply Nat.ltb_lt in E.
  - by apply Nat.ltb_ge in E.
Qed.

Lemma item_line_entry start x :
  (Z.abs (timestamp x - start) < 2 ^ 53)%Z -> timeline_entry start x (item_line start x).
Proof.
  intros Ht. exists (seconds_fixed1 (timestamp x - start)), (LABEL (kind x)), (clip (message x)).
  split_and!; [by apply seconds_read|apply label_name|apply clip_shortened|].
  unfold item_line, rel, tab. by rewrite <- !app_assoc.
Qed.

Lemma console_line_entry start x :
  (Z.abs (timestamp x - start) < 2 ^ 53)%Z -> console_entry start x (console_line start x).
Proof.
  intros Ht. exists (seconds_fixed1 (timestamp x - start)), (LABEL (kind x)), (clip (message x)).
  split_and!; [by apply seconds_read|apply label_name|apply clip_shortened|].
  unfold console_line, rel. rewrite <- !app_assoc. do 2 f_equal.
Qed.

Lemma is_console_kind x : is_console x = of_console (kind x).
Proof. unfold is_console. by destruct (kind x). Qed.

Lemma filter_console timeline :
  filter (fun t => is_console t = true) timeline = console_items timeline.
Proof.
  unfold console_items. induction timeline as [|x l IH]; [done|].
  rewrite filter_cons. cbn [List.filter]. rewrite IH, <- is_console_kind. by destruct (is_console x).
Qed.

Lemma console_items_in timeline x : x ∈ console_items timeline -> x ∈ timeline.
Proof. rewrite !list_elem_of_In. intros [? _]%filter_In. done. Qed.

Lemma countConsole_kinds timeline :
  countConsole timeline = (length (of_kind KError timeline), length (of_kind KWarn timeline)).
Proof.
  induction timeline as [|x l IH]; [done|]. cbn. rewrite IH. by destruct (kind x).
Qed.

Lemma found_first timeline : find_message is_nav timeline = head (visited timeline).
Proof.
  induction timeline as [|x l IH]; [done|]. unfold visited, of_kind in *. cbn [find_message List.filter].
  unfold is_nav at 1. destruct (bool_decide (kind x = KNavigate)); [done|exact IH].
Qed.

Lemma visited_reverse timeline : visited (reverse timeline) = reverse (visited timeline).
Proof.
  induction timeline as [|x l IH]; [done|]. rewrite reverse_cons. unfold visited, of_kind in *.
  rewrite List.filter_app, map_app, IH. cbn [List.filter]. destruct (bool_decide _); cbn [map].
  - by rewrite reverse_cons.
  - by rewrite app_nil_r.
Qed.

Lemma found_last timeline : find_message is_nav (reverse timeline) = list.last (visited timeline).
Proof. by rewrite found_first, visited_reverse, head_reverse. Qed.

Lemma shown_or a b : str_or a (str_or b (js "—")) = shown [a; b].
Proof. unfold shown, str_or. cbn. by destruct (str_truthy a), (str_truthy b). Qed.

(** ** Properties *)

(** A clipped message is one line of at most 301 units whose only white space is single
    spaces, and a message that fits keeps all of its words. *)
Lemma clip_readable s :
  length (clip s) <= S MAX_MSG /\ plain (clip s) /\
  (length (one_line s) <= MAX_MSG -> words (clip s) = words s).
Proof.
  split_and!; [|apply plain_clip|].
  - unfold clip, slice. destruct (MAX_MSG <? _)%nat eqn:E; [|apply Nat.ltb_ge in E; lia].
    rewrite length_app, length_take. change (length (js "…")) with 1. lia.
  - intros Hl. unfold clip. rewrite (proj2 (Nat.ltb_ge _ _) Hl), one_line_words.
    apply words_join, words_word.
Qed.

(** C38: a duration reads back as the milliseconds it shows: exactly below a second, within 50
    milliseconds below a minute (the division and the rounding being those of
    doubles), and to the second from there on. *)
Theorem duration_text ms :
  (0 < ms < 2 ^ 53)%Z ->
  ((ms < 1000)%Z -> fmtDuration (Some ms) = num_to_string ms ++ js "ms") /\
  ((1000 <= ms < 60000)%Z -> exists t, (Z.abs (100 * t - ms) <= 50)%Z /\
     fmtDuration (Some ms) =
       num_to_string (t / 10) ++ js "." ++ num_to_string (t mod 10) ++ js "s") /\
  ((60000 <= ms)%Z -> exists m s, (0 <= s < 60)%Z /\ (0 <= ms - (60000 * m + 1000 * s) < 1000)%Z /\
     fmtDuration (Some ms) = num_to_string m ++ js "m " ++ num_to_string s ++ js "s").
Proof.
  intros Hms. unfold fmtDuration. rewrite (proj2 (Z.eqb_neq ms 0)) by lia. split_and!; intros Hr.
  - by rewrite (proj2 (Z.ltb_lt _ _)).
  - rewrite (proj2 (Z.ltb_ge ms 1000)), (proj2 (Z.ltb_lt ms 60000)) by lia.
    exists (tenths ms). split; [apply tenths_near; lia|]. unfold seconds_fixed1.
    rewrite Z.abs_eq, (proj2 (Z.ltb_ge ms 0)) by lia. by rewrite <- !app_assoc.
  - rewrite (proj2 (Z.ltb_ge ms 1000)), (proj2 (Z.ltb_ge ms 60000)) by lia.
    exists (ms / 60000)%Z, ((ms mod 60000) / 1000)%Z. split_and!; [div_lia..|done].
Qed.

Lemma shown_one a : str_or a (js "—") = shown [a].
Proof. unfold shown, str_or. cbn. by destruct (str_truthy a). Qed.

Lemma entries_read (line : TimelineItem -> jsstr) (reads : TimelineItem -> jsstr -> Prop) l :
  (forall x, x ∈ l -> reads x (line x)) -> Forall2 reads l (map line l).
Proof.
  intros Hl. induction l as [|x l IH]; [constructor|]. constructor; [apply Hl; by left|].
  apply IH. intros y Hy. apply Hl. by right.
Qed.

(** The pieces of [Incident] are what [reads_report] describes. *)
Lemma report_reads `{DateParse} session start timeline started :
  Forall (fun x => Z.abs (timestamp x - start) < 2 ^ 53)%Z timeline ->
  reads_report session start timeline started (report_lines session start timeline started).
Proof.
  intros Ht. rewrite Forall_forall in Ht. unfold reads_report, report_lines, header_lines, timeline_lines, console_lines.
  rewrite countConsole_kinds, found_first, found_last, filter_console, shown_or, shown_one.
  fold (first_url session timeline).
  set (url := match list.last (visited timeline) with Some u => _ | None => [] end).
  set (rows := match timeline with [] => [js "(no user actions captured)"] | _ => _ end).
  set (console := match console_items timeline with [] => [] | _ => _ end).
  eexists _, url, rows, console. split; [|split; [|split; [|split; [|by rewrite <- app_assoc]]]].
  - destruct (bool_decide _) eqn:E; [apply bool_decide_eq_true in E|apply bool_decide_eq_false in E]; auto.
  - unfold last_url, url. destruct (list.last (visited timeline)) as [u|]; [|done].
    destruct (decide (u = first_url session timeline)) as [->|Hne].
    + rewrite bool_decide_true, andb_false_r by done. auto.
    + rewrite bool_decide_false by done. destruct u; [auto|left; by split_and!].
  - unfold rows. destruct timeline as [|x l]; [by left|right]. split; [done|].
    apply entries_read. intros y Hy. by apply item_line_entry, Ht.
  - unfold console. destruct (console_items timeline) as [|x l] eqn:E; [by left|right].
    exists (map (console_line start) (x :: l)). split_and!; [done|done|].
    apply entries_read. intros y Hy. apply console_line_entry, Ht, console_items_in. by rewrite E.
Qed.

(** C34: the report can be read line by line. As long as no field of the session and no visited
    address holds a line feed, and the events lie within 2^53 milliseconds, splitting the text
    at line feeds gives the nine lines of the header, written out, with the numbers of errors
    and warnings and the first and the last address visited; then one line for each item of the
    timeline, in order, with its time to the nearest tenth of a second, the name of its kind
    and its words; then, if there is any, one line for each item that is neither a click nor a
    navigation nor an input; and the three lines at the end. *)
Theorem report_reads_back `{DateParse} session events timeline text :
  let start := match events with e :: _ => ReplayEvent.timestamp e | [] => 0%Z end in
  buildTimeline events = Ok timeline -> flat_session session timeline ->
  Forall (fun x => Z.abs (timestamp x - start) < 2 ^ 53)%Z timeline ->
  buildIncidentReport session events = Ok text ->
  exists started, to_iso_string (started_at session) = Ok started /\
    reads_report session start timeline started (split_lines text).
Proof.
  intros start Ht Hf Hs Hr. unfold buildIncidentReport in Hr. rewrite Ht in Hr. cbn in Hr.
  destruct (to_iso_string (started_at session)) as [started|] eqn:He; [|done]. cbn in Hr.
  injection Hr as <-. exists started. split; [done|]. rewrite split_join.
  - by apply report_reads.
  - unfold report_lines, header_lines. by destruct (countConsole timeline).
  - apply flat_report; [done|]. unfold to_iso_string in He.
    destruct (date_parse _); [|done]. destruct (_ <=? _)%Z; [|done].
    injection He as <-. apply iso_flat.
Qed.

(** C37: on events of the shape rrweb records the report is built exactly when the session's
    start is a valid date; otherwise it throws the [RangeError] of [toISOString]. *)
Theorem report_total `{DateParse} session events :
  Forall wf_event events ->
  match date_parse (started_at session) with
  | Some t => if (Z.abs t <=? 8640000000000000)%Z
              then exists text, buildIncidentReport session events = Ok text
              else buildIncidentReport session events = Throw RangeError
  | None => buildIncidentReport session events = Throw RangeError
  end.
Proof.
  intros Hf. destruct (index_events_ok events ∅ Hf) as (m & Hi & Hm); [done|].
  destruct (items_from_ok m 0 events Hf Hm) as [timeline Ht].
  unfold buildIncidentReport, buildTimeline, indexNodes. rewrite Hi. cbn. rewrite Ht. cbn.
  unfold to_iso_string. destruct (date_parse _) as [t|]; [|done].
  destruct (_ <=? _)%Z; [by eexists|done].
Qed.

(** ** Witnesses *)

(** A date parser that knows one date. *)
Definition demo_dates : DateParse := fun s =>
  if decide (s = js "2024-02-29T12:34:56.789Z") then Some 1709210096789%Z else None.

Definition demo_session : ReplaySession := {|
  id := js "s-1"; identifier := js "ana"; start_url := []; environment := js "production";
  service_name := js "shop"; started_at := js "2024-02-29T12:34:56.789Z";
  duration_ms := Some 1600%Z; event_count := 6; trigger := js "manual" |}.

Lemma duration_text_witness :
  ((59950 < 1000)%Z -> fmtDuration (Some 59950%Z) = num_to_string 59950 ++ js "ms") /\
  ((1000 <= 59950 < 60000)%Z -> exists t, (Z.abs (100 * t - 59950) <= 50)%Z /\
     fmtDuration (Some 59950%Z) =
       num_to_string (t / 10) ++ js "." ++ num_to_string (t mod 10) ++ js "s") /\
  ((60000 <= 59950)%Z -> exists m s, (0 <= s < 60)%Z /\ (0 <= 59950 - (60000 * m + 1000 * s) < 1000)%Z /\
     fmtDuration (Some 59950%Z) = num_to_string m ++ js "m " ++ num_to_string s ++ js "s").
Proof. apply (duration_text 59950). lia. Defined.

Lemma report_reads_back_witness :
  exists started, @to_iso_string demo_dates (started_at demo_session) = Ok started /\
    reads_report demo_session 1000 demo_items started
      (split_lines (catch (@buildIncidentReport demo_dates demo_session (demo_recording (js "secret"))) [])).
Proof.
  apply (@report_reads_back demo_dates demo_session (demo_recording (js "secret")) demo_items);
    [by_eval| | |by_eval].
  - split.
    + cbn [demo_session id identifier start_url environment service_name trigger]. flat_lines.
    + apply (bool_decide_unpack _). vm_compute. exact I.
  - apply (bool_decide_unpack _). vm_compute. exact I.
Defined.

Lemma report_total_witness :
  exists text, @buildIncidentReport demo_dates demo_session
    [ReplayEvent.mk 4 (JObj [(js "href", JStr (js "https://shop.example/"))]) 1000] = Ok text.
Proof.
  apply (@report_total demo_dates demo_session
    [ReplayEvent.mk 4 (JObj [(js "href", JStr (js "https://shop.example/"))]) 1000]).
  apply Forall_singleton, wf_plain; [discriminate|discriminate|reflexivity].
Defined.
