(* ===== verification/Auth.v ===== *)
(** * Signing in: packages/dashboard/src/lib/auth.ts

    The token and the user are two entries of [localStorage]; the browser state a
    request can change is the storage and the location. [atob] is the
    forgiving-base64 decoding of the HTML standard. *)

From S2P Require Import Prelude Decimal JsValue Json.

(** ** Base64 *)

Section base64.
(** The alphabets differ in the characters of 62 and 63. *)
Context (c62 c63 : N).

Definition sextet_char (i : N) : N :=
  (if i <? 26 then 65 + i else if i <? 52 then 71 + i else if i <? 62 then i - 4
   else if i =? 62 then c62 else c63)%N.

(** Unpadded encoding, three bytes to four characters. *)
Fixpoint encode64 (s : list N) : jsstr :=
  match s with
  | a :: b :: c :: r =>
    sextet_char (a / 4) :: sextet_char (a mod 4 * 16 + b / 16)
    :: sextet_char (b mod 16 * 4 + c / 64) :: sextet_char (c mod 64) :: encode64 r
  | [a; b] =>
    [sextet_char (a / 4); sextet_char (a mod 4 * 16 + b / 16); sextet_char (b mod 16 * 4)]
  | [a] => [sextet_char (a / 4); sextet_char (a mod 4 * 16)]
  | [] => []
  end%N.
End base64.

(** The alphabet [btoa] and [atob] use, and the one of a JWT. *)
Definition base64 : list N -> jsstr := encode64 43 47.
Definition base64url : list N -> jsstr := encode64 45 95.

Definition char_sextet (c : N) : option N :=
  (if (65 <=? c) && (c <=? 90) then Some (c - 65)
   else if (97 <=? c) && (c <=? 122) then Some (c - 71)
   else if (48 <=? c) && (c <=? 57) then Some (c + 4)
   else if c =? 43 then Some 62 else if c =? 47 then Some 63 else None)%N.

Fixpoint decode_sextets (l : list N) : list N :=
  match l with
  | a :: b :: c :: d :: r =>
    (a * 4 + b / 16) :: (b mod 16 * 16 + c / 4) :: (c mod 4 * 64 + d) :: decode_sextets r
  | [a; b; c] => [a * 4 + b / 16; b mod 16 * 16 + c / 4]
  | [a; b] => [a * 4 + b / 16]
  | _ => []
  end%N.

Definition ascii_ws (c : N) : bool :=
  ((c =? 9) || (c =? 10) || (c =? 12) || (c =? 13) || (c =? 32))%N.

Definition strip_padding (s : jsstr) : jsstr :=
  match reverse s with
  | 61%N :: 61%N :: r => reverse r
  | 61%N :: r => reverse r
  | _ => s
  end.

Definition atob (s : jsstr) : res jsstr :=
  let s1 := filter (fun c => ascii_ws c = false) s in
  let s2 := if decide (length s1 mod 4 = 0) then strip_padding s1 else s1 in
  if decide (length s2 mod 4 = 1) then Throw DOMException
  else match mapM char_sextet s2 with
       | Some l => Ok (decode_sextets l)
       | None => Throw DOMException
       end.

(** ** The browser *)

Record Browser := mkBrowser {
  localStorage : gmap jsstr jsstr;
  location : jsstr;
  clock : Z
}.

Definition set_localStorage (m : gmap jsstr jsstr) (b : Browser) : Browser :=
  mkBrowser m (location b) (clock b).
Definition set_location (l : jsstr) (b : Browser) : Browser :=
  mkBrowser (localStorage b) l (clock b).

Definition TOKEN_KEY : jsstr := js "batrewind_token".
Definition USER_KEY : jsstr := js "batrewind_user".

Section auth.
Context `{JsonEngine}.

Definition getToken (b : Browser) : option jsstr := localStorage b !! TOKEN_KEY.

(** [JSON.stringify(undefined)] is [undefined], which the storage turns into text. *)
Definition setAuth (token : jsstr) (user : jsval) (b : Browser) : Browser :=
  let text := match stringify user with Some t => t | None => js "undefined" end in
  set_localStorage (<[USER_KEY := text]> (<[TOKEN_KEY := token]> (localStorage b))) b.

Definition clearAuth (b : Browser) : Browser :=
  set_localStorage (delete USER_KEY (delete TOKEN_KEY (localStorage b))) b.

Definition getUser (b : Browser) : jsval :=
  match localStorage b !! USER_KEY with
  | Some raw => if str_truthy raw then json_parse raw ?? JNull else JNull
  | None => JNull
  end.

(** [s.split('.')]. *)
Fixpoint split_on (c : N) (s : jsstr) : list jsstr :=
  match s with
  | [] => [[]]
  | d :: r =>
    if (d =? c)%N then [] :: split_on c r
    else match split_on c r with h :: t => (d :: h) :: t | [] => [[d]] end
  end.

(** [payload.exp * 1000 < Date.now()], where [payload] is what the second segment of
    the token holds. *)
Definition token_expired (token : jsstr) (now : Z) : res bool :=
  text ← atob (split_on 46 token !! 1%nat ?? js "undefined");
  payload ← match json_parse text with Some v => Ok v | None => Throw SyntaxError end;
  exp ← prop (js "exp") payload;
  n ← to_number exp;
  Ok (num_lt ((fun d => dec_mulZ d 1000) <$> n) (Some (dec_of_Z now))).

Definition isTokenExpired (b : Browser) : bool :=
  match getToken b with
  | Some token => if str_truthy token then catch (token_expired token (clock b)) true else true
  | None => true
  end.

Definition isAuthenticated (b : Browser) : Browser * bool :=
  match getToken b with
  | Some token =>
    if str_truthy token then
      if isTokenExpired b then (clearAuth b, false) else (b, true)
    else (b, false)
  | None => (b, false)
  end.
End auth.
