(* ===== verification/AuthProps.v ===== *)
(** * Signing in: properties

    The base64 round trip, and from it when a stored token signs its user in. *)

From S2P Require Import Prelude Decimal JsValue Json Auth.

(** ** Base64 round trip *)

Definition byte (n : N) : Prop := (n < 256)%N.

(** Checking the 64 sextets one by one. *)
Lemma sextet_cases (P : N -> bool) :
  forallb P (map N.of_nat (seq 0 64)) = true -> forall i, (i < 64)%N -> P i = true.
Proof.
  intros HP i Hi. rewrite forallb_forall in HP. apply HP, in_map_iff.
  exists (N.to_nat i). split; [lia|]. apply in_seq. lia.
Qed.

Lemma char_sextet_inv i : (i < 64)%N -> char_sextet (sextet_char 43 47 i) = Some i.
Proof.
  intros Hi.
  pose proof (sextet_cases (fun i => bool_decide (char_sextet (sextet_char 43 47 i) = Some i))
    eq_refl i Hi) as Hc.
  by apply bool_decide_eq_true in Hc.
Qed.

Lemma sextet_char_clean i :
  (i < 64)%N -> ascii_ws (sextet_char 43 47 i) = false /\ sextet_char 43 47 i <> 61%N.
Proof.
  intros Hi.
  pose proof (sextet_cases (fun i => negb (ascii_ws (sextet_char 43 47 i))
    && negb (sextet_char 43 47 i =? 61)%N) eq_refl i Hi) as Hc. cbn beta in Hc.
  reflect_bool. split; [done|]. intros E. rewrite E in *. done.
Qed.

(** The sextets of a byte string, three at a time. *)
Fixpoint sextets (s : list N) : list N :=
  match s with
  | a :: b :: c :: r => a / 4 :: a mod 4 * 16 + b / 16 :: b mod 16 * 4 + c / 64 :: c mod 64 :: sextets r
  | [a; b] => [a / 4; a mod 4 * 16 + b / 16; b mod 16 * 4]
  | [a] => [a / 4; a mod 4 * 16]
  | [] => []
  end%N.

Lemma encode64_sextets c62 c63 s : encode64 c62 c63 s = map (sextet_char c62 c63) (sextets s).
Proof.
  revert s. fix IH 1. intros [|a [|b [|c r]]]; [done..|]. cbn. by rewrite IH.
Qed.

(** Induction by threes. *)
Lemma list_ind3 {A} (P : list A -> Prop) :
  P [] -> (forall a, P [a]) -> (forall a b, P [a; b]) ->
  (forall a b c r, P r -> P (a :: b :: c :: r)) -> forall l, P l.
Proof.
  intros H0 H1 H2 H3. fix IH 1. intros [|a [|b [|c r]]]; [apply H0|apply H1|apply H2|].
  apply H3, IH.
Qed.

Lemma sextets_small s : Forall byte s -> Forall (fun i => (i < 64)%N) (sextets s).
Proof.
  unfold byte. induction s as [|a|a b|a b c r IH] using list_ind3; intros Hs; cbn [sextets];
    repeat (apply Forall_cons_1 in Hs as [? Hs]); repeat (apply Forall_cons_2); try done;
    try (by apply IH); div_lia.
Qed.

Lemma sextets_length s : length (sextets s) mod 4 <> 1.
Proof.
  induction s as [|a|a b|a b c r IH] using list_ind3; cbn [sextets length]; try done.
  replace (S (S (S (S (length (sextets r)))))) with (length (sextets r) + 1 * 4) by lia.
  by rewrite Nat.Div0.mod_add.
Qed.

Lemma decode_sextets_inv s : Forall byte s -> decode_sextets (sextets s) = s.
Proof.
  unfold byte. induction s as [|a|a b|a b c r IH] using list_ind3; intros Hs;
    repeat (apply Forall_cons_1 in Hs as [? Hs]); cbn [sextets decode_sextets]; [done| | |].
  - f_equal. div_lia.
  - f_equal; [div_lia|]. f_equal. div_lia.
  - f_equal; [div_lia|]. f_equal; [div_lia|]. f_equal; [div_lia|]. by apply IH.
Qed.

Lemma filter_all {A} (P : A -> Prop) `{!forall x, Decision (P x)} l : Forall P l -> filter P l = l.
Proof. induction 1 as [|x l Hx _ IH]; [done|]. by rewrite filter_cons_True, IH. Qed.

Lemma strip_padding_none s : Forall (fun c => c <> 61%N) s -> strip_padding s = s.
Proof.
  intros Hs. apply Forall_reverse in Hs. unfold strip_padding.
  destruct Hs as [|c r Hc Hr]; [done|]. by repeat case_match; simplify_eq.
Qed.

Lemma atob_base64 s : Forall byte s -> atob (base64 s) = Ok s.
Proof.
  intros Hs. unfold atob, base64. rewrite encode64_sextets. pose proof (sextets_small s Hs) as Hx.
  rewrite filter_all.
  2: { apply Forall_map. eapply Forall_impl; [exact Hx|]. intros i Hi. by apply sextet_char_clean. }
  rewrite strip_padding_none.
  2: { apply Forall_map. eapply Forall_impl; [exact Hx|]. intros i Hi. by apply sextet_char_clean. }
  assert ((if decide (length (map (sextet_char 43 47) (sextets s)) mod 4 = 0)
           then map (sextet_char 43 47) (sextets s) else map (sextet_char 43 47) (sextets s))
          = map (sextet_char 43 47) (sextets s)) as -> by (by destruct (decide _)).
  rewrite length_map, decide_False by apply sextets_length.
  assert (mapM char_sextet (map (sextet_char 43 47) (sextets s)) = Some (sextets s)) as ->.
  { clear -Hx. induction Hx as [|i l Hi _ IH]; [done|]. cbn. by rewrite char_sextet_inv, IH. }
  by rewrite decode_sextets_inv.
Qed.

(** A character of neither alphabet makes [atob] throw. *)
Lemma strip_padding_keeps c s : c <> 61%N -> c ∈ s -> c ∈ strip_padding s.
Proof.
  intros Hc Hs. unfold strip_padding.
  assert (c ∈ reverse s) as Hr by (by apply elem_of_reverse).
  repeat case_match; simplify_eq; try done;
    repeat (apply elem_of_cons in Hr as [?|Hr]; [done|]); by apply elem_of_reverse.
Qed.

Lemma atob_bad c s :
  c ∈ s -> char_sextet c = None -> c <> 61%N -> ascii_ws c = false -> exists e, atob s = Throw e.
Proof.
  intros Hs Hc H61 Hws. unfold atob.
  set (s1 := filter _ s). assert (c ∈ s1) as H1 by (by apply list_elem_of_filter).
  set (s2 := if decide (length s1 mod 4 = 0) then _ else _).
  assert (c ∈ s2) as H2 by (unfold s2; destruct (decide _); [by apply strip_padding_keeps|done]).
  destruct (decide (length s2 mod 4 = 1)); [by eexists|].
  assert (mapM char_sextet s2 = None) as ->; [|by eexists].
  clear -H2 Hc. induction s2 as [|d r IH]; [by apply elem_of_nil in H2|]. cbn.
  apply elem_of_cons in H2 as [<-|H2]; [by rewrite Hc|]. rewrite IH by done. by destruct (char_sextet d).
Qed.

(** ** The payload of a token *)

Lemma split_on_first c h r : c ∉ h -> split_on c (h ++ c :: r) = h :: split_on c r.
Proof.
  induction h as [|d h IH]; cbn; [by rewrite N.eqb_refl|]. intros [H1 H2]%not_elem_of_cons.
  rewrite (proj2 (N.eqb_neq d c)) by done. by rewrite IH.
Qed.

Lemma split_on_none c h : c ∉ h -> split_on c h = [h].
Proof.
  induction h as [|d h IH]; cbn; [done|]. intros [H1 H2]%not_elem_of_cons.
  rewrite (proj2 (N.eqb_neq d c)) by done. by rewrite IH.
Qed.

(** [header.payload.signature] *)
Definition jwt (header payload signature : jsstr) : jsstr :=
  header ++ js "." ++ payload ++ js "." ++ signature.

Lemma jwt_payload header payload signature :
  46%N ∉ header -> 46%N ∉ payload ->
  split_on 46 (jwt header payload signature) !! 1%nat = Some payload.
Proof.
  intros Hh Hp. unfold jwt. change (js ".") with [46%N]. cbn [app].
  by rewrite split_on_first, split_on_first.
Qed.

Lemma jwt_truthy header payload signature : str_truthy (jwt header payload signature) = true.
Proof. unfold jwt. by destruct header. Qed.

(** The url-safe text is the standard one unless it uses one of the two characters that differ. *)
Lemma base64url_plain s :
  Forall byte s -> 45%N ∉ base64url s -> 95%N ∉ base64url s -> base64url s = base64 s.
Proof.
  unfold base64url, base64. rewrite !encode64_sextets. intros Hs. apply sextets_small in Hs.
  induction Hs as [|i l Hi _ IH]; [done|]. cbn.
  intros [H1 H2]%not_elem_of_cons [H3 H4]%not_elem_of_cons. rewrite IH by done. f_equal.
  unfold sextet_char in *. by repeat case_match.
Qed.

Lemma base64_no_dot s : Forall byte s -> 46%N ∉ base64 s.
Proof.
  unfold base64. rewrite encode64_sextets. intros Hs. apply sextets_small in Hs.
  intros (i & E & Hi)%list_elem_of_fmap. rewrite Forall_forall in Hs. apply Hs in Hi.
  pose proof (sextet_cases (fun i => negb (sextet_char 43 47 i =? 46)%N) eq_refl i Hi) as Hc.
  cbn beta in Hc. by rewrite <- E in Hc.
Qed.

Lemma dec_mul1000 n : dec_mulZ (dec_of_Z n) 1000 = dec_of_Z (n * 1000).
Proof. done. Qed.

Section auth_props.
Context `{JsonEngine}.

Lemma token_expired_reads header signature v t exp now :
  46%N ∉ header -> json_value v -> stringify v = Some t -> Forall byte t ->
  45%N ∉ base64url t -> 95%N ∉ base64url t ->
  opt_prop (js "exp") v = JNum (dec_of_Z exp) ->
  token_expired (jwt header (base64url t) signature) now = Ok (exp * 1000 <? now)%Z.
Proof.
  intros Hh Hv Ht Hb H1 H2 He. rewrite base64url_plain by done. unfold token_expired.
  rewrite jwt_payload by (done || by apply base64_no_dot). cbn [default from_option id].
  rewrite atob_base64 by done. cbn. rewrite (json_parse_stringify v t) by done. cbn.
  unfold prop. assert (nullish v = false) as -> by (by destruct v). rewrite He.
  change (Ok (dec_ltb (dec_mulZ (dec_of_Z exp) 1000) (dec_of_Z now)) = Ok (exp * 1000 <? now)%Z).
  by rewrite dec_mul1000, dec_ltb_Z.
Qed.

(** ** Properties *)

(** What [setAuth] stores is what [getToken] and [getUser] read, and [clearAuth] forgets
    both and signs the user out, leaving the rest of the storage alone. *)
Theorem auth_roundtrip token user b :
  json_value user ->
  getToken (setAuth token user b) = Some token /\ getUser (setAuth token user b) = user /\
  getToken (clearAuth b) = None /\ getUser (clearAuth b) = JNull /\
  isAuthenticated (clearAuth b) = (clearAuth b, false) /\
  (forall k, k <> TOKEN_KEY -> k <> USER_KEY -> localStorage (clearAuth b) !! k = localStorage b !! k).
Proof.
  intros Hu. assert (TOKEN_KEY <> USER_KEY) as Hne by done.
  destruct (json_value_stringify _ Hu) as [t Ht].
  assert (getToken (clearAuth b) = None) as Hc.
  { unfold getToken, clearAuth. cbn. rewrite lookup_delete_ne by done. by rewrite lookup_delete_eq. }
  split_and!.
  - unfold getToken, setAuth. cbn. rewrite lookup_insert_ne by done. by rewrite lookup_insert_eq.
  - unfold getUser, setAuth. cbn. rewrite lookup_insert_eq, Ht, (json_parse_stringify user t) by done.
    apply text_nonempty in Ht. destruct t; [cbn in Ht; lia|done].
  - exact Hc.
  - unfold getUser, clearAuth. cbn. by rewrite lookup_delete_eq.
  - unfold isAuthenticated. by rewrite Hc.
  - intros k H1 H2. unfold clearAuth. cbn. by rewrite !lookup_delete_ne.
Qed.

(** C20: a token whose payload encodes without [-] and [_] signs the user in exactly until the
    [exp] it carries; from then on the user is signed out and the storage cleared. *)
Theorem token_expiry b header signature v t exp :
  getToken b = Some (jwt header (base64url t) signature) ->
  46%N ∉ header -> json_value v -> stringify v = Some t -> Forall byte t ->
  45%N ∉ base64url t -> 95%N ∉ base64url t ->
  opt_prop (js "exp") v = JNum (dec_of_Z exp) ->
  isAuthenticated b = if (exp * 1000 <? clock b)%Z then (clearAuth b, false) else (b, true).
Proof.
  intros Hb Hh Hv Ht Hbt H1 H2 He. unfold isAuthenticated, isTokenExpired.
  rewrite Hb, jwt_truthy, (token_expired_reads header signature v t exp) by done. done.
Qed.

(** A token whose payload encodes with [-] or [_], which the base64url of a JWT uses for
    two of the sextets, is taken for expired at once: [atob] does not know these
    characters, and the user is signed out whatever [exp] says. *)
Theorem urlsafe_token_rejected b header payload signature :
  getToken b = Some (jwt header payload signature) ->
  46%N ∉ header -> 46%N ∉ payload -> 45%N ∈ payload \/ 95%N ∈ payload ->
  isAuthenticated b = (clearAuth b, false).
Proof.
  intros Hb Hh Hp Hc. unfold isAuthenticated, isTokenExpired. rewrite Hb, jwt_truthy.
  unfold token_expired. rewrite jwt_payload by done. cbn [default from_option id].
  assert (exists e, atob payload = Throw e) as [e ->]; [|done].
  destruct Hc as [Hc|Hc]; by eapply atob_bad.
Qed.
End auth_props.

(** ** Witnesses *)

Definition demo_claims (email : jsstr) : jsval :=
  JObj [(js "email", JStr email); (js "exp", JNum (dec_of_Z 1700000000))].

Definition demo_claims_text (email : jsstr) : jsstr := json_text (demo_claims email).

(** A browser that holds a token for [email]; the clock is one day before it expires. *)
Definition demo_signed_in (email : jsstr) : Browser :=
  mkBrowser {[TOKEN_KEY := jwt (js "aGVhZGVy") (base64url (demo_claims_text email)) (js "sig")]}
    (js "/app") 1699913600000.

Lemma demo_claims_json email : Forall unit16 email -> json_value (demo_claims email).
Proof. intros He. json_object; constructor; [done|by left]. Qed.

Lemma auth_roundtrip_witness :
  let b := demo_signed_in (js "ana@example.com") in
  let user := demo_claims (js "ana@example.com") in
  getToken (setAuth (js "t") user b) = Some (js "t") /\ getUser (setAuth (js "t") user b) = user /\
  getToken (clearAuth b) = None /\ getUser (clearAuth b) = JNull /\
  isAuthenticated (clearAuth b) = (clearAuth b, false) /\
  (forall k, k <> TOKEN_KEY -> k <> USER_KEY -> localStorage (clearAuth b) !! k = localStorage b !! k).
Proof.
  apply auth_roundtrip, demo_claims_json. apply (bool_decide_unpack _). vm_compute. exact I.
Defined.

Lemma token_expiry_witness :
  isAuthenticated (demo_signed_in (js "ana@example.com")) =
    (demo_signed_in (js "ana@example.com"), true).
Proof.
  apply (token_expiry (demo_signed_in (js "ana@example.com")) (js "aGVhZGVy") (js "sig")
           (demo_claims (js "ana@example.com")) (demo_claims_text (js "ana@example.com")) 1700000000).
  1: by_eval.
  2: apply demo_claims_json.
  all: try (apply (bool_decide_unpack _); vm_compute; exact I).
  all: by_eval.
Defined.

(** An address with a tilde is enough for the encoding to use the second character. *)
Lemma urlsafe_token_rejected_witness :
  isAuthenticated (demo_signed_in (js "~~~@example.com")) =
    (clearAuth (demo_signed_in (js "~~~@example.com")), false).
Proof.
  apply (urlsafe_token_rejected (demo_signed_in (js "~~~@example.com")) (js "aGVhZGVy")
           (base64url (demo_claims_text (js "~~~@example.com"))) (js "sig")).
  1: by_eval.
  all: try (apply (bool_decide_unpack _); vm_compute; exact I).
Defined.
