(* ===== verification/Http.v ===== *)
(** * Talking to the server: packages/dashboard/src/lib/api.ts and src/http/

    Every call is a computation over the browser and the requests sent so far. The
    server is a parameter: the response to a request, or none when the network
    fails. A response's JSON is used unchecked, so results are [jsval]. *)

From S2P Require Import Prelude Decimal JsValue Json Auth.

Record HttpRequest := mkRequest {
  r_url : jsstr;
  r_method : jsstr;
  r_headers : gmap jsstr jsstr;
  r_body : option jsstr
}.

Record Response := { status : Z; text : jsstr }.

Class Network := respond : HttpRequest -> option Response.

Record Web := mkWeb { browser : Browser; requests : list HttpRequest }.

Definition on_browser (f : Browser -> Browser) : SM Web unit := fun w =>
  (mkWeb (f (browser w)) (requests w), Ok tt).

(** The second argument of [fetch]. *)
Record RequestInit := { method : option jsstr; headers : gmap jsstr jsstr; body : option jsstr }.

Definition no_init : RequestInit := {| method := None; headers := ∅; body := None |}.
Definition with_method (m : jsstr) : RequestInit :=
  {| method := Some m; headers := ∅; body := None |}.

Definition ok (r : Response) : bool := ((200 <=? status r) && (status r <=? 299))%Z.

(** ** Query strings *)

(** The UTF-8 bytes of a string; a lone surrogate becomes U+FFFD. *)
Fixpoint utf8_encode (s : jsstr) : list N :=
  match s with
  | [] => []
  | c :: r =>
    if c <? 128 then c :: utf8_encode r
    else if c <? 2048 then 192 + c / 64 :: 128 + c mod 64 :: utf8_encode r
    else if is_high c then
      match r with
      | d :: r' =>
        if is_low d then
          let cp := 65536 + (c - 55296) * 1024 + (d - 56320) in
          240 + cp / 262144 :: 128 + cp / 4096 mod 64 :: 128 + cp / 64 mod 64
            :: 128 + cp mod 64 :: utf8_encode r'
        else 239 :: 191 :: 189 :: utf8_encode r
      | [] => [239; 191; 189]
      end
    else if is_low c then 239 :: 191 :: 189 :: utf8_encode r
    else 224 + c / 4096 :: 128 + c / 64 mod 64 :: 128 + c mod 64 :: utf8_encode r
  end%N.

Definition hex_upper (n : N) : N := (if n <? 10 then 48 + n else 55 + n)%N.

(** The bytes the form encoding keeps: letters, digits and [*-._]. *)
Definition form_safe (b : N) : bool :=
  ((48 <=? b) && (b <=? 57) || (65 <=? b) && (b <=? 90) || (97 <=? b) && (b <=? 122)
   || (b =? 42) || (b =? 45) || (b =? 46) || (b =? 95))%N.

Definition form_byte (b : N) : jsstr :=
  if form_safe b then [b]
  else if (b =? 32)%N then js "+"
  else [37; hex_upper (b / 16); hex_upper (b mod 16)]%N.

Definition form_encode (s : jsstr) : jsstr := concat (map form_byte (utf8_encode s)).

(** [URLSearchParams.toString] *)
Definition query_text (params : list (jsstr * jsstr)) : jsstr :=
  join (js "&") (map (fun kv => form_encode kv.1 ++ js "=" ++ form_encode kv.2) params).

Record SessionFilters := mkFilters {
  identifier : option jsstr;
  service_name : option jsstr;
  environment : option jsstr;
  start_date : option jsstr;
  end_date : option jsstr;
  limit : option Z;
  offset : option Z
}.

(** [if (v) params.set(k, v)], for a string and for a number. *)
Definition set_text (k : jsstr) (v : option jsstr) : list (jsstr * jsstr) :=
  match v with Some s => if str_truthy s then [(k, s)] else [] | None => [] end.
Definition set_number (k : jsstr) (v : option Z) : list (jsstr * jsstr) :=
  match v with Some n => if (n =? 0)%Z then [] else [(k, num_to_string n)] | None => [] end.

Definition filter_params (f : SessionFilters) : list (jsstr * jsstr) :=
  set_text (js "identifier") (identifier f)
  ++ set_text (js "service_name") (service_name f)
  ++ set_text (js "environment") (environment f)
  ++ set_text (js "start_date") (start_date f)
  ++ set_text (js "end_date") (end_date f)
  ++ set_number (js "limit") (limit f)
  ++ set_number (js "offset") (offset f).

Section http.
Context `{JsonEngine} `{Network}.
(** [import.meta.env.VITE_API_URL] *)
Context (VITE_API_URL : option jsstr).

Definition base : jsstr := VITE_API_URL ?? [].

(** [fetch(url, init)]: the request is sent, then the response or a rejection comes. *)
Definition fetch (url : jsstr) (init : RequestInit) (hs : gmap jsstr jsstr) : SM Web Response := fun w =>
  let q := mkRequest url (method init ?? js "GET") hs (body init) in
  (mkWeb (browser w) (requests w ++ [q]),
   match respond q with Some r => Ok r | None => Throw TypeError end).

Definition json (r : Response) : SM Web jsval :=
  match json_parse (text r) with Some v => sm_ret v | None => sm_throw SyntaxError end.

Definition fetchWithAuth (url : jsstr) (init : RequestInit) : SM Web Response :=
  let! token := sm_reads (fun w => getToken (browser w)) in
  let auth := match token with
              | Some t => if str_truthy t then {[js "Authorization" := js "Bearer " ++ t]} else ∅
              | None => ∅
              end in
  let! res := fetch url init (headers init ∪ auth) in
  if (status res =? 401)%Z then
    let! _ := on_browser clearAuth in
    let! _ := on_browser (set_location (js "/login")) in
    sm_throw (Error (js "Unauthorized"))
  else sm_ret res.

(** [if (!res.ok) throw new Error(message)] *)
Definition expect_ok (message : jsstr) (r : Response) : SM Web unit :=
  if ok r then sm_ret tt else sm_throw (Error message).

(** ** http/auth/login.ts and http/public/session.ts: no auth header *)

Definition login (email password : jsstr) : SM Web jsval :=
  let init := {| method := Some (js "POST");
                 headers := {[js "Content-Type" := js "application/json"]};
                 body := Some (json_text (JObj [(js "email", JStr email);
                                                (js "password", JStr password)])) |} in
  let! res := fetch (base ++ js "/v1/auth/login") init (headers init) in
  let! _ := expect_ok (js "Invalid credentials") res in
  json res.

Definition getPublicSession (token : jsstr) : SM Web jsval :=
  let! res := fetch (base ++ js "/v1/public/sessions/" ++ token) no_init ∅ in
  let! _ := expect_ok (js "Replay not found") res in
  json res.

Definition getPublicSessionEvents (token : jsstr) : SM Web jsval :=
  let! res := fetch (base ++ js "/v1/public/sessions/" ++ token ++ js "/events") no_init ∅ in
  let! _ := expect_ok (js "Failed to fetch replay") res in
  json res.

(** ** http/sessions *)

Definition deleteSession (id : jsstr) : SM Web unit :=
  let! res := fetchWithAuth (base ++ js "/v1/sessions/" ++ id) (with_method (js "DELETE")) in
  expect_ok (js "Failed to delete session") res.

Definition getSessionEvents (id : jsstr) : SM Web jsval :=
  let! res := fetchWithAuth (base ++ js "/v1/sessions/" ++ id ++ js "/events") no_init in
  let! _ := expect_ok (js "Failed to fetch events") res in
  json res.

Definition listFailedIngest : SM Web jsval :=
  let! res := fetchWithAuth (base ++ js "/v1/failed-ingest") no_init in
  let! _ := expect_ok (js "Failed to fetch failed ingests") res in
  json res.

Definition retryAllFailed : SM Web jsval :=
  let! res := fetchWithAuth (base ++ js "/v1/failed-ingest/retry-all") (with_method (js "POST")) in
  let! _ := expect_ok (js "Failed to retry") res in
  json res.

Definition getSession (id : jsstr) : SM Web jsval :=
  let! res := fetchWithAuth (base ++ js "/v1/sessions/" ++ id) no_init in
  let! _ := expect_ok (js "Session not found") res in
  json res.

Definition listSessions (filters : SessionFilters) : SM Web jsval :=
  let! res := fetchWithAuth
    (base ++ js "/v1/sessions?" ++ query_text (filter_params filters)) no_init in
  let! _ := expect_ok (js "Failed to fetch sessions") res in
  json res.

Definition createShareLink (id : jsstr) : SM Web jsval :=
  let! res := fetchWithAuth (base ++ js "/v1/sessions/" ++ id ++ js "/share")
                (with_method (js "POST")) in
  let! _ := expect_ok (js "Failed to create share link") res in
  let! v := json res in
  sm_lift (prop (js "token") v).

Definition getStats : SM Web jsval :=
  let! res := fetchWithAuth (base ++ js "/v1/stats") no_init in
  let! _ := expect_ok (js "Failed to fetch stats") res in
  json res.
End http.
