(* ===== verification/HttpProps.v ===== *)
(** * Talking to the server: properties

    The query string read back, and the outcomes of every call. *)

From S2P Require Import Prelude Decimal JsValue Json Auth AuthProps Http.

(** ** Query strings read back *)

Definition unhex (c : N) : N := (if c <=? 57 then c - 48 else c - 55)%N.

(** What a server reads: [+] is a space, [%XY] a byte. *)
Fixpoint form_decode (s : jsstr) : list N :=
  match s with
  | [] => []
  | c :: r =>
    if (c =? 43)%N then 32%N :: form_decode r
    else if (c =? 37)%N then
      match r with
      | x :: y :: r' => (unhex x * 16 + unhex y)%N :: form_decode r'
      | _ => c :: form_decode r
      end
    else c :: form_decode r
  end.

(** A parameter splits at its first equals sign. *)
Fixpoint split_eq (s : jsstr) : jsstr * jsstr :=
  match s with
  | [] => ([], [])
  | c :: r => if (c =? 61)%N then ([], r) else let (k, v) := split_eq r in (c :: k, v)
  end.

Definition parse_query (s : jsstr) : list (list N * list N) :=
  if str_truthy s then
    map (fun p => (form_decode (split_eq p).1, form_decode (split_eq p).2)) (split_on 38 s)
  else [].

Lemma unhex_upper n : (n < 16)%N -> unhex (hex_upper n) = n.
Proof. intros Hn. unfold unhex, hex_upper. destruct (n <? 10)%N eqn:E; case_match; bool_lia. Qed.

Lemma form_byte_decode b r : byte b -> form_decode (form_byte b ++ r) = b :: form_decode r.
Proof.
  unfold byte. intros Hb. unfold form_byte. destruct (form_safe b) eqn:Hs.
  - cbn. assert (b <> 43 /\ b <> 37)%N as [H1 H2] by (split; intros ->; done).
    by rewrite (proj2 (N.eqb_neq _ _) H1), (proj2 (N.eqb_neq _ _) H2).
  - destruct (b =? 32)%N eqn:E; [apply N.eqb_eq in E as ->; done|].
    cbn [app form_decode N.eqb Pos.eqb]. rewrite !unhex_upper by div_lia. f_equal. div_lia.
Qed.

(** The encoding uses neither of the two separators. *)
Lemma form_byte_clean b : byte b -> Forall (fun c => c <> 38%N /\ c <> 61%N) (form_byte b).
Proof.
  unfold byte. intros Hb. unfold form_byte. destruct (form_safe b) eqn:Hs.
  - apply Forall_singleton. split; intros ->; done.
  - destruct (b =? 32)%N; [repeat constructor; done|].
    assert (forall n, (n < 16)%N -> hex_upper n <> 38%N /\ hex_upper n <> 61%N) as Hh.
    { intros n Hn. unfold hex_upper. destruct (n <? 10)%N eqn:E; bool_lia. }
    constructor; [done|]. constructor; [apply Hh; div_lia|]. constructor; [apply Hh; div_lia|done].
Qed.

Lemma utf8_bytes s : Forall unit16 s -> Forall byte (utf8_encode s).
Proof.
  unfold unit16, byte. intros Hs. remember (length s) as n eqn:Hn.
  assert (length s <= n) as Hle by lia. clear Hn. revert s Hs Hle.
  induction n as [|n IH]; intros [|c r] Hs Hle; cbn [utf8_encode length] in *; try done; try lia.
  apply Forall_cons_1 in Hs as [Hc Hr].
  assert (Forall (fun x => (x < 256)%N) (utf8_encode r)) as IHr by (apply IH; [done|lia]).
  destruct (c <? 128)%N eqn:E1; [constructor; [bool_lia|done]|].
  destruct (c <? 2048)%N eqn:E2.
  { reflect_bool. repeat (apply Forall_cons_2); try done; div_lia. }
  destruct (is_high c) eqn:Eh.
  - destruct r as [|d r']; [by repeat constructor|].
    destruct (is_low d) eqn:El; [|by repeat constructor].
    apply Forall_cons_1 in Hr as [Hd Hr]. cbn [length] in Hle.
    assert (Forall (fun x => (x < 256)%N) (utf8_encode r')) as IHr' by (apply IH; [done|lia]).
    unfold is_high, is_low in *. reflect_bool.
    repeat (apply Forall_cons_2); try done; div_lia.
  - destruct (is_low c); [by repeat constructor|].
    repeat (apply Forall_cons_2); try done; div_lia.
Qed.

Lemma form_decode_encode s : Forall unit16 s -> form_decode (form_encode s) = utf8_encode s.
Proof.
  intros Hs. apply utf8_bytes in Hs. unfold form_encode.
  induction Hs as [|b l Hb _ IH]; [done|]. cbn [map concat]. by rewrite form_byte_decode, IH.
Qed.

Lemma form_encode_clean s : Forall unit16 s -> Forall (fun c => c <> 38%N /\ c <> 61%N) (form_encode s).
Proof.
  intros Hs. apply utf8_bytes in Hs. unfold form_encode.
  induction Hs as [|b l Hb _ IH]; [constructor|]. cbn [map concat].
  apply Forall_app. split; [by apply form_byte_clean|done].
Qed.

Lemma split_eq_first k v : Forall (fun c => c <> 61%N) k -> split_eq (k ++ 61%N :: v) = (k, v).
Proof.
  induction 1 as [|c k Hc _ IH]; [done|]. cbn. rewrite (proj2 (N.eqb_neq _ _) Hc). by rewrite IH.
Qed.

Lemma split_join_on c l : l <> [] -> Forall (fun s => c ∉ s) l -> split_on c (join [c] l) = l.
Proof.
  intros Hne Hl. induction Hl as [|s l Hs Hl IH]; [done|].
  destruct l as [|v l]; [by apply split_on_none|].
  change (split_on c (s ++ c :: join [c] (v :: l)) = s :: v :: l).
  rewrite split_on_first, IH; done.
Qed.

Definition param_text (kv : jsstr * jsstr) : jsstr :=
  form_encode kv.1 ++ js "=" ++ form_encode kv.2.

Lemma param_clean kv :
  Forall unit16 kv.1 -> Forall unit16 kv.2 -> 38%N ∉ param_text kv.
Proof.
  intros Hk Hv. unfold param_text.
  assert (forall s, Forall unit16 s -> 38%N ∉ form_encode s) as Hc.
  { intros s Hs%form_encode_clean Hin. rewrite Forall_forall in Hs. by apply Hs in Hin as [? _]. }
  change (js "=") with [61%N]. rewrite !not_elem_of_app. split_and!; [by apply Hc|set_solver|by apply Hc].
Qed.

Lemma parse_query_text params :
  Forall (fun kv => Forall unit16 kv.1 /\ Forall unit16 kv.2) params ->
  parse_query (query_text params) = map (fun kv => (utf8_encode kv.1, utf8_encode kv.2)) params.
Proof.
  intros Hp. unfold query_text. fold param_text. change (js "&") with [38%N].
  destruct params as [|kv params]; [done|]. unfold parse_query.
  assert (str_truthy (join [38%N] (map param_text (kv :: params))) = true) as ->.
  { apply join_cons_truthy. unfold param_text. by destruct (form_encode kv.1). }
  rewrite split_join_on; [|done|].
  - rewrite map_map. apply map_ext_in. intros x Hx. rewrite <- list_elem_of_In in Hx.
    rewrite Forall_forall in Hp. destruct (Hp x Hx) as [H1 H2].
    unfold param_text. change (js "=") with [61%N]. cbn [app]. rewrite split_eq_first.
    + cbn. by rewrite !form_decode_encode.
    + eapply Forall_impl; [by apply form_encode_clean|]. by intros c [_ ?].
  - apply Forall_map. eapply Forall_impl; [exact Hp|]. intros x [H1 H2]. by apply param_clean.
Qed.

Lemma form_unit16_num z : Forall unit16 (num_to_string z).
Proof.
  assert (forall n, Forall unit16 (digits_of_N n)) as Hd.
  { intros n. eapply Forall_impl; [apply digits_of_N_digits|]. intros c Hc.
    unfold is_digit, unit16 in *. bool_lia. }
  destruct z; try apply Hd. constructor; [done|apply Hd].
Qed.

Definition filters_unit16 (f : SessionFilters) : Prop :=
  Forall (fun o => Forall unit16 (default [] o))
    [identifier f; service_name f; environment f; start_date f; end_date f].

Lemma filter_params_unit16 f :
  filters_unit16 f -> Forall (fun kv => Forall unit16 kv.1 /\ Forall unit16 kv.2) (filter_params f).
Proof.
  unfold filters_unit16. intros Hf. repeat (apply Forall_cons_1 in Hf as [? Hf]).
  assert (forall k v, Forall unit16 k -> Forall unit16 (default [] v) ->
    Forall (fun kv => Forall unit16 kv.1 /\ Forall unit16 kv.2) (set_text k v)) as Ht.
  { intros k [v|] Hk Hv; cbn; [|done]. destruct (str_truthy v); by repeat constructor. }
  assert (forall k v, Forall unit16 k ->
    Forall (fun kv => Forall unit16 kv.1 /\ Forall unit16 kv.2) (set_number k v)) as Hn.
  { intros k [n|] Hk; cbn; [|done]. destruct (n =? 0)%Z; [done|].
    apply Forall_singleton. split; [done|apply form_unit16_num]. }
  unfold filter_params. repeat (apply Forall_app; split); (apply Ht || apply Hn); try done;
    apply (bool_decide_unpack _); vm_compute; exact I.
Qed.

(** ** The outcomes of a call *)

(** The authenticated endpoints. *)
Inductive endpoint :=
  | Delete (id : jsstr) | Events (id : jsstr) | FailedIngests | RetryAll | One (id : jsstr)
  | List (filters : SessionFilters) | Share (id : jsstr) | Stats.

Section outcomes.
Context `{JsonEngine} `{Network} (VITE_API_URL : option jsstr).

Definition call (e : endpoint) : SM Web jsval :=
  match e with
  | Delete id => let! _ := deleteSession VITE_API_URL id in sm_ret JUndef
  | Events id => getSessionEvents VITE_API_URL id
  | FailedIngests => listFailedIngest VITE_API_URL
  | RetryAll => retryAllFailed VITE_API_URL
  | One id => getSession VITE_API_URL id
  | List f => listSessions VITE_API_URL f
  | Share id => createShareLink VITE_API_URL id
  | Stats => getStats VITE_API_URL
  end.

(** The path, the method and the failure message of each. *)
Definition route (e : endpoint) : jsstr * jsstr * jsstr :=
  let sessions := js "/v1/sessions" in
  match e with
  | Delete id => (js "DELETE", sessions ++ js "/" ++ id, js "Failed to delete session")
  | Events id => (js "GET", sessions ++ js "/" ++ id ++ js "/events", js "Failed to fetch events")
  | FailedIngests => (js "GET", js "/v1/failed-ingest", js "Failed to fetch failed ingests")
  | RetryAll => (js "POST", js "/v1/failed-ingest/retry-all", js "Failed to retry")
  | One id => (js "GET", sessions ++ js "/" ++ id, js "Session not found")
  | List f => (js "GET", sessions ++ js "?" ++ query_text (filter_params f), js "Failed to fetch sessions")
  | Share id => (js "POST", sessions ++ js "/" ++ id ++ js "/share", js "Failed to create share link")
  | Stats => (js "GET", js "/v1/stats", js "Failed to fetch stats")
  end.

(** What the body of a successful response becomes. *)
Definition decoded (e : endpoint) (r : Response) : res jsval :=
  match e with
  | Delete _ => Ok JUndef
  | _ =>
    match json_parse (text r) with
    | None => Throw SyntaxError
    | Some v => match e with Share _ => prop (js "token") v | _ => Ok v end
    end
  end.

(** The request a signed-in or signed-out browser sends. *)
Definition request_for (e : endpoint) (b : Browser) : HttpRequest :=
  let '(m, path, _) := route e in
  mkRequest ((VITE_API_URL ?? []) ++ path) m
    match getToken b with
    | Some t => if str_truthy t then {[js "Authorization" := js "Bearer " ++ t]} else ∅
    | None => ∅
    end None.

Lemma fetchWithAuth_outcomes url init w :
  headers init = ∅ -> body init = None ->
  let auth := match getToken (browser w) with
              | Some t => if str_truthy t then {[js "Authorization" := js "Bearer " ++ t]} else ∅
              | None => ∅
              end in
  let q := mkRequest url (method init ?? js "GET") auth None in
  fetchWithAuth url init w =
  match respond q with
  | None => (mkWeb (browser w) (requests w ++ [q]), Throw TypeError)
  | Some r =>
    if (status r =? 401)%Z
    then (mkWeb (set_location (js "/login") (clearAuth (browser w))) (requests w ++ [q]),
          Throw (Error (js "Unauthorized")))
    else (mkWeb (browser w) (requests w ++ [q]), Ok r)
  end.
Proof.
  intros Hh Hb auth q. unfold fetchWithAuth, sm_bind, sm_reads, fetch. rewrite Hh, Hb.
  fold auth. rewrite (left_id_L ∅ (∪)). fold q. destruct (respond q) as [r|]; [|done].
  by destruct (status r =? 401)%Z.
Qed.

(** ** Properties *)

(** C12: every authenticated call sends exactly one request, with the user's token when there
    is one, and ends in one of four ways: the network failed; the server said 401, and
    the user is signed out and sent to the login page; the server refused, and the call
    throws its message; or the decoded body is returned. Only a 401 changes the browser. *)
Theorem endpoint_outcomes e w :
  let q := request_for e (browser w) in
  let w' := mkWeb (browser w) (requests w ++ [q]) in
  call e w =
  match respond q with
  | None => (w', Throw TypeError)
  | Some r =>
    if (status r =? 401)%Z
    then (mkWeb (set_location (js "/login") (clearAuth (browser w))) (requests w ++ [q]),
          Throw (Error (js "Unauthorized")))
    else if ok r then (w', decoded e r) else (w', Throw (Error (route e).2))
  end.
Proof.
  assert (forall r w', json r w' =
    (w', match json_parse (text r) with Some v => Ok v | None => Throw SyntaxError end)) as Hj
    by (intros r w'; unfold json; by destruct (json_parse (text r))).
  destruct e; cbn zeta; cbn [call];
    unfold deleteSession, getSessionEvents, listFailedIngest, retryAllFailed, getSession,
      listSessions, createShareLink, getStats, base, request_for, sm_bind;
    cbn [route fst snd]; rewrite fetchWithAuth_outcomes by reflexivity;
    cbn [method with_method no_init default from_option Datatypes.id];
    (destruct (respond _) as [r|]; [|reflexivity]);
    (destruct (status r =? 401)%Z; [reflexivity|]);
    unfold expect_ok; (destruct (ok r); [|reflexivity]);
    cbn [sm_ret]; rewrite ?Hj; cbn [decoded];
    destruct (json_parse (text r)); reflexivity.
Qed.

(** A filter that is set, the name it is sent under and its text: an empty string and the
    number zero are not sent. *)
Inductive sent (f : SessionFilters) : jsstr -> jsstr -> Prop :=
  | sent_identifier s : identifier f = Some s -> s <> [] -> sent f (js "identifier") s
  | sent_service_name s : service_name f = Some s -> s <> [] -> sent f (js "service_name") s
  | sent_environment s : environment f = Some s -> s <> [] -> sent f (js "environment") s
  | sent_start_date s : start_date f = Some s -> s <> [] -> sent f (js "start_date") s
  | sent_end_date s : end_date f = Some s -> s <> [] -> sent f (js "end_date") s
  | sent_limit n : limit f = Some n -> n <> 0%Z -> sent f (js "limit") (num_to_string n)
  | sent_offset n : offset f = Some n -> n <> 0%Z -> sent f (js "offset") (num_to_string n).

Lemma in_set_text k v x y :
  (x, y) ∈ set_text k v <-> x = k /\ v = Some y /\ y <> [].
Proof.
  destruct v as [[|c s]|]; cbn.
  - rewrite elem_of_nil. naive_solver.
  - rewrite list_elem_of_singleton. naive_solver.
  - rewrite elem_of_nil. naive_solver.
Qed.

Lemma in_set_number k v x y :
  (x, y) ∈ set_number k v <-> x = k /\ exists n, v = Some n /\ n <> 0%Z /\ y = num_to_string n.
Proof.
  destruct v as [n|]; cbn; [|rewrite elem_of_nil; naive_solver].
  destruct (Z.eqb_spec n 0); rewrite ?elem_of_nil, ?list_elem_of_singleton; naive_solver.
Qed.

Lemma filter_params_sent f k v : (k, v) ∈ filter_params f <-> sent f k v.
Proof.
  unfold filter_params. rewrite !elem_of_app, !in_set_text, !in_set_number. split.
  - intros Hk. destruct_or?; destruct_and?; subst;
      try match goal with H : exists _, _ |- _ => destruct H as (n & Hn & Hz & ->) end;
      by constructor.
  - destruct 1; subst; eauto 12.
Qed.

Lemma sublist_map {A B} (g : A -> B) l k : l `sublist_of` k -> map g l `sublist_of` map g k.
Proof. induction 1; by constructor. Qed.

(** The names are among these, in this order. *)
Lemma filter_params_keys f : NoDup (map utf8_encode (filter_params f).*1).
Proof.
  apply (sublist_NoDup _ (map utf8_encode [js "identifier"; js "service_name"; js "environment";
    js "start_date"; js "end_date"; js "limit"; js "offset"]));
    [apply (bool_decide_unpack _); vm_compute; exact I|].
  apply sublist_map. unfold filter_params. rewrite !fmap_app.
  change [js "identifier"; js "service_name"; js "environment"; js "start_date"; js "end_date";
          js "limit"; js "offset"] with
    ([js "identifier"] ++ [js "service_name"] ++ [js "environment"] ++ [js "start_date"]
     ++ [js "end_date"] ++ [js "limit"] ++ [js "offset"]).
  assert (forall k v, (set_text k v).*1 `sublist_of` [k]) as Ht
    by (intros k [[|c s]|]; cbn; auto using sublist_nil_l).
  assert (forall k v, (set_number k v).*1 `sublist_of` [k]) as Hn
    by (intros k [n|]; cbn; [destruct (n =? 0)%Z|]; cbn; auto using sublist_nil_l).
  repeat (apply sublist_app; [by apply Ht|]). apply sublist_app; apply Hn.
Qed.

(** C24: the list of sessions is asked for in one request to /v1/sessions, from whose query
    string the server reads exactly the filters that are set, each under its own name and
    once: the five texts when they are not empty, byte for byte in UTF-8 whatever characters
    they hold, and limit and offset in decimal when they are not zero. *)
Theorem listSessions_query f w :
  filters_unit16 f ->
  exists q query,
    requests (listSessions VITE_API_URL f w).1 = requests w ++ [q] /\
    r_url q = (VITE_API_URL ?? []) ++ js "/v1/sessions?" ++ query /\
    NoDup (map fst (parse_query query)) /\
    forall name value, (name, value) ∈ parse_query query <->
      exists k v, sent f k v /\ name = utf8_encode k /\ value = utf8_encode v.
Proof.
  intros Hf.
  eexists (mkRequest ((VITE_API_URL ?? []) ++ js "/v1/sessions?" ++ query_text (filter_params f)) _ _ _), _.
  split; [|split; [reflexivity|]].
  - unfold listSessions, base, sm_bind at 1. rewrite fetchWithAuth_outcomes by reflexivity.
    destruct (respond _) as [r|]; [|reflexivity]. destruct (status r =? 401)%Z; [reflexivity|].
    unfold expect_ok, json. destruct (ok r); [|reflexivity].
    unfold sm_bind, sm_ret. by destruct (json_parse (text r)).
  - rewrite parse_query_text by (by apply filter_params_unit16). split.
    + rewrite map_map. cbn. rewrite <- (map_map fst utf8_encode). apply filter_params_keys.
    + intros name value. rewrite list_elem_of_fmap. split.
      * intros ([k v] & [= -> ->] & Hkv). apply filter_params_sent in Hkv. eauto.
      * intros (k & v & Hs & -> & ->). exists (k, v). by rewrite filter_params_sent.
Qed.

(** The share page and the login never send the user's token, and they change nothing in
    the browser: a visitor with a link stays anonymous, signed in or not. *)
Theorem public_anonymous m w :
  (exists t, m = getPublicSession VITE_API_URL t) \/
  (exists t, m = getPublicSessionEvents VITE_API_URL t) \/
  (exists e p, m = login VITE_API_URL e p) ->
  exists q r, m w = (mkWeb (browser w) (requests w ++ [q]), r) /\
    r_headers q !! js "Authorization" = None.
Proof.
  assert (forall url init hs (msg : jsstr), hs !! js "Authorization" = None ->
    exists q r,
    sm_bind (fetch url init hs) (fun res => sm_bind (expect_ok msg res) (fun _ => json res)) w =
      (mkWeb (browser w) (requests w ++ [q]), r) /\ r_headers q !! js "Authorization" = None) as Hm.
  { intros url init hs msg Hhs. unfold sm_bind, fetch, expect_ok, json, sm_ret, sm_throw.
    destruct (respond _) as [r|]; [|by eexists _, _].
    destruct (ok r); [|by eexists _, _]. destruct (json_parse (text r)); by eexists _, _. }
  intros [[t ->]|[[t ->]|(e & p & ->)]]; apply Hm; done.
Qed.
End outcomes.

(** ** Witnesses *)

Definition demo_network : Network := fun q =>
  Some {| status := 200; text := js "{}" |}.

Lemma listSessions_query_witness :
  let f := mkFilters (Some (js "joão & maria=?")) None (Some (js "staging")) None None (Some 20%Z) (Some 40%Z) in
  let w := mkWeb (demo_signed_in (js "ana@example.com")) [] in
  exists q query,
    requests (@listSessions json_engine demo_network None f w).1 = requests w ++ [q] /\
    r_url q = [] ++ js "/v1/sessions?" ++ query /\
    NoDup (map fst (parse_query query)) /\
    forall name value, (name, value) ∈ parse_query query <->
      exists k v, sent f k v /\ name = utf8_encode k /\ value = utf8_encode v.
Proof.
  apply (@listSessions_query json_engine demo_network None
    (mkFilters (Some (js "joão & maria=?")) None (Some (js "staging"))
      None None (Some 20%Z) (Some 40%Z)) (mkWeb (demo_signed_in (js "ana@example.com")) [])).
  apply (bool_decide_unpack _). vm_compute. exact I.
Defined.

Lemma public_anonymous_witness :
  let w := mkWeb (demo_signed_in (js "ana@example.com")) [] in
  exists q r, @getPublicSession json_engine demo_network None (js "tok") w
      = (mkWeb (browser w) (requests w ++ [q]), r) /\
    r_headers q !! js "Authorization" = None.
Proof.
  apply (@public_anonymous json_engine demo_network None
    (@getPublicSession json_engine demo_network None (js "tok"))
    (mkWeb (demo_signed_in (js "ana@example.com")) [])).
  left. by exists (js "tok").
Defined.
