(* ===== verification/Queries.v ===== *)
(** * The query hooks: packages/dashboard/src/queries/sessions.ts

    Each hook gives the cache a key, a call and when to make it; a mutation says which
    keys it invalidates. The cache is TanStack Query's: of it, only the documented
    matching of keys is used, by which a key invalidates the keys it is a prefix of. *)

From S2P Require Import Prelude Decimal JsValue Json Auth Http.

Inductive KeyPart := Name (s : jsstr) | Filters (f : SessionFilters).
Notation QueryKey := (list KeyPart).

#[export] Instance SessionFilters_eq_dec : EqDecision SessionFilters.
Proof. solve_decision. Defined.
#[export] Instance KeyPart_eq_dec : EqDecision KeyPart.
Proof. solve_decision. Defined.

Section queries.
Context `{JsonEngine} `{Network} (VITE_API_URL : option jsstr).

Record Query := mkQuery {
  queryKey : QueryKey;
  queryFn : SM Web jsval;
  enabled : bool;
  refetchInterval : option Z
}.

Record Mutation (A : Type) := mkMutation {
  mutationFn : A -> SM Web jsval;
  invalidates : list QueryKey       (* by [onSuccess] *)
}.
Arguments mkMutation {A}.
Arguments mutationFn {A}.
Arguments invalidates {A}.

Definition useStats : Query :=
  mkQuery [Name (js "stats")] (getStats VITE_API_URL) true (Some 30000%Z).

Definition useSessions (filters : SessionFilters) : Query :=
  mkQuery [Name (js "sessions"); Filters filters] (listSessions VITE_API_URL filters) true None.

Definition useSession (id : jsstr) : Query :=
  mkQuery [Name (js "session"); Name id] (getSession VITE_API_URL id) (str_truthy id) None.

Definition useSessionEvents (id : jsstr) : Query :=
  mkQuery [Name (js "session-events"); Name id] (getSessionEvents VITE_API_URL id)
    (str_truthy id) None.

Definition useCreateShareLink : Mutation jsstr := mkMutation (createShareLink VITE_API_URL) [].

Definition useDeleteSession : Mutation jsstr :=
  mkMutation (fun id => let! _ := deleteSession VITE_API_URL id in sm_ret JUndef)
    [[Name (js "sessions")]; [Name (js "stats")]].

Definition usePublicSession (token : jsstr) : Query :=
  mkQuery [Name (js "public-session"); Name token] (getPublicSession VITE_API_URL token)
    (str_truthy token) None.

Definition usePublicSessionEvents (token : jsstr) : Query :=
  mkQuery [Name (js "public-session-events"); Name token]
    (getPublicSessionEvents VITE_API_URL token) (str_truthy token) None.

Definition useFailedIngest : Query :=
  mkQuery [Name (js "failed-ingest")] (listFailedIngest VITE_API_URL) true (Some 30000%Z).

Definition useRetryAllFailed : Mutation unit :=
  mkMutation (fun _ => retryAllFailed VITE_API_URL)
    [[Name (js "failed-ingest")]; [Name (js "sessions")]].

(** [prefix] matching of keys. *)
Definition matches (k q : QueryKey) : bool := bool_decide (k `prefix_of` q).

Definition stale {A} (m : Mutation A) (q : Query) : bool :=
  existsb (fun k => matches k (queryKey q)) (invalidates m).

(** Deleting a session refreshes every list of sessions and the figures, and nothing it
    did not touch; a cached copy of the deleted session itself is kept. *)
Lemma delete_refreshes f id :
  stale useDeleteSession (useSessions f) = true /\ stale useDeleteSession useStats = true /\
  stale useDeleteSession (useSession id) = false /\
  stale useDeleteSession (useSessionEvents id) = false /\
  stale useDeleteSession useFailedIngest = false.
Proof. split_and!; by_eval. Qed.

(** A retry refreshes the failed batches and the lists, but not the figures, which hold a
    count of failed batches too: that count waits for the next interval. *)
Lemma retry_refreshes f :
  stale useRetryAllFailed useFailedIngest = true /\ stale useRetryAllFailed (useSessions f) = true /\
  stale useRetryAllFailed useStats = false.
Proof. split_and!; by_eval. Qed.

(** No two hooks share a key, so no two calls overwrite each other's answers. *)
Lemma keys_distinct f g id tok :
  NoDup [queryKey useStats; queryKey (useSessions f); queryKey (useSession id);
         queryKey (useSessionEvents id); queryKey (usePublicSession tok);
         queryKey (usePublicSessionEvents tok); queryKey useFailedIngest] /\
  (queryKey (useSessions f) = queryKey (useSessions g) -> f = g).
Proof.
  split; [|by intros [= ->]].
  apply (NoDup_fmap_1 head). apply (bool_decide_unpack _). vm_compute. exact I.
Qed.
End queries.
