(* ===== verification/Pages.v ===== *)
(** * The dashboard's pages: packages/dashboard/src/routes, components, lib/theme.ts

    The logic of the pages, one module each: what their handlers do to the address,
    the form, the storage and the cache. The markup is in the View files. *)

From S2P Require Import Prelude Decimal JsValue Json Auth Http Incident.

(** ** routes/app/_layout/sessions.tsx *)

Module SessionsPage.
Definition LIMIT : Z := 20.

(** The search parameters of the address; [page] has a default. The schema's z.number() lets
    fractions through as well ([?page=1.5]), for which the arithmetic of the page would be
    that of doubles: the addresses the page itself makes have integral pages, and so have the
    ones modelled here. *)
Record Search := mkSearch {
  identifier : option jsstr;
  service_name : option jsstr;
  environment : option jsstr;
  page : Z
}.

Record State := mkState {
  search : Search;
  form_identifier : jsstr;
  form_serviceName : jsstr;
  form_environment : jsstr;
  showFilters : bool;
  total : Z                    (* [data?.total ?? 0] *)
}.

(** The page as it is first rendered for an address. *)
Definition open (s : Search) : State :=
  mkState s (identifier s ?? []) (service_name s ?? []) (environment s ?? []) false 0.

Definition offset (s : State) : Z := ((page (search s) - 1) * LIMIT)%Z.

(** The filters the sessions query is made with. *)
Definition query (s : State) : SessionFilters :=
  mkFilters (identifier (search s)) (service_name (search s)) (environment (search s))
    None None (Some LIMIT) (Some (offset s)).

(** [Math.ceil(total / LIMIT)] *)
Definition totalPages (s : State) : Z := (- (- total s / LIMIT))%Z.

Definition or_undefined (s : jsstr) : option jsstr := if str_truthy s then Some s else None.

Definition set_search (x : Search) (s : State) : State :=
  mkState x (form_identifier s) (form_serviceName s) (form_environment s) (showFilters s) (total s).
Definition set_page (p : Z) (s : State) : State :=
  set_search (mkSearch (identifier (search s)) (service_name (search s))
                (environment (search s)) p) s.

Definition applyFilters (s : State) : State :=
  set_search (mkSearch (or_undefined (form_identifier s)) (or_undefined (form_serviceName s))
                (or_undefined (form_environment s)) 1) s.

Definition clearFilters (s : State) : State :=
  mkState (mkSearch None None None 1) [] [] [] (showFilters s) (total s).

Definition given (o : option jsstr) : bool :=
  match o with Some v => str_truthy v | None => false end.

Definition hasActiveFilters (s : State) : bool :=
  given (identifier (search s)) || given (service_name (search s))
  || given (environment (search s)).

(** The two links, which are rendered when there is more than one page and take no clicks on
    the first and on the last page. *)
Definition previous (s : State) : State :=
  if ((1 <? totalPages s) && negb (page (search s) <=? 1))%Z
  then set_page (Z.max 1 (page (search s) - 1)) s else s.
Definition next (s : State) : State :=
  if ((1 <? totalPages s) && negb (totalPages s <=? page (search s)))%Z
  then set_page (Z.min (totalPages s) (page (search s) + 1)) s else s.

Inductive input :=
  | TypeIdentifier (v : jsstr) | TypeService (v : jsstr) | PickEnvironment (v : jsstr)
  | ToggleFilters | Apply | Clear | Previous | Next
  | Loaded (total : Z).        (* the query's answer *)

Definition step (i : input) (s : State) : State :=
  match i with
  | TypeIdentifier v =>
    mkState (search s) v (form_serviceName s) (form_environment s) (showFilters s) (total s)
  | TypeService v =>
    mkState (search s) (form_identifier s) v (form_environment s) (showFilters s) (total s)
  | PickEnvironment v =>
    mkState (search s) (form_identifier s) (form_serviceName s) v (showFilters s) (total s)
  | ToggleFilters =>
    mkState (search s) (form_identifier s) (form_serviceName s) (form_environment s)
      (negb (showFilters s)) (total s)
  | Apply => if showFilters s then applyFilters s else s
  | Clear => if hasActiveFilters s then clearFilters s else s
  | Previous => previous s
  | Next => next s
  | Loaded n =>
    mkState (search s) (form_identifier s) (form_serviceName s) (form_environment s)
      (showFilters s) n
  end.

Definition run (t : list input) (s : State) : State := fold_left (fun s i => step i s) t s.

Definition formatDuration (ms : option Z) : jsstr :=
  match ms with
  | None => js "—"
  | Some ms =>
    if (ms =? 0)%Z then js "—"
    else if (ms <? 1000)%Z then num_to_string ms ++ js "ms"
    else if (ms <? 60000)%Z then Format.seconds_fixed1 ms ++ js "s"
    else num_to_string (ms / 60000) ++ js "m " ++ num_to_string ((ms mod 60000) / 1000) ++ js "s"
  end.
End SessionsPage.

(** ** routes/app/_layout/sessions_.$id.tsx *)

Module PlayerPage.
Record Device := mkDevice {
  browser : jsstr;
  browser_version : jsstr;
  os : jsstr;
  screen_width : Z;
  screen_height : Z;
  viewport_width : Z;
  viewport_height : Z;
  device_pixel_ratio : dec;
  language : jsstr;
  timezone : jsstr
}.

(** [if (v)] on a number. *)
Definition nonzero (n : Z) : bool := negb (n =? 0)%Z.

Definition size_text (w h : Z) : jsstr := num_to_string w ++ js "×" ++ num_to_string h.

(** The labels of [DeviceMeta], or nothing when it renders nothing. *)
Definition DeviceMeta (d : Device) : option (list jsstr) :=
  let hasMeta := str_truthy (browser d) || str_truthy (os d) || nonzero (screen_width d)
                 || str_truthy (language d) || str_truthy (timezone d) in
  if negb hasMeta then None
  else
    let one (b : bool) (l : jsstr) := if b then [l] else [] in
    let dpr :=
      if negb (mant (device_pixel_ratio d) =? 0)%Z
         && negb (bool_decide (device_pixel_ratio d = dec_of_Z 1))
      then js " @" ++ dec_to_string (device_pixel_ratio d) ++ js "x" else [] in
    Some (
      one (str_truthy (browser d))
        (if str_truthy (browser_version d)
         then browser d ++ js " " ++ split_head 46 (browser_version d) else browser d)
      ++ one (str_truthy (os d)) (os d)
      ++ one (nonzero (screen_width d) && nonzero (screen_height d))
           (size_text (screen_width d) (screen_height d) ++ dpr)
      ++ one (nonzero (viewport_width d) && nonzero (viewport_height d))
           (size_text (viewport_width d) (viewport_height d) ++ js " viewport")
      ++ one (str_truthy (language d)) (language d)
      ++ one (str_truthy (timezone d)) (timezone d)).

(** [seekTo]: the offset given to the player. *)
Definition seekTo (firstTs ts : Z) : Z := Z.max 0 (ts - firstTs).
End PlayerPage.

(** ** lib/theme.ts *)

Module ThemeToggle.
Definition STORAGE_KEY : jsstr := js "batrewind-theme".

(** The storage and the classes of the document's root element. *)
Record Page := mkPage { store : gmap jsstr jsstr; classes : gset jsstr }.

Definition getStoredTheme (p : Page) : jsstr := store p !! STORAGE_KEY ?? js "dark".

Definition applyTheme (theme : jsstr) (p : Page) : Page :=
  mkPage (<[STORAGE_KEY := theme]> (store p))
         (classes p ∖ {[js "dark"; js "light"]} ∪ {[theme]}).

Definition toggleTheme (p : Page) : Page * jsstr :=
  let next := if decide (getStoredTheme p = js "dark") then js "light" else js "dark" in
  (applyTheme next p, next).
End ThemeToggle.

(** ** routes/login.tsx, routes/index.tsx, routes/app/_layout.tsx, components/header.tsx *)

Section sign_in.
Context `{JsonEngine} `{Network} (VITE_API_URL : option jsstr).

(** The state of the form; [email] and [password] are its fields. *)
Record LoginForm := mkForm { email : jsstr; password : jsstr; error : jsstr; loading : bool }.

(** What the [try] block does: ask the server, store its answer, go to the dashboard.
    [setItem] makes text of the token it is given. *)
Definition sign_in (email password : jsstr) : SM Web unit :=
  let! answer := login VITE_API_URL email password in
  let! token := sm_lift (prop (js "token") answer) in
  let! user := sm_lift (prop (js "user") answer) in
  let! text := sm_lift (to_string token) in
  let! _ := on_browser (setAuth text user) in
  on_browser (set_location (js "/app")).

Definition handleSubmit (f : LoginForm) (w : Web) : LoginForm * Web :=
  match sign_in (email f) (password f) w with
  | (w', Ok _) => (mkForm (email f) (password f) [] false, w')
  | (w', Throw _) =>
    (mkForm (email f) (password f) (js "Invalid email or password.") false, w')
  end.

(** [beforeLoad] of every page under [/app]: the page loads, or the user is redirected. *)
Definition app_guard (b : Browser) : Browser * bool :=
  let '(b', authed) := isAuthenticated b in
  if authed then (b', true) else (set_location (js "/login") b', false).

(** [beforeLoad] of [/]. *)
Definition index_redirect (b : Browser) : Browser :=
  let '(b', authed) := isAuthenticated b in
  set_location (if authed then js "/app" else js "/login") b'.

Definition handleLogout (b : Browser) : Browser := set_location (js "/login") (clearAuth b).
End sign_in.
