(* ===== verification/PagesProps.v ===== *)
(** * The dashboard's pages: properties

    Paging, seeking, the theme, the login form and the guards of the routes. *)

From S2P Require Import Prelude Decimal JsValue Json Auth AuthProps Http HttpProps.
From S2P Require Import Timeline TimelineProps Format Incident Pages.
From stdpp Require Import sorting.

(** ** The list of sessions *)

Section sessions_page.
Import SessionsPage.

(** The rows a server answers a query with, of all the rows that match its filters. *)
Definition served {A} (f : SessionFilters) (rows : list A) : list A :=
  take (Z.to_nat (limit f ?? 0%Z)) (drop (Z.to_nat (Http.offset f ?? 0%Z)) rows).

Lemma chunked {A} (n : nat) (rows : list A) (k : nat) :
  concat (map (fun i => take n (drop (i * n) rows)) (seq 0 k)) = take (k * n) rows.
Proof.
  induction k as [|k IH]; [done|].
  rewrite seq_S, map_app, concat_app, IH. cbn [map concat Nat.add]. rewrite app_nil_r.
  replace (S k * n) with (k * n + n) by lia. by rewrite take_take_drop.
Qed.

Lemma totalPages_enough s : (0 <= total s)%Z -> (total s <= totalPages s * LIMIT)%Z.
Proof. unfold totalPages, LIMIT. intros. div_lia. Qed.

Lemma step_page i s : (1 <= page (search s))%Z -> (1 <= page (search (step i s)))%Z.
Proof.
  intros Hp. destruct i; cbn [step]; try done.
  - destruct (showFilters s); [cbn; lia|done].
  - destruct (hasActiveFilters s); [cbn; lia|done].
  - unfold previous. destruct (_ && _); [cbn; lia|done].
  - unfold next. destruct (_ && _) eqn:E; [cbn; bool_lia|done].
Qed.

(** Applying the form: the query carries its non-empty fields and starts at the first page. *)
Lemma apply_params s :
  showFilters s = true ->
  filter_params (query (step Apply s)) =
    set_text (js "identifier") (Some (form_identifier s))
    ++ set_text (js "service_name") (Some (form_serviceName s))
    ++ set_text (js "environment") (Some (form_environment s)) ++ [(js "limit", js "20")].
Proof.
  intros Hs. cbn [step]. rewrite Hs. unfold applyFilters, or_undefined.
  by destruct (form_identifier s), (form_serviceName s), (form_environment s).
Qed.

(** C25: the pages of the list show every matching session exactly once: the answers to the
    queries of pages 1 to [totalPages], one after the other, are all the rows. *)
Theorem paging_partition {A} (rows : list A) s :
  total s = Z.of_nat (length rows) ->
  concat (map (fun i => served (query (set_page (Z.of_nat i + 1) s)) rows)
              (seq 0 (Z.to_nat (totalPages s)))) = rows.
Proof.
  intros Ht. pose proof (totalPages_enough s ltac:(lia)) as Hle.
  rewrite (map_ext _ (fun i => take 20 (drop (i * 20) rows))).
  - rewrite chunked. apply take_ge. unfold LIMIT in Hle. lia.
  - intros i. unfold served, query, offset, LIMIT. cbn. f_equal. f_equal. lia.
Qed.

(** Once the page number of the address is at least 1, nothing the user does takes it out
    of range: it stays at least 1 whatever totals the server reports, the offset of the
    query is never negative, and a click on Next ends within the known pages. *)
Theorem page_bounds s t :
  (1 <= page (search s))%Z ->
  let s' := run t s in
  (1 <= page (search s'))%Z /\ (0 <= offset s')%Z /\
  ((page (search s') <= totalPages s')%Z ->
   (page (search (step Next s')) <= totalPages s')%Z /\
   (page (search (step Previous s')) <= totalPages s')%Z).
Proof.
  intros Hp. cbn zeta. unfold run.
  assert (1 <= page (search (fold_left (fun s i => step i s) t s)))%Z as Hr.
  { revert s Hp. induction t as [|i t IH]; intros s Hp; [done|]. cbn [fold_left].
    by apply IH, step_page. }
  set (s' := fold_left _ t s) in *. split; [done|]. split; [unfold offset, LIMIT; lia|].
  intros Hle. cbn [step]. unfold next, previous.
  split; (destruct (_ && _) eqn:E; [cbn; bool_lia|done]).
Qed.

(** An address with a smaller page asks the server for a negative offset. *)
Example negative_page :
  filter_params (query (open (mkSearch None None None 0))) =
    [(js "limit", js "20"); (js "offset", js "-20")].
Proof. by_eval. Qed.
End sessions_page.

(** ** The player *)

Lemma sorted_lookup (l : list Z) i j x y :
  StronglySorted Z.le l -> l !! i = Some x -> l !! j = Some y -> i <= j -> (x <= y)%Z.
Proof.
  intros Hs. revert i j. induction Hs as [|a r Hr IH Hf]; intros i j Hi Hj Hle; [done|].
  destruct j as [|j]; destruct i as [|i]; cbn in Hi, Hj; simplify_eq; try lia.
  - rewrite Forall_forall in Hf. apply Hf. by eapply list_elem_of_lookup_2.
  - apply (IH i j); [done|done|lia].
Qed.

(** Clicking an item of the timeline takes the player to the moment of the event the item
    was made from, within the length of the recording. *)
Theorem seek_in_replay events items x first last :
  buildTimeline events = Ok items -> x ∈ items ->
  StronglySorted Z.le (map ReplayEvent.timestamp events) ->
  head (map ReplayEvent.timestamp events) = Some first ->
  list.last (map ReplayEvent.timestamp events) = Some last ->
  exists e, events !! eventIndex x = Some e /\
    PlayerPage.seekTo first (timestamp x) = (ReplayEvent.timestamp e - first)%Z /\
    (0 <= PlayerPage.seekTo first (timestamp x) <= last - first)%Z.
Proof.
  intros Hb Hx Hs Hf Hl. unfold buildTimeline in Hb.
  destruct (indexNodes events) as [nodes|]; [|done]. cbn in Hb.
  pose proof (items_sound _ _ _ Hb) as Hi.
  rewrite Forall_forall in Hi. destruct (Hi x Hx) as (e & He & Ht). exists e.
  split; [done|]. unfold PlayerPage.seekTo. rewrite Ht.
  assert (map ReplayEvent.timestamp events !! eventIndex x = Some (ReplayEvent.timestamp e)) as Hm
    by (by rewrite list_lookup_fmap, He).
  rewrite head_lookup in Hf. rewrite last_lookup in Hl.
  pose proof (sorted_lookup _ _ _ _ _ Hs Hf Hm ltac:(lia)) as Hlo.
  pose proof (sorted_lookup _ _ _ _ _ Hs Hm Hl) as Hhi. apply lookup_lt_Some in Hm. lia.
Qed.

(** ** The theme *)

Section theme.
Import ThemeToggle.

Lemma swap_class (X : gset jsstr) a b t :
  t = a \/ t = b -> (X ∖ {[a; b]} ∪ {[t]}) ∩ {[a; b]} = {[t]}.
Proof. intros Ht. apply set_eq. intros x. set_unfold. destruct Ht; intuition congruence. Qed.

(** After a toggle the root has exactly the stored theme, and toggling again swaps it. *)
Lemma toggle_alternates p :
  let '(p1, t1) := toggleTheme p in
  let '(p2, t2) := toggleTheme p1 in
  getStoredTheme p1 = t1 /\ getStoredTheme p2 = t2 /\
  (t1 = js "light" /\ t2 = js "dark" \/ t1 = js "dark" /\ t2 = js "light") /\
  classes p1 ∩ {[js "dark"; js "light"]} = {[t1]}.
Proof.
  assert (forall t p, getStoredTheme (applyTheme t p) = t) as Hg
    by (intros; unfold getStoredTheme, applyTheme; cbn; by rewrite lookup_insert_eq).
  assert (js "light" <> js "dark") as Hne by done.
  unfold toggleTheme. rewrite !Hg.
  destruct (decide (getStoredTheme p = js "dark")) as [Hd|Hd];
    [rewrite decide_False by done|rewrite decide_True by done];
    (split; [done|]); (split; [done|]); (split; [auto|]); apply swap_class; auto.
Qed.
End theme.

(** ** Signing in *)

Section sign_in_props.
Context `{JsonEngine} `{Network} (VITE_API_URL : option jsstr).

Lemma login_keeps e p w w' r : login VITE_API_URL e p w = (w', r) -> browser w' = browser w.
Proof.
  unfold login, sm_bind, fetch, expect_ok, json, sm_ret, sm_throw.
  destruct (respond _) as [x|]; [|by intros [= <- _]].
  destruct (ok x); [|by intros [= <- _]]. destruct (json_parse (Http.text x)); by intros [= <- _].
Qed.

(** The server accepted the login [q], and its answer has this token and this user, as they
    are stored: [setItem] makes text of what it is given, [undefined] included. *)
Definition accepts (q : HttpRequest) (token user : jsstr) : Prop :=
  exists r v, respond q = Some r /\ (200 <= status r <= 299)%Z /\ json_parse (Http.text r) = Some v /\
    nullish v = false /\ to_string (opt_prop (js "token") v) = Ok token /\
    user = default (js "undefined") (stringify (opt_prop (js "user") v)).

Lemma accepts_login q e p w :
  q = mkRequest ((VITE_API_URL ?? []) ++ js "/v1/auth/login") (js "POST")
        {[js "Content-Type" := js "application/json"]}
        (Some (json_text (JObj [(js "email", JStr e); (js "password", JStr p)]))) ->
  exists w1 x, login VITE_API_URL e p w = (w1, x) /\ requests w1 = requests w ++ [q] /\
    match x with
    | Ok v => exists r, respond q = Some r /\ (200 <= status r <= 299)%Z /\ json_parse (Http.text r) = Some v
    | Throw _ => forall r v, respond q = Some r -> (200 <= status r <= 299)%Z ->
        json_parse (Http.text r) = Some v -> False
    end.
Proof.
  intros ->. eexists _, _. split; [apply surjective_pairing|].
  unfold login, sm_bind, fetch, expect_ok, json, sm_ret, sm_throw, base. cbn [method default from_option id].
  destruct (respond _) as [r|] eqn:Hr; [|split; [done|]; cbn; congruence].
  destruct (ok r) eqn:Ho; unfold ok in Ho.
  - destruct (json_parse (Http.text r)) as [v|] eqn:Hp; (split; [done|]); cbn.
    + exists r. split_and!; try done; bool_lia.
    + intros r' v [= <-] _. congruence.
  - split; [done|]. cbn. intros r' v [= <-] Hs _. apply andb_false_iff in Ho. bool_lia.
Qed.

(** C29: submitting the login form sends one request with the email and the password, keeps
    the fields, and ends in one of two ways, never leaving the form busy. When the server
    accepts, which is a status from 200 to 299 and JSON whose token can be made text, exactly
    that token and that user are stored, nothing else in the storage changes, and the user is
    sent to the dashboard; otherwise the error is shown and the browser is exactly as before. *)
Theorem login_atomic f w :
  let q := mkRequest ((VITE_API_URL ?? []) ++ js "/v1/auth/login") (js "POST")
             {[js "Content-Type" := js "application/json"]}
             (Some (json_text (JObj [(js "email", JStr (email f)); (js "password", JStr (password f))]))) in
  let '(f', w') := handleSubmit VITE_API_URL f w in
  requests w' = requests w ++ [q] /\
  email f' = email f /\ password f' = password f /\ loading f' = false /\
  ((exists token user, accepts q token user /\ error f' = [] /\
      location (browser w') = js "/app" /\ clock (browser w') = clock (browser w) /\
      localStorage (browser w') =
        <[js "batrewind_user" := user]> (<[js "batrewind_token" := token]> (localStorage (browser w)))) \/
   ((forall token user, ~ accepts q token user) /\
    error f' = js "Invalid email or password." /\ browser w' = browser w)).
Proof.
  intros q. destruct (accepts_login q (email f) (password f) w eq_refl) as (w1 & x & Hl & Hq & Hx).
  pose proof (login_keeps _ _ _ _ _ Hl) as Hb.
  unfold handleSubmit, sign_in, sm_bind. rewrite Hl. destruct x as [v|x].
  - destruct Hx as (r & Hr & Hs & Hp).
    assert (forall token user, accepts q token user -> nullish v = false /\
      to_string (opt_prop (js "token") v) = Ok token) as Ha.
    { intros token user (r' & v' & Hr' & _ & Hp' & Hn & Ht & _).
      rewrite Hr in Hr'. injection Hr' as <-. rewrite Hp in Hp'. by injection Hp' as <-. }
    unfold sm_lift, prop. destruct (nullish v) eqn:Hn.
    { split_and!; try done. right. split; [|done]. intros token user Hc. by apply Ha in Hc as [? _]. }
    destruct (to_string _) as [token|e] eqn:Ht.
    + split_and!; try done. left. exists token, (default (js "undefined") (stringify (opt_prop (js "user") v))).
      split; [exists r, v; split_and!; (done || lia)|]. cbn. rewrite Hb.
      by destruct (stringify (opt_prop (js "user") v)).
    + split_and!; try done. right. split; [|done]. intros token user Hc. apply Ha in Hc as [_ ?]. congruence.
  - split_and!; try done. right. split; [|done].
    intros token user (r & v & Hr & Hs & Hp & _). by eapply Hx.
Qed.

(** The pages under [/app] load only for a user who holds a token. *)
Lemma guard_needs_token b : (app_guard b).2 = true -> is_Some (getToken b) /\ (app_guard b).1 = b.
Proof.
  unfold app_guard, isAuthenticated. destruct (getToken b) as [t|]; [|done].
  destruct (str_truthy t); [|done]. destruct (isTokenExpired b); [done|]. by split.
Qed.

(** After logging out the guard redirects. *)
Lemma logout_guarded b : (app_guard (handleLogout b)).2 = false.
Proof.
  unfold app_guard, isAuthenticated, handleLogout, getToken, clearAuth. cbn.
  rewrite lookup_delete_ne by done. by rewrite lookup_delete_eq.
Qed.
End sign_in_props.

(** ** Examples and witnesses *)

(** An answer without a token is taken for a success: the text undefined is stored as the
    token, and the guard of the dashboard sends the user back, with no error shown. *)
Example login_without_token :
  let '(f, w) := @handleSubmit json_engine demo_network None
    (mkForm (js "ana@example.com") (js "secret") [] false) (mkWeb (mkBrowser ∅ (js "/login") 0) []) in
  error f = [] /\ @getToken (browser w) = Some (js "undefined") /\
  (@app_guard json_engine (browser w)).2 = false.
Proof. vm_compute. done. Qed.

Lemma paging_partition_witness :
  let s := SessionsPage.step (SessionsPage.Loaded 45)
             (SessionsPage.open (SessionsPage.mkSearch None None None 1)) in
  concat (map (fun i => served (SessionsPage.query (SessionsPage.set_page (Z.of_nat i + 1) s)) (seq 0 45))
              (seq 0 (Z.to_nat (SessionsPage.totalPages s)))) = seq 0 45.
Proof.
  apply (paging_partition (seq 0 45) (SessionsPage.step (SessionsPage.Loaded 45)
           (SessionsPage.open (SessionsPage.mkSearch None None None 1)))). done.
Defined.

Lemma page_bounds_witness :
  let s' := SessionsPage.run [SessionsPage.Loaded 45; SessionsPage.Next; SessionsPage.Next;
              SessionsPage.Next; SessionsPage.Previous]
              (SessionsPage.open (SessionsPage.mkSearch None None None 1)) in
  (1 <= SessionsPage.page (SessionsPage.search s'))%Z /\ (0 <= SessionsPage.offset s')%Z /\
  ((SessionsPage.page (SessionsPage.search s') <= SessionsPage.totalPages s')%Z ->
   (SessionsPage.page (SessionsPage.search (SessionsPage.step SessionsPage.Next s'))
      <= SessionsPage.totalPages s')%Z /\
   (SessionsPage.page (SessionsPage.search (SessionsPage.step SessionsPage.Previous s'))
      <= SessionsPage.totalPages s')%Z).
Proof.
  apply (page_bounds (SessionsPage.open (SessionsPage.mkSearch None None None 1))
           [SessionsPage.Loaded 45; SessionsPage.Next; SessionsPage.Next;
            SessionsPage.Next; SessionsPage.Previous]). by_eval || (cbn; lia).
Defined.

Lemma seek_in_replay_witness :
  exists e, demo_recording (js "secret") !! 4 = Some e /\
    PlayerPage.seekTo 1000 2500 = (ReplayEvent.timestamp e - 1000)%Z /\
    (0 <= PlayerPage.seekTo 1000 2500 <= 2600 - 1000)%Z.
Proof.
  apply (seek_in_replay (demo_recording (js "secret")) demo_items
           (mkItem 4 KClick (js "Click on button " ++ dquote ++ js "Save now" ++ dquote) 2500) 1000 2600);
    [by_eval|right; right; left| |done|done].
  cbn. repeat (constructor; [|repeat constructor; vm_compute; discriminate]). constructor.
Defined.
