(* ===== verification/Replay.v ===== *)
(** * Watching a replay: routes/app/_layout/sessions_.$id.tsx, routes/share.$token.tsx

    Both pages give the events of a session to the rrweb player in an effect. The page is
    a sequence of renders, each with what the two queries give at that moment; the effect
    runs after a render whose events are another array than the last time. The calls made
    to players are the page's output. The buttons of the session page are handlers over
    the browser, the requests and the clipboard. *)

From S2P Require Import Prelude Decimal JsValue Json Auth Http Timeline Format Incident Queries Pages.

(** ** What a page receives *)

(** The fields of a query's result the pages read; [None] is [undefined]. *)
Record QueryResult (A : Type) := mkResult { data : option A; isLoading : bool; isError : bool }.
Arguments mkResult {A}.
Arguments data {A}.
Arguments isLoading {A}.
Arguments isError {A}.

(** An array of events: [ref] is its identity, which a dependency list compares. *)
Record EventArray := mkArray { ref : nat; items : list ReplayEvent.t }.

Record Results := mkResults { session : QueryResult jsval; events_query : QueryResult EventArray }.

(** [data: events = []] *)
Definition events (q : Results) : list ReplayEvent.t := (items <$> data (events_query q)) ?? [].

(** [events[0]?.timestamp ?? 0] *)
Definition firstTs (q : Results) : Z :=
  match events q with e :: _ => ReplayEvent.timestamp e | [] => 0%Z end.

Inductive Page := PlayerPage | PublicReplayPage.

Definition nonempty {A} (l : list A) : bool := match l with [] => false | _ => true end.

(** Whether a render shows the player's element; it can throw. *)
Definition shows (p : Page) (q : Results) : res bool :=
  let loading := isLoading (session q) || isLoading (events_query q) in
  match p with
  | PlayerPage =>
    _ ← buildTimeline (events q);
    Ok (negb loading && truthy (data (session q) ?? JUndef) && nonempty (events q))
  | PublicReplayPage => Ok (negb (isError (session q)) && negb loading && nonempty (events q))
  end.

(** ** The player *)

(** Whether the library's players have the methods the pages call with [?.]; a method that is
    not there is not called. *)
Class PlayerLibrary := { has_destroy : bool; has_goto : bool }.

Inductive Call :=
  | New (p : nat) (events : list ReplayEvent.t)
  | Destroy (p : nat)
  | Goto (p : nat) (offset : Z).

Record Player := mkPlayer {
  mounted : bool;
  deps : option (option nat);     (* the events the effect last ran for, if it ran *)
  playerRef : bool;               (* the element is in the document *)
  playerInstance : option nat;
  cleanup : bool;                 (* the last effect returned one *)
  next_player : nat;
  start : Z;                      (* [firstTs] of the last render *)
  calls : list Call
}.

Definition opened : Player := mkPlayer true None false None false 0 0 [].

Definition log (c : Call) (s : Player) : Player :=
  mkPlayer (mounted s) (deps s) (playerRef s) (playerInstance s) (cleanup s) (next_player s)
    (start s) (calls s ++ [c]).

Section player.
Context `{PlayerLibrary}.

(** [playerInstance.current?.destroy?.()] *)
Definition destroy (s : Player) : Player :=
  match playerInstance s with
  | Some p => if has_destroy then log (Destroy p) s else s
  | None => s
  end.

(** The body of the effect. *)
Definition effect (events : list ReplayEvent.t) (s : Player) : Player :=
  if negb (playerRef s) || negb (nonempty events) then
    mkPlayer (mounted s) (deps s) (playerRef s) (playerInstance s) false (next_player s)
      (start s) (calls s)
  else
    let s1 := destroy s in
    let p := next_player s1 in
    log (New p events)
      (mkPlayer (mounted s1) (deps s1) (playerRef s1) (Some p) true (S p) (start s1) (calls s1)).

(** The default array is a new one in every render. *)
Definition changed (last : option (option nat)) (dep : option nat) : bool :=
  match dep with None => true | Some _ => negb (bool_decide (last = Some dep)) end.

Definition set_deps (d : option nat) (s : Player) : Player :=
  mkPlayer (mounted s) (Some d) (playerRef s) (playerInstance s) (cleanup s) (next_player s)
    (start s) (calls s).

Definition run_cleanup (s : Player) : Player := if cleanup s then destroy s else s.

(** After a render the last cleanup and the effect run, if the dependency changed. *)
Definition run_effect (q : Results) (s : Player) : Player :=
  let dep := ref <$> data (events_query q) in
  if changed (deps s) dep then effect (events q) (set_deps dep (run_cleanup s)) else s.

(** The page leaves the document. *)
Definition unmount (s : Player) : Player :=
  let s1 := run_cleanup s in
  mkPlayer false (deps s1) false (playerInstance s1) false (next_player s1) (start s1) (calls s1).

Definition commit (shown : bool) (first : Z) (s : Player) : Player :=
  mkPlayer (mounted s) (deps s) shown (playerInstance s) (cleanup s) (next_player s) first (calls s).

(** One render; a render that throws takes the page down. *)
Definition render (p : Page) (q : Results) (s : Player) : Player :=
  if mounted s then
    match shows p q with
    | Ok shown => run_effect q (commit shown (firstTs q) s)
    | Throw _ => unmount s
    end
  else s.

(** A click on an item of the timeline: [seekTo], [playerInstance.current?.goto?.(offset)]. *)
Definition seek (ts : Z) (s : Player) : Player :=
  match playerInstance s with
  | Some p => if has_goto then log (Goto p (PlayerPage.seekTo (start s) ts)) s else s
  | None => s
  end.

Inductive input := Render (q : Results) | Seek (ts : Z) | Unmount.

Definition step (p : Page) (i : input) (s : Player) : Player :=
  match i with
  | Render q => render p q s
  | Seek ts => if mounted s then seek ts s else s
  | Unmount => if mounted s then unmount s else s
  end.

Definition run (p : Page) (t : list input) (s : Player) : Player :=
  fold_left (fun s i => step p i s) t s.
End player.

(** ** The buttons of the session page *)

(** A button that says for a while that it copied something. *)
Record CopyLabel := mkLabel { copied : bool; pending : list Z; time : Z }.

Definition COPIED_MS : Z := 2200.

(** [setCopied(true); setTimeout(() => setCopied(false), 2200)] *)
Definition show_copied (l : CopyLabel) : CopyLabel :=
  mkLabel true (pending l ++ [time l + COPIED_MS]%Z) (time l).

(** [ms] milliseconds pass. *)
Definition label_wait (ms : N) (l : CopyLabel) : CopyLabel :=
  let t := (time l + Z.of_N ms)%Z in
  let due := filter (fun d => d <= t)%Z (pending l) in
  mkLabel (copied l && negb (nonempty due)) (filter (fun d => ~ d <= t)%Z (pending l)) t.

(** What the handlers work on: the browser with its requests, and the clipboard, which
    may refuse to be written. *)
Record Desk := mkDesk { web : Web; clipboard : jsstr; clipboard_writable : bool; label : CopyLabel }.

Definition writeText (text : jsstr) : SM Desk unit := fun d =>
  if clipboard_writable d then (mkDesk (web d) text true (label d), Ok tt)
  else (d, Throw DOMException).

Definition on_web {A} (m : SM Web A) : SM Desk A := fun d =>
  let '(w, r) := m (web d) in (mkDesk w (clipboard d) (clipboard_writable d) (label d), r).

Definition setCopied : SM Desk unit := fun d =>
  (mkDesk (web d) (clipboard d) (clipboard_writable d) (show_copied (label d)), Ok tt).

Section buttons.
Context `{JsonEngine} `{Network} `{DateParse} (VITE_API_URL : option jsstr).
(** [window.location.origin] *)
Context (origin : jsstr).

(** The report is built before the [try]: what it throws is not caught. *)
Definition handleCopy (session : ReplaySession) (events : list ReplayEvent.t) : SM Desk unit :=
  let! report := sm_lift (buildIncidentReport session events) in
  sm_try (let! _ := writeText report in setCopied) (sm_ret tt).

Definition handleShare (id : jsstr) : SM Desk unit :=
  sm_try
    (let! token := on_web (mutationFn _ (useCreateShareLink VITE_API_URL) id) in
     let! text := sm_lift (to_string token) in
     let! _ := writeText (origin ++ js "/share/" ++ text) in
     setCopied)
    (sm_ret tt).

(** [confirmed] is the user's answer; [onDeleted] goes to the list of sessions. *)
Definition handleDelete (id : jsstr) (confirmed : bool) : SM Web unit :=
  if negb confirmed then sm_ret tt
  else
    sm_try
      (let! _ := mutationFn _ (useDeleteSession VITE_API_URL) id in
       on_browser (set_location (js "/app/sessions")))
      (sm_ret tt).
End buttons.
