(* ===== verification/ReplayProps.v ===== *)
(** * Watching a replay: properties

    When a player is created, how many are alive, and what the buttons of the session page
    do to the browser, the clipboard and the server. *)

From S2P Require Import Prelude Decimal JsValue Json Auth AuthProps Http HttpProps Timeline TimelineProps.
From S2P Require Import Format Incident Queries Pages Replay.

(** ** The calls a page makes to players *)

Definition act (c : Call) (X : gset nat) : gset nat :=
  match c with New p _ => {[p]} ∪ X | Destroy p => X ∖ {[p]} | Goto _ _ => X end.

(** The players created and not destroyed. *)
Definition alive (l : list Call) : gset nat := fold_left (fun X c => act c X) l ∅.

(** The player created last. *)
Definition latest (l : list Call) : option nat :=
  fold_left (fun o c => match c with New p _ => Some p | _ => o end) l None.

Arguments alive : simpl never.
Arguments latest : simpl never.

Lemma alive_snoc l c : alive (l ++ [c]) = act c (alive l).
Proof. unfold alive. by rewrite fold_left_app. Qed.

Lemma latest_snoc l c : latest (l ++ [c]) = match c with New p _ => Some p | _ => latest l end.
Proof. unfold latest. by rewrite fold_left_app. Qed.

Definition one_alive (l : list Call) : Prop := forall k, size (alive (take k l)) <= 1.

Lemma one_alive_snoc l c : one_alive l -> size (act c (alive l)) <= 1 -> one_alive (l ++ [c]).
Proof.
  intros Hl Hc k. destruct (decide (k <= length l)).
  - rewrite take_app_le by done. apply Hl.
  - rewrite take_ge by (rewrite length_app; cbn; lia). by rewrite alive_snoc.
Qed.

(** Every jump goes to the player created last, to a moment that is not negative. *)
Definition jumps_ok (l : list Call) : Prop :=
  forall k n o, l !! k = Some (Goto n o) -> (0 <= o)%Z /\ latest (take k l) = Some n.

Lemma jumps_snoc l c :
  jumps_ok l -> (forall n o, c = Goto n o -> (0 <= o)%Z /\ latest l = Some n) -> jumps_ok (l ++ [c]).
Proof.
  intros Hl Hc k n o Hk. destruct (decide (k < length l)) as [Hlt|Hge].
  - rewrite lookup_app_l in Hk by done. rewrite take_app_le by lia. by apply Hl.
  - apply lookup_lt_Some in Hk as Hlt. rewrite length_app in Hlt. cbn in Hlt.
    assert (k = length l) as -> by lia. rewrite list_lookup_middle in Hk by done.
    rewrite take_app_length. apply Hc. by injection Hk.
Qed.

(** What is so whatever methods the players have. *)
Section any_library.
Context `{PlayerLibrary}.

Record PlayerOk (s : Player) : Prop := {
  pk_latest : playerInstance s = latest (calls s);
  pk_jumps : jumps_ok (calls s);
  pk_kept : has_destroy = false ->
    forall n, n ∈ alive (calls s) <-> exists e, New n e ∈ calls s
}.

Lemma ok_opened : PlayerOk opened.
Proof.
  split; [done|by intros k n o Hk|]. intros _ n. split; [by intros ?%elem_of_empty|].
  by intros [e ?%elem_of_nil].
Qed.

(** Only the calls and the player in the ref matter. *)
Lemma ok_same s s' :
  playerInstance s' = playerInstance s -> calls s' = calls s -> PlayerOk s -> PlayerOk s'.
Proof. intros Hp Hc [H1 H2 H3]. split; by rewrite ?Hp, Hc. Qed.

Lemma ok_destroy s : PlayerOk s -> PlayerOk (destroy s).
Proof.
  intros Hs. unfold destroy. destruct (playerInstance s) as [p|] eqn:E; [|done].
  destruct has_destroy eqn:Hd; [|done]. destruct Hs as [H1 H2 H3].
  split; cbn [log calls playerInstance]; [by rewrite latest_snoc|by apply jumps_snoc|congruence].
Qed.

Lemma ok_run_cleanup s : PlayerOk s -> PlayerOk (run_cleanup s).
Proof. unfold run_cleanup. destruct (cleanup s); [apply ok_destroy|done]. Qed.

Lemma ok_effect l s : PlayerOk s -> PlayerOk (effect l s).
Proof.
  intros Hs. unfold effect. destruct (_ || _); [by apply (ok_same s)|].
  destruct (ok_destroy s Hs) as [H1 H2 H3]. set (s1 := destroy s) in *.
  split; cbn [log calls playerInstance].
  - by rewrite latest_snoc.
  - by apply jumps_snoc.
  - intros Hd n. rewrite alive_snoc. cbn [act]. rewrite elem_of_union, elem_of_singleton, (H3 Hd).
    split.
    + intros [->|[e He]]; [exists l; apply elem_of_app; right; by left|].
      exists e. apply elem_of_app. by left.
    + intros [e [He|He]%elem_of_app]; [right; by exists e|left].
      apply list_elem_of_singleton in He. by injection He.
Qed.

Lemma ok_unmount s : PlayerOk s -> PlayerOk (Replay.unmount s).
Proof. intros Hs%ok_run_cleanup. by apply (ok_same (run_cleanup s)). Qed.

Lemma ok_render p q s : PlayerOk s -> PlayerOk (render p q s).
Proof.
  intros Hs. unfold render. destruct (mounted s); [|done].
  destruct (shows p q) as [b|]; [|by apply ok_unmount]. unfold run_effect.
  assert (PlayerOk (commit b (firstTs q) s)) as Hc by (by apply (ok_same s)).
  destruct (changed _ _); [|done]. apply ok_effect. apply (ok_same (run_cleanup (commit b (firstTs q) s)));
    [done|done|by apply ok_run_cleanup].
Qed.

Lemma ok_seek ts s : PlayerOk s -> PlayerOk (seek ts s).
Proof.
  intros Hs. unfold seek. destruct (playerInstance s) as [p|] eqn:E; [|done].
  destruct has_goto; [|done]. destruct Hs as [H1 H2 H3].
  split; cbn [log calls playerInstance]; [by rewrite latest_snoc| |].
  - apply jumps_snoc; [done|]. intros n o [= <- <-]. split; [unfold PlayerPage.seekTo; lia|congruence].
  - intros Hd n. rewrite alive_snoc. cbn [act]. rewrite (H3 Hd). split; intros [e He]; exists e.
    + apply elem_of_app. by left.
    + apply elem_of_app in He as [He|He]; [done|]. by apply list_elem_of_singleton in He.
Qed.

Lemma player_run p t s : PlayerOk s -> PlayerOk (run p t s).
Proof.
  revert s. induction t as [|i t IH]; intros s Hs; [done|]. cbn. apply IH.
  destruct i as [q|ts|]; cbn; [by apply ok_render| |]; (destruct (mounted s); [|done]);
    [by apply ok_seek|by apply ok_unmount].
Qed.

(** *** Players that can be destroyed *)

Definition current (s : Player) : gset nat :=
  match playerInstance s with Some p => {[p]} | None => ∅ end.

Lemma size_sub_one (X : gset nat) p : X ⊆ {[p]} -> size X <= 1.
Proof. intros Hs. apply subseteq_size in Hs. by rewrite size_singleton in Hs. Qed.

Record Tidy (s : Player) : Prop := {
  td_alive : alive (calls s) ⊆ current s;
  td_clean : cleanup s = false -> alive (calls s) = ∅;
  td_one : one_alive (calls s);
  td_mounted : mounted s = false -> cleanup s = false
}.

Lemma tidy_opened : Tidy opened.
Proof. split; try done. intros [|k]; (change (alive _) with (∅ : gset nat); rewrite size_empty; lia). Qed.

Lemma mounted_destroy s : mounted (destroy s) = mounted s.
Proof. unfold destroy. destruct (playerInstance s); [by destruct has_destroy|done]. Qed.

Hypothesis Hdes : has_destroy = true.

(** After the player in the ref is destroyed, none is alive. *)
Lemma destroy_none s : Tidy s -> alive (calls (destroy s)) = ∅.
Proof using Hdes.
  intros [H1 _ _ _]. unfold destroy, current in *. destruct (playerInstance s) as [p|]; [|set_solver].
  rewrite Hdes. cbn [log calls]. rewrite alive_snoc. cbn. set_solver.
Qed.

Lemma tidy_destroy s : Tidy s -> Tidy (destroy s).
Proof using Hdes.
  intros Hs. pose proof (destroy_none s Hs) as Hn. pose proof Hs as [H1 H2 H3 H4].
  unfold destroy in *. destruct (playerInstance s) as [p|] eqn:E; [|done]. rewrite Hdes in *.
  cbn [log calls] in Hn. split; cbn [log calls cleanup mounted playerInstance].
  - rewrite Hn. set_solver.
  - done.
  - apply one_alive_snoc; [done|]. rewrite alive_snoc in Hn. rewrite Hn. by rewrite size_empty; lia.
  - done.
Qed.

Lemma tidy_run_cleanup s : Tidy s -> Tidy (run_cleanup s) /\ alive (calls (run_cleanup s)) = ∅.
Proof using Hdes.
  intros Hs. unfold run_cleanup. destruct (cleanup s) eqn:E.
  - split; [by apply tidy_destroy|by apply destroy_none].
  - split; [done|by apply Hs].
Qed.

(** The effect creates at most one player, after the last one is gone. *)
Lemma tidy_effect l s : Tidy s -> mounted s = true -> alive (calls s) = ∅ -> Tidy (effect l s).
Proof using Hdes.
  intros Hs Hm Hn. unfold effect. destruct (negb (playerRef s) || negb (nonempty l)).
  - destruct Hs as [H1 H2 H3 H4]. by split.
  - pose proof (destroy_none s Hs) as Hd. pose proof (tidy_destroy s Hs) as [_ _ H3 _].
    pose proof (mounted_destroy s) as Hm'.
    set (s1 := destroy s) in *. set (p := next_player s1). split; cbn.
    + rewrite alive_snoc, Hd. unfold current. cbn. set_solver.
    + done.
    + apply one_alive_snoc; [done|]. rewrite Hd. cbn. by rewrite (right_id_L ∅ (∪)), size_singleton.
    + congruence.
Qed.

Lemma tidy_unmount s : Tidy s -> Tidy (Replay.unmount s).
Proof using Hdes.
  intros Hs. destruct (tidy_run_cleanup s Hs) as [[H1 H2 H3 H4] Hn]. unfold Replay.unmount.
  split; cbn; auto.
Qed.

Lemma tidy_render p q s : Tidy s -> Tidy (render p q s).
Proof using Hdes.
  intros Hs. unfold render. destruct (mounted s) eqn:Hm; [|done].
  destruct (shows p q) as [b|]; [|by apply tidy_unmount]. unfold run_effect.
  assert (Tidy (commit b (firstTs q) s)) as Hc by (destruct Hs; by split).
  destruct (changed _ _); [|done]. destruct (tidy_run_cleanup _ Hc) as [[H1 H2 H3 H4] Hn].
  apply tidy_effect; [by split| |done]. cbn. unfold run_cleanup. cbn.
  destruct (cleanup s); [by rewrite mounted_destroy|done].
Qed.

Lemma tidy_seek ts s : Tidy s -> Tidy (seek ts s).
Proof.
  intros Hs. unfold seek. destruct (playerInstance s) as [p|] eqn:E; [|done].
  destruct has_goto; [|done]. destruct Hs as [H1 H2 H3 H4].
  split; cbn [log calls cleanup mounted playerInstance]; rewrite ?alive_snoc; try done.
  apply one_alive_snoc; [done|]. cbn. by apply (size_sub_one _ p); unfold current in H1; rewrite E in H1.
Qed.

Lemma tidy_run p t s : Tidy s -> Tidy (run p t s).
Proof using Hdes.
  revert s. induction t as [|i t IH]; intros s Hs; [done|]. cbn. apply IH.
  destruct i as [q|ts|]; cbn; [by apply tidy_render| |]; (destruct (mounted s); [|done]);
    [by apply tidy_seek|by apply tidy_unmount].
Qed.
End any_library.

(** C32: whatever answers come, in whatever order, and whatever is clicked: if the library's
    players have the method [destroy], at no moment are two of them alive, and a page that
    left the document has none; if they do not, the optional calls do nothing, and every
    player that was ever created stays alive. Either way every jump goes to the player that
    was created last, to a moment that is not negative. *)
Theorem players_disciplined `{PlayerLibrary} p t :
  let s := run p t opened in
  (has_destroy = true ->
   (forall k, size (alive (take k (calls s))) <= 1) /\ (mounted s = false -> alive (calls s) = ∅)) /\
  (has_destroy = false -> forall n, n ∈ alive (calls s) <-> exists e, New n e ∈ calls s) /\
  (forall k n o, calls s !! k = Some (Goto n o) -> (0 <= o)%Z /\ latest (take k (calls s)) = Some n).
Proof.
  pose proof (player_run p t opened ok_opened) as [_ H2 H3]. cbn zeta. split; [|done].
  intros Hd. destruct (tidy_run Hd p t opened tidy_opened) as [_ T2 T3 T4]. auto.
Qed.

(** ** When a player is created *)

Section renders.
Context `{PlayerLibrary}.

Definition renders (p : Page) (l : list Results) (s : Player) : Player :=
  fold_left (fun s q => render p q s) l s.

Lemma renders_cons p q l s : renders p (q :: l) s = renders p l (render p q s).
Proof. done. Qed.

Lemma renders_app p l k s : renders p (l ++ k) s = renders p k (renders p l s).
Proof. apply fold_left_app. Qed.

(** The page while its events have not come. *)
Record Waiting (s : Player) : Prop := {
  w_mounted : mounted s = true;
  w_deps : deps s = None \/ deps s = Some None;
  w_none : playerInstance s = None;
  w_clean : cleanup s = false;
  w_next : next_player s = 0;
  w_calls : calls s = []
}.

Lemma shows_waiting p q : data (events_query q) = None -> shows p q = Ok false.
Proof.
  intros Hq. unfold shows, events. rewrite Hq. destruct p; cbn; by rewrite !andb_false_r.
Qed.

Lemma render_waiting p q s : data (events_query q) = None -> Waiting s -> Waiting (render p q s).
Proof.
  intros Hq [H1 H2 H3 H4 H5 H6]. unfold render. rewrite H1, shows_waiting by done.
  unfold run_effect, run_cleanup, effect. rewrite Hq. cbn. rewrite H4. cbn.
  split; cbn; auto.
Qed.

Lemma renders_waiting p l s :
  Forall (fun q => data (events_query q) = None) l -> Waiting s -> Waiting (renders p l s).
Proof.
  intros Hl. revert s. induction Hl as [|q l Hq _ IH]; intros s Hs; [done|].
  rewrite renders_cons. by apply IH, render_waiting.
Qed.

Lemma shows_nonempty p q : shows p q = Ok true -> nonempty (events q) = true.
Proof.
  unfold shows. destruct p; [destruct (buildTimeline _); [|done]|]; cbn;
    intros [= Hb]; by apply andb_prop in Hb as [_ ?].
Qed.

(** The render the events come with. *)
Lemma render_arrival p q a s :
  data (events_query q) = Some a -> Waiting s ->
  let s' := render p q s in
  calls s' = (match shows p q with Ok true => [New 0 (items a)] | _ => [] end) /\
  (mounted s' = true -> deps s' = Some (Some (ref a)) /\ is_Some (match shows p q with Ok b => Some b | _ => None end)).
Proof.
  intros Hq [H1 H2 H3 H4 H5 H6]. unfold render. rewrite H1.
  destruct (shows p q) as [b|x] eqn:Hb; [|by unfold unmount, run_cleanup; rewrite H4].
  unfold run_effect. rewrite Hq. cbn [fmap option_fmap option_map commit deps].
  assert (changed (deps s) (Some (ref a)) = true) as -> by (by destruct H2 as [-> | ->]).
  assert (events q = items a) as He by (unfold events; by rewrite Hq).
  unfold run_cleanup. cbn. rewrite H4. unfold effect. cbn.
  destruct b; cbn.
  - apply shows_nonempty in Hb. rewrite He in Hb |- *. rewrite Hb. cbn.
    unfold destroy. cbn. rewrite H3. cbn. rewrite H5, H6. split; [done|]. intros _. by eauto.
  - split; [done|]. intros _. by eauto.
Qed.

Lemma render_mounted p q s :
  Waiting s -> forall b, shows p q = Ok b -> mounted (render p q s) = true.
Proof.
  intros [Hm _ _ Hc _ _] b Hb. unfold render. rewrite Hm, Hb. unfold run_effect.
  destruct (changed _ _); [|done]. unfold run_cleanup. cbn. rewrite Hc. unfold effect, destroy. cbn.
  destruct b, (nonempty (events q)); cbn; try done.
  destruct (playerInstance s); [by destruct has_destroy|done].
Qed.

(** A render with the same events calls no player. *)
Lemma render_same p q a s :
  data (events_query q) = Some a -> deps s = Some (Some (ref a)) ->
  (forall x, shows p q <> Throw x) ->
  calls (render p q s) = calls s /\ deps (render p q s) = deps s /\
  mounted (render p q s) = mounted s.
Proof.
  intros Hq Hd Hs. unfold render. destruct (mounted s) eqn:Hm; [|by rewrite Hm].
  destruct (shows p q) as [b|x]; [|by destruct (Hs x)]. unfold run_effect. rewrite Hq.
  cbn [fmap option_fmap option_map commit deps]. rewrite Hd. unfold changed.
  rewrite bool_decide_eq_true_2 by done. cbn. by rewrite Hm.
Qed.

Lemma shows_throws p q q' x :
  events q = events q' -> shows p q = Throw x -> exists y, shows p q' = Throw y.
Proof.
  unfold shows. intros ->. destruct p; [|done]. destruct (buildTimeline (events q')); cbn; [done|eauto].
Qed.

Lemma unmounted_renders p l s : mounted s = false -> renders p l s = s.
Proof.
  intros Hm. induction l as [|q l IH]; [done|]. rewrite renders_cons. unfold render. by rewrite Hm.
Qed.

Lemma ok_renders p l s : PlayerOk s -> PlayerOk (renders p l s).
Proof.
  revert s. induction l as [|q l IH]; intros s Hs; [done|]. rewrite renders_cons. by apply IH, ok_render.
Qed.

Lemma uncalled_empty s : PlayerOk s -> calls s = [] -> playerInstance s = None.
Proof. intros Hs Hc. by rewrite (pk_latest s Hs), Hc. Qed.

Lemma render_ref p q s b :
  shows p q = Ok b -> mounted (render p q s) = true -> playerRef (render p q s) = b.
Proof.
  intros Hb. unfold render. destruct (mounted s) eqn:Hm; [|congruence]. rewrite Hb. intros _.
  unfold run_effect. destruct (changed _ _); [|done].
  assert (forall x, playerRef (destroy x) = playerRef x) as Hd
    by (intros x; unfold destroy; destruct (playerInstance x); [by destruct has_destroy|done]).
  assert (forall l x, playerRef (effect l x) = playerRef x) as He
    by (intros l x; unfold effect; destruct (_ || _); [done|]; cbn; apply Hd).
  rewrite He. cbn. unfold run_cleanup. destruct (cleanup _); [apply Hd|done].
Qed.

(** The calls of a whole load, and that the page is still up if it was when they came. *)
Lemma renders_load p pre q a post :
  Forall (fun q => data (events_query q) = None) pre ->
  data (events_query q) = Some a ->
  Forall (fun q => data (events_query q) = Some a) post ->
  let s := renders p (pre ++ q :: post) opened in
  calls s = match shows p q with Ok true => [New 0 (items a)] | _ => [] end /\
  (forall b, shows p q = Ok b -> mounted s = true).
Proof.
  intros Hpre Hq Hpost. cbn zeta. rewrite renders_app, renders_cons.
  assert (Waiting (renders p pre opened)) as Hw by (apply renders_waiting; [done|by split; auto]).
  destruct (render_arrival p q a _ Hq Hw) as [<- Hm]. pose proof (render_mounted p q _ Hw) as Hup.
  set (s := render p q _) in *. destruct (mounted s) eqn:E.
  2: { rewrite unmounted_renders by done. split; [done|]. intros b Hb. by rewrite <- (Hup b Hb). }
  destruct (Hm eq_refl) as [Hd [b Hb]]. clear Hm Hup.
  clearbody s. revert s E Hd. induction Hpost as [|q' l Hq' _ IH]; intros s E Hd; [done|].
  rewrite renders_cons. destruct (render_same p q' a s) as (Hc & Hd' & Hm'); [done|done| |].
  - intros x Hx. apply shows_throws with (q' := q) in Hx as [y Hy].
    + by rewrite Hy in Hb.
    + unfold events. by rewrite Hq, Hq'.
  - rewrite <- Hc. apply IH; congruence.
Qed.

(** C15: a replay is played if its page was on screen in the very render its events came with, by
    one player, and never otherwise: later renders with the same events create none. *)
Theorem replay_once p pre q a post :
  Forall (fun q => data (events_query q) = None) pre ->
  data (events_query q) = Some a ->
  Forall (fun q => data (events_query q) = Some a) post ->
  calls (renders p (pre ++ q :: post) opened) =
  match shows p q with Ok true => [New 0 (items a)] | _ => [] end.
Proof. intros H1 H2 H3. by apply renders_load. Qed.

(** C40: events that come while their session is still loading are never played: once the
    session is there the page shows the element of the player, and leaves it empty. *)
Theorem replay_blank p pre q a post last :
  Forall (fun q => data (events_query q) = None) pre ->
  data (events_query q) = Some a -> isLoading (session q) = true ->
  Forall (fun q => data (events_query q) = Some a) (post ++ [last]) ->
  shows p last = Ok true ->
  let s := renders p (pre ++ q :: post ++ [last]) opened in
  mounted s = true /\ playerRef s = true /\ playerInstance s = None /\ calls s = [].
Proof.
  intros Hpre Hq Hl Hpost Hlast s.
  destruct (renders_load p pre q a (post ++ [last]) Hpre Hq Hpost) as [Hc Hm]. fold s in Hc, Hm.
  assert (exists b, shows p q = Ok b) as [b Hb].
  { destruct (shows p q) as [b|x] eqn:E; [eauto|].
    apply shows_throws with (q' := last) in E as [y Hy]; [by rewrite Hy in Hlast|].
    unfold events. rewrite Hq. apply Forall_app in Hpost as [_ ->%Forall_singleton]. done. }
  assert (b = false) as ->.
  { destruct b; [|done]. unfold shows in Hb. rewrite Hl in Hb.
    destruct p; [destruct (buildTimeline _); [|done]|]; cbn in Hb; by rewrite ?andb_false_r in Hb. }
  specialize (Hm false Hb). rewrite Hb in Hc.
  assert (s = render p last (renders p (pre ++ q :: post) opened)) as Hs.
  { unfold s. by rewrite app_comm_cons, app_assoc, renders_app. }
  split_and!; [done| |by apply uncalled_empty; [apply ok_renders, ok_opened|]|done].
  rewrite Hs in Hm |- *. by eapply render_ref.
Qed.

End renders.

(** ** The buttons *)

Section buttons.
Context `{JsonEngine} `{Network} `{DateParse} (VITE_API_URL : option jsstr) (origin : jsstr).

(** The answer to [q] as the page reads it: a status from 200 to 299 and JSON that has
    properties, whose [token], present or not, prints as [text]. *)
Definition answers_token (q : HttpRequest) (text : jsstr) : Prop :=
  exists x v, respond q = Some x /\ (200 <= status x <= 299)%Z /\ json_parse (Http.text x) = Some v /\
    nullish v = false /\ to_string (opt_prop (js "token") v) = Ok text.

Lemma answers_decoded q x token :
  respond q = Some x -> ok x = true -> decoded (Share []) x = Ok token ->
  forall text, answers_token q text <-> to_string token = Ok text.
Proof.
  intros Hx Ho Hd text. unfold decoded, prop in Hd.
  destruct (json_parse (Http.text x)) as [v|] eqn:Hv; [|done].
  destruct (nullish v) eqn:Hn; [done|]. injection Hd as <-. split.
  - intros (x' & v' & Hx' & _ & Hv' & _ & Ht). rewrite Hx in Hx'. injection Hx' as <-.
    rewrite Hv in Hv'. by injection Hv' as <-.
  - intros Ht. exists x, v. unfold ok in Ho. split_and!; (done || bool_lia).
Qed.

(** The call of Share replay: its one request, and the token of the answer or a throw. *)
Lemma createShareLink_cases id w :
  let q := request_for VITE_API_URL (Share id) (browser w) in
  exists b r, createShareLink VITE_API_URL id w = (mkWeb b (requests w ++ [q]), r) /\
    match r with
    | Ok token => b = browser w /\
        exists x, respond q = Some x /\ ok x = true /\ decoded (Share []) x = Ok token
    | Throw _ => forall text, ~ answers_token q text
    end.
Proof.
  cbn zeta. unfold createShareLink, sm_bind. rewrite fetchWithAuth_outcomes by reflexivity.
  cbn [method with_method default from_option Datatypes.id]. unfold request_for. cbn [route].
  set (q := mkRequest _ _ _ _).
  assert (forall e, (forall x, respond q = Some x -> ok x = true -> decoded (Share []) x = Throw e) ->
    forall text, ~ answers_token q text) as Hno.
  { intros e He text (x & v & Hx & Hs & Hv & Hn & _).
    assert (ok x = true) as Ho by (unfold ok; apply andb_true_intro; split; bool_lia).
    specialize (He x Hx Ho). unfold decoded, prop in He. by rewrite Hv, Hn in He. }
  destruct (respond q) as [x|] eqn:Hx; [|eexists _, _; split; [done|]; by refine (Hno TypeError _)].
  destruct (status x =? 401)%Z eqn:E.
  { eexists _, _. split; [done|]. refine (Hno TypeError _). intros y [= <-] Ho. unfold ok in Ho. bool_lia. }
  unfold expect_ok, json, sm_ret, sm_throw. destruct (ok x) eqn:Ho.
  2: { eexists _, _. split; [done|]. refine (Hno TypeError _). intros y [= <-] Ho'. congruence. }
  destruct (json_parse (Http.text x)) as [v|] eqn:Hv.
  - unfold sm_lift. eexists _, _. split; [done|]. destruct (prop (js "token") v) as [token|e] eqn:Hp.
    + split; [done|]. exists x. cbn [decoded]. by rewrite Hv.
    + refine (Hno e _). intros y [= <-] _. cbn [decoded]. by rewrite Hv.
  - eexists _, _. split; [done|]. refine (Hno SyntaxError _). intros y [= <-] _. cbn [decoded]. by rewrite Hv.
Qed.

(** C31: Share replay asks the server for one link, and never fails. If the answer is a success
    and the clipboard can be written, the clipboard holds the address of the share page of
    what the answer has as its token, and the button says so; otherwise clipboard and button
    stay as they were. An answer without a token is such a success: what is copied is then
    the address /share/undefined. *)
Theorem share_copies_link id d :
  let q := request_for VITE_API_URL (Share id) (browser (web d)) in
  let '(d', r) := handleShare VITE_API_URL origin id d in
  r = Ok tt /\ requests (web d') = requests (web d) ++ [q] /\
  (forall text, answers_token q text -> clipboard_writable d = true ->
     clipboard d' = origin ++ js "/share/" ++ text /\ label d' = show_copied (label d) /\
     browser (web d') = browser (web d)) /\
  (clipboard_writable d = false \/ (forall text, ~ answers_token q text) ->
     clipboard d' = clipboard d /\ label d' = label d) /\
  (forall x, respond q = Some x -> (200 <= status x <= 299)%Z -> json_parse (Http.text x) = Some (JObj []) ->
     clipboard_writable d = true -> clipboard d' = origin ++ js "/share/undefined").
Proof.
  cbn zeta. set (q := request_for _ _ _). assert (forall x, respond q = Some x -> (200 <= status x <= 299)%Z ->
    json_parse (Http.text x) = Some (JObj []) -> answers_token q (js "undefined")) as Hund
    by (intros x Hx Hs Hv; by exists x, (JObj [])).
  unfold handleShare, sm_try, sm_bind, on_web. cbn [mutationFn useCreateShareLink].
  destruct (createShareLink_cases id (web d)) as (b & r & -> & Hr). fold q.
  fold q in Hr. destruct r as [token|e].
  - destruct Hr as (-> & x & Hx & Ho & Hd). pose proof (answers_decoded q x token Hx Ho Hd) as Ha.
    unfold sm_lift. destruct (to_string token) as [text|] eqn:Ht.
    + unfold writeText. cbn [clipboard_writable]. destruct (clipboard_writable d) eqn:Hw; cbn.
      * split_and!; try done.
        -- intros t' Hq. apply Ha in Hq as [= <-]. done.
        -- intros [|Hno]; [done|]. destruct (Hno text). by apply Ha.
        -- intros y Hy Hs Hv _. specialize (Hund y Hy Hs Hv). apply Ha in Hund. by injection Hund as ->.
      * split_and!; try done.
    + cbn. split_and!; try done.
      * intros t' Hq. by apply Ha in Hq.
      * intros y Hy Hs Hv _. specialize (Hund y Hy Hs Hv). by apply Ha in Hund.
  - cbn. split_and!; try done.
    + intros t' Hq. by destruct (Hr t').
    + intros y Hy Hs Hv _. specialize (Hund y Hy Hs Hv). by destruct (Hr (js "undefined")).
Qed.

(** C30: Delete does nothing unless the user confirms; then it sends exactly one request, and
    the page is left for the list if and only if the server deleted the session: a 401
    signs the user out, and any other answer, or none, leaves the browser as it was. *)
Theorem delete_outcomes id confirmed w :
  let q := request_for VITE_API_URL (Delete id) (browser w) in
  handleDelete VITE_API_URL id confirmed w =
  (if confirmed then
     mkWeb (match respond q with
            | None => browser w
            | Some r =>
              if (status r =? 401)%Z then set_location (js "/login") (clearAuth (browser w))
              else if ok r then set_location (js "/app/sessions") (browser w)
              else browser w
            end) (requests w ++ [q])
   else w, Ok tt).
Proof.
  cbn zeta. unfold handleDelete. destruct confirmed; [|done]. cbn [negb].
  unfold sm_try, sm_bind. cbn [mutationFn useDeleteSession]. unfold sm_bind, deleteSession, sm_bind.
  rewrite fetchWithAuth_outcomes by reflexivity.
  cbn [method with_method default from_option Datatypes.id]. unfold request_for. cbn [route].
  destruct (respond _) as [x|]; [|done]. destruct (status x =? 401)%Z; [done|].
  unfold expect_ok. by destruct (ok x).
Qed.

(** Copy for AI: a report that cannot be built changes nothing and is not caught. *)
Lemma copy_outcomes session events d :
  handleCopy session events d =
  match buildIncidentReport session events with
  | Throw e => (d, Throw e)
  | Ok report =>
    if clipboard_writable d then (mkDesk (web d) report true (show_copied (label d)), Ok tt)
    else (d, Ok tt)
  end.
Proof.
  unfold handleCopy, sm_bind, sm_lift, sm_try, writeText.
  destruct (buildIncidentReport session events); [|done]. by destruct (clipboard_writable d).
Qed.
End buttons.

(** The button's text comes back: the clicks and waits of a page keep the timeouts due. *)
Record LabelOk (l : CopyLabel) : Prop := {
  lo_pending : copied l = true -> pending l <> [];
  lo_due : Forall (fun d => d <= time l + COPIED_MS)%Z (pending l)
}.

Lemma label_show l : LabelOk l -> LabelOk (show_copied l).
Proof.
  intros [H1 H2]. split; cbn; [by destruct (pending l)|].
  apply Forall_app. split; [done|]. apply Forall_singleton. lia.
Qed.

Lemma label_wait_ok ms l : LabelOk l -> LabelOk (label_wait ms l).
Proof.
  intros [H1 H2]. unfold label_wait. split; cbn.
  - intros [Hc Hd]%andb_prop Hp. apply H1 in Hc. destruct (pending l) as [|d r]; [done|].
    rewrite filter_cons in Hd, Hp.
    destruct (decide (d <= time l + Z.of_N ms)%Z); [done|]. by rewrite decide_True in Hp.
  - apply Forall_forall. intros d [_ Hd]%list_elem_of_filter.
    rewrite Forall_forall in H2. specialize (H2 d Hd). lia.
Qed.

Lemma label_back ms l : LabelOk l -> (2200 <= ms)%N -> copied (label_wait ms l) = false.
Proof.
  intros [H1 H2] Hms. unfold label_wait. cbn. destruct (copied l); [|done]. cbn.
  destruct (pending l) as [|d r]; [by destruct (H1 eq_refl)|]. apply Forall_cons_1 in H2 as [Hd _].
  rewrite filter_cons, decide_True; [done|]. unfold COPIED_MS in Hd. lia.
Qed.

(** As with the widget's toast, an earlier click takes a later label down early. *)
Example label_cut_short :
  let l := show_copied (label_wait 2000 (show_copied (mkLabel false [] 0))) in
  copied l = true /\ copied (label_wait 200 l) = false.
Proof. split; by_eval. Qed.

(** ** Witnesses *)

#[local] Instance demo_library : PlayerLibrary := {| has_destroy := true; has_goto := true |}.

Definition loading {A} : QueryResult A := mkResult None true false.
Definition answered {A} (a : A) : QueryResult A := mkResult (Some a) false false.
Definition demo_array : EventArray := mkArray 7 (demo_recording (js "secret")).
Definition demo_session : QueryResult jsval := answered (JObj [(js "id", JStr (js "s1"))]).

(** The session first: one player. *)
Lemma replay_once_witness :
  calls (renders PlayerPage ([mkResults loading loading; mkResults demo_session loading] ++
           mkResults demo_session (answered demo_array) ::
           [mkResults demo_session (answered demo_array)]) opened)
  = [New 0 (demo_recording (js "secret"))].
Proof.
  rewrite (replay_once PlayerPage _ _ demo_array); [by_eval|by repeat constructor|done|by repeat constructor].
Defined.

(** The events first: none. *)
Lemma replay_blank_witness :
  let s := renders PublicReplayPage ([mkResults loading loading] ++ mkResults loading (answered demo_array) ::
             [] ++ [mkResults demo_session (answered demo_array)]) opened in
  mounted s = true /\ playerRef s = true /\ playerInstance s = None /\ calls s = [].
Proof.
  apply (replay_blank PublicReplayPage _ _ demo_array);
    [by repeat constructor|done|done|by repeat constructor|by_eval].
Defined.

(** The same on the session page. *)
Example session_page_blank :
  let s := renders PlayerPage [mkResults loading loading; mkResults loading (answered demo_array);
                               mkResults demo_session (answered demo_array)] opened in
  playerRef s = true /\ calls s = [].
Proof. split; by_eval. Qed.

(** A player of a library without [destroy] is still alive when its page has left the document. *)
Example page_left_alive :
  let bare := {| has_destroy := false; has_goto := true |} in
  let s := run (H:=bare) PlayerPage
    [Render (mkResults demo_session loading); Render (mkResults demo_session (answered demo_array));
     Seek 2500; Unmount] opened in
  mounted s = false /\ calls s = [New 0 (demo_recording (js "secret")); Goto 0 1500] /\
  alive (calls s) = {[0]}.
Proof. split_and!; by_eval. Qed.

(** With [destroy], the page takes its player along. *)
Example page_left_clean :
  let s := run PlayerPage
    [Render (mkResults demo_session loading); Render (mkResults demo_session (answered demo_array));
     Unmount] opened in
  calls s = [New 0 (demo_recording (js "secret")); Destroy 0].
Proof. by_eval. Qed.
