(* ===== verification/Views.v ===== *)
(** * What the pages show: routes/share.$token.tsx, routes/app/_layout/, components/

    The texts and conditions of the pages' markup, as functions of the data, without class
    names, icons and locale-dependent dates; the markup itself is in the View files. *)

From S2P Require Import Prelude Decimal JsValue Json Auth Http Timeline Incident Queries Pages Replay.

(** ** The shared replay *)

Module PublicSession.
Record t := mk {
  id : jsstr;
  service_name : jsstr;
  environment : jsstr;
  started_at : jsstr;
  duration_ms : option Z;
  event_count : Z
}.
End PublicSession.

(** The three states of the page. [door] is the session the debug-view button opens. *)
Inductive ShareView :=
  | InvalidLink
  | Skeleton
  | Content (door : option jsstr) (meta : option (jsstr * option jsstr * jsstr)) (player : bool).

(** [{s && ...}] on a string. *)
Definition if_text (s : jsstr) : option jsstr := if str_truthy s then Some s else None.

Section share.
Context `{JsonEngine}.

(** The component asks [isAuthenticated] in every render, which may clear the storage. *)
Definition PublicReplayView (s : QueryResult PublicSession.t) (e : QueryResult EventArray)
    (b : Browser) : Browser * ShareView :=
  let '(b', authed) := isAuthenticated b in
  (b',
   if isError s then InvalidLink
   else if isLoading s || isLoading e then Skeleton
   else Content
     (if authed then PublicSession.id <$> data s else None)
     ((fun x => (PublicSession.service_name x, if_text (PublicSession.environment x),
                 SessionsPage.formatDuration (PublicSession.duration_ms x))) <$> data s)
     (nonempty ((items <$> data e) ?? []))).

(** The button that opens the full view never leads to the login page: whenever it is shown,
    the guard of [/app] lets the visitor in. *)
Lemma door_opens s e b b' id meta player :
  PublicReplayView s e b = (b', Content (Some id) meta player) -> app_guard b' = (b', true).
Proof.
  unfold PublicReplayView, app_guard. destruct (isAuthenticated b) as [b1 authed] eqn:Ha.
  destruct (isError s); [done|]. destruct (isLoading s || isLoading e); [done|].
  destruct authed; [|done]. intros [= -> _ _ _].
  assert (b' = b) as -> by (unfold isAuthenticated in Ha; repeat case_match; by simplify_eq).
  by rewrite Ha.
Qed.

(** A visitor without a valid token sees the replay and its redacted data, not the button. *)
Lemma visitor_view s e b x :
  (isAuthenticated b).2 = false -> isError s = false -> isLoading s = false ->
  isLoading e = false -> data s = Some x ->
  exists player, (PublicReplayView s e b).2 =
    Content None (Some (PublicSession.service_name x, if_text (PublicSession.environment x),
                        SessionsPage.formatDuration (PublicSession.duration_ms x))) player.
Proof.
  intros Ha He Hs Hl Hx. unfold PublicReplayView. destruct (isAuthenticated b) as [b1 authed].
  cbn in Ha. subst. rewrite He, Hs, Hl, Hx. by eexists.
Qed.
End share.

(** ** A session in the lists *)

(** [session.identifier || session.id.slice(0, 8)] *)
Definition display_name (s : ReplaySession) : jsstr :=
  if str_truthy (Incident.identifier s) then Incident.identifier s else slice 0 8 (Incident.id s).

(** The trigger's badge, in the list and on the session page. *)
Definition badge_text (trigger : jsstr) : jsstr :=
  if bool_decide (trigger = js "manual") then js "reported" else trigger.
Definition card_badge (s : ReplaySession) : option jsstr :=
  if str_truthy (Incident.trigger s) && negb (bool_decide (Incident.trigger s = js "stream"))
  then Some (badge_text (Incident.trigger s)) else None.
Definition page_badge (s : ReplaySession) : option jsstr :=
  if str_truthy (Incident.trigger s) then Some (badge_text (Incident.trigger s)) else None.

(** The texts of a row, in order: name, service, environment, badge, address, duration and
    number of events. *)
Definition SessionCard (s : ReplaySession) : list jsstr :=
  [display_name s; Incident.service_name s]
  ++ option_list (if_text (Incident.environment s))
  ++ option_list (card_badge s)
  ++ option_list (if_text (Incident.start_url s))
  ++ [SessionsPage.formatDuration (Incident.duration_ms s);
      num_to_string (Incident.event_count s) ++ js " events"].

(** [n === 1 ? '' : suffix] *)
Definition plural (n : nat) (suffix : jsstr) : jsstr := if (n =? 1)%nat then [] else suffix.

(** The heading's count of the list, shown when it is positive. *)
Definition total_text (s : SessionsPage.State) : option jsstr :=
  let total := SessionsPage.total s in
  if (0 <? total)%Z
  then Some (num_to_string total ++ js " session" ++ (if (total =? 1)%Z then [] else js "s"))
  else None.

(** The two badges say the same of every session but a plain stream. *)
Lemma badges_agree s :
  Incident.trigger s <> js "stream" -> card_badge s = page_badge s.
Proof.
  intros Hs. unfold card_badge, page_badge. rewrite (bool_decide_eq_false_2 _ Hs).
  by rewrite andb_true_r.
Qed.

(** ** The console panel *)

(** The items of the panel and the counts in its title. *)
Definition console_items (timeline : list TimelineItem) : list TimelineItem :=
  filter (fun t => is_console t = true) timeline.

Definition console_counts (timeline : list TimelineItem) : list jsstr :=
  let '(errors, warnings) := countConsole timeline in
  let count (n : nat) (what : jsstr) := num_to_string (Z.of_nat n) ++ what ++ plural n (js "s") in
  (if (0 <? errors)%nat then [count errors (js " error")] else [])
  ++ (if (0 <? warnings)%nat then [count warnings (js " warn")] else [])
  ++ [count (length (console_items timeline)) (js " log")].

(** The counts never exceed what the panel lists: each error and warning is a line of it. *)
Lemma console_counts_listed timeline :
  let '(errors, warnings) := countConsole timeline in
  errors + warnings <= length (console_items timeline).
Proof.
  induction timeline as [|x r IH]; [cbn; lia|]. cbn [countConsole]. unfold console_items in *.
  destruct (countConsole r) as [e w]. rewrite filter_cons.
  assert (kind x = KError \/ kind x = KWarn -> is_console x = true) as Hx
    by (unfold is_console; by intros [-> | ->]).
  destruct (decide _) as [_|Hn]; cbn; destruct (kind x); try lia; destruct Hn; auto.
Qed.

(** ** The failed-ingest banner *)

Module FailedIngest.
Record t := mk { id : jsstr; resolved : bool }.
End FailedIngest.

Definition unresolved (failed : list FailedIngest.t) : list FailedIngest.t :=
  filter (fun f => FailedIngest.resolved f = false) failed.

Arguments unresolved : simpl never.

(** [data: failed = []]; nothing is shown when every batch is resolved. *)
Definition FailedIngestBanner (data : option (list FailedIngest.t)) : option jsstr :=
  match unresolved (data ?? []) with
  | [] => None
  | l => Some (num_to_string (Z.of_nat (length l)) ++ js " batch" ++ plural (length l) (js "es")
               ++ js " failed to ingest and may be missing from sessions.")
  end.

Lemma banner_shown data :
  is_Some (FailedIngestBanner data) <->
  exists l f, data = Some l /\ f ∈ l /\ FailedIngest.resolved f = false.
Proof.
  unfold FailedIngestBanner. split.
  - destruct data as [l|]; cbn; [|by intros [? ?]]. destruct (unresolved l) as [|f r] eqn:E; [by intros [? ?]|].
    intros _. exists l, f. split; [done|].
    assert (f ∈ unresolved l) as Hf by (rewrite E; by left).
    unfold unresolved in Hf. apply list_elem_of_filter in Hf. tauto.
  - intros (l & f & -> & Hf & Hr). cbn.
    assert (f ∈ unresolved l) as Hu by (apply list_elem_of_filter; by split).
    destruct (unresolved l); [by apply elem_of_nil in Hu|by eexists].
Qed.

(** ** The overview *)

Module Stats.
Record t := mk {
  total_sessions : Z;
  sessions_today : Z;
  sessions_this_week : Z;
  failed_ingest_count : Z;
  active_services : option (list jsstr);
  recent_sessions : option (list ReplaySession)
}.
End Stats.

(** The four cards: a label, a figure and whether it is highlighted. *)
Definition stat_cards (stats : option Stats.t) : list (jsstr * Z * bool) :=
  let figure (f : Stats.t -> Z) := (f <$> stats) ?? 0%Z in
  [ (js "Total sessions", figure Stats.total_sessions, false);
    (js "Today", figure Stats.sessions_today, false);
    (js "This week", figure Stats.sessions_this_week, false);
    (js "Failed ingests", figure Stats.failed_ingest_count,
     (0 <? figure Stats.failed_ingest_count)%Z) ].

(** The rows of the recent sessions, and the services; [None] is the empty state. *)
Definition recent_row (s : ReplaySession) : list jsstr :=
  [display_name s] ++ option_list (if_text (Incident.start_url s))
  ++ [SessionsPage.formatDuration (Incident.duration_ms s)].

Definition recent_rows (stats : option Stats.t) : option (list (list jsstr)) :=
  match s ← stats; Stats.recent_sessions s with
  | None | Some [] => None
  | Some l => Some (map recent_row l)
  end.

Definition services (stats : option Stats.t) : option (list jsstr) :=
  match s ← stats; Stats.active_services s with
  | None | Some [] => None
  | Some l => Some l
  end.

(** ** The detail page's offsets *)

(** [+{formatDuration(item.timestamp - firstTs)}] *)
Definition item_offset (firstTs : Z) (t : TimelineItem) : jsstr :=
  js "+" ++ SessionsPage.formatDuration (Some (timestamp t - firstTs)%Z).

(** The text of the item the recording starts with is a dash, not a zero. *)
Example first_offset : item_offset 1000 (mkItem 0 KNavigate (js "/") 1000) = js "+—".
Proof. by_eval. Qed.
