(* ===== verification/Html.v ===== *)
(** * Markup

    What a component renders: a tree of elements with their props and event handlers, the
    components of this repository expanded and those of libraries kept as elements of
    their name. [A] is the type of what the handlers do. The functions read a tree the way
    a user and a browser do: its text and its working controls; [conforms] checks it against
    the content models of HTML. *)

From S2P Require Import Prelude.

Inductive Handler (A : Type) :=
  | OnClick (a : A)
  | OnChange (f : jsstr -> A)     (* of the new value *)
  | OnSubmit (a : A).
Arguments OnClick {A}.
Arguments OnChange {A}.
Arguments OnSubmit {A}.

Unset Elimination Schemes.
Inductive Html (A : Type) :=
  | Text (s : jsstr)
  | El (tag : string) (props : list (string * jsstr)) (on : list (Handler A)) (children : list (Html A))
  | Frag (children : list (Html A)).
Set Elimination Schemes.
Arguments Text {A}.
Arguments El {A}.
Arguments Frag {A}.

(** Induction with the hypothesis for every child. *)
Definition Html_ind {A} (P : Html A -> Prop)
    (HT : forall s, P (Text s))
    (HE : forall tag props on l, Forall P l -> P (El tag props on l))
    (HF : forall l, Forall P l -> P (Frag l)) : forall h, P h :=
  fix go h :=
    let all := fix all l := match l return Forall P l with
                            | [] => Forall_nil_2 P
                            | x :: r => Forall_cons_2 P x r (go x) (all r)
                            end in
    match h with
    | Text s => HT s
    | El tag props on l => HE tag props on l (all l)
    | Frag l => HF l (all l)
    end.

(** ** Writing trees *)

(** [{b && h}] and [{b ? h : k}] *)
Definition when {A} (b : bool) (h : Html A) : Html A := if b then h else Frag [].
Definition txt {A} (s : string) : Html A := Text (js s).
(** An element with a class and children, and one without class. *)
Definition el {A} (tag cls : string) (l : list (Html A)) : Html A :=
  El tag [("className"%string, js cls)] [] l.
(** An icon of lucide-react. *)
Definition icon {A} (name cls : string) : Html A :=
  El "Icon" [("name"%string, js name); ("className"%string, js cls)] [] [].
(** A prop that is present or not. *)
Definition flag (name : string) (b : bool) : list (string * jsstr) := if b then [(name, [])] else [].
Definition opt_attr (name : string) (v : option jsstr) : list (string * jsstr) :=
  match v with Some x => [(name, x)] | None => [] end.

Arguments when : simpl never.

(** A later prop of the same name wins. *)
Fixpoint attr (name : string) (props : list (string * jsstr)) : option jsstr :=
  match props with
  | [] => None
  | (k, v) :: r => match attr name r with
                   | Some x => Some x
                   | None => if String.eqb k name then Some v else None
                   end
  end.
Definition has (name : string) (props : list (string * jsstr)) : bool :=
  match attr name props with Some _ => true | None => false end.

(** No row to show. *)
Definition null {B} (l : list B) : bool := match l with [] => true | _ => false end.

(** ** Reading trees *)

Definition one_of (l : list string) (tag : string) : bool := existsb (String.eqb tag) l.

(** [textContent] *)
Fixpoint text_content {A} (h : Html A) : jsstr :=
  match h with
  | Text s => s
  | El _ _ _ l | Frag l => concat (map text_content l)
  end.

(** The text nodes that are not empty, in order. *)
Fixpoint texts {A} (h : Html A) : list jsstr :=
  match h with
  | Text s => if str_truthy s then [s] else []
  | El _ _ _ l | Frag l => concat (map texts l)
  end.

(** The form's button works. *)
Fixpoint submittable {A} (h : Html A) : bool :=
  match h with
  | Text _ => false
  | El tag props _ l =>
    String.eqb tag "button" && bool_decide (attr "type" props = Some (js "submit"))
      && negb (has "disabled" props)
    || existsb submittable l
  | Frag l => existsb submittable l
  end.

(** What a class says of the [pointer-events] property: the last word on it counts. *)
Definition pointer_word (w : jsstr) : option bool :=
  if decide (w = js "pointer-events-none") then Some false
  else if decide (w = js "pointer-events-auto") then Some true else None.
Definition pointer (cls : jsstr) : option bool := list.last (omap pointer_word (words cls)).

(** The pointer reaches the element. *)
Definition takes_pointer (props : list (string * jsstr)) : bool :=
  match attr "className" props ≫= pointer with Some false => false | _ => true end.

(** The keyboard reaches the element: a form control, or a link that has an address. *)
Definition focusable (tag : string) (props : list (string * jsstr)) : bool :=
  one_of ["button"; "input"; "select"; "textarea"]%string tag
  || String.eqb tag "a" && has "href" props.

(** Whether a handler of an element can be made to run: a disabled control fires nothing, an
    element that neither the keyboard nor the pointer reaches cannot be clicked, and a form is
    submitted through a button that works. The [pointer-events] an element inherits are not
    looked at: no page puts a control in an element whose class takes the pointer away. *)
Definition enabled {A} (tag : string) (props : list (string * jsstr)) (l : list (Html A))
    (h : Handler A) : bool :=
  match h with
  | OnSubmit _ => existsb submittable l
  | _ => negb (has "disabled" props) && (focusable tag props || takes_pointer props)
  end.

Fixpoint controls {A} (h : Html A) : list (Handler A) :=
  match h with
  | Text _ => []
  | El tag props on l => List.filter (enabled tag props l) on ++ concat (map controls l)
  | Frag l => concat (map controls l)
  end.

(** What the user can do on a page. *)
Definition does {A} (h : Handler A) (a : A) : Prop :=
  match h with OnClick b | OnSubmit b => a = b | OnChange f => exists v, a = f v end.
Definition offers {A} (h : Html A) (a : A) : Prop := Exists (fun x => does x a) (controls h).

(** The actions of the enabled clicks, in document order. *)
Definition clicks {A} (h : Html A) : list A :=
  omap (fun x => match x with OnClick a => Some a | _ => None end) (controls h).

(** ** HTML's content models

    The content model the HTML standard gives each element the pages use, and the exclusions
    it adds for some (4.3 to 4.10 of the standard). Icons are svg elements and stand for
    themselves; a [Link] of the router is an [a] with an address. *)

Inductive Model := Flow | Phrasing | Items | Options | OnlyText | Nothing.

(** The elements that are phrasing content; all others are flow content, but for the parts of
    lists and of selections. *)
Definition phrasing : string -> bool :=
  one_of ["span"; "strong"; "button"; "label"; "input"; "select"; "a"; "Link"; "svg"; "Icon";
          "ChevronLeftIcon"; "ChevronRightIcon"]%string.

Definition is_link : string -> bool := one_of ["a"; "Link"]%string.

(** What may stand inside an element, by the tags from it outwards: a link is transparent, so
    it takes what its parent takes. *)
Fixpoint model (up : list string) : Model :=
  match up with
  | [] => Flow
  | t :: r =>
    if is_link t then model r
    else if one_of ["p"; "h1"; "span"; "strong"; "button"; "label"]%string t then Phrasing
    else if String.eqb t "ul" then Items
    else if String.eqb t "select" then Options
    else if String.eqb t "option" then OnlyText
    else if String.eqb t "input" then Nothing
    else Flow
  end.

Definition fits (tag : string) (m : Model) : bool :=
  match m with
  | Flow => negb (one_of ["li"; "option"]%string tag)
  | Phrasing => phrasing tag
  | Items => String.eqb tag "li"
  | Options => String.eqb tag "option"
  | OnlyText | Nothing => false
  end.

(** Interactive content: the controls, and a link that has an address. *)
Definition interactive (tag : string) (props : list (string * jsstr)) : bool :=
  one_of ["button"; "input"; "select"; "label"; "Link"]%string tag
  || String.eqb tag "a" && has "href" props.

(** No interactive content in a button or a link, no link in a link, no control or label in a
    label, no form in a form, no header in a header, and [main] under nothing but divisions. *)
Definition excluded (up : list string) (tag : string) (props : list (string * jsstr)) : bool :=
  existsb (fun u => one_of ["button"; "a"; "Link"]%string u) up && interactive tag props
  || existsb is_link up && is_link tag
  || one_of up "label" && one_of ["label"; "button"; "input"; "select"]%string tag
  || one_of up "form" && String.eqb tag "form"
  || one_of up "header" && String.eqb tag "header"
  || negb (forallb (String.eqb "div") up) && String.eqb tag "main".

Definition takes_text (m : Model) : bool :=
  match m with Flow | Phrasing | OnlyText => true | Items | Options | Nothing => false end.

(** The tree is one the content models allow inside elements of the tags [up]. *)
Fixpoint conforms {A} (up : list string) (h : Html A) : bool :=
  match h with
  | Text s => negb (str_truthy s) || takes_text (model up)
  | El tag props _ l =>
    fits tag (model up) && negb (excluded up tag props) && forallb (conforms (tag :: up)) l
  | Frag l => forallb (conforms up) l
  end.

(** ** Lemmas *)

(** Of two classes the later one counts, if it says anything. *)
Lemma pointer_space a b : pointer (a ++ js " " ++ b) = union (pointer b) (pointer a).
Proof.
  unfold pointer. change (js " " ++ b) with (32%N :: b). rewrite words_space, omap_app, last_app.
  destruct (list.last (omap pointer_word (words b))); [by destruct (list.last _)|].
  by destruct (list.last _).
Qed.

Section lemmas.
Context {A : Type}.
Implicit Types h : Html A.

Lemma text_content_texts h : text_content h = concat (texts h).
Proof.
  assert (forall l : list (Html A), Forall (fun h => text_content h = concat (texts h)) l ->
    concat (map text_content l) = concat (concat (map texts l))) as Hl.
  { induction 1 as [|x l Hx _ IH]; [done|]. cbn. by rewrite concat_app, Hx, IH. }
  induction h as [s|tag props on l IH|l IH] using Html_ind; cbn; [|by apply Hl..].
  destruct s; [done|]. cbn. by rewrite app_nil_r.
Qed.

(** The texts that show. *)
Definition seen (l : list jsstr) : list jsstr := filter (fun t => str_truthy t = true) l.

Lemma seen_cons t l : seen (t :: l) = (if str_truthy t then [t] else []) ++ seen l.
Proof. unfold seen. rewrite filter_cons. by destruct t. Qed.
Lemma seen_app l k : seen (l ++ k) = seen l ++ seen k.
Proof. apply filter_app. Qed.

Lemma seen_some t : seen (option_list (Some t)) = if str_truthy t then [t] else [].
Proof. unfold option_list, seen. cbn [option_rect]. rewrite filter_cons. by destruct t. Qed.
Lemma seen_none : seen (option_list None) = [].
Proof. done. Qed.

Lemma controls_map {B} (f : B -> Html A) l :
  concat (map controls (map f l)) = concat (map (fun x => controls (f x)) l).
Proof. by rewrite map_map. Qed.

Lemma controls_when b h : controls (when b h) = if b then controls h else [].
Proof. by destruct b. Qed.
Lemma texts_when b h : texts (when b h) = if b then texts h else [].
Proof. by destruct b. Qed.
Lemma text_content_when b h : text_content (when b h) = if b then text_content h else [].
Proof. by destruct b. Qed.
Lemma submittable_when b h : submittable (when b h) = b && submittable h.
Proof. by destruct b. Qed.

Lemma conforms_when up b h : conforms up (when b h) = negb b || conforms up h.
Proof. by destruct b. Qed.

Lemma conforms_when_true up b h : (b = true -> conforms up h = true) -> conforms up (when b h) = true.
Proof. destruct b; [auto|done]. Qed.

Lemma conforms_text up s : takes_text (model up) = true -> conforms (A:=A) up (Text s) = true.
Proof. cbn. intros ->. apply orb_true_r. Qed.

Lemma conforms_map {B} up (f : B -> Html A) l :
  (forall x, conforms up (f x) = true) -> forallb (conforms up) (map f l) = true.
Proof. intros Hf. induction l as [|x l IH]; [done|]. cbn. by rewrite Hf, IH. Qed.

(** Rows none of which the content models allow. *)
Lemma conforms_rows {B} up (f : B -> Html A) l :
  (forall x, conforms up (f x) = false) ->
  forallb (conforms up) (map f l) = null l.
Proof. intros Hf. destruct l as [|x l]; [done|]. cbn. by rewrite Hf. Qed.
End lemmas.

(** A tree conforms: by computation, one condition, text or list of rows at a time. *)
Ltac conform :=
  cbn;
  repeat first
    [ reflexivity
    | apply andb_true_intro; split
    | apply conforms_when_true; intros _; cbn
    | apply conforms_map; intros ?; cbn
    | rewrite orb_true_r
    | match goal with |- context [if ?b then _ else _] => destruct b; cbn end ].
