(* ===== verification/Ui.v ===== *)
(** * The building blocks of the dashboard: components/ui, lib/utils.ts

    Each component is a function from its props to markup. The libraries that make class
    names (clsx, tailwind-merge, class-variance-authority) are parameters; the tables the
    sources give them are here. No page uses [asChild], so it is left at its default. *)

From S2P Require Import Prelude Html.

(** A variant's name, its choices and their classes. *)
Notation VariantTable := (list (string * list (string * string))).

Class Styling := {
  clsx : list (option jsstr) -> jsstr;
  twMerge : jsstr -> jsstr;
  (** [cva(base, { variants, defaultVariants })(props)]: the choices made, and a class *)
  cva : jsstr -> VariantTable -> list (string * string) ->
        list (string * option string) -> option jsstr -> jsstr
}.

(** What the libraries document about the words they are given, as far as [pointer-events] is
    concerned: clsx joins the strings that are not empty; tailwind-merge removes a class only
    for a later one of the same property; class-variance-authority adds nothing of its own to
    the base, the chosen variants and the class. *)
Class StylingLaws `{Styling} : Prop := {
  clsx_pointer l : pointer (clsx l) = list.last (omap (fun o => o ≫= pointer) l);
  twMerge_pointer s : pointer (twMerge s) = pointer s;
  cva_pointer base variants defaults choices c :
    pointer base = None ->
    Forall (fun v => Forall (fun x => pointer (js x.2) = None) v.2) variants ->
    pointer (cva base variants defaults choices c) = c ≫= pointer
}.

Section ui.
Context `{Styling} {A : Type}.
Notation Html := (Html A).
Notation props := (list (string * jsstr)).

(** lib/utils.ts *)
Definition cn (inputs : list (option jsstr)) : jsstr := twMerge (clsx inputs).

(** An element whose class goes through [cn]. *)
Definition styled (tag slot : string) (base : string) (className : option jsstr)
    (rest : props) (on : list (Handler A)) (children : list Html) : Html :=
  El tag ([("data-slot"%string, js slot); ("className"%string, cn [Some (js base); className])] ++ rest)
    on children.

(** ** components/ui/badge.tsx *)

Definition badge_base : jsstr := js "inline-flex items-center justify-center rounded-md border px-2 py-0.5 text-xs font-medium w-fit whitespace-nowrap shrink-0 [&>svg]:size-3 gap-1 [&>svg]:pointer-events-none focus-visible:border-ring focus-visible:ring-ring/50 focus-visible:ring-[3px] aria-invalid:ring-destructive/20 dark:aria-invalid:ring-destructive/40 aria-invalid:border-destructive transition-[color,box-shadow] overflow-hidden".

Definition badge_variants : VariantTable :=
  [("variant",
    [("default", "border-transparent bg-primary text-primary-foreground [a&]:hover:bg-primary/90");
     ("secondary", "border-transparent bg-secondary text-secondary-foreground [a&]:hover:bg-secondary/90");
     ("destructive", "border-transparent bg-destructive text-white [a&]:hover:bg-destructive/90 focus-visible:ring-destructive/20 dark:focus-visible:ring-destructive/40 dark:bg-destructive/60");
     ("outline", "text-foreground [a&]:hover:bg-accent [a&]:hover:text-accent-foreground")])]%string.

Definition badgeVariants (variant : option string) : jsstr :=
  cva badge_base badge_variants [("variant", "default")]%string [("variant"%string, variant)] None.

Definition Badge (variant : option string) (className : option jsstr) (children : list Html) : Html :=
  El "span" [("data-slot"%string, js "badge");
             ("className"%string, cn [Some (badgeVariants variant); className])] [] children.

(** ** components/ui/button.tsx *)

Definition button_base : jsstr := js "inline-flex items-center justify-center gap-2 whitespace-nowrap rounded-md text-sm font-medium transition-all disabled:pointer-events-none disabled:opacity-50 [&_svg]:pointer-events-none [&_svg:not([class*='size-'])]:size-4 shrink-0 [&_svg]:shrink-0 outline-none focus-visible:border-ring focus-visible:ring-ring/50 focus-visible:ring-[3px] aria-invalid:ring-destructive/20 dark:aria-invalid:ring-destructive/40 aria-invalid:border-destructive".

Definition button_variants : VariantTable :=
  [("variant",
    [("default", "bg-primary text-primary-foreground shadow-xs hover:bg-primary/90");
     ("destructive", "bg-destructive text-white shadow-xs hover:bg-destructive/90 focus-visible:ring-destructive/20 dark:focus-visible:ring-destructive/40 dark:bg-destructive/60");
     ("outline", "border bg-background shadow-xs hover:bg-accent hover:text-accent-foreground dark:bg-input/30 dark:border-input dark:hover:bg-input/50");
     ("secondary", "bg-secondary text-secondary-foreground shadow-xs hover:bg-secondary/80");
     ("ghost", "hover:bg-accent hover:text-accent-foreground dark:hover:bg-accent/50");
     ("link", "text-primary underline-offset-4 hover:underline")]);
   ("size",
    [("default", "h-9 px-4 py-2 has-[>svg]:px-3");
     ("sm", "h-8 rounded-md gap-1.5 px-3 has-[>svg]:px-2.5");
     ("lg", "h-10 rounded-md px-6 has-[>svg]:px-4");
     ("icon", "size-9")])]%string.

Definition buttonVariants (variant size : option string) (className : option jsstr) : jsstr :=
  cva button_base button_variants [("variant", "default"); ("size", "default")]%string
    [("variant"%string, variant); ("size"%string, size)] className.

Definition Button (variant size : option string) (className : option jsstr) (rest : props)
    (on : list (Handler A)) (children : list Html) : Html :=
  El "button" ([("data-slot"%string, js "button");
                ("className"%string, cn [Some (buttonVariants variant size className)])] ++ rest) on children.

(** ** components/ui/card.tsx *)

Definition Card (className : option jsstr) : list Html -> Html :=
  styled "div" "card" "bg-card text-card-foreground flex flex-col gap-6 rounded-xl border py-6 shadow-sm"
    className [] [].
Definition CardHeader (className : option jsstr) : list Html -> Html :=
  styled "div" "card-header" "@container/card-header grid auto-rows-min grid-rows-[auto_auto] items-start gap-1.5 px-6 has-data-[slot=card-action]:grid-cols-[1fr_auto] [.border-b]:pb-6"
    className [] [].
Definition CardTitle (className : option jsstr) : list Html -> Html :=
  styled "div" "card-title" "leading-none font-semibold" className [] [].
Definition CardDescription (className : option jsstr) : list Html -> Html :=
  styled "div" "card-description" "text-muted-foreground text-sm" className [] [].
Definition CardAction (className : option jsstr) : list Html -> Html :=
  styled "div" "card-action" "col-start-2 row-span-2 row-start-1 self-start justify-self-end"
    className [] [].
Definition CardContent (className : option jsstr) : list Html -> Html :=
  styled "div" "card-content" "px-6" className [] [].
Definition CardFooter (className : option jsstr) : list Html -> Html :=
  styled "div" "card-footer" "flex items-center px-6 [.border-t]:pt-6" className [] [].

(** ** components/ui/input.tsx *)

Definition Input (className type : option jsstr) (rest : props) (on : list (Handler A)) : Html :=
  El "input" (opt_attr "type" type ++
    [("data-slot"%string, js "input");
     ("className"%string, cn
       [Some (js "file:text-foreground placeholder:text-muted-foreground selection:bg-primary selection:text-primary-foreground dark:bg-input/30 border-input flex h-9 w-full min-w-0 rounded-md border bg-transparent px-3 py-1 text-base shadow-xs transition-[color,box-shadow] outline-none file:inline-flex file:h-7 file:border-0 file:bg-transparent file:text-sm file:font-medium disabled:pointer-events-none disabled:cursor-not-allowed disabled:opacity-50 md:text-sm");
        Some (js "focus-visible:border-ring focus-visible:ring-ring/50 focus-visible:ring-[3px]");
        Some (js "aria-invalid:ring-destructive/20 dark:aria-invalid:ring-destructive/40 aria-invalid:border-destructive");
        className])] ++ rest) on [].

(** ** components/ui/pagination.tsx *)

Definition Pagination (className : option jsstr) (children : list Html) : Html :=
  El "nav" [("role"%string, js "navigation"); ("aria-label"%string, js "pagination");
            ("data-slot"%string, js "pagination");
            ("className"%string, cn [Some (js "mx-auto flex w-full justify-center"); className])]
    [] children.

Definition PaginationContent (className : option jsstr) : list Html -> Html :=
  styled "ul" "pagination-content" "flex flex-row items-center gap-1" className [] [].

Definition PaginationItem (children : list Html) : Html :=
  El "li" [("data-slot"%string, js "pagination-item")] [] children.

Definition PaginationLink (className : option jsstr) (isActive : option bool) (size : option string)
    (rest : props) (on : list (Handler A)) (children : list Html) : Html :=
  let active := match isActive with Some true => true | _ => false end in
  El "a" ((if active then [("aria-current"%string, js "page")] else []) ++
    [("data-slot"%string, js "pagination-link")] ++
    opt_attr "data-active" ((fun b : bool => if b then js "true" else js "false") <$> isActive) ++
    [("className"%string,
      cn [Some (buttonVariants (Some (if active then "outline" else "ghost")%string)
                  (Some (default "icon"%string size)) None); className])] ++ rest) on children.

Definition PaginationPrevious (className : option jsstr) (rest : props) (on : list (Handler A)) : Html :=
  PaginationLink (Some (cn [Some (js "gap-1 px-2.5 sm:pl-2.5"); className])) None (Some "default"%string)
    ([("aria-label"%string, js "Go to previous page")] ++ rest) on
    [El "ChevronLeftIcon" [] [] []; el "span" "hidden sm:block" [txt "Previous"]].

Definition PaginationNext (className : option jsstr) (rest : props) (on : list (Handler A)) : Html :=
  PaginationLink (Some (cn [Some (js "gap-1 px-2.5 sm:pr-2.5"); className])) None (Some "default"%string)
    ([("aria-label"%string, js "Go to next page")] ++ rest) on
    [el "span" "hidden sm:block" [txt "Next"]; El "ChevronRightIcon" [] [] []].

Definition PaginationEllipsis (className : option jsstr) : Html :=
  El "span" [("aria-hidden"%string, js "true"); ("data-slot"%string, js "pagination-ellipsis");
             ("className"%string, cn [Some (js "flex size-9 items-center justify-center"); className])] []
    [icon "MoreHorizontalIcon" "size-4"; el "span" "sr-only" [txt "More pages"]].
End ui.

(** What the components' own classes say of [pointer-events]. *)
Lemma cn_pointer `{StylingLaws} l : pointer (cn l) = list.last (omap (fun o => o ≫= pointer) l).
Proof. unfold cn. by rewrite twMerge_pointer, clsx_pointer. Qed.

Lemma buttonVariants_pointer `{StylingLaws} variant size c : pointer (buttonVariants variant size c) = c ≫= pointer.
Proof.
  apply cva_pointer; [by_eval|].
  apply (bool_decide_unpack _). vm_compute. exact I.
Qed.
(** Class names put together without any merging, for the examples. *)
Definition plain_styling : Styling := {|
  clsx l := join (js " ") (omap id l);
  twMerge s := s;
  cva base _ _ _ c := base ++ match c with Some x => js " " ++ x | None => [] end
|}.

Lemma pointer_join l : pointer (join (js " ") l) = list.last (omap pointer l).
Proof.
  induction l as [|x l IH]; [done|]. destruct l as [|y l].
  - cbn. by destruct (pointer x).
  - change (join (js " ") (x :: y :: l)) with (x ++ js " " ++ join (js " ") (y :: l)).
    rewrite pointer_space, IH. cbn [omap list_omap]. destruct (pointer x); [|by destruct (list.last _)].
    rewrite last_cons. by destruct (list.last _).
Qed.

#[export] Instance plain_styling_laws : StylingLaws (H:=plain_styling).
Proof.
  split.
  - intros l. cbn [clsx plain_styling]. rewrite pointer_join. f_equal.
    induction l as [|[x|] l IH]; [done| |done]. cbn in *. by rewrite IH.
  - done.
  - intros base variants ds ps [x|] Hb _; cbn.
    + rewrite pointer_space, Hb. by destruct (pointer x).
    + by rewrite app_nil_r.
Qed.
