(* ===== verification/SessionsView.v ===== *)
(** * The sessions list: routes/app/_layout/sessions.tsx

    The markup of the page over the state of [Pages.SessionsPage], with what its controls do.
    The text of a row is that of [Views]; the controls are the steps of the page's machine. *)

From S2P Require Import Prelude Decimal JsValue Json Format Auth Http Timeline Incident Pages Views Html Ui.

(** What a click on the page does: a step of the page, or opening a session. *)
Inductive SessionsAction := Do (i : SessionsPage.input) | Open (id : jsstr).

Definition ENVIRONMENTS : list string :=
  ["production"; "staging"; "development"; "testing"; "local"]%string.

(** A property every object inherits, and its text in a template literal. *)
Definition inherited_text (k : jsstr) : option jsstr :=
  let native (n : string) := js "function " ++ js n ++ js "() { [native code] }" in
  if decide (k = js "constructor") then Some (native "Object"%string)
  else if decide (k = js "__proto__") then Some (js "[object Object]")
  else (fun n => native n) <$>
    list_find (fun n => k = js n)
      ["toString"; "valueOf"; "toLocaleString"; "hasOwnProperty"; "isPrototypeOf";
       "propertyIsEnumerable"; "__defineGetter__"; "__defineSetter__"; "__lookupGetter__";
       "__lookupSetter__"]%string ≫= (fun p => Some p.2).

(** [ENV_COLORS[k] ?? ''] *)
Definition ENV_COLORS (k : jsstr) : jsstr :=
  let colors := [("production", "text-[#34d399]"); ("staging", "text-[#60a5fa]");
                 ("development", "text-[#818cf8]"); ("testing", "text-[#fb923c]");
                 ("local", "text-muted-foreground")]%string in
  match list_find (fun c => k = js c.1) colors with
  | Some (_, c) => js c.2
  | None => inherited_text k ?? []
  end.

(** [formatTime] of the three lists. *)
Definition formatTime `{DateParse} `{Locale} (iso : jsstr) : jsstr :=
  toLocaleString [("month", "short"); ("day", "numeric"); ("hour", "2-digit"); ("minute", "2-digit")]%string
    (date_parse iso).

Section view.
Context `{Styling} `{DateParse} `{Locale}.
Notation Html := (Html SessionsAction).

Definition field (label : string) (control : Html) : Html :=
  el "div" "space-y-1" [
    el "label" "text-xs font-medium text-muted-foreground uppercase tracking-wide" [txt label];
    control].

(** The form, which is there when [showFilters] is set. *)
Definition filter_form (s : SessionsPage.State) : Html :=
  El "form" [("className"%string, js "bg-card border border-border rounded-lg p-4 space-y-3")]
    [OnSubmit (Do SessionsPage.Apply)] [
    el "div" "grid grid-cols-1 sm:grid-cols-3 gap-3" [
      field "Identifier" (Input None None
        [("placeholder"%string, js "user@example.com or ID"); ("value"%string, SessionsPage.form_identifier s)]
        [OnChange (fun v => Do (SessionsPage.TypeIdentifier v))]);
      field "Service" (Input None None
        [("placeholder"%string, js "web, app, ..."); ("value"%string, SessionsPage.form_serviceName s)]
        [OnChange (fun v => Do (SessionsPage.TypeService v))]);
      field "Environment" (El "select"
        [("className"%string, js "flex h-9 w-full rounded-md border border-input bg-transparent px-3 py-1 text-sm shadow-xs outline-none focus-visible:border-ring focus-visible:ring-ring/50 focus-visible:ring-[3px] dark:bg-input/30");
         ("value"%string, SessionsPage.form_environment s)]
        [OnChange (fun v => Do (SessionsPage.PickEnvironment v))]
        [El "option" [("value"%string, [])] [] [txt "All"];
         Frag (map (fun env => El "option" [("value"%string, js env)] [] [txt env]) ENVIRONMENTS)])];
    el "div" "flex gap-2 pt-1" [
      Button None (Some "sm"%string) (Some (js "gap-2")) [("type"%string, js "submit")] []
        [icon "Search" "h-3.5 w-3.5"; txt "Apply"];
      when (SessionsPage.hasActiveFilters s)
        (Button (Some "ghost"%string) (Some "sm"%string) None [("type"%string, js "button")]
          [OnClick (Do SessionsPage.Clear)] [txt "Clear"])]].

(** One session. *)
Definition session_row (x : ReplaySession) : Html :=
  let env := Incident.environment x in let trigger := Incident.trigger x in
  El "button"
    [("type"%string, js "button");
     ("className"%string, js "w-full text-left bg-card border border-border rounded-lg px-4 py-3 hover:border-primary/50 hover:bg-card/80 transition-colors group")]
    [OnClick (Open (Incident.id x))] [
    el "div" "flex items-start justify-between gap-4" [
      el "div" "min-w-0 space-y-1" [
        el "div" "flex items-center gap-2 flex-wrap" [
          el "span" "flex items-center gap-1.5 text-sm font-medium text-foreground" [
            icon "User" "h-3.5 w-3.5 text-muted-foreground shrink-0";
            Text (if str_truthy (Incident.identifier x) then Incident.identifier x
                  else slice 0 8 (Incident.id x))];
          Badge (Some "secondary"%string) (Some (js "text-xs")) [Text (Incident.service_name x)];
          when (str_truthy env)
            (El "span" [("className"%string, js "text-xs " ++ ENV_COLORS env)] [] [Text env]);
          when (str_truthy trigger && negb (bool_decide (trigger = js "stream")))
            (Badge (Some "outline"%string)
               (Some (js "text-xs " ++ (if bool_decide (trigger = js "error")
                                        then js "border-[#f87171]/40 text-[#f87171]"
                                        else js "border-[#f59e0b]/40 text-[#f59e0b]")))
               [Text (if bool_decide (trigger = js "manual") then js "reported" else trigger)])];
        when (str_truthy (Incident.start_url x))
          (el "div" "flex items-center gap-1.5 text-xs text-muted-foreground" [
            icon "Globe" "h-3 w-3 shrink-0";
            el "span" "truncate max-w-xs" [Text (Incident.start_url x)]])];
      el "div" "shrink-0 text-right space-y-1" [
        el "div" "flex items-center gap-1.5 text-xs text-muted-foreground justify-end" [
          icon "Clock" "h-3 w-3"; Text (SessionsPage.formatDuration (Incident.duration_ms x))];
        el "p" "text-xs text-muted-foreground" [Text (formatTime (Incident.started_at x))];
        el "p" "text-xs text-muted-foreground" [
          Text (num_to_string (Incident.event_count x)); txt " events"]]]].

(** The skeletons, the empty list or the rows. *)
Definition session_list (s : SessionsPage.State) (isLoading : bool) (sessions : list ReplaySession) : Html :=
  if isLoading then
    el "div" "space-y-3" (map (fun _ => el "div" "h-20 rounded-lg bg-card border border-border animate-pulse" [])
                              (seq 0 5))
  else match sessions with
  | [] =>
    el "div" "flex flex-col items-center justify-center py-20 text-center" [
      icon "MonitorPlay" "h-10 w-10 text-muted-foreground/40 mb-3";
      el "p" "text-sm text-muted-foreground" [txt "No sessions found"];
      when (SessionsPage.hasActiveFilters s)
        (El "button" [("className"%string, js "text-xs text-primary mt-1 hover:underline")]
           [OnClick (Do SessionsPage.Clear)] [txt "Clear filters"])]
  | _ => el "div" "space-y-2" (map session_row sessions)
  end.

Definition aria_bool (b : bool) : jsstr := if b then js "true" else js "false".

Definition pagination (s : SessionsPage.State) : Html :=
  let page := SessionsPage.page (SessionsPage.search s) in
  let totalPages := SessionsPage.totalPages s in
  let off (b : bool) := Some (if b then js "pointer-events-none opacity-50" else []) in
  Pagination None [
    PaginationContent None [
      PaginationItem [PaginationPrevious (off (page <=? 1)%Z) [("aria-disabled"%string, aria_bool (page <=? 1)%Z)]
                        [OnClick (Do SessionsPage.Previous)]];
      PaginationItem [
        el "span" "px-3 text-sm text-muted-foreground" [
          Text (num_to_string page); txt " / "; Text (num_to_string totalPages)]];
      PaginationItem [PaginationNext (off (totalPages <=? page)%Z)
                        [("aria-disabled"%string, aria_bool (totalPages <=? page)%Z)]
                        [OnClick (Do SessionsPage.Next)]]]].

(** The component. *)
Definition SessionsPageView (s : SessionsPage.State) (isLoading : bool) (sessions : list ReplaySession) : Html :=
  let total := SessionsPage.total s in
  el "div" "p-6 space-y-5" [
    el "div" "flex items-center justify-between gap-4" [
      El "div" [] [] [
        el "h1" "text-xl font-semibold text-foreground" [txt "Sessions"];
        when (0 <? total)%Z
          (el "p" "text-xs text-muted-foreground mt-0.5" [
            Text (num_to_string total); txt " session"; Text (if (total =? 1)%Z then [] else js "s")])];
      Button (Some "outline"%string) (Some "sm"%string) (Some (js "gap-2")) []
        [OnClick (Do SessionsPage.ToggleFilters)] [
        icon "SlidersHorizontal" "h-3.5 w-3.5"; txt "Filters";
        when (SessionsPage.hasActiveFilters s)
          (el "span" "ml-1 h-1.5 w-1.5 rounded-full bg-primary" [])]];
    when (SessionsPage.showFilters s) (filter_form s);
    session_list s isLoading sessions;
    when (1 <? SessionsPage.totalPages s)%Z (pagination s)].

(** ** Properties *)

(** The text of a row is what [Views] says of the session, and its date. *)
Lemma row_texts x :
  texts (session_row x) =
  seen ([display_name x; Incident.service_name x] ++ option_list (if_text (Incident.environment x))
     ++ option_list (card_badge x) ++ option_list (if_text (Incident.start_url x))
     ++ [SessionsPage.formatDuration (Incident.duration_ms x); formatTime (Incident.started_at x);
         num_to_string (Incident.event_count x); js " events"]).
Proof.
  unfold session_row, display_name, if_text, card_badge, badge_text. cbn [texts map concat el icon Badge txt].
  rewrite !texts_when. cbn [texts map concat el icon Badge].
  rewrite !seen_app, !seen_cons.
  destruct (str_truthy (Incident.environment x)) eqn:E1, (str_truthy (Incident.trigger x) && _) eqn:E2,
    (str_truthy (Incident.start_url x)) eqn:E3;
    rewrite ?seen_some, ?seen_none, ?E1, ?E3, ?app_nil_r; cbn [app];
    rewrite <- ?app_assoc; cbn [app]; rewrite ?app_nil_r; reflexivity.
Qed.

(** The controls that work, in document order. *)
Definition form_controls (s : SessionsPage.State) : list (Handler SessionsAction) :=
  [OnSubmit (Do SessionsPage.Apply); OnChange (fun v => Do (SessionsPage.TypeIdentifier v));
   OnChange (fun v => Do (SessionsPage.TypeService v));
   OnChange (fun v => Do (SessionsPage.PickEnvironment v))]
  ++ (if SessionsPage.hasActiveFilters s then [OnClick (Do SessionsPage.Clear)] else []).

Definition list_controls (s : SessionsPage.State) (isLoading : bool) (sessions : list ReplaySession)
    : list (Handler SessionsAction) :=
  if isLoading then []
  else match sessions with
  | [] => if SessionsPage.hasActiveFilters s then [OnClick (Do SessionsPage.Clear)] else []
  | _ => map (fun x => OnClick (Open (Incident.id x))) sessions
  end.

Lemma row_controls x : controls (session_row x) = [OnClick (Open (Incident.id x))].
Proof.
  unfold session_row. cbn. rewrite !controls_when. cbn.
  by destruct (str_truthy (Incident.environment x)), (str_truthy (Incident.trigger x) && _),
    (str_truthy (Incident.start_url x)).
Qed.

Lemma list_controls_ok s isLoading sessions :
  controls (session_list s isLoading sessions) = list_controls s isLoading sessions.
Proof.
  unfold session_list, list_controls. destruct isLoading; [done|].
  destruct sessions as [|x r]; [cbn; rewrite controls_when; by destruct (SessionsPage.hasActiveFilters s)|].
  cbn [el controls enabled List.filter app]. rewrite controls_map.
  induction (x :: r) as [|y l IH]; [done|]. cbn [map concat]. by rewrite row_controls, IH.
Qed.

Lemma form_controls_ok s : controls (filter_form s) = form_controls s.
Proof.
  unfold filter_form, form_controls. cbn. rewrite !controls_when. cbn.
  by destruct (SessionsPage.hasActiveFilters s).
Qed.

(** The class of a link of the pagination takes the pointer away exactly when [b]. *)
Lemma link_pointer `{!StylingLaws} variant size base (b : bool) :
  pointer base = None ->
  pointer (cn [Some (buttonVariants variant size None);
    Some (cn [Some base; Some (if b then js "pointer-events-none opacity-50" else [])])]) =
  if b then Some false else None.
Proof.
  intros Hb. rewrite cn_pointer. cbn [omap list_omap mbind option_bind].
  rewrite buttonVariants_pointer, cn_pointer. cbn [omap list_omap mbind option_bind]. rewrite Hb.
  by destruct b.
Qed.

Lemma pagination_controls `{!StylingLaws} s :
  controls (pagination s) =
  (if (SessionsPage.page (SessionsPage.search s) <=? 1)%Z then [] else [OnClick (Do SessionsPage.Previous)])
  ++ (if (SessionsPage.totalPages s <=? SessionsPage.page (SessionsPage.search s))%Z
      then [] else [OnClick (Do SessionsPage.Next)]).
Proof.
  unfold pagination, PaginationPrevious, PaginationNext, PaginationLink. cbn -[pointer].
  unfold takes_pointer. cbn [attr String.eqb Ascii.eqb Bool.eqb mbind option_bind].
  rewrite !link_pointer by by_eval. rewrite !app_nil_r.
  by destruct (_ <=? 1)%Z, (SessionsPage.totalPages s <=? _)%Z.
Qed.

Lemma view_controls `{!StylingLaws} s isLoading sessions :
  controls (SessionsPageView s isLoading sessions) =
  [OnClick (Do SessionsPage.ToggleFilters)]
  ++ (if SessionsPage.showFilters s then form_controls s else [])
  ++ list_controls s isLoading sessions
  ++ (if (1 <? SessionsPage.totalPages s)%Z
      then (if (SessionsPage.page (SessionsPage.search s) <=? 1)%Z
            then [] else [OnClick (Do SessionsPage.Previous)])
        ++ (if (SessionsPage.totalPages s <=? SessionsPage.page (SessionsPage.search s))%Z
            then [] else [OnClick (Do SessionsPage.Next)]) else []).
Proof.
  rewrite <- form_controls_ok, <- list_controls_ok, <- pagination_controls. unfold SessionsPageView.
  generalize (filter_form s), (session_list s isLoading sessions), (pagination s). intros f l p.
  cbn. rewrite !controls_when. cbn. rewrite !app_nil_r.
  by destruct (0 <? _)%Z, (SessionsPage.hasActiveFilters s), (SessionsPage.showFilters s),
    (1 <? SessionsPage.totalPages s)%Z.
Qed.

Lemma offers_app {A} (l k : list (Handler A)) a :
  Exists (fun x => does x a) (l ++ k) <-> Exists (fun x => does x a) l \/ Exists (fun x => does x a) k.
Proof. apply Exists_app. Qed.

(** What a handler does when it runs, without asking whether its control is there. *)
Definition perform (i : SessionsPage.input) (s : SessionsPage.State) : SessionsPage.State :=
  match i with
  | SessionsPage.Apply => SessionsPage.applyFilters s
  | SessionsPage.Clear => SessionsPage.clearFilters s
  | SessionsPage.Previous => SessionsPage.set_page (Z.max 1 (SessionsPage.page (SessionsPage.search s) - 1)) s
  | SessionsPage.Next =>
    SessionsPage.set_page (Z.min (SessionsPage.totalPages s) (SessionsPage.page (SessionsPage.search s) + 1)) s
  | _ => SessionsPage.step i s
  end.

Lemma exists_if {B} (b : bool) (P : B -> Prop) l : Exists P (if b then l else []) <-> b = true /\ Exists P l.
Proof. destruct b; [tauto|]. rewrite Exists_nil. naive_solver. Qed.

Lemma exists_unless {B} (b : bool) (P : B -> Prop) l : Exists P (if b then [] else l) <-> b = false /\ Exists P l.
Proof. destruct b; [|tauto]. rewrite Exists_nil. naive_solver. Qed.

(** The condition under which a link of the pagination takes clicks. *)
Lemma turn_guard a b c : (1 < a /\ b < c)%Z -> ((1 <? a) && negb (c <=? b))%Z = true.
Proof. intros. rewrite (proj2 (Z.ltb_lt _ _)), (proj2 (Z.leb_gt _ _)) by lia. done. Qed.

Lemma offers_list s isLoading sessions a :
  Exists (fun x => does x a) (list_controls s isLoading sessions) <->
  isLoading = false /\
  ((exists x, x ∈ sessions /\ a = Open (Incident.id x)) \/
   (sessions = [] /\ SessionsPage.hasActiveFilters s = true /\ a = Do SessionsPage.Clear)).
Proof.
  unfold list_controls. destruct isLoading; [rewrite Exists_nil; naive_solver|].
  destruct sessions as [|x r].
  - rewrite exists_if, Exists_cons, Exists_nil. cbn. split; [naive_solver|].
    intros [_ [(x & Hx & _)|?]]; [by apply elem_of_nil in Hx|naive_solver].
  - rewrite Exists_exists. split.
    + intros (y & Hy & Ha). apply list_elem_of_fmap in Hy as (z & -> & Hz). cbn in Ha. eauto 6.
    + intros [_ [(z & Hz & ->)|[? _]]]; [|done]. exists (OnClick (Open (Incident.id z))).
      split; [|done]. apply list_elem_of_fmap. eauto.
Qed.

Lemma offers_form s a :
  Exists (fun x => does x a) (form_controls s) <->
  a = Do SessionsPage.Apply \/ (exists v, a = Do (SessionsPage.TypeIdentifier v)) \/
  (exists v, a = Do (SessionsPage.TypeService v)) \/ (exists v, a = Do (SessionsPage.PickEnvironment v)) \/
  (SessionsPage.hasActiveFilters s = true /\ a = Do SessionsPage.Clear).
Proof.
  unfold form_controls. rewrite offers_app, exists_if, !Exists_cons, !Exists_nil. cbn. tauto.
Qed.

(** C21: the page's machine is the page. What the controls on the screen offer is what the
    machine lets through: a control that works is never ignored; the filters can be applied
    exactly while the form is open; with more than one page, Previous takes clicks on every
    page but the first and Next on every page but the last, each turning exactly one page;
    and the sessions that can be opened are the ones listed. A link whose class has
    pointer-events-none takes no click; [StylingLaws] says that the class libraries pass that
    word on. *)
Theorem sessions_page_refines `{!StylingLaws} s isLoading sessions :
  let page := SessionsPageView s isLoading sessions in
  (forall i, offers page (Do i) -> SessionsPage.step i s = perform i s) /\
  (offers page (Do SessionsPage.Apply) <-> SessionsPage.showFilters s = true) /\
  (offers page (Do SessionsPage.Next) <->
   (1 < SessionsPage.totalPages s /\
    SessionsPage.page (SessionsPage.search s) < SessionsPage.totalPages s)%Z) /\
  (offers page (Do SessionsPage.Previous) <->
   (1 < SessionsPage.totalPages s /\ 1 < SessionsPage.page (SessionsPage.search s))%Z) /\
  (offers page (Do SessionsPage.Next) ->
   SessionsPage.page (SessionsPage.search (SessionsPage.step SessionsPage.Next s)) =
     (SessionsPage.page (SessionsPage.search s) + 1)%Z) /\
  (offers page (Do SessionsPage.Previous) ->
   SessionsPage.page (SessionsPage.search (SessionsPage.step SessionsPage.Previous s)) =
     (SessionsPage.page (SessionsPage.search s) - 1)%Z) /\
  (offers page (Do SessionsPage.Clear) <->
   SessionsPage.hasActiveFilters s = true /\
   (SessionsPage.showFilters s = true \/ isLoading = false /\ sessions = [])) /\
  (forall id, offers page (Open id) <->
   isLoading = false /\ exists x, x ∈ sessions /\ id = Incident.id x).
Proof.
  intros page. assert (forall a, offers page a <->
    a = Do SessionsPage.ToggleFilters \/
    (SessionsPage.showFilters s = true /\
     (a = Do SessionsPage.Apply \/ (exists v, a = Do (SessionsPage.TypeIdentifier v)) \/
      (exists v, a = Do (SessionsPage.TypeService v)) \/ (exists v, a = Do (SessionsPage.PickEnvironment v)) \/
      (SessionsPage.hasActiveFilters s = true /\ a = Do SessionsPage.Clear))) \/
    (isLoading = false /\
     ((exists x, x ∈ sessions /\ a = Open (Incident.id x)) \/
      (sessions = [] /\ SessionsPage.hasActiveFilters s = true /\ a = Do SessionsPage.Clear))) \/
    ((1 < SessionsPage.totalPages s)%Z /\
     ((1 < SessionsPage.page (SessionsPage.search s))%Z /\ a = Do SessionsPage.Previous \/
      (SessionsPage.page (SessionsPage.search s) < SessionsPage.totalPages s)%Z /\ a = Do SessionsPage.Next)))
    as Ho.
  { intros a. unfold offers, page.
    rewrite view_controls, !offers_app, !exists_if, offers_form, offers_list, !offers_app, !exists_unless,
      !Exists_cons, !Exists_nil, Z.ltb_lt, !Z.leb_gt. cbn. tauto. }
  assert (offers page (Do SessionsPage.Next) <->
    (1 < SessionsPage.totalPages s /\
     SessionsPage.page (SessionsPage.search s) < SessionsPage.totalPages s)%Z) as Hnext
    by (rewrite Ho; naive_solver).
  assert (offers page (Do SessionsPage.Previous) <->
    (1 < SessionsPage.totalPages s /\ 1 < SessionsPage.page (SessionsPage.search s))%Z) as Hprev
    by (rewrite Ho; naive_solver).
  split_and!; try done.
  - intros i Hi. destruct i; try done; cbn [SessionsPage.step perform].
    + apply Ho in Hi. destruct (SessionsPage.showFilters s); naive_solver.
    + apply Ho in Hi. destruct (SessionsPage.hasActiveFilters s); naive_solver.
    + unfold SessionsPage.previous. rewrite turn_guard; [done|tauto].
    + unfold SessionsPage.next. rewrite turn_guard; [done|tauto].
  - rewrite Ho. naive_solver.
  - intros [Ht Hp]%Hnext. cbn. unfold SessionsPage.next. rewrite turn_guard by tauto. cbn. lia.
  - intros [Ht Hp]%Hprev. cbn. unfold SessionsPage.previous. rewrite turn_guard by tauto. cbn. lia.
  - rewrite Ho. naive_solver.
  - intros id. rewrite Ho. naive_solver.
Qed.

(** The page keeps to HTML's content models unless it lists a session: a row is a button that
    holds divisions and paragraphs. *)
Lemma sessions_page_conforms s isLoading sessions :
  conforms ["main"; "div"; "div"]%string (SessionsPageView s isLoading sessions) =
  isLoading || null sessions.
Proof.
  assert (conforms ["div"; "main"; "div"; "div"]%string (filter_form s) = true) as Hf
    by (unfold filter_form; conform).
  assert (conforms ["div"; "main"; "div"; "div"]%string (pagination s) = true) as Hp
    by (unfold pagination; conform).
  assert (conforms ["div"; "main"; "div"; "div"]%string (session_list s isLoading sessions) =
    isLoading || null sessions) as Hl.
  { unfold session_list. destruct isLoading; [by conform|]. destruct sessions as [|x r]; [by conform|done]. }
  unfold SessionsPageView. generalize dependent (filter_form s). generalize dependent (pagination s).
  generalize dependent (session_list s isLoading sessions). intros l Hl p Hp f Hf.
  cbn. rewrite !conforms_when, Hf, Hp, Hl. cbn. rewrite !orb_true_r. cbn. by rewrite andb_true_r.
Qed.
End view.

(** ** Witness *)

(** A locale and a date parser for which every date is blank. *)
Definition blank_locale : Locale :=
  {| toLocaleString _ _ := []; toLocaleTimeString _ _ := [] |}.
Definition no_dates : DateParse := fun _ => None.

(** The first of three pages. *)
Definition demo_sessions : SessionsPage.State :=
  SessionsPage.step (SessionsPage.Loaded 45)
    (SessionsPage.open (SessionsPage.mkSearch None None None 1)).

Lemma sessions_page_refines_witness :
  let page := SessionsPageView (H:=plain_styling) (H0:=no_dates) (H1:=blank_locale) demo_sessions false [] in
  offers page (Do SessionsPage.Next) /\ ~ offers page (Do SessionsPage.Previous) /\
  SessionsPage.page (SessionsPage.search (SessionsPage.step SessionsPage.Next demo_sessions)) = 2%Z.
Proof.
  destruct (sessions_page_refines (H:=plain_styling) (H0:=no_dates) (H1:=blank_locale)
    demo_sessions false []) as (_ & _ & Hn & Hp & Ht & _).
  assert (offers (SessionsPageView (H:=plain_styling) (H0:=no_dates) (H1:=blank_locale)
            demo_sessions false []) (Do SessionsPage.Next)) as Ho
    by (apply Hn; split; vm_compute; done).
  split; [exact Ho|]. split; [|exact (Ht Ho)].
  intros Hc. apply Hp in Hc as [_ Hc]. vm_compute in Hc. discriminate Hc.
Defined.
