(* ===== verification/SessionView.v ===== *)
(** * The session page: routes/app/_layout/sessions_.$id.tsx

    The markup of the page, of its device line, of its three buttons and of its console
    panel, with what each control does. *)

From S2P Require Import Prelude Decimal JsValue Json Format Auth Http Timeline Incident Pages Replay Views.
From S2P Require Import Html Ui SessionsView.

Inductive DetailAction := BackToList | CopyForAI | ShareReplay | DeleteSession | SeekTo (ts : Z).

(** The fields of a session the page reads. *)
Record SessionData := mkData {
  session_of : ReplaySession;
  device_of : PlayerPage.Device;
  device_type : jsstr
}.

(** The state of the three buttons. *)
Record Buttons := mkButtons {
  copy_copied : bool;
  share_copied : bool;
  share_pending : bool;
  delete_pending : bool
}.

(** [n !== 1 ? 's' : ''] *)
Definition s_of (n : nat) : jsstr := if (n =? 1)%nat then [] else js "s".

Section view.
Context `{Styling} `{DateParse} `{Locale}.
Notation Html := (Html DetailAction).

(** This page's [formatTime] has seconds; [formatClock] is the time of a timestamp. *)
Definition formatTime_s (iso : jsstr) : jsstr :=
  toLocaleString [("month", "short"); ("day", "numeric"); ("hour", "2-digit"); ("minute", "2-digit");
                  ("second", "2-digit")]%string (date_parse iso).
Definition formatClock (ts : Z) : jsstr :=
  toLocaleTimeString [("hour", "2-digit"); ("minute", "2-digit"); ("second", "2-digit")]%string (Some ts).

(** ** The buttons *)

Definition CopyForAIButton (b : Buttons) : Html :=
  Button (Some "outline"%string) (Some "sm"%string)
    (Some (js "gap-2 ml-auto border-[#f59e0b]/40 text-[#f59e0b] hover:bg-[#f59e0b]/10 hover:text-[#f59e0b]"))
    [] [OnClick CopyForAI]
    [if copy_copied b then Frag [icon "Check" "h-4 w-4 text-[#34d399]"; txt "Copied"]
     else Frag [icon "Sparkles" "h-4 w-4"; txt "Copy for AI"]].

Definition ShareButton (b : Buttons) : Html :=
  Button (Some "outline"%string) (Some "sm"%string) (Some (js "gap-2"))
    (flag "disabled" (share_pending b)) [OnClick ShareReplay]
    [if share_copied b then Frag [icon "Check" "h-4 w-4 text-[#34d399]"; txt "Link copied"]
     else Frag [icon "Link2" "h-4 w-4";
                if share_pending b then txt "Generating…" else txt "Share replay"]].

Definition DeleteButton (b : Buttons) : Html :=
  Button (Some "outline"%string) (Some "sm"%string)
    (Some (js "gap-2 border-[#f87171]/40 text-[#f87171] hover:bg-[#f87171]/10 hover:text-[#f87171]"))
    (flag "disabled" (delete_pending b)) [OnClick DeleteSession]
    [icon "Trash2" "h-4 w-4"; if delete_pending b then txt "Deleting…" else txt "Delete"].

(** ** [DeviceMeta] *)

Definition device_icon (d : SessionData) : string :=
  if bool_decide (device_type d = js "mobile") then "Smartphone"
  else if bool_decide (device_type d = js "tablet") then "Tablet" else "Monitor".

(** The pushes on [items]: an icon and a label each. *)
Definition device_items (d : SessionData) : list (string * jsstr) :=
  let v := device_of d in
  let push (b : bool) (i : string) (l : jsstr) := if b then [(i, l)] else [] in
  push (str_truthy (PlayerPage.browser v)) "Globe"%string
    (if str_truthy (PlayerPage.browser_version v)
     then PlayerPage.browser v ++ js " " ++ split_head 46 (PlayerPage.browser_version v)
     else PlayerPage.browser v)
  ++ push (str_truthy (PlayerPage.os v)) (device_icon d) (PlayerPage.os v)
  ++ push (PlayerPage.nonzero (PlayerPage.screen_width v) && PlayerPage.nonzero (PlayerPage.screen_height v))
       "Monitor"%string
       (PlayerPage.size_text (PlayerPage.screen_width v) (PlayerPage.screen_height v)
        ++ (if negb (mant (PlayerPage.device_pixel_ratio v) =? 0)%Z
               && negb (bool_decide (PlayerPage.device_pixel_ratio v = dec_of_Z 1))
            then js " @" ++ dec_to_string (PlayerPage.device_pixel_ratio v) ++ js "x" else []))
  ++ push (PlayerPage.nonzero (PlayerPage.viewport_width v) && PlayerPage.nonzero (PlayerPage.viewport_height v))
       "Tablet"%string
       (PlayerPage.size_text (PlayerPage.viewport_width v) (PlayerPage.viewport_height v) ++ js " viewport")
  ++ push (str_truthy (PlayerPage.language v)) "Languages"%string (PlayerPage.language v)
  ++ push (str_truthy (PlayerPage.timezone v)) "Clock"%string (PlayerPage.timezone v).

Definition has_meta (v : PlayerPage.Device) : bool :=
  str_truthy (PlayerPage.browser v) || str_truthy (PlayerPage.os v)
  || PlayerPage.nonzero (PlayerPage.screen_width v) || str_truthy (PlayerPage.language v)
  || str_truthy (PlayerPage.timezone v).

Definition DeviceMeta (d : SessionData) : Html :=
  when (has_meta (device_of d))
    (el "div" "bg-card border border-border rounded-lg px-4 py-2.5 flex flex-wrap items-center gap-x-4 gap-y-2 text-xs text-muted-foreground" [
      el "span" "flex items-center gap-1.5 text-foreground font-medium" [
        icon (device_icon d) "h-3.5 w-3.5 text-muted-foreground"; txt "Device"];
      Frag (map (fun it => el "span" "flex items-center gap-1.5" [icon it.1 "h-3.5 w-3.5"; Text it.2])
                (device_items d))]).

(** The labels are those of [Pages.PlayerPage.DeviceMeta]. *)
Lemma device_labels d :
  PlayerPage.DeviceMeta (device_of d) =
  if has_meta (device_of d) then Some (map snd (device_items d)) else None.
Proof.
  unfold PlayerPage.DeviceMeta, has_meta, device_items. destruct (_ || _) eqn:E; [|done]. cbn [negb].
  f_equal. rewrite !map_app. repeat f_equal; by repeat case_match.
Qed.

(** ** [ConsolePanel] *)

Definition count_text (n : nat) (what : string) : list Html :=
  [Text (num_to_string (Z.of_nat n)); txt what; Text (s_of n)].

Definition console_row (item : TimelineItem) : Html :=
  let meta := KIND_META (kind item) in
  El "button"
    [("type"%string, js "button");
     ("className"%string, js "w-full text-left flex items-start gap-3 px-4 py-1.5 border-b border-border/30 last:border-0 hover:bg-secondary/40 transition-colors")]
    [OnClick (SeekTo (timestamp item))] [
    El "span" [("className"%string, js "shrink-0 uppercase " ++ color meta ++ js " w-10")] [] [Text (Timeline.label meta)];
    el "span" "flex-1 min-w-0 text-foreground/90 whitespace-pre-wrap break-words" [Text (message item)];
    el "span" "shrink-0 text-muted-foreground" [Text (formatClock (timestamp item))]].

Definition ConsolePanel (items : list TimelineItem) (errors warnings : nat) : Html :=
  el "div" "bg-card border border-border rounded-lg overflow-hidden" [
    el "div" "px-4 py-2.5 border-b border-border flex items-center gap-2" [
      icon "Terminal" "h-4 w-4 text-muted-foreground";
      el "p" "text-sm font-medium text-foreground" [txt "Console"];
      el "div" "ml-auto flex items-center gap-3 text-xs" [
        when (0 <? errors)%nat (el "span" "text-[#f87171]" (count_text errors " error"));
        when (0 <? warnings)%nat (el "span" "text-[#fbbf24]" (count_text warnings " warn"));
        el "span" "text-muted-foreground" (count_text (length items) " log")]];
    el "div" "max-h-64 overflow-y-auto font-mono text-xs" [
      match items with
      | [] => el "p" "px-4 py-6 text-muted-foreground text-center" [txt "No console output."]
      | _ => Frag (map console_row items)
      end]].

(** ** The page *)

Definition timeline_row (firstTs : Z) (item : TimelineItem) : Html :=
  let meta := KIND_META (kind item) in
  El "button"
    [("type"%string, js "button");
     ("className"%string, js "w-full text-left flex items-start gap-3 px-4 py-2.5 border-b border-border/50 last:border-0 hover:bg-secondary/40 transition-colors")]
    [OnClick (SeekTo (timestamp item))] [
    El "span" [("className"%string, js "mt-1.5 h-2 w-2 shrink-0 rounded-full " ++ dot meta)] [] [];
    el "div" "min-w-0 flex-1" [
      El "p" [("className"%string, js "text-xs font-medium " ++ color meta)] [] [Text (Timeline.label meta)];
      el "p" "text-xs text-foreground/90 truncate" [Text (message item)]];
    el "span" "text-[10px] text-muted-foreground font-mono shrink-0 mt-0.5" [
      txt "+"; Text (SessionsPage.formatDuration (Some (timestamp item - firstTs)%Z))]].

Definition meta_line (x : ReplaySession) (errors : nat) : Html :=
  let trigger := Incident.trigger x in
  el "div" "bg-card border border-border rounded-lg px-4 py-3 flex flex-wrap items-center gap-4 text-sm" [
    el "div" "flex items-center gap-1.5 text-foreground font-medium" [
      icon "User" "h-4 w-4 text-muted-foreground";
      Text (if str_truthy (Incident.identifier x) then Incident.identifier x else slice 0 8 (Incident.id x))];
    Badge (Some "secondary"%string) None [Text (Incident.service_name x)];
    when (str_truthy trigger)
      (Badge (Some "outline"%string)
         (Some (if bool_decide (trigger = js "error") then js "border-[#f87171]/40 text-[#f87171]"
                else if bool_decide (trigger = js "manual") then js "border-[#f59e0b]/40 text-[#f59e0b]"
                else js "border-border text-muted-foreground"))
         [Text (if bool_decide (trigger = js "manual") then js "reported" else trigger)]);
    when (0 <? errors)%nat
      (el "span" "flex items-center gap-1 text-xs text-[#f87171]"
         (icon "AlertTriangle" "h-3.5 w-3.5" :: count_text errors " error"));
    when (str_truthy (Incident.environment x))
      (el "span" "text-xs text-muted-foreground" [Text (Incident.environment x)]);
    when (str_truthy (Incident.start_url x))
      (el "div" "flex items-center gap-1.5 text-xs text-muted-foreground min-w-0" [
        icon "Globe" "h-3.5 w-3.5 shrink-0";
        el "span" "truncate max-w-xs" [Text (Incident.start_url x)]]);
    el "div" "flex items-center gap-1.5 text-xs text-muted-foreground ml-auto" [
      icon "Clock" "h-3.5 w-3.5";
      Text (SessionsPage.formatDuration (Incident.duration_ms x)); txt " · ";
      Text (formatTime_s (Incident.started_at x))]].

Definition timeline_panel (timeline : list TimelineItem) (firstTs : Z) : Html :=
  el "div" "w-80 shrink-0 bg-card border border-border rounded-lg overflow-hidden" [
    el "div" "px-4 py-3 border-b border-border flex items-center gap-2" [
      icon "MousePointerClick" "h-4 w-4 text-muted-foreground";
      el "p" "text-sm font-medium text-foreground" [
        txt "Timeline";
        el "span" "ml-2 text-xs text-muted-foreground font-normal" [
          Text (num_to_string (Z.of_nat (length timeline)))]]];
    el "div" "overflow-y-auto max-h-[600px]" [
      match timeline with
      | [] => el "p" "px-4 py-6 text-xs text-muted-foreground text-center" [txt "No user actions captured."]
      | _ => Frag (map (timeline_row firstTs) timeline)
      end]].

(** The page once the session is there. *)
Definition session_content (b : Buttons) (d : SessionData) (events : list ReplayEvent.t)
    (timeline : list TimelineItem) : Html :=
  let '(errors, warnings) := countConsole timeline in
  let firstTs := match events with e :: _ => ReplayEvent.timestamp e | [] => 0%Z end in
  el "div" "p-6 space-y-5" [
    el "div" "flex items-center gap-3" [
      Button (Some "ghost"%string) (Some "sm"%string) (Some (js "gap-2")) [] [OnClick BackToList]
        [icon "ArrowLeft" "h-4 w-4"; txt "Sessions"];
      CopyForAIButton b; ShareButton b; DeleteButton b];
    meta_line (session_of d) errors;
    DeviceMeta d;
    el "div" "flex gap-4 items-start" [
      el "div" "flex-1 min-w-0 space-y-4" [
        match events with
        | [] => el "div" "flex items-center justify-center h-[440px] bg-card border border-border rounded-lg text-sm text-muted-foreground"
                  [txt "No events recorded for this session."]
        | _ => el "div" "w-full rounded-lg overflow-hidden border border-border" []
        end;
        ConsolePanel (List.filter is_console timeline) errors warnings];
      timeline_panel timeline firstTs]].

(** The component; the timeline is built in every render, whatever is shown. *)
Definition PlayerPageView (b : Buttons) (isLoading : bool) (session : option SessionData)
    (events : list ReplayEvent.t) : res Html :=
  timeline ← buildTimeline events;
  Ok (if isLoading then
        el "div" "p-6 space-y-4" [
          el "div" "h-8 w-40 rounded bg-card animate-pulse" [];
          el "div" "h-[440px] rounded-lg bg-card animate-pulse" []]
      else match session with
      | None => el "div" "p-6" [el "p" "text-sm text-muted-foreground" [txt "Session not found."]]
      | Some d => session_content b d events timeline
      end).

(** ** Controls *)

Definition button_controls (b : Buttons) : list DetailAction :=
  [BackToList; CopyForAI] ++ (if share_pending b then [] else [ShareReplay])
  ++ (if delete_pending b then [] else [DeleteSession]).

Lemma clicks_app l k : omap (fun x : Handler DetailAction => match x with OnClick a => Some a | _ => None end) (l ++ k)
  = omap (fun x => match x with OnClick a => Some a | _ => None end) l
    ++ omap (fun x => match x with OnClick a => Some a | _ => None end) k.
Proof. apply omap_app. Qed.

Lemma rows_controls (f : TimelineItem -> Html) l :
  (forall x, controls (f x) = [OnClick (SeekTo (timestamp x))]) ->
  concat (map controls (map f l)) = map (fun x => OnClick (SeekTo (timestamp x))) l.
Proof. intros Hf. rewrite controls_map. induction l as [|x l IH]; [done|]. cbn. by rewrite Hf, IH. Qed.

Lemma count_controls n what : concat (map controls (count_text n what)) = [].
Proof. done. Qed.

Lemma console_controls items errors warnings :
  controls (ConsolePanel items errors warnings) = map (fun x => OnClick (SeekTo (timestamp x))) items.
Proof.
  unfold ConsolePanel. set (rows := match items with [] => _ | _ => _ end).
  assert (controls rows = map (fun x => OnClick (SeekTo (timestamp x))) items) as Hr.
  { unfold rows. destruct items as [|x r]; [done|]. apply (rows_controls console_row). done. }
  clearbody rows. cbn. rewrite !controls_when. cbn. rewrite Hr, !app_nil_r.
  by destruct errors, warnings.
Qed.

Lemma timeline_controls timeline firstTs :
  controls (timeline_panel timeline firstTs) = map (fun x => OnClick (SeekTo (timestamp x))) timeline.
Proof.
  unfold timeline_panel. set (rows := match timeline with [] => _ | _ => _ end).
  assert (controls rows = map (fun x => OnClick (SeekTo (timestamp x))) timeline) as Hr.
  { unfold rows. destruct timeline as [|x r]; [done|]. apply (rows_controls (timeline_row firstTs)). done. }
  clearbody rows. cbn. by rewrite Hr, !app_nil_r.
Qed.

Lemma meta_controls x errors : controls (meta_line x errors) = [].
Proof.
  unfold meta_line. cbn. rewrite !controls_when. cbn.
  by destruct (str_truthy (Incident.trigger x)), errors, (str_truthy (Incident.environment x)),
    (str_truthy (Incident.start_url x)).
Qed.

Lemma device_controls d : controls (DeviceMeta d) = [].
Proof.
  unfold DeviceMeta. rewrite controls_when. destruct (has_meta _); [|done].
  generalize (device_items d). intros l. cbn. rewrite app_nil_r. induction l as [|x l IH]; [done|]. cbn. by rewrite IH.
Qed.

Lemma seek_clicks (l : list TimelineItem) :
  omap (fun x : Handler DetailAction => match x with OnClick a => Some a | _ => None end)
    (map (fun x => OnClick (SeekTo (timestamp x))) l) = map (fun x => SeekTo (timestamp x)) l.
Proof. induction l as [|x l IH]; [done|]. cbn. by f_equal. Qed.

(** C22: the controls of a loaded session page, in order: the way back, the report, sharing and
    deleting unless already under way, then one jump for each console line and one for
    each breadcrumb, to the moment it happened. The page fails exactly when the
    timeline does, with its error. *)
Theorem session_page_controls b d events :
  match buildTimeline events with
  | Throw e => PlayerPageView b false (Some d) events = Throw e
  | Ok timeline =>
    exists page, PlayerPageView b false (Some d) events = Ok page /\
      clicks page = button_controls b
        ++ map (fun x => SeekTo (timestamp x)) (List.filter is_console timeline)
        ++ map (fun x => SeekTo (timestamp x)) timeline
  end.
Proof.
  unfold PlayerPageView. destruct (buildTimeline events) as [timeline|e]; [|done]. eexists. split; [done|].
  unfold session_content, clicks. destruct (countConsole timeline) as [errors warnings].
  set (m := meta_line _ _). set (dm := DeviceMeta d). set (c := ConsolePanel _ _ _). set (tp := timeline_panel _ _).
  assert (controls m = [] /\ controls dm = []) as [Hm Hd] by (split; [apply meta_controls|apply device_controls]).
  assert (controls c = _) as Hc by apply console_controls.
  assert (controls tp = _) as Htp by apply timeline_controls.
  clearbody m dm c tp. cbn. rewrite Hm, Hd, Hc, Htp, !app_nil_r.
  destruct b as [cc sc sp dp]. unfold button_controls. cbn.
  destruct events as [|e r], cc, sc, sp, dp; cbn; rewrite !clicks_app, !seek_clicks; done.
Qed.

(** The page keeps to HTML's content models unless it shows an item of the timeline: the row
    of an item is a button that holds a division. *)
Lemma session_page_conforms b isLoading session events timeline page :
  buildTimeline events = Ok timeline -> PlayerPageView b isLoading session events = Ok page ->
  conforms ["main"; "div"; "div"]%string page =
  isLoading || match session with None => true | Some _ => null timeline end.
Proof.
  unfold PlayerPageView. intros ->. cbn. intros [= <-].
  destruct isLoading; [done|]. destruct session as [d|]; [|done].
  unfold session_content. destruct (countConsole timeline) as [errors warnings].
  set (up := ["div"; "main"; "div"; "div"]%string).
  assert (conforms up (meta_line (session_of d) errors) = true) as Hm
    by (unfold meta_line, up; conform).
  assert (conforms up (DeviceMeta d) = true) as Hd.
  { unfold DeviceMeta, up. generalize (device_items d). intros its. conform. }
  assert (conforms ("div" :: "div" :: up)%string
    (ConsolePanel (List.filter is_console timeline) errors warnings) = true) as Hc.
  { unfold ConsolePanel, up. generalize (List.filter is_console timeline). intros [|x l]; conform. }
  assert (forall ts, conforms ("div" :: up)%string (timeline_panel timeline ts) = null timeline) as Ht.
  { intros ts. unfold timeline_panel, up. destruct timeline as [|x l]; [by conform|]. cbn.
    by rewrite !orb_true_r. }
  generalize dependent (meta_line (session_of d) errors). generalize dependent (DeviceMeta d).
  generalize dependent (ConsolePanel (List.filter is_console timeline) errors warnings).
  intros c Hc dm Hd m Hm. unfold up in *. destruct events as [|e r]; cbn -[timeline_panel];
    rewrite ?Hm, ?Hd, ?Hc, ?Ht; destruct b as [[] [] [] []]; cbn; by rewrite ?andb_true_r.
Qed.
End view.
