(* ===== verification/OverviewView.v ===== *)
(** * The shared replay and the overview: routes/share.$token.tsx, routes/app/_layout/index.tsx

    The markup of the two pages. Both open sessions; what they show is that of [Views]. *)

From S2P Require Import Prelude Decimal JsValue Json Format Auth Http Timeline Incident Pages Replay Views.
From S2P Require Import Html Ui SessionsView.

(** Opening the page of a session. *)
Inductive OpenAction := OpenSession (id : jsstr).

Section view.
Context `{Styling} `{DateParse} `{Locale}.
Notation Html := (Html OpenAction).

(** ** The shared replay *)

(** The button signed-in visitors get. *)
Definition door_button (id : jsstr) : Html :=
  el "div" "flex items-center justify-between gap-4 rounded-lg border border-primary/30 bg-accent px-4 py-3" [
    el "div" "flex items-center gap-2 text-sm text-accent-foreground" [
      icon "ShieldCheck" "h-4 w-4";
      txt "You're signed in — open the full debug view with console & identity."];
    Button None (Some "sm"%string) None [] [OnClick (OpenSession id)] [txt "Open debug view"]].

(** What is known of the session: no identity and no address. *)
Definition redacted_line (x : PublicSession.t) : Html :=
  el "div" "flex flex-wrap items-center gap-3 text-sm" [
    Badge (Some "secondary"%string) None [Text (PublicSession.service_name x)];
    when (str_truthy (PublicSession.environment x))
      (el "span" "text-xs text-muted-foreground" [Text (PublicSession.environment x)]);
    el "span" "flex items-center gap-1.5 text-xs text-muted-foreground ml-auto" [
      icon "Clock" "h-3.5 w-3.5";
      Text (SessionsPage.formatDuration (PublicSession.duration_ms x)); txt " · ";
      Text (formatTime (PublicSession.started_at x))]].

Definition opt_html {B} (o : option B) (f : B -> Html) : Html :=
  match o with Some x => f x | None => Frag [] end.

Definition share_main (isError loading authed : bool) (session : option PublicSession.t)
    (events : list ReplayEvent.t) : Html :=
  if isError then
    el "div" "flex flex-col items-center justify-center py-24 text-center" [
      icon "Lock" "h-10 w-10 text-muted-foreground/40 mb-3";
      el "p" "text-sm text-muted-foreground" [txt "This replay link is invalid or has been revoked."]]
  else if loading then el "div" "h-[480px] rounded-lg bg-card animate-pulse" []
  else Frag [
    when authed (opt_html session (fun x => door_button (PublicSession.id x)));
    opt_html session redacted_line;
    match events with
    | [] => el "div" "flex items-center justify-center h-[480px] bg-card border border-border rounded-lg text-sm text-muted-foreground"
              [txt "No replay events available."]
    | _ => el "div" "w-full rounded-lg overflow-hidden border border-border" []
    end;
    el "p" "text-center text-xs text-muted-foreground pt-2" [
      txt "Sensitive data (console logs, user identity) is hidden on shared links."]].

Definition SharePage (isError loading authed : bool) (session : option PublicSession.t)
    (events : list ReplayEvent.t) : Html :=
  el "div" "min-h-screen bg-background flex flex-col" [
    el "header" "border-b border-border px-6 py-3 flex items-center gap-2" [
      icon "MonitorPlay" "h-5 w-5 text-primary";
      el "span" "font-semibold text-foreground" [txt "BatRewind"];
      el "span" "text-xs text-muted-foreground ml-1" [txt "shared replay"]];
    el "main" "flex-1 w-full max-w-5xl mx-auto px-6 py-6 space-y-4" [
      share_main isError loading authed session events]].

(** The page in a browser: the component asks who is signed in. *)
Definition SharePage_in `{JsonEngine} (s : QueryResult PublicSession.t) (e : QueryResult EventArray)
    (b : Browser) : Browser * Html :=
  let '(b', authed) := isAuthenticated b in
  (b', SharePage (isError s) (isLoading s || isLoading e) authed (data s) ((items <$> data e) ?? [])).

(** The only control is the door of [Views.PublicReplayView], when it has one. *)
Lemma share_clicks `{JsonEngine} s e b :
  clicks (SharePage_in s e b).2 =
  match (PublicReplayView s e b).2 with Content (Some id) _ _ => [OpenSession id] | _ => [] end.
Proof.
  unfold SharePage_in, PublicReplayView. destruct (isAuthenticated b) as [b' authed]. cbn [fst snd].
  unfold SharePage, share_main. destruct (isError s); [done|].
  destruct (isLoading s || isLoading e); [done|].
  destruct (data s) as [x|], authed, ((items <$> data e) ?? []); cbn; try done;
    unfold clicks, redacted_line, door_button; cbn; by destruct (str_truthy (PublicSession.environment x)).
Qed.

Lemma share_page_conforms a b c s e : conforms [] (SharePage a b c s e) = true.
Proof.
  unfold SharePage, share_main, opt_html. destruct a, b, s as [x|], c, e;
    unfold redacted_line, door_button; conform.
Qed.

(** ** The overview *)

Definition StatCard (label : string) (value : Z) (Icon : string) (highlight : bool) : Html :=
  Card None [
    CardHeader (Some (js "pb-2")) [
      el "div" "flex items-center justify-between" [
        CardTitle (Some (js "text-sm font-medium text-muted-foreground")) [txt label];
        icon Icon (if highlight then "h-4 w-4 text-destructive" else "h-4 w-4 text-muted-foreground")]];
    CardContent None [
      El "p" [("className"%string, js "text-3xl font-bold " ++
                 (if highlight then js "text-destructive" else js "text-foreground"))] []
        [Text (num_to_string value)]]].

Definition pulse (cls : string) (n : nat) : list Html := map (fun _ => el "div" cls []) (seq 0 n).

Definition recent_button (x : ReplaySession) : Html :=
  El "button"
    [("type"%string, js "button");
     ("className"%string, js "w-full flex items-center justify-between px-6 py-3 border-b border-border/50 last:border-0 hover:bg-secondary/30 transition-colors text-left")]
    [OnClick (OpenSession (Incident.id x))] [
    el "div" "flex items-center gap-3 min-w-0" [
      icon "User" "h-3.5 w-3.5 text-muted-foreground shrink-0";
      el "div" "min-w-0" [
        el "p" "text-sm text-foreground truncate" [
          Text (if str_truthy (Incident.identifier x) then Incident.identifier x
                else slice 0 8 (Incident.id x))];
        when (str_truthy (Incident.start_url x))
          (el "div" "flex items-center gap-1 text-xs text-muted-foreground" [
            icon "Globe" "h-3 w-3 shrink-0";
            el "span" "truncate max-w-[200px]" [Text (Incident.start_url x)]])]];
    el "div" "shrink-0 text-right ml-4" [
      el "p" "text-xs text-muted-foreground" [Text (formatTime (Incident.started_at x))];
      el "p" "text-xs text-muted-foreground" [Text (SessionsPage.formatDuration (Incident.duration_ms x))]]].

(** The two lists: a skeleton, the empty text, or the entries. *)
Definition recent_panel (isLoading : bool) (stats : option Stats.t) : Html :=
  Card None [
    CardHeader (Some (js "border-b border-border pb-4")) [
      CardTitle (Some (js "text-sm font-medium")) [txt "Recent sessions"]];
    CardContent (Some (js "p-0")) [
      if isLoading then el "div" "p-4 space-y-3" (pulse "h-12 rounded bg-secondary animate-pulse" 3)
      else match s ← stats; Stats.recent_sessions s with
      | None | Some [] =>
        el "div" "flex flex-col items-center justify-center py-10 text-center" [
          icon "MonitorPlay" "h-8 w-8 text-muted-foreground/30 mb-2";
          el "p" "text-sm text-muted-foreground" [txt "No sessions yet"]]
      | Some l => Frag (map recent_button l)
      end]].

Definition services_panel (isLoading : bool) (stats : option Stats.t) : Html :=
  Card None [
    CardHeader (Some (js "border-b border-border pb-4")) [
      el "div" "flex items-center gap-2" [
        icon "Server" "h-4 w-4 text-muted-foreground";
        CardTitle (Some (js "text-sm font-medium")) [txt "Active services"]]];
    CardContent (Some (js "pt-4")) [
      if isLoading then el "div" "space-y-2" (pulse "h-6 rounded bg-secondary animate-pulse" 3)
      else match s ← stats; Stats.active_services s with
      | None | Some [] => el "p" "text-sm text-muted-foreground" [txt "No services yet"]
      | Some l => el "div" "flex flex-wrap gap-2" (map (fun svc => Badge (Some "secondary"%string) None [Text svc]) l)
      end]].

Definition figure (f : Stats.t -> Z) (stats : option Stats.t) : Z := (f <$> stats) ?? 0%Z.

Definition DashboardPage (isLoading : bool) (stats : option Stats.t) : Html :=
  let failed := figure Stats.failed_ingest_count stats in
  el "div" "p-6 space-y-6" [
    El "div" [] [] [
      el "h1" "text-xl font-semibold text-foreground" [txt "Overview"];
      el "p" "text-sm text-muted-foreground mt-0.5" [txt "Session replay metrics"]];
    el "div" "grid grid-cols-2 lg:grid-cols-4 gap-4" [
      if isLoading then Frag (pulse "h-28 rounded-xl bg-card border border-border animate-pulse" 4)
      else Frag [
        StatCard "Total sessions" (figure Stats.total_sessions stats) "MonitorPlay" false;
        StatCard "Today" (figure Stats.sessions_today stats) "Activity" false;
        StatCard "This week" (figure Stats.sessions_this_week stats) "Clock" false;
        StatCard "Failed ingests" failed "AlertTriangle" (0 <? failed)%Z]];
    el "div" "grid grid-cols-1 lg:grid-cols-3 gap-4" [
      el "div" "lg:col-span-2" [recent_panel isLoading stats];
      El "div" [] [] [services_panel isLoading stats]]].

(** The sessions the page opens are the recent ones, in order. *)
Lemma overview_clicks stats :
  clicks (DashboardPage false stats) =
  map (fun x => OpenSession (Incident.id x)) ((s ← stats; Stats.recent_sessions s) ?? []).
Proof.
  assert (forall l, omap (fun x : Handler OpenAction => match x with OnClick a => Some a | _ => None end)
    (concat (map controls (map recent_button l))) = map (fun x => OpenSession (Incident.id x)) l) as Hr.
  { intros l. rewrite controls_map. induction l as [|x l IH]; [done|]. cbn. rewrite controls_when. cbn.
    f_equal. rewrite <- IH. by destruct (str_truthy (Incident.start_url x)). }
  assert (controls (services_panel false stats) = []) as Hs.
  { unfold services_panel. destruct (s ← stats; Stats.active_services s) as [[|y l]|]; [done| |done].
    cbn. induction l as [|z l IH]; [done|exact IH]. }
  unfold DashboardPage, clicks. set (sp := services_panel false stats) in *. clearbody sp.
  unfold recent_panel. destruct (s ← stats; Stats.recent_sessions s) as [[|y l]|];
    [by cbn; rewrite Hs| |by cbn; rewrite Hs].
  set (rows := map recent_button (y :: l)). specialize (Hr (y :: l)). fold rows in Hr. clearbody rows.
  cbn -[omap]. rewrite Hs, !app_nil_r. exact Hr.
Qed.

Lemma card_texts label v Icon hl :
  js label <> [] -> texts (StatCard label v Icon hl) = [js label; num_to_string v].
Proof.
  intros Hl. assert (exists c r, num_to_string v = c :: r) as (c & r & E).
  { destruct v as [|p|p]; [eauto| |cbn; eauto].
    destruct (digits_of_N_first (Z.to_N (Zpos p))) as (c & r & E & _); eauto. }
  cbn -[num_to_string js]. rewrite E. by destruct (js label).
Qed.

(** The four figures are those of [Views.stat_cards]. *)
Lemma overview_figures stats :
  map (fun c => [c.1.1; num_to_string c.1.2]) (stat_cards stats) =
  map texts [StatCard "Total sessions" (figure Stats.total_sessions stats) "MonitorPlay" false;
             StatCard "Today" (figure Stats.sessions_today stats) "Activity" false;
             StatCard "This week" (figure Stats.sessions_this_week stats) "Clock" false;
             StatCard "Failed ingests" (figure Stats.failed_ingest_count stats) "AlertTriangle"
               (0 <? figure Stats.failed_ingest_count stats)%Z].
Proof. cbn [map]. by rewrite !card_texts. Qed.

(** The page keeps to HTML's content models unless it shows a recent session: its row is a
    button that holds divisions and paragraphs. *)
Lemma overview_conforms isLoading stats :
  conforms ["main"; "div"; "div"]%string (DashboardPage isLoading stats) =
  isLoading || null ((s ← stats; Stats.recent_sessions s) ?? []).
Proof.
  set (up := ["div"; "div"; "div"; "main"; "div"; "div"]%string).
  assert (conforms up (services_panel isLoading stats) = true) as Hs.
  { unfold services_panel, pulse, up. destruct isLoading; [conform|].
    destruct (s ← stats; Stats.active_services s) as [[|z k]|]; conform. }
  assert (conforms up (recent_panel isLoading stats) =
    isLoading || null ((s ← stats; Stats.recent_sessions s) ?? [])) as Hr.
  { unfold recent_panel, pulse, up. destruct isLoading; [by conform|].
    by destruct (s ← stats; Stats.recent_sessions s) as [[|y l]|]. }
  unfold DashboardPage. generalize dependent (services_panel isLoading stats).
  generalize dependent (recent_panel isLoading stats). intros r Hr sp Hs. unfold up in *.
  destruct isLoading; cbn; rewrite Hr, Hs; cbn; [done|]. by rewrite ?orb_true_r, ?andb_true_r.
Qed.
End view.
