(* ===== verification/WidgetView.v ===== *)
(** * What the widget puts on the page: packages/browser/src/widget.ts

    The style sheet, the button and the toast, as the texts the source makes of its templates,
    and when the markup of a toast is that of the elements it is meant to be. *)

From S2P Require Import Prelude Types Sdk Widget Html.

(** Markup is written here with ' for the double quotes of the source. *)
Definition markup (s : string) : jsstr := map (fun c => if (c =? 39)%N then 34%N else c) (js s).

(** [style.textContent] *)
Definition style_text (o : WidgetOptions) : jsstr :=
  js "
    :host { all: initial; }
    button {
      position: fixed;
      "
  ++ anchor (position o)
  ++ js "
      z-index: 2147483647;
      display: flex;
      align-items: center;
      gap: 6px;
      padding: 10px 16px;
      background: "
  ++ color o
  ++ js ";
      color: #fff;
      border: none;
      border-radius: 999px;
      font-family: -apple-system, BlinkMacSystemFont, 'Segoe UI', sans-serif;
      font-size: 13px;
      font-weight: 600;
      cursor: pointer;
      box-shadow: 0 4px 14px rgba(0,0,0,0.25);
      transition: opacity 0.2s, transform 0.2s;
      letter-spacing: 0.2px;
    }
    button:hover  { opacity: 0.9; transform: scale(1.04); }
    button:active { opacity: 0.8; transform: scale(0.97); }
    svg { flex-shrink: 0; }

    .toast {
      position: fixed;
      "
  ++ anchor (position o)
  ++ js "
      z-index: 2147483647;
      width: 300px;
      padding: 14px;
      background: #1e2130;
      color: #e2e8f0;
      border: 1px solid #2d3350;
      border-radius: 12px;
      font-family: -apple-system, BlinkMacSystemFont, 'Segoe UI', sans-serif;
      box-shadow: 0 8px 28px rgba(0,0,0,0.4);
    }
    .toast__title { font-size: 13px; font-weight: 600; margin-bottom: 8px; }
    .toast__row { display: flex; gap: 6px; }
    .toast__link {
      flex: 1; min-width: 0;
      padding: 7px 9px;
      background: #0f1117;
      border: 1px solid #2d3350;
      border-radius: 7px;
      font-size: 11px; color: #94a3b8;
      white-space: nowrap; overflow: hidden; text-overflow: ellipsis;
    }
    .toast__copy {
      position: static;
      padding: 7px 12px;
      background: "
  ++ color o
  ++ js ";
      border-radius: 7px;
      font-size: 12px; font-weight: 600;
      box-shadow: none;
    }
    .toast__hint { margin-top: 8px; font-size: 11px; color: #64748b; }
  ".

(** [button.innerHTML] *)
Definition button_html (o : WidgetOptions) : jsstr :=
  markup "
    <svg width='14' height='14' viewBox='0 0 24 24' fill='none' stroke='currentColor' stroke-width='2.5' stroke-linecap='round' stroke-linejoin='round'>
      <path d='M10.29 3.86L1.82 18a2 2 0 001.71 3h16.94a2 2 0 001.71-3L13.71 3.86a2 2 0 00-3.42 0z'/>
      <line x1='12' y1='9' x2='12' y2='13'/><line x1='12' y1='17' x2='12.01' y2='17'/>
    </svg>
    "
  ++ (label o ?? js "Report issue")
  ++ markup "
  ".

(** [toast.innerHTML] *)
Definition toast_html (url : jsstr) : jsstr :=
  markup "
      <div class='toast__title'>Replay saved ✓</div>
      <div class='toast__row'>
        <div class='toast__link' title='"
  ++ url ++ markup "'>"
  ++ url ++ markup "</div>
        <button class='toast__copy' type='button'>Copy</button>
      </div>
      <div class='toast__hint'>Send this link so anyone can watch the replay.</div>
    ".

(** ** The elements of a toast *)

(** The serialisation of the HTML standard. *)
Definition esc_text_char (c : N) : jsstr :=
  (if c =? 38 then js "&amp;" else if c =? 160 then js "&nbsp;"
   else if c =? 60 then js "&lt;" else if c =? 62 then js "&gt;" else [c])%N.
Definition esc_attr_char (c : N) : jsstr := if (c =? 34)%N then js "&quot;" else esc_text_char c.
Definition esc_text (s : jsstr) : jsstr := concat (map esc_text_char s).
Definition esc_attr (s : jsstr) : jsstr := concat (map esc_attr_char s).

Fixpoint serialize {A} (h : Html A) : jsstr :=
  match h with
  | Text s => esc_text s
  | El tag props _ l =>
    js "<" ++ js tag
    ++ concat (map (fun p => js " " ++ js p.1 ++ markup "='" ++ esc_attr p.2 ++ markup "'") props)
    ++ js ">" ++ concat (map serialize l) ++ js "</" ++ js tag ++ js ">"
  | Frag l => concat (map serialize l)
  end.

(** A toast with a link, and the copy button's text; [class] and [title] are attributes. *)
Definition toast_tree {A} (url copy : jsstr) (onCopy : A) : Html A :=
  let div (cls : string) (more : list (string * jsstr)) (l : list (Html A)) :=
    El "div" ([("class"%string, js cls)] ++ more) [] l in
  Frag [
    txt "
      "; div "toast__title" [] [txt "Replay saved ✓"];
    txt "
      "; div "toast__row" [] [
        txt "
        "; div "toast__link" [("title"%string, url)] [Text url];
        txt "
        "; El "button" [("class"%string, js "toast__copy"); ("type"%string, js "button")] [OnClick onCopy] [Text copy];
        txt "
      "];
    txt "
      "; div "toast__hint" [] [txt "Send this link so anyone can watch the replay."];
    txt "
    "]%string.

(** A link whose characters mean themselves in markup. *)
Definition plain_char (c : N) : bool :=
  negb ((c =? 34) || (c =? 38) || (c =? 60) || (c =? 62) || (c =? 160))%N.
Definition plain (url : jsstr) : bool := forallb plain_char url.

(** What the user can do with the widget: report, and copy the link of a toast. *)
Inductive WidgetAction := Report | CopyLink (i : nat).

(** The shadow root: the style sheet, the button ([label] is read as text) and the toasts. A
    hidden button takes no clicks. *)
Definition shadow (o : WidgetOptions) (w : Widget) : Html WidgetAction :=
  Frag (
    El "style" [] [] [Text (style_text o)]
    :: El "button" ([("aria-label"%string, js "Report an issue")]
         ++ if button_shown w then [] else [("style"%string, js "display: none")])
         (if button_shown w then [OnClick Report] else [])
         [El "svg" [] [] []; Text (label o ?? js "Report issue")]
    :: map (fun it => El "div" [("class"%string, js "toast")] []
                        [toast_tree (link it.2) (copy_text it.2) (CopyLink it.1)])
         (map_to_list (attached w))).

(** ** Lemmas *)

Lemma esc_plain f url :
  (forall c, plain_char c = true -> f c = [c]) -> plain url = true -> concat (map f url) = url.
Proof.
  intros Hf. induction url as [|c r IH]; [done|]. cbn. intros [Hc Hr]%andb_prop.
  by rewrite Hf, IH.
Qed.

Lemma esc_plain_char c : plain_char c = true -> esc_text_char c = [c] /\ esc_attr_char c = [c].
Proof. 
  unfold plain_char, esc_text_char, esc_attr_char, esc_text_char.
  by destruct (c =? 34)%N, (c =? 38)%N, (c =? 60)%N, (c =? 62)%N, (c =? 160)%N.
Qed.

(** A character's image has at least one unit, and one of the two has more unless it is plain. *)
Lemma esc_char_length c :
  1 <= length (esc_text_char c) /\ 1 <= length (esc_attr_char c) /\
  (plain_char c = false -> 2 < length (esc_attr_char c) + length (esc_text_char c)).
Proof.
  unfold plain_char, esc_attr_char, esc_text_char.
  destruct (c =? 34)%N, (c =? 38)%N, (c =? 60)%N, (c =? 62)%N, (c =? 160)%N; vm_compute; split_and!;
    intros; try done; lia.
Qed.

Lemma esc_longer url :
  length url <= length (esc_text url) /\ length url <= length (esc_attr url) /\
  (plain url = false -> length url + length url < length (esc_attr url) + length (esc_text url)).
Proof.
  induction url as [|c r (IHt & IHa & IHs)]; [by split_and!|]. unfold esc_text, esc_attr in *.
  cbn [map concat plain forallb]. fold (plain r). rewrite !length_app. cbn [length].
  destruct (esc_char_length c) as (Ht & Ha & Hs). split_and!; [lia..|].
  intros [Hc|Hr]%andb_false_iff; [specialize (Hs Hc)|specialize (IHs Hr)]; lia.
Qed.

Lemma toast_text {A} url (a : A) :
  serialize (toast_tree url (js "Copy") a) =
  markup "
      <div class='toast__title'>Replay saved ✓</div>
      <div class='toast__row'>
        <div class='toast__link' title='" ++ esc_attr url ++ markup "'>" ++ esc_text url ++ markup "</div>
        <button class='toast__copy' type='button'>Copy</button>
      </div>
      <div class='toast__hint'>Send this link so anyone can watch the replay.</div>
    ".
Proof.
  unfold toast_tree, txt. cbn [serialize map concat app fst snd].
  generalize (esc_attr url) (esc_text url). intros x y. rewrite <- !app_assoc. vm_compute. reflexivity.
Qed.

(** What can be clicked: the button while it is shown, and a copy button for each toast. *)
Lemma shadow_clicks o w :
  clicks (shadow o w) =
  (if button_shown w then [Report] else []) ++ map (fun it => CopyLink it.1) (map_to_list (attached w)).
Proof.
  unfold clicks, shadow. generalize (map_to_list (attached w)). intros l.
  assert (omap (fun x => match x with OnClick a => Some a | _ => None end)
    (concat (map controls (map (fun it : nat * Toast => El "div" [("class"%string, js "toast")] []
       [toast_tree (link it.2) (copy_text it.2) (CopyLink it.1)]) l))) = map (fun it => CopyLink it.1) l) as Hl.
  { induction l as [|it l IH]; [done|]. cbn. by f_equal. }
  cbn [controls]. destruct (button_shown w); cbn [map concat controls app]; rewrite !omap_app.
  - change (omap _ (controls (El "style" _ _ _))) with (@nil WidgetAction). cbn. by f_equal.
  - change (omap _ (controls (El "style" _ _ _))) with (@nil WidgetAction). cbn. done.
Qed.

(** ** Properties *)

(** C35: the markup a toast is made of is that of the title, the link (as text and as title of its
    element) and the copy button exactly when the link has none of the characters that mean
    something in markup; any other link is read as something else. *)
Theorem toast_markup {A} url (a : A) :
  toast_html url = serialize (toast_tree url (js "Copy") a) <-> plain url = true.
Proof.
  rewrite toast_text. unfold toast_html. split.
  - intros He. destruct (plain url) eqn:Hp; [done|]. exfalso.
    apply (f_equal length) in He. apply esc_longer in Hp. rewrite !length_app in He. lia.
  - intros Hp. unfold esc_attr, esc_text.
    rewrite !esc_plain; [done| |done| |done]; intros c Hc; by apply esc_plain_char.
Qed.
