(* ===== verification/ShellView.v ===== *)
(** * The frame of the pages: components/, routes/login.tsx, routes/__root.tsx, main.tsx

    The sidebar, the header, the banner and the layout around every page of the dashboard; the
    login page and what its form does while a request is under way; how the page starts. *)

From S2P Require Import Prelude Decimal JsValue Json Auth Http Pages Views Html Ui.

(** ** Values as children *)

Section node.
Context {A : Type}.
Notation Html := (Html A).

(** What a value renders as; [None] is React's refusal of an object. *)
Fixpoint react_node (v : jsval) : option Html :=
  match v with
  | JUndef | JNull | JBool _ => Some (Frag [])
  | JNum n => Some (Text (dec_to_string n))
  | JStr s => Some (Text s)
  | JArr l =>
    Frag <$> (fix nodes l :=
      match l with
      | [] => Some []
      | x :: r => h ← react_node x; t ← nodes r; Some (h :: t)
      end) l
  | JObj _ => None
  end.
End node.

(** ** The frame *)

Section frame.
Context `{Styling} {A : Type}.
Notation Html := (Html A).

(** *** components/sidebar.tsx *)

Definition NavItem (to Icon label : string) (exact : bool) : Html :=
  El "Link"
    ([("to"%string, js to);
      ("activeProps.className"%string, js "bg-sidebar-accent text-sidebar-primary font-medium");
      ("inactiveProps.className"%string, js "text-sidebar-foreground hover:bg-sidebar-accent/50")]
     ++ flag "activeOptions.exact" exact) [] [
    el "span" "flex items-center gap-3 rounded-md px-3 py-2 text-sm transition-colors" [
      icon Icon "h-4 w-4 shrink-0"; txt label]].

Definition Sidebar : Html :=
  el "aside" "w-56 h-screen flex flex-col bg-sidebar border-r border-sidebar-border shrink-0" [
    el "div" "flex items-center gap-3 h-16 px-4 border-b border-sidebar-border" [
      el "div" "w-9 h-9 rounded-lg bg-primary/10 flex items-center justify-center shrink-0" [
        icon "Film" "h-5 w-5 text-primary"];
      el "div" "min-w-0" [
        el "p" "font-semibold text-sm text-sidebar-foreground leading-tight" [txt "BatRewind"];
        el "p" "text-xs text-muted-foreground" [txt "Session Replay"]]];
    el "nav" "flex-1 px-2 py-4 space-y-0.5" [
      NavItem "/app/" "LayoutDashboard" "Overview" true;
      NavItem "/app/sessions" "MonitorPlay" "Sessions" false]].

(** *** components/theme-toggle.tsx *)

Definition ThemeToggle (theme : jsstr) (handleToggle : A) : Html :=
  Button (Some "ghost"%string) (Some "sm"%string) (Some (js "h-8 w-8 p-0")) [] [OnClick handleToggle] [
    if decide (theme = js "dark") then icon "Sun" "h-4 w-4" else icon "Moon" "h-4 w-4"].

(** *** components/header.tsx *)

(** [{user && ...}]: who is signed in, as the storage has it. *)
Definition user_panel (user : jsval) : option Html :=
  if truthy user then
    let name := opt_prop (js "name") user in
    name' ← react_node (if truthy name then name else opt_prop (js "email") user);
    role ← react_node (opt_prop (js "role") user);
    Some (el "div" "text-right" [
      el "p" "text-xs font-medium text-foreground" [name'];
      el "p" "text-xs text-muted-foreground capitalize" [role]])
  else react_node user.

Definition Header (user : jsval) (theme : jsstr) (toggle handleLogout : A) : option Html :=
  panel ← user_panel user;
  Some (el "header" "h-16 shrink-0 border-b border-border bg-card flex items-center justify-between px-6" [
    El "div" [] [] [];
    el "div" "flex items-center gap-3" [
      ThemeToggle theme toggle;
      panel;
      Button (Some "ghost"%string) (Some "sm"%string) (Some (js "gap-2")) [] [OnClick handleLogout] [
        icon "LogOut" "h-4 w-4"; txt "Logout"]]]).

(** *** components/failed-ingest-banner.tsx *)

Definition banner (data : option (list FailedIngest.t)) (isPending : bool) (retryAll : A) : Html :=
  match unresolved (data ?? []) with
  | [] => Frag []
  | l =>
    el "div" "bg-destructive/10 border-b border-destructive/30 px-6 py-3 flex items-center justify-between gap-4" [
      el "div" "flex items-center gap-2 text-destructive text-sm" [
        icon "AlertTriangle" "h-4 w-4 shrink-0";
        El "span" [] [] [
          El "strong" [] [] [Text (num_to_string (Z.of_nat (length l)))]; txt " batch";
          Text (plural (length l) (js "es")); txt " failed to ingest and may be missing from sessions."]];
      Button (Some "destructive"%string) (Some "sm"%string) (Some (js "gap-2 shrink-0"))
        (flag "disabled" isPending) [OnClick retryAll] [
        icon "RefreshCw" "h-3.5 w-3.5"; txt (if isPending then "Retrying..." else "Retry all")]]
  end.

(** *** routes/app/_layout.tsx *)

Definition AppLayout (user : jsval) (theme : jsstr) (failed : option (list FailedIngest.t))
    (isPending : bool) (toggle logout retry : A) (outlet : Html) : option Html :=
  header ← Header user theme toggle logout;
  Some (el "div" "flex h-screen overflow-hidden" [
    Sidebar;
    el "div" "flex flex-col flex-1 min-w-0" [
      header; banner failed isPending retry; el "main" "flex-1 overflow-auto" [outlet]]]).

(** *** routes/__root.tsx *)

Definition Root (outlet : Html) : Html :=
  Frag [El "QueryClientProvider" [] [] [outlet]; El "TanStackRouterDevtools" [] [] []].
End frame.

(** ** routes/login.tsx *)

Inductive LoginAction := TypeEmail (v : jsstr) | TypePassword (v : jsstr) | Submit.

Definition LoginPage `{Styling} (f : LoginForm) : Html LoginAction :=
  let label (s : string) :=
    el "label" "text-xs font-medium text-muted-foreground uppercase tracking-wide" [txt s] in
  el "div" "flex min-h-screen items-center justify-center p-4" [
    el "div" "w-full max-w-sm space-y-6" [
      el "div" "text-center space-y-2" [
        el "div" "w-14 h-14 rounded-2xl bg-primary/10 flex items-center justify-center mx-auto" [
          icon "Film" "h-7 w-7 text-primary"];
        el "h1" "text-2xl font-bold text-foreground" [txt "BatRewind"];
        el "p" "text-sm text-muted-foreground" [txt "Sign in to your account"]];
      Card (Some (js "p-6 space-y-4 border-border/50 bg-card/50 backdrop-blur-sm")) [
        El "form" [("className"%string, js "space-y-4")] [OnSubmit Submit] [
          el "div" "space-y-1" [
            label "Email"%string;
            Input None (Some (js "email"))
              ([("placeholder"%string, js "admin@example.com"); ("value"%string, email f)]
               ++ flag "required" true ++ flag "autoFocus" true)
              [OnChange TypeEmail]];
          el "div" "space-y-1" [
            label "Password"%string;
            Input None (Some (js "password"))
              ([("placeholder"%string, js "••••••••"); ("value"%string, password f)]
               ++ flag "required" true)
              [OnChange TypePassword]];
          when (str_truthy (error f)) (el "p" "text-sm text-destructive" [Text (error f)]);
          Button None None (Some (js "w-full"))
            ([("type"%string, js "submit")] ++ flag "disabled" (loading f)) [] [
            txt (if loading f then "Signing in..." else "Sign in")]]]]].

(** *** The form while a request is under way

    [handleSubmit] runs to its [await]: the request is sent with the fields as they are. It goes
    on when the answer is there; in between the user may type. [pending] are the requests
    without an answer yet. *)

Record Login := mkLogin { form : LoginForm; pending : list HttpRequest; web : Web }.

Inductive LoginEvent := User (a : LoginAction) | Answer (i : nat).

Section login.
Context `{Styling} `{JsonEngine} `{Network} (VITE_API_URL : option jsstr).

(** The request of [Http.login]. *)
Definition login_request (email password : jsstr) : HttpRequest :=
  mkRequest (base VITE_API_URL ++ js "/v1/auth/login") (js "POST")
    {[js "Content-Type" := js "application/json"]}
    (Some (json_text (JObj [(js "email", JStr email); (js "password", JStr password)]))).

(** What [handleSubmit]'s [try] block does with the answer, or with none. *)
Definition signed_in (r : option Response) : SM Web unit :=
  match r with
  | None => sm_throw TypeError
  | Some res =>
    let! _ := expect_ok (js "Invalid credentials") res in
    let! answer := json res in
    let! token := sm_lift (prop (js "token") answer) in
    let! user := sm_lift (prop (js "user") answer) in
    let! text := sm_lift (to_string token) in
    let! _ := on_browser (setAuth text user) in
    on_browser (set_location (js "/app"))
  end.

(** The call of [handleSubmit], up to the [await]. *)
Definition submit_begin (s : Login) : Login :=
  let f := form s in
  let q := login_request (email f) (password f) in
  mkLogin (mkForm (email f) (password f) [] true) (pending s ++ [q])
    (mkWeb (browser (web s)) (requests (web s) ++ [q])).

(** From the answer to [q] on: the rest of the [try], the [catch] and the [finally]. *)
Definition submit_end (q : HttpRequest) (s : Login) : Login :=
  let f := form s in
  match signed_in (respond q) (web s) with
  | (w', Ok _) => mkLogin (mkForm (email f) (password f) (error f) false) (pending s) w'
  | (w', Throw _) =>
    mkLogin (mkForm (email f) (password f) (js "Invalid email or password.") false) (pending s) w'
  end.

Definition login_step (e : LoginEvent) (s : Login) : Login :=
  let f := form s in
  match e with
  | User (TypeEmail v) => mkLogin (mkForm v (password f) (error f) (loading f)) (pending s) (web s)
  | User (TypePassword v) => mkLogin (mkForm (email f) v (error f) (loading f)) (pending s) (web s)
  | User Submit => submit_begin s
  | Answer i =>
    match pending s !! i with
    | Some q => submit_end q (mkLogin f (delete i (pending s)) (web s))
    | None => s
    end
  end.

(** The user does only what the page offers. *)
Inductive login_run (s0 : Login) : Login -> Prop :=
  | login_start : login_run s0 s0
  | login_user s a :
      login_run s0 s -> offers (LoginPage (form s)) a -> login_run s0 (login_step (User a) s)
  | login_answer s i : login_run s0 s -> login_run s0 (login_step (Answer i) s).
End login.

(** ** main.tsx *)

Module Boot.
Import Pages.ThemeToggle.

(** The classes index.html gives the root element. *)
Definition document_classes : gset jsstr := {[js "dark"]}.

(** [classList.add]: no empty token, no white space. *)
Definition class_token (s : jsstr) : bool := str_truthy s && forallb (fun c => negb (ascii_ws c)) s.
Definition classList_add (t : jsstr) (p : Page) : res Page :=
  if class_token t then Ok (mkPage (store p) (classes p ∪ {[t]})) else Throw DOMException.

(** The module: the stored theme is added to the classes, and the application is rendered when
    the root element is empty; the result says whether it is. *)
Definition main (rootElement_innerHTML : jsstr) (p : Page) : res (Page * bool) :=
  p' ← classList_add (getStoredTheme p) p; Ok (p', negb (str_truthy rootElement_innerHTML)).

(** A visit: the document is loaded anew, the storage stays. *)
Definition reload (p : Page) : res (Page * bool) := main [] (mkPage (store p) document_classes).

(** The style sheet's rules of [.dark] hold. *)
Definition shows_dark (p : Page) : bool := bool_decide (js "dark" ∈ classes p).
End Boot.

(** ** Lemmas *)

Section frame_lemmas.
Context `{Styling} {A : Type}.

Lemma react_node_controls v (h : Html A) : react_node v = Some h -> controls h = [].
Proof.
  revert h. induction v as [| |b|n|s|l IH|kvs IH] using jsval_ind; intros h; cbn; try by intros [= <-].
  destruct (_ l) as [k|] eqn:E; [|done]. intros [= <-]. cbn. revert k E.
  induction IH as [|x r Hx _ IHr]; intros k; [by intros [= <-]|]. cbn.
  destruct (react_node x) as [y|]; [|done]. cbn.
  destruct (_ r) as [t|] eqn:Er; [|done]. intros [= <-]. cbn. rewrite (Hx y), (IHr t) by done. done.
Qed.

Lemma react_node_conforms up v (h : Html A) :
  takes_text (model up) = true -> react_node v = Some h -> conforms up h = true.
Proof.
  intros Hup. revert h.
  induction v as [| |b|n|s|l IH|kvs IH] using jsval_ind; intros h; cbn;
    try (by intros [= <-]); try (intros [= <-]; by apply conforms_text).
  destruct (_ l) as [k|] eqn:E; [|done]. intros [= <-]. cbn. revert k E.
  induction IH as [|x r Hx _ IHr]; intros k; [by intros [= <-]|]. cbn.
  destruct (react_node x) as [y|]; [|done]. cbn.
  destruct (_ r) as [t|] eqn:Er; [|done]. intros [= <-]. cbn. by rewrite (Hx y), (IHr t).
Qed.

Lemma user_panel_plain user (h : Html A) :
  user_panel user = Some h ->
  controls h = [] /\ conforms ["div"; "header"; "div"; "div"]%string h = true.
Proof.
  unfold user_panel. destruct (truthy user).
  - set (name := if truthy _ then _ else _). destruct (react_node name) as [n|] eqn:En; [|discriminate]. cbn. destruct (react_node (opt_prop (js "role") user)) as [r|] eqn:Er;
      [|discriminate]. intros [= <-]. cbn. rewrite (react_node_controls _ _ En), (react_node_controls _ _ Er).
    by rewrite (react_node_conforms ["p"; "div"; "div"; "header"; "div"; "div"]%string _ _ eq_refl En),
      (react_node_conforms ["p"; "div"; "div"; "header"; "div"; "div"]%string _ _ eq_refl Er).
  - intros Hu. split; [by eapply react_node_controls|by eapply react_node_conforms].
Qed.

Lemma banner_clicks data isPending (retry : A) :
  clicks (banner data isPending retry) =
  match FailedIngestBanner data with Some _ => if isPending then [] else [retry] | None => [] end.
Proof.
  unfold FailedIngestBanner, banner. destruct (unresolved _) as [|x l]; [done|]. by destruct isPending.
Qed.

Lemma banner_conforms data isPending (retry : A) :
  conforms ["div"; "div"]%string (banner data isPending retry) = true.
Proof. unfold banner. destruct (unresolved _) as [|x l]; conform. Qed.

Lemma frame_clicks user theme failed isPending toggle logout (retry : A) outlet h :
  AppLayout user theme failed isPending toggle logout retry outlet = Some h ->
  clicks h = [toggle; logout] ++ clicks (banner failed isPending retry) ++ clicks outlet.
Proof.
  unfold AppLayout, Header. destruct (user_panel user) as [p|] eqn:Ep; [|discriminate].
  apply user_panel_plain in Ep as [Ep _]. intros [= <-].
  set (b := banner failed isPending retry). clearbody b. unfold clicks. cbn -[omap].
  rewrite Ep. destruct (decide (theme = js "dark")); cbn -[omap]; rewrite !app_nil_r;
    change (?x :: ?y :: controls b ++ controls outlet) with ([x; y] ++ controls b ++ controls outlet);
    by rewrite !omap_app.
Qed.

(** The frame keeps to the content models, so the page in it decides. *)
Lemma frame_conforms user theme failed isPending toggle logout (retry : A) outlet h :
  AppLayout user theme failed isPending toggle logout retry outlet = Some h ->
  conforms [] h = conforms ["main"; "div"; "div"]%string outlet.
Proof.
  unfold AppLayout, Header. destruct (user_panel user) as [p|] eqn:Ep; [|discriminate].
  apply user_panel_plain in Ep as [_ Ep]. intros [= <-].
  pose proof (banner_conforms failed isPending retry) as Hb.
  set (b := banner failed isPending retry) in *. clearbody b. cbn.
  destruct (decide (theme = js "dark")); cbn; rewrite Ep, Hb; cbn; by rewrite ?andb_true_r.
Qed.
End frame_lemmas.

Section login_lemmas.
Context `{Styling} `{JsonEngine} `{Network} (VITE_API_URL : option jsstr).

Lemma login_offers f a :
  offers (LoginPage f) a <->
  (exists v, a = TypeEmail v) \/ (exists v, a = TypePassword v) \/ (a = Submit /\ loading f = false).
Proof.
  unfold offers.
  assert (Hc : controls (LoginPage f) =
    (if loading f then [] else [OnSubmit Submit]) ++ [OnChange TypeEmail; OnChange TypePassword]).
  { unfold LoginPage. cbn. unfold enabled, submittable. cbn. destruct (str_truthy (error f)), (loading f); done. }
  rewrite Hc, Exists_app, !Exists_cons, Exists_nil. destruct (loading f); cbn.
  - rewrite Exists_nil. intuition congruence.
  - rewrite Exists_cons, Exists_nil. cbn. intuition congruence.
Qed.

Lemma sign_in_split e p w :
  sign_in VITE_API_URL e p w =
  signed_in (respond (login_request VITE_API_URL e p))
    (mkWeb (browser w) (requests w ++ [login_request VITE_API_URL e p])).
Proof.
  unfold sign_in, login, sm_bind at 1 2, fetch. cbn [method body headers].
  change (mkRequest _ _ _ _) with (login_request VITE_API_URL e p). unfold signed_in.
  destruct (respond _) as [r|]; [|done]. unfold expect_ok, sm_bind. by destruct (ok r).
Qed.

(** The pieces of [handleSubmit], one after the other, are the function of [Pages]. *)
Lemma login_answered s :
  pending s = [] ->
  let s' := login_step VITE_API_URL (Answer 0) (login_step VITE_API_URL (User Submit) s) in
  (form s', web s') = handleSubmit VITE_API_URL (form s) (web s) /\ pending s' = [].
Proof.
  intros Hp. cbn. rewrite Hp. cbn. unfold submit_end, handleSubmit. rewrite sign_in_split. cbn.
  by destruct (signed_in _ _) as [w' [|]].
Qed.

Definition one_call (s : Login) : Prop :=
  loading (form s) = match pending s with [] => false | _ => true end /\ length (pending s) <= 1.

Lemma one_call_step s e :
  one_call s -> (forall a, e = User a -> offers (LoginPage (form s)) a) ->
  one_call (login_step VITE_API_URL e s).
Proof.
  intros [Hl Hn] He. destruct e as [a|i].
  - specialize (He a eq_refl). apply login_offers in He.
    destruct He as [[v ->]|[[v ->]|[-> Hf]]]; [done..|]. rewrite Hl in Hf.
    cbn. unfold submit_begin, one_call. cbn. by destruct (pending s).
  - cbn. destruct (pending s !! i) as [q|] eqn:E; [|done].
    assert (delete i (pending s) = []) as Hd.
    { destruct (pending s) as [|x [|y l]]; [done| |cbn in Hn; lia]. by destruct i. }
    rewrite Hd. unfold submit_end. cbn. destruct (signed_in _ _) as [w' [|]]; split; done || cbn; lia.
Qed.
End login_lemmas.

(** ** Properties *)

(** The frame of a page offers the theme toggle and the logout, retrying the failed batches
    exactly while the banner is there and no retry is under way, and else what its page
    offers; the banner says what [Views.FailedIngestBanner] does. *)
Theorem frame_controls `{Styling} {A} user theme failed isPending toggle logout (retry : A) outlet :
  text_content (banner failed isPending retry) =
    match FailedIngestBanner failed with
    | Some t => t ++ js (if isPending then "Retrying..." else "Retry all")
    | None => []
    end /\
  match AppLayout user theme failed isPending toggle logout retry outlet with
  | Some h =>
    clicks h = [toggle; logout]
      ++ match FailedIngestBanner failed with Some _ => if isPending then [] else [retry] | None => [] end
      ++ clicks outlet
  | None => exists k, In k ["name"; "email"; "role"]%string /\
                      react_node (A:=A) (opt_prop (js k) user) = None
  end.
Proof.
  split.
  - unfold FailedIngestBanner, banner. destruct (unresolved _) as [|x l]; [done|].
    cbn -[num_to_string plural js length]. rewrite !app_nil_r, <- !app_assoc. by destruct isPending.
  - rewrite <- (banner_clicks failed isPending retry).
    destruct (AppLayout _ _ _ _ _ _ _ _) as [h|] eqn:E; [by apply frame_clicks in E|].
    revert E. unfold AppLayout, Header. destruct (user_panel user) as [p|] eqn:Ep; [discriminate|].
    intros _. revert Ep. unfold user_panel. destruct (truthy user) eqn:Et.
    + destruct (react_node (opt_prop (js "role") user)) eqn:Er; [|by exists "role"%string; split; [right; right; left|]].
      destruct (truthy (opt_prop (js "name") user)).
      * destruct (react_node (opt_prop (js "name") user)) eqn:En; [discriminate 1|]. intros _. exists "name"%string. by split; [left|].
      * destruct (react_node (opt_prop (js "email") user)) eqn:En; [discriminate 1|]. intros _. exists "email"%string. by split; [right; left|].
    + by destruct user.
Qed.

(** After signing in, the header shows the name of the user, or the email where there is no
    name, and the role, as the server sent them. *)
Theorem header_shows_user `{Styling} `{JsonEngine} {A} b token name email role theme (toggle logout : A) :
  let user := JObj [(js "name", JStr name); (js "email", JStr email); (js "role", JStr role)] in
  json_value user -> str_truthy (str_or name email) = true -> str_truthy role = true ->
  exists h, Header (getUser (setAuth token user b)) theme toggle logout = Some h /\
    texts h = [str_or name email; role; js "Logout"] /\ clicks h = [toggle; logout].
Proof.
  intros user Hj Hn Hr. destruct (json_value_stringify _ Hj) as [t Ht].
  assert (getUser (setAuth token user b) = user) as ->.
  { unfold getUser, setAuth. cbn -[user]. rewrite lookup_insert_eq, Ht, (json_parse_stringify user t) by done.
    apply text_nonempty in Ht. destruct t; [cbn in Ht; lia|done]. }
  unfold Header, user_panel.
  replace (truthy user) with true by done.
  replace (opt_prop (js "name") user) with (JStr name) by by_eval.
  replace (opt_prop (js "email") user) with (JStr email) by by_eval.
  replace (opt_prop (js "role") user) with (JStr role) by by_eval.
  replace (if truthy (JStr name) then JStr name else JStr email) with (JStr (str_or name email))
    by by destruct name.
  cbn -[str_or]. eexists. split; [done|]. cbn -[str_or]. rewrite Hn, Hr.
  by destruct (decide (theme = js "dark")).
Qed.

(** C23: however the user types and submits and the answers come, the login page has at most one
    call under way, and offers to submit exactly when there is none; a submission and its
    answer do what [Pages.handleSubmit] does. *)
Theorem login_one_call `{Styling} `{JsonEngine} `{Network} VITE_API_URL w s :
  login_run VITE_API_URL (mkLogin (mkForm [] [] [] false) [] w) s ->
  length (pending s) <= 1 /\
  (offers (LoginPage (form s)) Submit <-> pending s = []) /\
  (pending s = [] ->
   let s' := login_step VITE_API_URL (Answer 0) (login_step VITE_API_URL (User Submit) s) in
   (form s', web s') = handleSubmit VITE_API_URL (form s) (web s)).
Proof.
  intros Hs. assert (one_call s) as [Hl Hn].
  { induction Hs as [|s a _ IH Ha|s i _ IH]; [by split; cbn; [|lia]|..]; apply one_call_step; try done.
    by intros ? [= <-]. }
  split; [done|]. split; [|apply login_answered]. rewrite login_offers, Hl.
  destruct (pending s); split; intros Hx; try done; [auto|].
  by destruct Hx as [[v ?]|[[v ?]|[_ ?]]].
Qed.

(** C26: a toggle shows the theme it stores, and a new visit reads the same theme; but it shows the
    dark one whichever that is, since the document has the class [dark] already and the start
    only adds the stored theme to it. *)
Theorem theme_reload p :
  let '(p1, t1) := Pages.ThemeToggle.toggleTheme p in
  Boot.shows_dark p1 = bool_decide (t1 = js "dark") /\
  exists p2, Boot.reload p1 = Ok (p2, true) /\ Pages.ThemeToggle.getStoredTheme p2 = t1 /\
    Pages.ThemeToggle.classes p2 = {[js "dark"; t1]} /\ Boot.shows_dark p2 = true.
Proof.
  unfold Pages.ThemeToggle.toggleTheme. set (t := if decide _ then _ else _).
  assert (t = js "dark" \/ t = js "light") as Ht by (unfold t; destruct (decide _); auto). clearbody t.
  assert (Pages.ThemeToggle.getStoredTheme (Pages.ThemeToggle.applyTheme t p) = t) as Hg.
  { unfold Pages.ThemeToggle.getStoredTheme, Pages.ThemeToggle.applyTheme. cbn. by rewrite lookup_insert_eq. }
  assert (Boot.class_token t = true) as Hc by by destruct Ht as [-> | ->].
  split.
  - unfold Boot.shows_dark. apply bool_decide_ext. cbn. clear Hg Hc.
    assert (js "light" <> js "dark") by done. set_unfold. intuition congruence.
  - unfold Boot.reload, Boot.main, Boot.classList_add.
    replace (Pages.ThemeToggle.getStoredTheme (Pages.ThemeToggle.mkPage
      (Pages.ThemeToggle.store (Pages.ThemeToggle.applyTheme t p)) Boot.document_classes)) with t by done.
    rewrite Hc. eexists. split; [done|]. split; [exact Hg|]. split; [done|].
    unfold Boot.shows_dark. apply bool_decide_eq_true_2. cbn. set_solver.
Qed.

(** ** Witnesses *)

Lemma header_shows_user_witness :
  exists h, Header (H:=plain_styling) (A:=nat)
      (getUser (setAuth (js "t") (JObj [(js "name", JStr (js "Ana")); (js "email", JStr (js "ana@example.com"));
                                        (js "role", JStr (js "admin"))])
                 (mkBrowser ∅ (js "/app") 0))) (js "dark") 0 1 = Some h /\
    texts h = [js "Ana"; js "admin"; js "Logout"] /\ clicks h = [0; 1].
Proof.
  refine (header_shows_user (H:=plain_styling) (mkBrowser ∅ (js "/app") 0) (js "t") (js "Ana")
            (js "ana@example.com") (js "admin") (js "dark") 0 1 _ _ _); [|done..].
  json_object; constructor; apply (bool_decide_unpack _); vm_compute; exact I.
Defined.

(** A failed attempt: the user typed a password, submitted it, and typed on meanwhile. *)
Lemma login_one_call_witness :
  let offline : Network := fun _ => None in
  let w := mkWeb (mkBrowser ∅ (js "/login") 0) [] in
  let go := fold_left (fun s e => login_step None e s) in
  let s := go [User (TypePassword (js "secret")); User Submit; User (TypeEmail (js "ana")); Answer 0]
             (mkLogin (mkForm [] [] [] false) [] w) in
  error (form s) = js "Invalid email or password." /\
  length (pending s) <= 1 /\
  (offers (LoginPage (H:=plain_styling) (form s)) Submit <-> pending s = []) /\
  (pending s = [] ->
   let s' := login_step None (Answer 0) (login_step None (User Submit) s) in
   (form s', web s') = handleSubmit None (form s) (web s)).
Proof.
  intros offline w go s. split; [by_eval|].
  apply (login_one_call (H:=plain_styling) None w s).
  apply (login_answer _ _ _ 0). apply (login_user _ _ _ (TypeEmail (js "ana"))); [|apply login_offers; eauto].
  apply (login_user _ _ _ Submit); [|apply login_offers; auto].
  apply (login_user _ _ _ (TypePassword (js "secret"))); [|apply login_offers; eauto].
  apply login_start.
Defined.
