(* ===== verification/Markup.v ===== *)
(** * The markup of the dashboard as a whole

    Which pages keep to HTML's content models: the pages in the frame of
    [ShellView.AppLayout], the login page and the shared replay. *)

From S2P Require Import Prelude JsValue Json Format Auth Timeline Incident Pages Replay Views.
From S2P Require Import Html Ui SessionsView SessionView OverviewView ShellView.

Section markup.
Context `{Styling} `{DateParse} `{Locale}.

(** The page in its frame keeps to the content models exactly when [ok]: for every user, theme
    and state of the banner for which the frame renders. *)
Definition conforms_framed {A} (page : Html A) (ok : bool) : Prop :=
  forall user theme failed isPending toggle logout retry h,
    AppLayout user theme failed isPending toggle logout retry page = Some h -> conforms [] h = ok.

(** C36: exactly when the markup of a page keeps to HTML's content models. The login page and
    the shared replay always do. The list of sessions, the session page and the overview do
    as long as they show no row: a listed session, an item of the timeline and a recent
    session are each a button holding divisions and paragraphs, where HTML allows only
    phrasing content. *)
Theorem pages_conform :
  (forall f, conforms [] (LoginPage f) = true) /\
  (forall isError loading authed session events,
     conforms [] (SharePage isError loading authed session events) = true) /\
  (forall s isLoading sessions,
     conforms_framed (SessionsPageView s isLoading sessions) (isLoading || null sessions)) /\
  (forall b isLoading session events timeline page,
     buildTimeline events = Ok timeline -> PlayerPageView b isLoading session events = Ok page ->
     conforms_framed page (isLoading || match session with None => true | Some _ => null timeline end)) /\
  (forall isLoading stats,
     conforms_framed (DashboardPage isLoading stats)
       (isLoading || null ((s ← stats; Stats.recent_sessions s) ?? []))).
Proof.
  split_and!.
  - intros f. unfold LoginPage. conform.
  - intros. apply share_page_conforms.
  - intros * user theme failed isPending t l r h ->%frame_conforms. apply sessions_page_conforms.
  - intros * Hb Hp user theme failed isPending t l r h ->%frame_conforms.
    by eapply session_page_conforms.
  - intros * user theme failed isPending t l r h ->%frame_conforms. apply overview_conforms.
Qed.
End markup.
