(* ===== verification/Routes.v ===== *)
(** * Addresses and pages: routeTree.gen.ts and the routes it puts together

    The tree of routes with the guards of [Pages], the documented matching of an address
    against it, and a visit: the guards of the routes that match run from the root down, and
    a redirect starts again at its target. What the router does to the text of a segment is
    the interface [Router]. *)

From S2P Require Import Prelude JsValue Json Auth Pages.

(** How segments are compared (the option [caseSensitive]) and how parameters are written into
    an address and read from it. *)
Class Router := {
  fold_segment : jsstr -> jsstr;
  encode_param : jsstr -> jsstr;
  decode_param : jsstr -> jsstr;
  fold_lower s : Forall (fun c => 97 <= c <= 122)%N s -> fold_segment s = s;
  decode_encode s : Forall (fun c => c < 128)%N s -> decode_param (encode_param s) = s;
  encode_segment s : Forall (fun c => c < 128)%N s -> s <> [] ->
    encode_param s <> [] /\ 47%N ∉ encode_param s;
  decode_plain s : 37%N ∉ s -> decode_param s = s
}.

(** The segments of an address; slashes in a row count as one. *)
Definition segments (p : jsstr) : list jsstr := List.filter str_truthy (split_on 47 p).

(** The segments of the sources are lower-case words. *)
Ltac lower := apply (bool_decide_unpack _); vm_compute; exact I.

Section routes.
Context `{JsonEngine} `{Router}.

(** ** The tree *)

(** [before_load] may throw a redirect to an address. *)
Record RouteInfo := mkRoute {
  route_id : string;
  route_path : string;
  before_load : Browser -> Browser * option jsstr
}.

Unset Elimination Schemes.
Inductive RouteTree := Node (r : RouteInfo) (children : list RouteTree).
Set Elimination Schemes.

Definition no_guard (b : Browser) : Browser * option jsstr := (b, None).

(** routes/index.tsx *)
Definition start_guard (b : Browser) : Browser * option jsstr :=
  let b' := index_redirect b in (b', Some (location b')).

(** routes/app/_layout.tsx *)
Definition layout_guard (b : Browser) : Browser * option jsstr :=
  let '(b', authed) := app_guard b in (b', if authed then None else Some (location b')).

Definition LoginRoute : RouteTree := Node (mkRoute "/login" "/login" no_guard) [].
Definition IndexRoute : RouteTree := Node (mkRoute "/" "/" start_guard) [].
Definition ShareTokenRoute : RouteTree := Node (mkRoute "/share/$token" "/share/$token" no_guard) [].
Definition AppLayoutIndexRoute : RouteTree := Node (mkRoute "/" "/" no_guard) [].
Definition AppLayoutSessionsRoute : RouteTree := Node (mkRoute "/sessions" "/sessions" no_guard) [].
Definition AppLayoutSessionsIdRoute : RouteTree := Node (mkRoute "/sessions_/$id" "/sessions/$id" no_guard) [].
Definition AppLayoutRoute : RouteTree :=
  Node (mkRoute "/app/_layout" "/app" layout_guard)
    [AppLayoutSessionsRoute; AppLayoutIndexRoute; AppLayoutSessionsIdRoute].
Definition routeTree : RouteTree :=
  Node (mkRoute "__root__" "" no_guard) [IndexRoute; LoginRoute; AppLayoutRoute; ShareTokenRoute].

(** ** Matching *)

Notation params := (list (jsstr * jsstr)).

(** The segments a path takes off an address, and the rest. *)
Fixpoint take_path (pat segs : list jsstr) : option (params * list jsstr) :=
  match pat, segs with
  | [], _ => Some ([], segs)
  | p :: pat', s :: segs' =>
    let '(dynamic, name) := match p with c :: n => ((c =? 36)%N, n) | [] => (false, []) end in
    if dynamic then
      '(ps, rest) ← take_path pat' segs'; Some ((name, decode_param s) :: ps, rest)
    else if decide (fold_segment p = fold_segment s) then take_path pat' segs' else None
  | _ :: _, [] => None
  end.

(** A match: the routes from the root to a leaf, and the parameters. *)
Fixpoint matching (t : RouteTree) (segs : list jsstr) : list (list RouteInfo * params) :=
  match t with
  | Node r children =>
    match take_path (segments (js (route_path r))) segs with
    | None => []
    | Some (ps, rest) =>
      match children with
      | [] => match rest with [] => [([r], ps)] | _ => [] end
      | _ => map (fun m => (r :: m.1, ps ++ m.2)) (concat (map (fun c => matching c rest) children))
      end
    end
  end.

(** ** Visits *)

(** What is on the screen: the page of a route, by its identifier in the tree, or nothing. *)
Inductive Screen := NotFound | Page (id : string) (ps : params).

(** The identifier of a leaf is that of its routes put together, the root's left out. *)
Definition leaf_id (chain : list RouteInfo) : string := String.concat "" (map route_id (tail chain)).

Definition asked (p : jsstr) : Screen :=
  match matching routeTree (segments p) with
  | [] => NotFound
  | m :: _ => Page (leaf_id m.1) m.2
  end.

Fixpoint run_guards (chain : list RouteInfo) (b : Browser) : Browser * option jsstr :=
  match chain with
  | [] => (b, None)
  | r :: rest =>
    match before_load r b with
    | (b', None) => run_guards rest b'
    | (b', Some to) => (b', Some to)
    end
  end.

(** Opening an address, with at most [fuel] steps of redirection. *)
Fixpoint visit (fuel : nat) (p : jsstr) (b : Browser) : option (Browser * Screen) :=
  match fuel with
  | 0 => None
  | S fuel =>
    let b := set_location p b in
    match matching routeTree (segments p) with
    | [] => Some (b, NotFound)
    | m :: _ =>
      match run_guards m.1 b with
      | (b', None) => Some (b', Page (leaf_id m.1) m.2)
      | (b', Some to) => visit fuel to b'
      end
    end
  end.

(** [navigate({ to: '/app/sessions/$id', params: { id } })] *)
Definition session_address (id : jsstr) : jsstr := js "/app/sessions/" ++ encode_param id.

(** ** What the generated types say *)

(** A route of the tree: its identifier, its own path, its full path, its parent's identifier and
    whether it has children. *)
Record Entry := mkEntry { e_id : string; e_path : string; e_full : string; e_parent : string; e_inner : bool }.

Fixpoint entries (parent_full parent_prefix parent : string) (t : RouteTree) : list Entry :=
  match t with
  | Node r children =>
    let full := (parent_full ++ route_path r)%string in
    let id := (parent_prefix ++ route_id r)%string in
    mkEntry id (route_path r) full parent (match children with [] => false | _ => true end)
      :: concat (map (entries full id id) children)
  end.
Definition children_of (t : RouteTree) : list RouteTree := match t with Node _ l => l end.
Definition all_entries : list Entry := concat (map (entries "" "" "__root__") (children_of routeTree)).

(** The addresses [to] takes: full paths of pages, without a slash at the end. *)
Definition to_of (e : Entry) : string :=
  if String.eqb (e_path e) "/" && negb (String.eqb (e_full e) "/")
  then String.substring 0 (String.length (e_full e) - 1) (e_full e) else e_full e.

Definition FileRoutesByFullPath : list (string * string) :=
  [("/", "/"); ("/login", "/login"); ("/app", "/app/_layout"); ("/share/$token", "/share/$token");
   ("/app/sessions", "/app/_layout/sessions"); ("/app/", "/app/_layout/");
   ("/app/sessions/$id", "/app/_layout/sessions_/$id")]%string.
Definition FileRoutesByTo : list (string * string) :=
  [("/", "/"); ("/login", "/login"); ("/share/$token", "/share/$token");
   ("/app/sessions", "/app/_layout/sessions"); ("/app", "/app/_layout/");
   ("/app/sessions/$id", "/app/_layout/sessions_/$id")]%string.
Definition FileRoutesById : list string :=
  ["__root__"; "/"; "/login"; "/app/_layout"; "/share/$token"; "/app/_layout/sessions"; "/app/_layout/";
   "/app/_layout/sessions_/$id"]%string.
Definition FileRoutesByPath : list (string * string * string * string) :=
  [("/login", "/login", "/login", "__root__"); ("/", "/", "/", "__root__");
   ("/share/$token", "/share/$token", "/share/$token", "__root__");
   ("/app/_layout", "/app", "/app", "__root__"); ("/app/_layout/", "/", "/app/", "/app/_layout");
   ("/app/_layout/sessions", "/sessions", "/app/sessions", "/app/_layout");
   ("/app/_layout/sessions_/$id", "/sessions/$id", "/app/sessions/$id", "/app/_layout")]%string.

(** The four declarations are those of the tree. *)
Lemma declared_routes :
  Permutation (map (fun e => (e_full e, e_id e)) all_entries) FileRoutesByFullPath /\
  Permutation (map (fun e => (to_of e, e_id e)) (List.filter (fun e => negb (e_inner e)) all_entries))
    FileRoutesByTo /\
  Permutation ("__root__"%string :: map e_id all_entries) FileRoutesById /\
  Permutation (map (fun e => (e_id e, e_path e, e_full e, e_parent e)) all_entries) FileRoutesByPath.
Proof. split_and!; apply (bool_decide_unpack _); vm_compute; exact I. Qed.

(** ** Lemmas *)

Definition info (t : RouteTree) : RouteInfo := match t with Node r _ => r end.

Definition is_seg (s : string) (x : jsstr) : bool := bool_decide (js s = fold_segment x).

(** The tree, address by address. *)
Definition match_spec (segs : list jsstr) : list (list RouteInfo * params) :=
  let at_app rest ps := [(info routeTree :: info AppLayoutRoute :: rest, ps)] in
  match segs with
  | [] => [([info routeTree; info IndexRoute], [])]
  | [x] =>
    if is_seg "login" x then [([info routeTree; info LoginRoute], [])]
    else if is_seg "app" x then at_app [info AppLayoutIndexRoute] [] else []
  | [x; y] =>
    if is_seg "share" x then [([info routeTree; info ShareTokenRoute], [(js "token", decode_param y)])]
    else if is_seg "app" x && is_seg "sessions" y then at_app [info AppLayoutSessionsRoute] [] else []
  | [x; y; z] =>
    if is_seg "app" x && is_seg "sessions" y
    then at_app [info AppLayoutSessionsIdRoute] [(js "id", decode_param z)] else []
  | _ => []
  end.

Lemma take_static s pat x r :
  Forall (fun c => 97 <= c <= 122)%N (js s) -> js s <> [] ->
  take_path (js s :: pat) (x :: r) = if is_seg s x then take_path pat r else None.
Proof.
  intros Hs Hn. cbn [take_path]. rewrite fold_lower by done. unfold is_seg.
  destruct (js s) as [|c n]; [done|]. 
  assert ((c =? 36)%N = false) as ->
    by (apply N.eqb_neq; destruct (Forall_cons_1 _ _ _ Hs) as [Hc _]; cbn in Hc; lia).
  destruct (decide _) as [E|E]; [by rewrite (bool_decide_eq_true_2 _ E)|by rewrite (bool_decide_eq_false_2 _ E)].
Qed.

Lemma take_param n pat x r :
  take_path ((36%N :: n) :: pat) (x :: r) =
  '(ps, rest) ← take_path pat r; Some ((n, decode_param x) :: ps, rest).
Proof. done. Qed.

Lemma seg_excl a b x : js a <> js b -> is_seg a x = true -> is_seg b x = false.
Proof.
  unfold is_seg. intros Hab Ha. apply bool_decide_eq_true in Ha. apply bool_decide_eq_false. congruence.
Qed.

(** One route of the tree. *)
Lemma matching_node r children segs :
  matching (Node r children) segs =
  match take_path (segments (js (route_path r))) segs with
  | None => []
  | Some (ps, rest) =>
    match children with
    | [] => match rest with [] => [([r], ps)] | _ => [] end
    | _ => map (fun m => (r :: m.1, ps ++ m.2)) (concat (map (fun c => matching c rest) children))
    end
  end.
Proof. done. Qed.

Ltac take := rewrite take_static by (lower || done).

Lemma match_login segs : matching LoginRoute segs =
  match segs with [x] => if is_seg "login" x then [([info LoginRoute], [])] else [] | _ => [] end.
Proof.
  unfold LoginRoute. rewrite matching_node. change (segments _) with [js "login"].
  destruct segs as [|x r]; [done|]. take. destruct (is_seg "login" x); by destruct r.
Qed.

Lemma match_share segs : matching ShareTokenRoute segs =
  match segs with
  | [x; y] => if is_seg "share" x then [([info ShareTokenRoute], [(js "token", decode_param y)])] else []
  | _ => []
  end.
Proof.
  unfold ShareTokenRoute. rewrite matching_node. change (segments _) with [js "share"; js "$token"].
  destruct segs as [|x r]; [done|]. take.
  destruct (is_seg "share" x); destruct r as [|y [|z r]]; done.
Qed.

Lemma match_app segs : matching AppLayoutRoute segs =
  match segs with
  | x :: rest =>
    if is_seg "app" x then
      match rest with
      | [] => [([info AppLayoutRoute; info AppLayoutIndexRoute], [])]
      | [y] => if is_seg "sessions" y then [([info AppLayoutRoute; info AppLayoutSessionsRoute], [])] else []
      | [y; z] =>
        if is_seg "sessions" y
        then [([info AppLayoutRoute; info AppLayoutSessionsIdRoute], [(js "id", decode_param z)])] else []
      | _ => []
      end
    else []
  | [] => []
  end.
Proof.
  unfold AppLayoutRoute. rewrite matching_node. change (segments _) with [js "app"].
  destruct segs as [|x r]; [done|]. take. destruct (is_seg "app" x); [|done].
  cbn [take_path map concat]. unfold AppLayoutSessionsRoute, AppLayoutIndexRoute, AppLayoutSessionsIdRoute.
  rewrite !matching_node. cbn [route_path]. change (segments (js "/")) with (@nil jsstr).
  change (segments (js "/sessions")) with [js "sessions"].
  change (segments (js "/sessions/$id")) with [js "sessions"; js "$id"].
  destruct r as [|y r]; [done|]. take. take. destruct (is_seg "sessions" y), r as [|z [|u r]]; done.
Qed.

Lemma matching_routes segs : matching routeTree segs = match_spec segs.
Proof.
  unfold routeTree. rewrite matching_node. change (segments _) with (@nil jsstr). cbn [take_path map concat].
  rewrite match_login, match_share, match_app. unfold IndexRoute. rewrite matching_node.
  change (segments _) with (@nil jsstr). cbn [take_path].
  pose proof (seg_excl "login" "app") as Hla. pose proof (seg_excl "share" "app") as Hsa.
  destruct segs as [|x [|y [|z [|u r]]]]; try done; cbn [match_spec].
  - destruct (is_seg "login" x) eqn:El; [by rewrite (Hla x)|]. by destruct (is_seg "app" x).
  - destruct (is_seg "share" x) eqn:Es; [by rewrite (Hsa x)|].
    by destruct (is_seg "app" x), (is_seg "sessions" y).
  - by destruct (is_seg "app" x), (is_seg "sessions" y).
  - by destruct (is_seg "app" x).
Qed.

(** An address has one page at most. *)
Lemma one_page segs : length (matching routeTree segs) <= 1.
Proof.
  rewrite matching_routes. unfold match_spec. repeat case_match; cbn; lia.
Qed.

Lemma seg_self s : Forall (fun c => 97 <= c <= 122)%N (js s) -> is_seg s (js s) = true.
Proof. intros Hs. unfold is_seg. apply bool_decide_eq_true_2. by rewrite fold_lower. Qed.

(** The pages under the layout are for signed-in users. *)
Definition guarded (s : Screen) : bool :=
  match s with
  | Page id _ => existsb (String.eqb id) ["/app/_layout/"; "/app/_layout/sessions"; "/app/_layout/sessions_/$id"]%string
  | NotFound => false
  end.

(** One step of a visit. *)
Lemma visit_moves n p b :
  visit (S n) p b =
  let b := set_location p b in
  match asked p with
  | NotFound => Some (b, NotFound)
  | Page id ps =>
    if String.eqb id "/" then let b' := index_redirect b in visit n (location b') b'
    else if guarded (asked p) then
      let '(b', authed) := app_guard b in
      if authed then Some (b', asked p) else visit n (location b') b'
    else Some (b, asked p)
  end.
Proof.
  cbn [visit]. unfold asked. rewrite matching_routes.
  destruct (segments p) as [|x [|y [|z [|u r]]]]; cbn [match_spec]; try done.
  - destruct (is_seg "login" x); [done|]. destruct (is_seg "app" x); [|done]. cbn.
    unfold layout_guard. by destruct (app_guard _) as [b' []].
  - destruct (is_seg "share" x); [done|]. destruct (is_seg "app" x && is_seg "sessions" y); [|done]. cbn.
    unfold layout_guard. by destruct (app_guard _) as [b' []].
  - destruct (is_seg "app" x && is_seg "sessions" y); [|done]. cbn.
    unfold layout_guard. by destruct (app_guard _) as [b' []].
Qed.

Lemma asked_app : asked (js "/app") = Page "/app/_layout/" [].
Proof.
  unfold asked. rewrite matching_routes. change (segments (js "/app")) with [js "app"]. cbn [match_spec].
  assert (is_seg "app" (js "app") = true) as Ha by (apply seg_self; lower).
  by rewrite (seg_excl "app" "login" (js "app") ltac:(done) Ha), Ha.
Qed.

Lemma asked_login : asked (js "/login") = Page "/login" [].
Proof.
  unfold asked. rewrite matching_routes. change (segments (js "/login")) with [js "login"]. cbn [match_spec].
  by rewrite seg_self by lower.
Qed.

Lemma auth_location l b :
  isAuthenticated (set_location l b) = (set_location l (isAuthenticated b).1, (isAuthenticated b).2).
Proof.
  unfold isAuthenticated, isTokenExpired, getToken. cbn [localStorage set_location clock].
  destruct (localStorage b !! TOKEN_KEY) as [t|]; [|done]. destruct (str_truthy t); [|done].
  by destruct (catch _ _).
Qed.

Lemma auth_kept b b' : isAuthenticated b = (b', true) -> b' = b.
Proof. unfold isAuthenticated. intros Ha. repeat case_match; by simplify_eq. Qed.

(** Where the two guards send a user. *)
Lemma start_goes p b b1 authed :
  isAuthenticated b = (b1, authed) ->
  index_redirect (set_location p b) = set_location (if authed then js "/app" else js "/login") b1.
Proof. intros Ha. unfold index_redirect. by rewrite auth_location, Ha. Qed.

Lemma guard_goes p b b1 authed :
  isAuthenticated b = (b1, authed) ->
  app_guard (set_location p b) =
  if authed then (set_location p b1, true) else (set_location (js "/login") b1, false).
Proof. intros Ha. unfold app_guard. rewrite auth_location, Ha. by destruct authed. Qed.

Lemma location_set l b : location (set_location l b) = l.
Proof. done. Qed.
Lemma location_twice l k b : set_location l (set_location k b) = set_location l b.
Proof. done. Qed.

Lemma visit_login m b : visit (S m) (js "/login") b = Some (set_location (js "/login") b, Page "/login" []).
Proof. by rewrite visit_moves, asked_login. Qed.

(** ** Properties *)

(** The page an address leads a signed-in user to. *)
Definition wanted (p : jsstr) : Screen :=
  match asked p with
  | Page id ps => if String.eqb id "/" then Page "/app/_layout/" [] else Page id ps
  | NotFound => NotFound
  end.

End routes.

(** ** A router for the examples: segments compared as they are, and two characters escaped. *)

Definition demo_escape (c : N) : jsstr :=
  if (c =? 37)%N then js "%25" else if (c =? 47)%N then js "%2F" else [c].

Fixpoint demo_unescape (s : jsstr) : jsstr :=
  match s with
  | [] => []
  | c :: r =>
    if (c =? 37)%N then
      match r with
      | a :: b :: r' =>
        if (a =? 50)%N && (b =? 53)%N then 37%N :: demo_unescape r'
        else if (a =? 50)%N && (b =? 70)%N then 47%N :: demo_unescape r'
        else c :: demo_unescape r
      | _ => c :: demo_unescape r
      end
    else c :: demo_unescape r
  end.

Lemma demo_unescape_escape s : demo_unescape (concat (map demo_escape s)) = s.
Proof.
  induction s as [|c s IH]; [done|]. cbn [map concat]. unfold demo_escape at 1.
  destruct (c =? 37)%N eqn:E1; [apply N.eqb_eq in E1; subst; exact (f_equal (cons 37%N) IH)|].
  destruct (c =? 47)%N eqn:E2; [apply N.eqb_eq in E2; subst; exact (f_equal (cons 47%N) IH)|].
  cbn [app demo_unescape]. by rewrite E1, IH.
Qed.

Lemma demo_escape_segment s :
  s <> [] -> concat (map demo_escape s) <> [] /\ 47%N ∉ concat (map demo_escape s).
Proof.
  intros Hs. split; [destruct s as [|c s]; [done|]; cbn; unfold demo_escape; by repeat case_match|].
  clear Hs. induction s as [|c s IH]; cbn; [by apply not_elem_of_nil|]. rewrite not_elem_of_app. split; [|done].
  unfold demo_escape. destruct (c =? 37)%N; [apply (bool_decide_unpack _); vm_compute; exact I|].
  destruct (c =? 47)%N eqn:E; [apply (bool_decide_unpack _); vm_compute; exact I|].
  apply N.eqb_neq in E. set_solver.
Qed.

Lemma demo_unescape_plain s : 37%N ∉ s -> demo_unescape s = s.
Proof.
  induction s as [|c s IH]; [done|]. intros [Hc Hs]%not_elem_of_cons. cbn.
  rewrite (proj2 (N.eqb_neq _ _)) by done. by rewrite IH.
Qed.

Definition demo_router : Router := {|
  fold_segment s := s;
  encode_param s := concat (map demo_escape s);
  decode_param := demo_unescape;
  fold_lower s _ := eq_refl;
  decode_encode s _ := demo_unescape_escape s;
  encode_segment s _ := demo_escape_segment s;
  decode_plain := demo_unescape_plain
|}.
