(* ===== verification/Links.v ===== *)
(** * From the SDK to the dashboard: the link of a report

    The parts together: the link [report] returns, opened in a browser, is the shared replay of
    the token its batches were uploaded under, and that page asks the server for that token. *)

From S2P Require Import Prelude Decimal JsValue Json Types Transport Session Metadata Sdk SdkInv SdkProps.
From S2P Require Import Demo Lifecycle Auth AuthProps Http Queries Pages PagesProps Replay Html Ui ShellView Routes.

(** A token that is one segment of an address. *)
Definition segment (tok : jsstr) : Prop := tok <> [] /\ 47%N ∉ tok /\ 37%N ∉ tok.

(** Where the dashboard is: an origin, which ends with no slash. *)
Definition is_origin (o : jsstr) : Prop := last o <> Some 47%N.

Lemma strip_origin o : is_origin o -> strip_slash o = o /\ strip_slash (o ++ js "/") = o.
Proof.
  intros Ho. unfold strip_slash, is_origin in *. change (js "/") with [47%N].
  rewrite reverse_app. change (reverse [47%N]) with [47%N]. cbn [app]. rewrite N.eqb_refl, reverse_involutive.
  split; [|done].
  destruct (reverse o) as [|c r] eqn:E; [done|].
  assert (o = reverse r ++ [c]) as -> by (rewrite <- (reverse_involutive o), E, reverse_cons; done).
  rewrite last_snoc in Ho. destruct (c =? 47)%N eqn:Hc; [|done]. apply N.eqb_eq in Hc. congruence.
Qed.

Section links.
Context `{JsonEngine} `{UuidSource} `{Network} `{Router} (VITE_API_URL : option jsstr).

Lemma segments_share tok : segment tok -> segments (js "/share/" ++ tok) = [js "share"; tok].
Proof.
  intros (Hn & Hs & _). change (js "/share/" ++ tok) with ([] ++ 47%N :: js "share" ++ 47%N :: tok).
  unfold segments. rewrite split_on_first by set_solver.
  rewrite split_on_first by (apply (bool_decide_unpack _); vm_compute; exact I).
  rewrite split_on_none by done. cbn [List.filter str_truthy]. by destruct tok.
Qed.

Lemma asked_share tok :
  segment tok -> asked (js "/share/" ++ tok) = Page "/share/$token" [(js "token", tok)].
Proof.
  intros Ht. unfold asked. rewrite matching_routes, segments_share by done. cbn [match_spec].
  rewrite seg_self by lower. rewrite decode_plain by apply Ht. done.
Qed.

Lemma visit_share n tok b :
  segment tok ->
  visit (S n) (js "/share/" ++ tok) b =
  Some (set_location (js "/share/" ++ tok) b, Page "/share/$token" [(js "token", tok)]).
Proof. intros Ht. by rewrite visit_moves, asked_share. Qed.

Lemma asked_sessions : asked (js "/app/sessions") = Page "/app/_layout/sessions" [].
Proof.
  unfold asked. rewrite matching_routes. change (segments (js "/app/sessions")) with [js "app"; js "sessions"].
  cbn [match_spec]. rewrite (seg_excl "app" "share"), !seg_self; [done|lower|lower|done|].
  apply seg_self. lower.
Qed.

(** The two links of the sidebar. *)
Fixpoint link_targets {A} (h : Html A) : list jsstr :=
  match h with
  | Text _ => []
  | El tag props _ l =>
    (if String.eqb tag "Link" then match attr "to" props with Some t => [t] | None => [] end else [])
    ++ concat (map link_targets l)
  | Frag l => concat (map link_targets l)
  end.

Lemma asked_session id :
  Forall (fun c => c < 128)%N id -> id <> [] ->
  asked (session_address id) = Page "/app/_layout/sessions_/$id" [(js "id", id)].
Proof.
  intros Ha Hn. destruct (encode_segment id Ha Hn) as [He Hs]. unfold asked, session_address.
  assert (segments (js "/app/sessions/" ++ encode_param id) = [js "app"; js "sessions"; encode_param id]) as Hseg.
  { change (js "/app/sessions/" ++ encode_param id) with
      ([] ++ 47%N :: js "app" ++ 47%N :: js "sessions" ++ 47%N :: encode_param id).
    unfold segments. rewrite split_on_first by set_solver. rewrite !split_on_first by lower.
    rewrite split_on_none by done. cbn [List.filter str_truthy]. by destruct (encode_param id). }
  rewrite matching_routes, Hseg. cbn [match_spec]. rewrite !seg_self by lower. by rewrite decode_encode.
Qed.

(** C14: the link a report returns leads to its replay. On a running session with a share token,
    and the dashboard's origin (with or without a slash) as the base, the link is an address
    of the dashboard; whoever opens it, signed in or not, gets the shared page of the token
    every batch of the report carries, with the browser's storage left alone; and the page
    asks the server for that very token, without credentials. *)
Theorem link_opens_replay s c tok origin :
  live c s -> _shareToken (sdk s) = JStr tok -> segment tok -> is_origin origin ->
  BatRewindConfig.shareBaseUrl c = Some origin \/ BatRewindConfig.shareBaseUrl c = Some (origin ++ js "/") ->
  exists r path,
    (report s).2 = Ok r /\ ReportResult.shareUrl r = origin ++ path /\
    (exists l, network (report s).1 = network s ++ l /\
       Forall (fun b => BatchPayload.share_token (s_payload b) = JStr tok) l) /\
    (forall n b, visit (S n) path b =
       Some (set_location path b, Page "/share/$token" [(js "token", tok)])) /\
    (forall w, requests (queryFn (usePublicSession VITE_API_URL tok) w).1 =
       requests w ++ [mkRequest (Http.base VITE_API_URL ++ js "/v1/public/sessions/" ++ tok)
                        (js "GET") ∅ None]) /\
    Queries.enabled (usePublicSession VITE_API_URL tok) = true.
Proof.
  intros Hl Htok Hseg Ho Hb. destruct (strip_origin _ Ho) as [Hb1 Hb2].
  eexists _, (js "/share/" ++ tok). split; [by apply (report_value s c)|].
  split; [cbn; by destruct Hb as [-> | ->]; cbn; rewrite ?Hb1, ?Hb2|].
  split.
  { destruct (report_batches s tok Htok) as (l & Hn & Hf). exists l. split; [done|].
    eapply Forall_impl; [exact Hf|]. by intros b []. }
  split; [intros; by apply visit_share|].
  split; [|cbn; destruct tok; [by destruct Hseg|done]].
  intros w. cbn. unfold getPublicSession, sm_bind, fetch, expect_ok, json, sm_ret, sm_throw.
  destruct (respond _) as [x|]; [|done]. cbn. destruct (ok x); [|done]. by destruct (json_parse (text x)).
Qed.

(** C28: no way through the dashboard is a dead end: the links of the sidebar, signing in, logging
    out, being signed out, deleting a session and opening one lead to the overview, the
    list, the login page and the page of exactly that session, whose identifier is not empty
    and in ASCII; a deletion that fails leaves the user where he is, or at the login page. *)
Theorem targets_exist `{Styling} {A} :
  map asked (link_targets (Sidebar (A:=A))) = [Page "/app/_layout/" []; Page "/app/_layout/sessions" []] /\
  (forall f w, let '(f', w') := handleSubmit VITE_API_URL f w in
     error f' = [] -> asked (location (browser w')) = Page "/app/_layout/" []) /\
  (forall b, asked (location (handleLogout b)) = Page "/login" []) /\
  (forall b, (app_guard b).2 = false -> asked (location (app_guard b).1) = Page "/login" []) /\
  (forall b, asked (location (index_redirect b)) =
     Page (if (isAuthenticated b).2 then "/app/_layout/" else "/login")%string []) /\
  (forall id, Forall (fun c => c < 128)%N id -> id <> [] ->
     asked (session_address id) = Page "/app/_layout/sessions_/$id" [(js "id", id)]) /\
  (forall id confirmed w, let '(w', r) := handleDelete VITE_API_URL id confirmed w in
     browser w' = browser w \/ asked (location (browser w')) = Page "/app/_layout/sessions" [] \/
     asked (location (browser w')) = Page "/login" []).
Proof.
  split_and!.
  - assert (link_targets (Sidebar (A:=A)) = [js "/app/"; js "/app/sessions"]) as -> by done.
    cbn [map]. rewrite asked_sessions.
    assert (asked (js "/app/") = asked (js "/app")) as -> by done. by rewrite asked_app.
  - intros f w. unfold handleSubmit.
    destruct (sign_in VITE_API_URL (email f) (password f) w) as [w' [[]|e]] eqn:E; [|by intros ?].
    intros _. revert E. unfold sign_in, sm_bind. destruct (login _ _ _ w) as [w1 [answer|]]; [|done].
    unfold sm_lift. destruct (prop (js "token") answer); [|done]. destruct (prop (js "user") answer); [|done].
    destruct (to_string _); [|done]. intros [= <-]. cbn [browser on_browser]. rewrite location_set. apply asked_app.
  - intros b. unfold handleLogout. rewrite location_set. apply asked_login.
  - intros b. unfold app_guard. destruct (isAuthenticated b) as [b' []]; [done|]. intros _.
    cbn [fst]. rewrite location_set. apply asked_login.
  - intros b. unfold index_redirect. destruct (isAuthenticated b) as [b' []]; rewrite location_set;
      [apply asked_app|apply asked_login].
  - apply asked_session.
  - intros id confirmed w. unfold handleDelete. destruct confirmed; [cbn [negb]|by left].
    unfold useDeleteSession, sm_try. cbn [mutationFn]. unfold deleteSession, fetchWithAuth, fetch, expect_ok.
    unfold sm_bind, sm_reads, on_browser, sm_throw, sm_ret. cbn [browser].
    destruct (respond _) as [x|]; [|by left]. destruct (status x =? 401)%Z; [right; right; apply asked_login|].
    destruct (ok x); [|by left]. right; left. apply asked_sessions.
Qed.
End links.

(** ** Witness *)

(** The default configuration with the dashboard's address. *)
Definition demo_shared : BatRewindConfig.t :=
  BatRewindConfig.mk (js "https://bat.example/") (js "key") None None None None None
    (Some (js "https://rewind.example/")) None None None None None None None None None None None None None
    None None None None None.

Lemma link_opens_replay_witness :
  let offline : Network := fun _ => None in
  let s := demo_start demo_shared in
  exists r path,
    (report s).2 = Ok r /\ ReportResult.shareUrl r = js "https://rewind.example" ++ path /\
    (exists l, network (report s).1 = network s ++ l /\
       Forall (fun b => BatchPayload.share_token (s_payload b) = JStr (demo_id 1)) l) /\
    (forall n b, visit (H0:=demo_router) (S n) path b =
       Some (set_location path b, Page "/share/$token" [(js "token", demo_id 1)])) /\
    (forall w, requests (queryFn (usePublicSession None (demo_id 1)) w).1 =
       requests w ++ [mkRequest (Http.base None ++ js "/v1/public/sessions/" ++ demo_id 1)
                        (js "GET") ∅ None]) /\
    Queries.enabled (usePublicSession None (demo_id 1)) = true.
Proof.
  intros offline s.
  apply (link_opens_replay (H2:=demo_router) None s demo_shared (demo_id 1) (js "https://rewind.example")).
  - split; by_eval.
  - by_eval.
  - split; [vm_compute; discriminate|]. split; apply (bool_decide_unpack _); vm_compute; exact I.
  - unfold is_origin. vm_compute. discriminate.
  - right. by_eval.
Defined.
